(* ===== verification/_CoqProject ===== *)
-Q . S2P
Prelude.v
JsDate.v
DateFns.v
Rows.v
Timeline.v
Columns.v
Render.v
Grid.v
Resize.v
DragScroll.v
Viewport.v
Http.v
Evidence.v
Concurrent.v
Server.v
Dialog.v
Pending.v
Submission.v
