(* ===== verification/Prelude.v ===== *)
(** * PMO-App-AirNav: a verification development

    The repository is a project-tracking web application.  A React client
    draws a Gantt-like timeline of the tasks of a project
    ([src/client/src/components/ProjectCalendar.jsx]) and lets a member
    attach an evidence record to a task
    ([src/client/src/components/AddFileDialog.jsx]); an Express server stores
    the evidence after checking that the caller is a member of the task's
    project ([src/server/controllers/evidenceController.js], routed by
    [src/server/routes/evidenceRoute.js], application set up in
    [src/server/server.js]).

    ** Parts of the program and the files that model them

    The timeline ([ProjectCalendar.jsx]):
    - [Prelude] (this file): notation scope [js_scope], the tactics and the
      hint databases [cal] and [cal_rw] shared by all files, generic lemmas
      on [Z] division, on folds computing a minimum and a maximum, and the
      JavaScript expressions the components share: [js_round_div] for
      [Math.round(a / b)], [js_or] for [a || b] on nullable values,
      [truthy_string] for a string used as a condition.
    - [JsDate]: the time arithmetic of ECMA-262 (Day, TimeWithinDay,
      DayFromYear, YearFromTime, MonthFromTime, DateFromTime, MakeDay,
      MakeDate) on time values in milliseconds, as [Z], and the parsing of
      a date string as the interface [DateParse] with the instance
      [isoDateParse] for the form [YYYY-MM-DD], which is what a date input
      gives ([JsDate.dateInputValue]).  The engine is not part of
      the repository, so these definitions follow the language standard;
      the local time zone is taken to be UTC.
    - [DateFns]: the interface [DateFns] of the five date-fns functions the
      client imports (addDays, differenceInCalendarDays, startOfMonth,
      addMonths, format) with the laws the timeline relies on, the
      instance [utcDateFns] built from [JsDate] that satisfies them, and
      [zoneDateFns], which takes a model to the model of a zone at a
      fixed offset ([wibDateFns] for Jakarta).
    - [Rows]: the Row Builder, the first [useMemo] (lines 15-35): records
      [Task], [Project], [Row], the status derivation and the start-date
      fallback chain, the cap of 50 rows.
    - [Timeline]: the Timeline Range Calculator (lines 38-54) and the month
      segments (lines 57-66): the [forEach] as a fold, the padding of seven
      days, [totalDays], and the [while] loop over month starts as the
      fuelled fixpoint [monthsLoop], with the relation [MonthsRun] that
      describes a complete run of the loop.
    - [Columns]: the Grid Partitioner (lines 69-86): [columnsAll] with the
      rounded boundaries of the source, and the responsive cell size of the
      resize handler (lines 90-116).
    - [Render]: the Overlap Renderer (lines 119-135): the overlap test of
      [renderRow], the colour table [statusColors] (lines 5-10), the cells
      of one row, and [projectCalendar], the composition of the stages;
      [Render.underItsHeader] says what it means for a column to show
      dates of the month named above it.
    - [Grid]: what the component returns (lines 137-235): the legend, the
      [minWidth] of the container, the column template and the children
      of the grid in document order ([Grid.markup]), and the browser's
      side of it: the tracks of the template and the auto-placement of
      CSS Grid Layout ([Grid.place], [Grid.layout]), which gives each
      child its row and column.
    - [Resize]: the effect of lines 103-116 as React runs it: the closure
      [resize] of each run, its registration as a listener of the window,
      the cleanup, the comparison of the dependency [monthsAll.length]
      after a commit, and the dispatch of the window's [resize] event
      ([Resize.sizingStep]).
    - [DragScroll]: the drag-to-scroll handlers (lines 157-196) as a
      transition function on the refs and the scroller element, with the
      clamping of [scrollLeft] that the DOM performs.

    - [Viewport]: the scroller element around the grid container: its
      content is as wide as the [minWidth] computed from the cell size of
      [Resize], and the handlers of [DragScroll] move it.

    The evidence ([AddFileDialog.jsx] and the three server files):
    - [Http]: the values that cross the wire (form data, requests,
      responses, the evidence record, thrown errors) and the monad [Async]
      of an async function body: a state, a thrown error, the early
      [return] of a handler, with [try_catch] and [try_finally].
    - [Evidence]: [addEvidence] (lines 4-46 of the controller) written in
      [Async] over the database, a record of finite maps ([gmap]) for the
      tasks and the projects and a list of evidences; the Prisma client is
      the interface [Prisma], with the in-memory instance [memPrisma]; the
      relation [AddEvidenceSpec] is what the handler promises.
    - [Concurrent]: requests that overlap on the server.  [addEvidence]
      is cut at its four [await]s into the pieces the event loop runs
      ([Concurrent.resume], with the [catch] block in [Concurrent.hstep]);
      a pool holds the calls in progress and the database they share, and
      a schedule says whose piece runs next ([Concurrent.crun]).
    - [Server]: Express as the two files use it (a stack of layers,
      [next()], [next(err)], the final 404), the middlewares of the
      libraries, [evidenceRouter] of [evidenceRoute.js], [app] and
      [startServer] of [server.js].  [Server.completedApp] is that
      application with the evidence router and an accepting
      weekly-progress route mounted where the dialog posts to; the
      repository has neither line, and the development says so wherever
      it uses them.
    - [Dialog]: the state of [AddFileDialog], the handlers of its inputs
      and buttons, what it renders (the values in [Dialog.View], the
      elements around them in [Dialog.controls]), and [handleSubmit]
      (lines 21-71) in
      [Async] over the dialog, a log of what is sent and shown, and the
      world behind the HTTP client (interface [Browser]); the relation
      [SubmitSpec] is what a submission promises.
    - [Pending]: [handleSubmit] cut at its three [await]s into the
      transitions of a machine ([Pending.mstep]) whose other transitions
      are the events of the form, so that a run ([Pending.mrun]) is any
      interleaving of the user with the settling promises; the form data
      the function closed over are the data of the phase.  A click is
      taken when the markup has an enabled submit button.
    - [Submission]: the dialog put against an application of [Server]: the
      HTTP client sends each request through the stack of the application
      and settles a promise from the response as axios does.

    ** How state and operations correspond to the code

    A JavaScript [Date] is its time value, an integer number of
    milliseconds, modelled as [Z]; a missing or falsy field is [None].
    [new Date()] is an explicit argument ([today] in [rows], [now] in
    [timeline] and in [addEvidence], the field [clock] of the server), so
    that each function is a function of its inputs.  React state and refs
    are fields of a record ([DragScroll.DragState], [Dialog.Dialog]); each
    event handler is one function from state to state.  An [async]
    function is a function from a state to an outcome and a state: [await]
    of a call that rejects is a thrown error, [return res...] inside a
    handler is [exit], and [catch] and [finally] are the combinators of
    [Http].  A request handler of the server is a function from the
    request object and the server's state to a response, [next()] or
    [next(err)], and a new state.

    ** What the theorems show

    - [Prelude]: [js_round_div] is the nearest integer with ties upwards,
      is monotone, and telescopes over the full range.
    - [JsDate]: [YearFromDay] is the largest year starting on or before a
      day; the civil date of a day maps back to the day by [MakeDay].
    - [DateFns]: the UTC instance satisfies every law of the interface,
      and so does every zone at a fixed offset from a zone that does.
    - [Rows]: the number of rows is [min (length tasks) 50]; each branch of
      the status derivation and of the start fallback; order is preserved.
    - [Timeline]: the span contains every row with seven days of padding
      and is the tightest such span; [totalDays] is at least 1; the month
      loop terminates within its fuel, yields consecutive month starts from
      the month of [timelineStart] through the month of [timelineEnd], and
      is empty exactly when [timelineEnd] precedes the first month start.
    - [Columns]: there are four columns per month, consecutive columns
      share a boundary, the column widths sum to [totalDays], and each
      width is the exact quotient rounded down or up; the columns are the
      consecutive pairs of the list of boundaries; the cell size never
      drops below [MIN_CELL].
    - [Render]: the overlap test is the half-open interval intersection;
      every row with [start < end] is drawn in at least one column; the
      filled cells of a row are consecutive.  Whenever the boundary
      between the columns under two neighbouring headers is not the first
      day of the second month, a column shows dates of a month other than
      the one named above it; a project that starts more than a week and
      a month boundary after every due date has rows and no column.
    - [Grid]: with at least one month the children tile a grid of
      [4 x months + 2] columns, each cell covered once; the cell of column
      [i] of every row is in the grid column of week label [i mod 4] of
      month [i / 4], under the header of that month; the tracks add up to
      [minWidth]; without a row the message spans a row of its own.  A
      timeline that has no month has no valid template either: the
      browser stacks the children of the grid in one column.
    - [Resize]: the invariant [Resize.sizing_ok] holds after any events:
      one listener while the component is mounted, none after it is
      removed, and a cell size that is [resize] of the current width and
      months; with at most twelve months and room for the minimum size
      the timeline then fits its scroller.
    - [DragScroll]: [scrollLeft] stays within the scroll range, a move
      without a preceding press changes nothing, and a drag moves the
      content by exactly the pointer displacement until it is clamped.
    - [Viewport]: twelve months are one page: a timeline of at most
      twelve months in a scroller with room for the minimum cell size
      cannot be scrolled by any drag, and a longer one always overflows.
    - [Evidence]: the handler refines [AddEvidenceSpec] whatever the
      database client does; it answers 200 only to a member of the task's
      project, stores exactly the record built from the request, and
      leaves the database alone on every refusal; with [memPrisma] it
      answers 200 exactly to the valid requests of members; the date a date
      input gives is stored as the UTC midnight of the picked day; it keeps the
      invariant [Evidence.db_wf]: every stored evidence names a task of
      the database and a member of that task's project.
    - [Concurrent]: in any interleaving of the pieces of any number of
      calls the database stays well formed, since no handler writes to
      the tables a suspended call has read; the evidences stored are
      those a caller was answered with; and, when the answers of the
      database client depend on the tables only
      ([Concurrent.StablePrisma]), each call ends with the response
      [addEvidence] gives to its request alone, and the database holds,
      once each, the evidences the requests store one by one; under a
      schedule that gives every call four turns every request is
      answered, whatever the database client answers or throws.
    - [Server]: the application of [server.js] answers 404 on the two
      addresses the dialog posts to; the evidence route stores the upload
      before the controller decides, so a refused request leaves its file;
      the server starts only with a Clerk key.  The states reached by
      serving requests ([Server.reachable]) keep every invariant that each
      handler of the stack keeps; so the mounted application stores only
      authorised evidence, and [server.js] as written stores none.
    - [Dialog]: [handleSubmit] never throws and refines [SubmitSpec]; the
      submit flag is always reset; a submission closes the dialog with an
      empty form or leaves the form as it was with one error; the evidence
      request follows an accepted weekly-progress request; the form reads
      back on the server as it was typed; when the evidence request is
      rejected after the weekly progress was accepted, the form stays
      open and a second click posts the weekly progress again.  An
      example shows that a failing [onSuccess] reports an error after the
      success.
    - [Pending]: a click and three settling promises with nothing in
      between are [handleSubmit]; whatever the user does while a submission
      is pending, the requests, the notices and the effect on the world
      are those of the uninterrupted function; [isSubmitting] holds exactly
      while the function is suspended, so a click then finds the button
      disabled and starts nothing; a
      submission is over after three settled promises; what is typed after
      the click is discarded when the submission succeeds.
    - [Submission]: against [server.js] every submission fails with the
      framework's 404; against the completed application the submission
      of a member stores what the user typed.

    ** Bounds, fuel and assumptions

    - Arithmetic is exact on [Z].  [Math.round(a / b)] is computed by the
      engine on doubles; for [0 <= a < 2^52] and [0 < b] the double
      quotient rounds to the same integer as the exact quotient, which
      covers every span the [Date] type can represent.
    - The fuel of the month loop is [monthsFuel], one more than the number
      of 28-day periods between the cursor and [timelineEnd]; every month
      is at least 28 days long, so the loop stops before the fuel runs out
      ([Timeline.monthsLoop_run]), and more fuel gives the same list
      ([Timeline.monthsLoop_more_fuel]).
    - Every date string received from the server by the timeline parses to
      a valid time value; in the evidence controller an Invalid Date is
      [None].
    - The local time zone is UTC in the instance [utcDateFns]; the laws of
      [DateFns] hold in every zone at a fixed offset ([zoneDateFns]), and
      the theorems of the timeline are proved from the laws.  A zone with
      daylight saving breaks the law [addDays_ms] and is not covered.
    - The theorems on [addEvidence] assume of the database client only the
      laws of [Prisma]: a read that succeeds returns the row of the table,
      a [create] that succeeds appends the record it returns, a [create]
      that fails stores nothing.
    - In [Dialog] and [Submission], [handleSubmit] runs to completion; in
      [Pending] it runs one piece at a time.  A request acts on the world
      when its promise settles, requests of one submission settle in the
      order they were sent (the second is sent after the first settled),
      and a run of the machine has one browser tab: no other client acts
      on the world between two pieces.  The machine holds one call of
      [handleSubmit]; [Pending.pending_consistent] shows that no second
      call can start while one is suspended.
    - In [Concurrent] a call of the database client acts when its
      promise settles, and a piece runs from one settled promise to the
      next [await] without interruption, as the event loop of Node runs
      it.  Four turns end a call ([Concurrent.solo_addEvidence]); further
      turns change nothing ([Concurrent.solo_finished]).  The tasks and
      the projects are written by no handler of the repository, which is
      why they are the same in every state of a run.
    - The placement of [Grid] follows CSS Grid Layout Level 1, section
      8.5, for the sparse packing in row flow that the component gets by
      default, and the three forms of [grid-column] it uses; the count of
      [repeat()] must be positive (section 7.2.3), so a template with a
      count of 0 is dropped and the grid has no explicit column.  The
      cursor of [Grid.place] keeps the first free column of the current
      row, which is enough because no child names a row.
    - In [Resize] the width of the scroller changes only when the window
      is resized, and React runs an effect whose dependencies changed
      after every commit, its cleanup first (the documented behaviour of
      [useEffect]); the double run of effects in development mode is not
      modelled.
    - The machine of [Pending] needs no fuel: a submission has at most
      three pending promises ([Pending.remaining]), and each settling
      promise lowers the number ([Pending.settle_decreases]).

    ** Not modelled

    Class names, paddings, borders and text colours of the markup, the
    heights of the grid rows, [console.error], the listening socket,
    response headers, and the libraries behind the interfaces: the Prisma
    schema, Clerk's session validation, multer's storage (the stored name
    is a parameter), the Inngest handler (a parameter), the toast library
    (a notice in the dialog's log).  Handlers that would write to the
    tasks or the projects while an evidence request is suspended are not
    part of the repository.  Zones with daylight saving, fractional pixel
    positions and an Invalid Date among the dates of the tasks are not
    modelled either. *)

From Stdlib Require Import ZArith Lia Bool String List.
Import ListNotations.

#[local] Open Scope Z_scope.

(** ** Notation *)

Declare Scope js_scope.
Delimit Scope js_scope with js.

(** [a || b] on a nullable left operand: the left value when it is
    present, the right one otherwise. *)
Definition js_or {A : Type} (a : option A) (b : A) : A :=
  match a with
  | Some x => x
  | None => b
  end.

(** [Math.round(a / b)] for a positive divisor: the nearest integer, a tie
    going to the larger one.  For [b = 0] the engine yields NaN; callers
    never evaluate that case. *)
Definition js_round_div (a b : Z) : Z := (2 * a + b) / (2 * b).

(** [Math.max(a, b)] and [Math.min(a, b)] on integers. *)
Definition js_max (a b : Z) : Z := if a <? b then b else a.

Definition js_min (a b : Z) : Z := if b <? a then b else a.

Notation "a <||> b" := (js_or a b) (at level 50, left associativity) : js_scope.

(** A string operand of [||] or of a condition: the empty string is
    falsy, as are [null] and [undefined]. *)
Definition truthy_string (s : option string) : option string :=
  match s with
  | Some EmptyString => None
  | other => other
  end.

(** One step of a [forEach] that keeps the smallest, or the largest, value
    of [f] seen so far. *)
Definition min_step {A : Type} (f : A -> Z) (m : Z) (x : A) : Z :=
  if f x <? m then f x else m.

Definition max_step {A : Type} (f : A -> Z) (m : Z) (x : A) : Z :=
  if m <? f x then f x else m.

(** [Array.from({ length: n }).map((_, i) => f i)] *)
Definition array_from {A : Type} (f : nat -> A) (n : nat) : list A :=
  map f (seq 0 n).

(** The pairs of neighbours of a list, in order. *)
Fixpoint consecutive {A : Type} (l : list A) : list (A * A) :=
  match l with
  | a :: (b :: _) as rest => (a, b) :: consecutive rest
  | _ => []
  end.

Definition sumZ (l : list Z) : Z := fold_right Z.add 0 l.

#[global] Arguments js_round_div : simpl never.
#[global] Arguments js_max : simpl never.
#[global] Arguments js_min : simpl never.

(** ** Tactics *)

(** Turn the boolean comparisons of the context and the goal into
    propositions that [lia] reads. *)
Ltac bool_to_prop :=
  repeat match goal with
  | H : (_ <? _) = true |- _ => apply Z.ltb_lt in H
  | H : (_ <? _) = false |- _ => apply Z.ltb_ge in H
  | H : (_ <=? _) = true |- _ => apply Z.leb_le in H
  | H : (_ <=? _) = false |- _ => apply Z.leb_gt in H
  | H : (_ =? _) = true |- _ => apply Z.eqb_eq in H
  | H : (_ =? _) = false |- _ => apply Z.eqb_neq in H
  | H : (_ && _)%bool = true |- _ => apply andb_true_iff in H; destruct H
  | |- (_ <? _) = true => apply Z.ltb_lt
  | |- (_ <? _) = false => apply Z.ltb_ge
  | |- (_ <=? _) = true => apply Z.leb_le
  | |- (_ <=? _) = false => apply Z.leb_gt
  | |- (_ =? _) = true => apply Z.eqb_eq
  | |- (_ =? _) = false => apply Z.eqb_neq
  end.

(** Case analysis on the first boolean test that guards an [if] in the
    goal, keeping the outcome as a proposition. *)
Ltac case_test :=
  match goal with
  | |- context [if ?b then _ else _] =>
      let E := fresh "Htest" in destruct b eqn:E; bool_to_prop
  end.

(** Floor division by constants: replace quotients and remainders by
    their defining equations and decide the linear problem. *)
Ltac zdiv := Z.div_mod_to_equations; lia.

(** ** Hint database *)

Create HintDb cal discriminated.

Create Rewrite HintDb cal_rw.

(** ** Integer lemmas *)

Lemma js_max_spec a b : js_max a b = Z.max a b.
Proof. unfold js_max. case_test; lia. Qed.

Lemma js_min_spec a b : js_min a b = Z.min a b.
Proof. unfold js_min. case_test; lia. Qed.

Lemma js_max_lower a b : a <= js_max a b /\ b <= js_max a b.
Proof. rewrite js_max_spec. lia. Qed.

Lemma js_round_div_0 b : 0 < b -> js_round_div 0 b = 0.
Proof. intros Hb. unfold js_round_div. apply Z.div_small. lia. Qed.

Lemma js_round_div_mul k b : 0 < b -> js_round_div (k * b) b = k.
Proof.
  intros Hb. unfold js_round_div.
  replace (2 * (k * b) + b) with (b + k * (2 * b)) by lia.
  rewrite Z.div_add by lia. rewrite Z.div_small; lia.
Qed.

Lemma js_round_div_mono a a' b :
  0 < b -> a <= a' -> js_round_div a b <= js_round_div a' b.
Proof. intros Hb Ha. unfold js_round_div. apply Z.div_le_mono; lia. Qed.

(** The rounded quotient is within half a unit of the exact one:
    [a/b - 1/2 < r <= a/b + 1/2], stated without fractions. *)
Lemma js_round_div_bounds a b :
  0 < b ->
  2 * a - b < 2 * b * js_round_div a b <= 2 * a + b.
Proof.
  intros Hb. unfold js_round_div.
  pose proof (Z.mul_div_le (2 * a + b) (2 * b) ltac:(lia)).
  pose proof (Z.mul_succ_div_gt (2 * a + b) (2 * b) ltac:(lia)).
  lia.
Qed.

(** Uniqueness: an integer within half a unit of the quotient, ties
    upwards, is the rounded quotient. *)
Lemma js_round_div_unique a b r :
  0 < b -> 2 * a - b < 2 * b * r <= 2 * a + b -> js_round_div a b = r.
Proof.
  intros Hb Hr. unfold js_round_div. symmetry.
  apply Z.div_unique with (r := 2 * a + b - 2 * b * r); lia.
Qed.

(** Rounding never differs from flooring by more than one, and is never
    below it. *)
Lemma js_round_div_floor a b :
  0 < b -> a / b <= js_round_div a b <= a / b + 1.
Proof.
  intros Hb. pose proof (js_round_div_bounds a b Hb).
  pose proof (Z.mul_div_le a b Hb). pose proof (Z.mul_succ_div_gt a b Hb).
  nia.
Qed.

#[export] Hint Resolve js_round_div_mono : cal.
#[export] Hint Rewrite js_max_spec js_min_spec : cal_rw.

(** ** Lists *)

Section ListLemmas.

Context {A : Type}.

Lemma length_firstn_min (n : nat) (l : list A) :
  length (firstn n l) = Nat.min n (length l).
Proof. apply length_firstn. Qed.

Lemma In_firstn (n : nat) (l : list A) (x : A) :
  In x (firstn n l) -> In x l.
Proof.
  revert l. induction n as [|n IH]; intros [|y l]; simpl; try tauto.
  intros [->|H]; auto.
Qed.

Lemma nth_error_firstn_lt (n i : nat) (l : list A) :
  (i < n)%nat -> nth_error (firstn n l) i = nth_error l i.
Proof.
  revert i l. induction n as [|n IH]; intros i l Hi; [lia|].
  destruct l as [|y l]; [now destruct i|].
  destruct i as [|i]; simpl; [reflexivity|]. apply IH. lia.
Qed.

Lemma last_cons_default (x d : A) (l : list A) : last (x :: l) d = last l x.
Proof.
  revert x d. induction l as [|y l IH]; intros x d; [reflexivity|].
  change (last (x :: y :: l) d) with (last (y :: l) d).
  now rewrite (IH y d), (IH y x).
Qed.

End ListLemmas.

(** ** Running minimum and maximum of a fold

    [forEach] loops that keep the smallest and the largest value seen. *)

Section FoldExtremum.

Context {A : Type} (f : A -> Z).

#[local] Abbreviation min_step := (min_step f).
#[local] Abbreviation max_step := (max_step f).

Lemma fold_min_le_init (l : list A) (m : Z) :
  fold_left min_step l m <= m.
Proof.
  revert m. induction l as [|x l IH]; intros m; simpl; [lia|].
  specialize (IH (min_step m x)). unfold min_step in *.
  destruct (f x <? m) eqn:E; bool_to_prop; lia.
Qed.

Lemma fold_min_le_In (l : list A) (m : Z) (x : A) :
  In x l -> fold_left min_step l m <= f x.
Proof.
  revert m. induction l as [|y l IH]; intros m; simpl; [tauto|].
  intros [->|Hin]; [|now apply IH].
  pose proof (fold_min_le_init l (min_step m x)) as H. unfold min_step in *.
  destruct (f x <? m) eqn:E; bool_to_prop; lia.
Qed.

Lemma fold_min_attained (l : list A) (m : Z) :
  fold_left min_step l m = m \/ exists x, In x l /\ fold_left min_step l m = f x.
Proof.
  revert m. induction l as [|y l IH]; intros m; simpl; [now left|].
  destruct (IH (min_step m y)) as [H|[x [Hin H]]].
  - rewrite H. unfold min_step. destruct (f y <? m); [right; exists y|left]; auto.
  - right. exists x. auto.
Qed.

Lemma fold_max_ge_init (l : list A) (m : Z) :
  m <= fold_left max_step l m.
Proof.
  revert m. induction l as [|x l IH]; intros m; simpl; [lia|].
  specialize (IH (max_step m x)). unfold max_step in *.
  destruct (m <? f x) eqn:E; bool_to_prop; lia.
Qed.

Lemma fold_max_ge_In (l : list A) (m : Z) (x : A) :
  In x l -> f x <= fold_left max_step l m.
Proof.
  revert m. induction l as [|y l IH]; intros m; simpl; [tauto|].
  intros [->|Hin]; [|now apply IH].
  pose proof (fold_max_ge_init l (max_step m x)) as H. unfold max_step in *.
  destruct (m <? f x) eqn:E; bool_to_prop; lia.
Qed.

Lemma fold_max_attained (l : list A) (m : Z) :
  fold_left max_step l m = m \/ exists x, In x l /\ fold_left max_step l m = f x.
Proof.
  revert m. induction l as [|y l IH]; intros m; simpl; [now left|].
  destruct (IH (max_step m y)) as [H|[x [Hin H]]].
  - rewrite H. unfold max_step. destruct (m <? f y); [right; exists y|left]; auto.
  - right. exists x. auto.
Qed.

End FoldExtremum.

#[export] Hint Resolve fold_min_le_init fold_min_le_In fold_max_ge_init fold_max_ge_In : cal.

(** ** Arrays built by [Array.from({ length: n }).map((_, i) => f i)] *)

Section FromLength.

Context {A : Type} (f : nat -> A).

#[local] Abbreviation array_from := (array_from f).

Lemma length_array_from n : length (array_from n) = n.
Proof. unfold array_from. now rewrite length_map, length_seq. Qed.

Lemma nth_error_array_from n i :
  (i < n)%nat -> nth_error (array_from n) i = Some (f i).
Proof.
  intros Hi. unfold array_from. rewrite nth_error_map, nth_error_seq.
  now apply Nat.ltb_lt in Hi as ->.
Qed.

Lemma nth_error_array_from_inv n i x :
  nth_error (array_from n) i = Some x -> (i < n)%nat /\ x = f i.
Proof.
  intros H. assert (Hi : (i < n)%nat).
  { rewrite <- (length_array_from n). apply nth_error_Some. congruence. }
  rewrite nth_error_array_from in H by exact Hi. split; congruence.
Qed.

Lemma In_array_from n x : In x (array_from n) <-> exists i, (i < n)%nat /\ x = f i.
Proof.
  unfold array_from. rewrite in_map_iff. split.
  - intros [i [E Hi]]. apply in_seq in Hi. exists i. split; [lia | now symmetry].
  - intros [i [Hi E]]. exists i. split; [now symmetry | apply in_seq; lia].
Qed.

Lemma array_from_S n : array_from (S n) = array_from n ++ [f n].
Proof. unfold array_from. now rewrite seq_S, map_app. Qed.

Lemma array_from_first_last n :
  exists rest, array_from (S n) = f 0%nat :: rest /\ last rest (f 0%nat) = f n.
Proof.
  exists (map f (seq 1 n)). split; [reflexivity|].
  rewrite <- (last_cons_default _ (f 0%nat)).
  change (f 0%nat :: map f (seq 1 n)) with (array_from (S n)).
  rewrite array_from_S. apply last_last.
Qed.

End FromLength.

(** ** Sums and sequences of integers *)

Lemma sumZ_app l1 l2 : sumZ (l1 ++ l2) = sumZ l1 + sumZ l2.
Proof. induction l1 as [|x l1 IH]; simpl; lia. Qed.

(** A sum of consecutive differences telescopes. *)
Lemma sumZ_telescope (g : nat -> Z) n :
  sumZ (array_from (fun i => g (S i) - g i) n) = g n - g O.
Proof.
  induction n as [|n IH]; [simpl; lia|].
  rewrite array_from_S, sumZ_app, IH. simpl. lia.
Qed.

(** A sequence that starts at or below [x] and ends above it steps over
    [x] somewhere. *)
Lemma sequence_crossing (g : nat -> Z) n x :
  g O <= x < g n -> exists i, (i < n)%nat /\ g i <= x < g (S i).
Proof.
  induction n as [|n IH]; intros H; [lia|].
  destruct (Z_lt_le_dec x (g n)) as [Hlt|Hge].
  - destruct IH as [i [Hi Hx]]; [lia|]. exists i. split; [lia | exact Hx].
  - exists n. split; [lia|lia].
Qed.

Lemma monotone_steps (g : nat -> Z) :
  (forall i, g i <= g (S i)) -> forall i j, (i <= j)%nat -> g i <= g j.
Proof.
  intros Hs i j Hij. induction Hij as [|j Hij IH]; [lia|].
  specialize (Hs j). lia.
Qed.

#[export] Hint Rewrite @length_array_from : cal_rw.

(** ** Neighbours *)

Lemma array_from_cons {A : Type} (f : nat -> A) (n : nat) :
  array_from f (S n) = f 0%nat :: array_from (fun i => f (S i)) n.
Proof. unfold array_from. cbn [seq map]. now rewrite <- seq_shift, map_map. Qed.

(** The neighbours among the first [n + 1] values of a function are the
    [n] pairs of a value and the next. *)
Lemma consecutive_array_from {A : Type} (f : nat -> A) (n : nat) :
  consecutive (array_from f (S n)) = array_from (fun i => (f i, f (S i))) n.
Proof.
  revert f. induction n as [|n IH]; intros f; [reflexivity|].
  rewrite (array_from_cons f), (array_from_cons (fun i => (f i, f (S i)))).
  rewrite <- (IH (fun i => f (S i))).
  now rewrite (array_from_cons (fun i => f (S i))).
Qed.

Lemma length_consecutive {A : Type} (l : list A) :
  length (consecutive l) = Nat.pred (length l).
Proof.
  induction l as [|a [|b l] IH]; [reflexivity..|].
  cbn [consecutive length] in *. now rewrite IH.
Qed.
