(* ===== verification/JsDate.v ===== *)
(** * JsDate: the time arithmetic of ECMA-262

    The abstract operations of section 21.4.1 of the language standard on
    time values (milliseconds since the epoch, as [Z]) and the [Date]
    methods the date-fns functions are written with ([getDate], [setDate],
    [setMonth], [setFullYear], [setHours]), for a local time zone equal to
    UTC.  The engine is not part of the repository: the definitions follow
    the standard.  [YearFromTime], which the standard defines as "the
    largest year that starts on or before the time", is computed from an
    estimate corrected by at most one year, and proved to be that year. *)

From Stdlib Require Import ZArith Lia Bool Ascii String List.
From S2P Require Import Prelude.
Import ListNotations.

#[local] Open Scope Z_scope.

(** ** Days and years *)

Definition msPerDay : Z := 86400000.

Definition Day (t : Z) : Z := t / msPerDay.

Definition TimeWithinDay (t : Z) : Z := t mod msPerDay.

Definition MakeDate (day time : Z) : Z := day * msPerDay + time.

Definition DayFromYear (y : Z) : Z :=
  365 * (y - 1970) + (y - 1969) / 4 - (y - 1901) / 100 + (y - 1601) / 400.

Definition TimeFromYear (y : Z) : Z := msPerDay * DayFromYear y.

Definition isLeapYear (y : Z) : bool :=
  ((y mod 4 =? 0) && negb (y mod 100 =? 0)) || (y mod 400 =? 0).

(** The standard's [InLeapYear] yields the number 1 or 0. *)
Definition leapDays (y : Z) : Z := if isLeapYear y then 1 else 0.

Definition DaysInYear (y : Z) : Z := 365 + leapDays y.

(** The year of a day number: 400 years are 146097 days, so the quotient
    is off by at most one year, which the two tests repair. *)
Definition YearFromDay (d : Z) : Z :=
  let y := 1970 + d * 400 / 146097 in
  if d <? DayFromYear y then y - 1
  else if DayFromYear (y + 1) <=? d then y + 1
  else y.

Definition YearFromTime (t : Z) : Z := YearFromDay (Day t).

Definition DayWithinYear (t : Z) : Z := Day t - DayFromYear (YearFromTime t).

Definition InLeapYear (t : Z) : Z := leapDays (YearFromTime t).

(** ** Months *)

(** Day number within the year on which month [m] (0 to 11) starts, for a
    year with [L] leap days; 12 stands for the start of the next year. *)
Definition monthStartDay (L m : Z) : Z :=
  match m with
  | 0 => 0
  | 1 => 31
  | 2 => 59 + L
  | 3 => 90 + L
  | 4 => 120 + L
  | 5 => 151 + L
  | 6 => 181 + L
  | 7 => 212 + L
  | 8 => 243 + L
  | 9 => 273 + L
  | 10 => 304 + L
  | 11 => 334 + L
  | _ => 365 + L
  end.

Definition monthOfYearDay (L d : Z) : Z :=
  if d <? 31 then 0
  else if d <? 59 + L then 1
  else if d <? 90 + L then 2
  else if d <? 120 + L then 3
  else if d <? 151 + L then 4
  else if d <? 181 + L then 5
  else if d <? 212 + L then 6
  else if d <? 243 + L then 7
  else if d <? 273 + L then 8
  else if d <? 304 + L then 9
  else if d <? 334 + L then 10
  else 11.

Definition MonthFromTime (t : Z) : Z :=
  monthOfYearDay (InLeapYear t) (DayWithinYear t).

Definition DateFromTime (t : Z) : Z :=
  DayWithinYear t - monthStartDay (InLeapYear t) (MonthFromTime t) + 1.

(** [MakeDay(year, month, date)]: the day number of the first of the month
    [month mod 12] of the year [year + floor(month / 12)], plus
    [date - 1]. *)
Definition MakeDay (year month date : Z) : Z :=
  let ym := year + month / 12 in
  let mn := month mod 12 in
  DayFromYear ym + monthStartDay (leapDays ym) mn + date - 1.

(** Number of days of month [m] (0 to 11) of year [y]. *)
Definition daysInMonth (y m : Z) : Z :=
  monthStartDay (leapDays y) (m + 1) - monthStartDay (leapDays y) m.

(** ** Date methods, local time being UTC *)

Definition getFullYear (t : Z) : Z := YearFromTime t.

Definition getMonth (t : Z) : Z := MonthFromTime t.

Definition getDate (t : Z) : Z := DateFromTime t.

(** [d.setDate(dt)] keeps the year, the month and the time of day. *)
Definition setDate (t dt : Z) : Z :=
  MakeDate (MakeDay (YearFromTime t) (MonthFromTime t) dt) (TimeWithinDay t).

(** [d.setMonth(m, dt)] keeps the year and the time of day. *)
Definition setMonth (t m dt : Z) : Z :=
  MakeDate (MakeDay (YearFromTime t) m dt) (TimeWithinDay t).

(** [d.setFullYear(y, m, dt)] keeps the time of day. *)
Definition setFullYear (t y m dt : Z) : Z :=
  MakeDate (MakeDay y m dt) (TimeWithinDay t).

(** [d.setHours(0, 0, 0, 0)]: midnight of the same day. *)
Definition setHours0 (t : Z) : Z := MakeDate (Day t) 0.

(** [Date.UTC(year, month, date)]: midnight of a civil date, the month
    counted from 0. *)
Definition DateUTC (year month date : Z) : Z := MakeDate (MakeDay year month date) 0.

(** ** Parsing

    [new Date(s)] on a string: the time value, or [None] for an Invalid
    Date.  The engine's parser is the interface [DateParse]; the instance
    [isoDateParse] recognises the date-only form [YYYY-MM-DD] of the
    standard's date-time string format, which is what an
    [<input type="date">] holds, as midnight UTC.  As the common engines
    do, it accepts a day up to 31 in any month and lets [MakeDay] carry
    the excess into the next month. *)

Class DateParse : Type := { Date_parse : string -> option Z }.

Definition digitValue (c : ascii) : option Z :=
  let n := Z.of_nat (nat_of_ascii c) in
  if (48 <=? n) && (n <=? 57) then Some (n - 48) else None.

Fixpoint number (acc : Z) (s : string) : option Z :=
  match s with
  | EmptyString => Some acc
  | String c rest =>
      match digitValue c with
      | Some d => number (10 * acc + d) rest
      | None => None
      end
  end.

Definition isDash (c : option ascii) : bool :=
  match c with
  | Some c => (c =? "-")%char
  | None => false
  end.

Definition parseIsoDate (s : string) : option Z :=
  if negb (Nat.eqb (String.length s) 10) then None
  else if negb (isDash (String.get 4 s) && isDash (String.get 7 s)) then None
  else
    match number 0 (substring 0 4 s), number 0 (substring 5 2 s), number 0 (substring 8 2 s) with
    | Some y, Some m, Some d =>
        if (1 <=? m) && (m <=? 12) && (1 <=? d) && (d <=? 31)
        then Some (DateUTC y (m - 1) d)
        else None
    | _, _, _ => None
    end.

#[export] Instance isoDateParse : DateParse := {| Date_parse := parseIsoDate |}.

(** The value of an [<input type="date">] for a date the user picked:
    year, month and day in decimal, four, two and two digits. *)
Definition digitChar (d : Z) : ascii := ascii_of_nat (48 + Z.to_nat d).

Definition twoDigits (n : Z) : string :=
  String (digitChar (n / 10)) (String (digitChar (n mod 10)) EmptyString).

Definition fourDigits (n : Z) : string :=
  String (digitChar (n / 1000)) (String (digitChar (n / 100 mod 10)) (twoDigits (n mod 100))).

Definition dateInputValue (year month date : Z) : string :=
  (fourDigits year ++ "-" ++ twoDigits month ++ "-" ++ twoDigits date)%string.

(** ** Days *)

Lemma msPerDay_pos : 0 < msPerDay.
Proof. reflexivity. Qed.

Lemma Day_TimeWithinDay t : MakeDate (Day t) (TimeWithinDay t) = t.
Proof.
  unfold MakeDate, Day, TimeWithinDay.
  pose proof (Z.div_mod t msPerDay ltac:(discriminate)). lia.
Qed.

Lemma TimeWithinDay_range t : 0 <= TimeWithinDay t < msPerDay.
Proof. apply Z.mod_pos_bound, msPerDay_pos. Qed.

Lemma Day_MakeDate d tm : 0 <= tm < msPerDay -> Day (MakeDate d tm) = d.
Proof.
  intros H. unfold Day, MakeDate. rewrite Z.add_comm, Z.div_add by discriminate.
  rewrite Z.div_small; lia.
Qed.

Lemma TimeWithinDay_MakeDate d tm :
  0 <= tm < msPerDay -> TimeWithinDay (MakeDate d tm) = tm.
Proof.
  intros H. unfold TimeWithinDay, MakeDate.
  rewrite Z.add_comm, Z.mod_add by discriminate. apply Z.mod_small; lia.
Qed.

Lemma Day_mono t1 t2 : t1 <= t2 -> Day t1 <= Day t2.
Proof. intros H. apply Z.div_le_mono; [reflexivity | exact H]. Qed.

Lemma Day_le_iff d t : MakeDate d 0 <= t <-> d <= Day t.
Proof.
  unfold MakeDate, Day. rewrite Z.add_0_r. split; intros H.
  - apply Z.div_le_lower_bound; [reflexivity | lia].
  - pose proof (Z.mul_div_le t msPerDay msPerDay_pos). unfold msPerDay in *. lia.
Qed.

Lemma Day_add_days t n : Day (t + n * msPerDay) = Day t + n.
Proof. unfold Day. apply Z.div_add. discriminate. Qed.

Lemma TimeWithinDay_add_days t n :
  TimeWithinDay (t + n * msPerDay) = TimeWithinDay t.
Proof. unfold TimeWithinDay. apply Z.mod_add. discriminate. Qed.

(** ** Years *)

Lemma leapDays_range y : 0 <= leapDays y <= 1.
Proof. unfold leapDays. destruct (isLeapYear y); lia. Qed.

Lemma DayFromYear_succ y : DayFromYear (y + 1) = DayFromYear y + DaysInYear y.
Proof.
  unfold DaysInYear, leapDays, isLeapYear, DayFromYear.
  destruct (y mod 4 =? 0) eqn:E4; destruct (y mod 100 =? 0) eqn:E100;
    destruct (y mod 400 =? 0) eqn:E400; cbv [andb orb negb];
    bool_to_prop; zdiv.
Qed.

Lemma DayFromYear_mono y1 y2 :
  y1 <= y2 -> DayFromYear y1 + 365 * (y2 - y1) <= DayFromYear y2.
Proof. unfold DayFromYear. zdiv. Qed.

Lemma DayFromYear_lt y1 y2 : y1 < y2 -> DayFromYear y1 < DayFromYear y2.
Proof. intros H. pose proof (DayFromYear_mono y1 y2). lia. Qed.

Lemma YearFromDay_spec d :
  DayFromYear (YearFromDay d) <= d < DayFromYear (YearFromDay d + 1).
Proof.
  unfold YearFromDay.
  assert (DayFromYear (1970 + d * 400 / 146097 - 1) <= d)
    by (unfold DayFromYear; zdiv).
  assert (d < DayFromYear (1970 + d * 400 / 146097 + 1 + 1))
    by (unfold DayFromYear; zdiv).
  repeat case_test; rewrite ?Z.sub_add; lia.
Qed.

(** [YearFromDay d] is the year the standard asks for: the largest one
    that starts on or before day [d]. *)
Lemma YearFromDay_unique d y :
  DayFromYear y <= d < DayFromYear (y + 1) -> YearFromDay d = y.
Proof.
  intros Hy. pose proof (YearFromDay_spec d) as Hs.
  destruct (Z.lt_trichotomy (YearFromDay d) y) as [Hlt|[Heq|Hgt]]; [|exact Heq|].
  - pose proof (DayFromYear_mono (YearFromDay d + 1) y). lia.
  - pose proof (DayFromYear_mono (y + 1) (YearFromDay d)). lia.
Qed.

Lemma YearFromDay_largest d y : DayFromYear y <= d <-> y <= YearFromDay d.
Proof.
  pose proof (YearFromDay_spec d) as Hs. split; intros H.
  - destruct (Z_le_gt_dec y (YearFromDay d)) as [Hle|Hgt]; [exact Hle|].
    pose proof (DayFromYear_mono (YearFromDay d + 1) y). lia.
  - pose proof (DayFromYear_mono y (YearFromDay d)). lia.
Qed.

Lemma DayWithinYear_range t :
  0 <= DayWithinYear t < DaysInYear (YearFromTime t).
Proof.
  unfold DayWithinYear, YearFromTime.
  pose proof (YearFromDay_spec (Day t)) as Hs.
  rewrite DayFromYear_succ in Hs. lia.
Qed.

(** ** Months *)

(** Evaluate [monthStartDay] at literal months without touching the
    additions that mention the leap days. *)
Ltac month_eval :=
  repeat match goal with
  | |- context [monthStartDay _ (?a + 1)] =>
      let v := eval compute in (a + 1) in change (a + 1) with v
  | H : context [monthStartDay _ (?a + 1)] |- _ =>
      let v := eval compute in (a + 1) in change (a + 1) with v in H
  end;
  cbv beta iota delta [monthStartDay] in *.

Lemma monthOfYearDay_range L d : 0 <= monthOfYearDay L d <= 11.
Proof. unfold monthOfYearDay. repeat case_test; lia. Qed.

Lemma monthOfYearDay_spec L d :
  0 <= L <= 1 -> 0 <= d < 365 + L ->
  monthStartDay L (monthOfYearDay L d) <= d
  < monthStartDay L (monthOfYearDay L d + 1).
Proof.
  intros HL Hd. unfold monthOfYearDay. repeat case_test; month_eval; lia.
Qed.

Lemma month_cases m :
  0 <= m <= 11 ->
  m = 0 \/ m = 1 \/ m = 2 \/ m = 3 \/ m = 4 \/ m = 5 \/ m = 6 \/ m = 7 \/
  m = 8 \/ m = 9 \/ m = 10 \/ m = 11.
Proof. lia. Qed.

(** Case analysis on a month number known to lie in 0..11. *)
Ltac month_split m :=
  let H := fresh in
  assert (H : 0 <= m <= 11) by lia; apply month_cases in H;
  repeat (destruct H as [H|H]); subst m.

Lemma monthOfYearDay_unique L d m :
  0 <= L <= 1 -> 0 <= m <= 11 ->
  monthStartDay L m <= d < monthStartDay L (m + 1) ->
  monthOfYearDay L d = m.
Proof.
  intros HL Hm. month_split m; month_eval; intros Hd;
    unfold monthOfYearDay; repeat case_test; lia.
Qed.

Lemma daysInMonth_range y m : 0 <= m <= 11 -> 28 <= daysInMonth y m <= 31.
Proof.
  intros Hm. unfold daysInMonth. pose proof (leapDays_range y).
  month_split m; month_eval; lia.
Qed.

Lemma MonthFromTime_range t : 0 <= MonthFromTime t <= 11.
Proof. apply monthOfYearDay_range. Qed.

Lemma DateFromTime_range t :
  1 <= DateFromTime t <= daysInMonth (YearFromTime t) (MonthFromTime t).
Proof.
  unfold DateFromTime, daysInMonth, MonthFromTime, InLeapYear.
  pose proof (DayWithinYear_range t) as Hd.
  pose proof (leapDays_range (YearFromTime t)) as HL.
  pose proof (monthOfYearDay_spec _ _ HL Hd). lia.
Qed.

(** ** MakeDay *)

Lemma MakeDay_in_year y m dt :
  0 <= m <= 11 ->
  MakeDay y m dt = DayFromYear y + monthStartDay (leapDays y) m + dt - 1.
Proof.
  intros Hm. unfold MakeDay.
  rewrite Z.div_small, Z.mod_small by lia. now rewrite Z.add_0_r.
Qed.

Lemma MakeDay_add_date y m dt n : MakeDay y m (dt + n) = MakeDay y m dt + n.
Proof. unfold MakeDay. lia. Qed.

(** The civil date of a day maps back to the day. *)
Lemma MakeDay_civil t :
  MakeDay (YearFromTime t) (MonthFromTime t) (DateFromTime t) = Day t.
Proof.
  rewrite MakeDay_in_year by apply MonthFromTime_range.
  unfold DateFromTime, DayWithinYear, InLeapYear. lia.
Qed.

(** Month 12 of a year is month 0 of the next one. *)
Lemma MakeDay_month_12 y dt : MakeDay y 12 dt = MakeDay (y + 1) 0 dt.
Proof.
  unfold MakeDay. cbv zeta. change (12 / 12) with 1. change (12 mod 12) with 0.
  change (0 / 12) with 0. change (0 mod 12) with 0.
  now rewrite (Z.add_0_r (y + 1)).
Qed.

Lemma MakeDay_next_month y m :
  0 <= m <= 11 -> MakeDay y (m + 1) 1 = MakeDay y m 1 + daysInMonth y m.
Proof.
  intros Hm. destruct (Z.eq_dec m 11) as [->|Hne].
  - change (11 + 1) with 12. rewrite MakeDay_month_12.
    rewrite !MakeDay_in_year by lia. unfold daysInMonth. month_eval.
    pose proof (DayFromYear_succ y). unfold DaysInYear in *. lia.
  - rewrite !MakeDay_in_year by lia. unfold daysInMonth. lia.
Qed.

(** Months outside 0..11 carry into the year. *)
Lemma MakeDay_norm y m dt : MakeDay y m dt = MakeDay (y + m / 12) (m mod 12) dt.
Proof.
  unfold MakeDay. cbv zeta.
  rewrite Z.mod_mod by discriminate.
  rewrite (Z.div_small (m mod 12) 12) by (apply Z.mod_pos_bound; lia).
  now rewrite Z.add_0_r.
Qed.

Lemma MakeDay_succ_month y m :
  MakeDay y (m + 1) 1 = MakeDay y m 1 + daysInMonth (y + m / 12) (m mod 12).
Proof.
  pose proof (Z.mod_pos_bound m 12 ltac:(lia)) as Hr.
  rewrite (MakeDay_norm y m), (MakeDay_norm y (m + 1)).
  destruct (Z.eq_dec (m mod 12) 11) as [E|E].
  - replace ((m + 1) / 12) with (m / 12 + 1) by zdiv.
    replace ((m + 1) mod 12) with 0 by zdiv.
    rewrite E, Z.add_assoc, <- MakeDay_month_12.
    apply (MakeDay_next_month _ 11). lia.
  - replace ((m + 1) / 12) with (m / 12) by zdiv.
    replace ((m + 1) mod 12) with (m mod 12 + 1) by zdiv.
    apply MakeDay_next_month. lia.
Qed.

Lemma daysInMonth_norm_range y m :
  28 <= daysInMonth (y + m / 12) (m mod 12) <= 31.
Proof. apply daysInMonth_range. pose proof (Z.mod_pos_bound m 12). lia. Qed.

(** The day [MakeDay y m dt] has civil date [(y, m, dt)] when [dt] is a
    day of that month. *)
Lemma YearFromDay_MakeDay y m dt :
  0 <= m <= 11 -> 1 <= dt <= daysInMonth y m ->
  YearFromDay (MakeDay y m dt) = y.
Proof.
  intros Hm Hdt. apply YearFromDay_unique.
  rewrite MakeDay_in_year, DayFromYear_succ by lia.
  unfold DaysInYear, daysInMonth in *. pose proof (leapDays_range y).
  month_split m; month_eval; lia.
Qed.

Section CivilOfMakeDay.

Variables (y m dt tm : Z).
Hypothesis Hm : 0 <= m <= 11.
Hypothesis Hdt : 1 <= dt <= daysInMonth y m.
Hypothesis Htm : 0 <= tm < msPerDay.

Let t := MakeDate (MakeDay y m dt) tm.

Lemma YearFromTime_MakeDay : YearFromTime t = y.
Proof.
  unfold YearFromTime, t. rewrite Day_MakeDate by exact Htm.
  now apply YearFromDay_MakeDay.
Qed.

Lemma DayWithinYear_MakeDay :
  DayWithinYear t = monthStartDay (leapDays y) m + dt - 1.
Proof.
  unfold DayWithinYear. rewrite YearFromTime_MakeDay.
  unfold t. rewrite Day_MakeDate, MakeDay_in_year by assumption. lia.
Qed.

Lemma MonthFromTime_MakeDay : MonthFromTime t = m.
Proof.
  unfold MonthFromTime, InLeapYear.
  rewrite YearFromTime_MakeDay, DayWithinYear_MakeDay.
  apply monthOfYearDay_unique; [apply leapDays_range | exact Hm |].
  unfold daysInMonth in Hdt. lia.
Qed.

Lemma DateFromTime_MakeDay : DateFromTime t = dt.
Proof.
  unfold DateFromTime, InLeapYear.
  rewrite MonthFromTime_MakeDay, YearFromTime_MakeDay, DayWithinYear_MakeDay.
  lia.
Qed.

End CivilOfMakeDay.

#[export] Hint Resolve MonthFromTime_range TimeWithinDay_range leapDays_range : cal.
#[export] Hint Rewrite Day_MakeDate TimeWithinDay_MakeDate using (auto with cal; lia) : cal_rw.

(** ** Parsing what a date input prints *)

Lemma digitValue_digitChar (d : Z) : 0 <= d <= 9 -> digitValue (digitChar d) = Some d.
Proof.
  intros H.
  assert (d = 0 \/ d = 1 \/ d = 2 \/ d = 3 \/ d = 4 \/ d = 5 \/ d = 6 \/ d = 7 \/ d = 8 \/ d = 9)
    as E by lia.
  repeat (destruct E as [->|E]; [reflexivity|]). now subst d.
Qed.

Lemma number_twoDigits (acc n : Z) :
  0 <= n <= 99 -> number acc (twoDigits n) = Some (100 * acc + n).
Proof.
  intros H. unfold twoDigits. cbn [number].
  rewrite !digitValue_digitChar by zdiv. f_equal. zdiv.
Qed.

Lemma number_fourDigits (n : Z) : 0 <= n <= 9999 -> number 0 (fourDigits n) = Some n.
Proof.
  intros H. unfold fourDigits. cbn [number].
  rewrite !digitValue_digitChar, number_twoDigits by zdiv. f_equal. zdiv.
Qed.

(** The parser reads the value of a date input back as the midnight, in
    UTC, of the day it names. *)
Lemma parseIsoDate_dateInputValue (y m d : Z) :
  0 <= y <= 9999 -> 1 <= m <= 12 -> 1 <= d <= 31 ->
  parseIsoDate (dateInputValue y m d) = Some (DateUTC y (m - 1) d).
Proof.
  intros Hy Hm Hd. unfold parseIsoDate, dateInputValue.
  change (String.length _) with 10%nat. change (String.get 4 _) with (Some "-"%char).
  change (String.get 7 _) with (Some "-"%char). cbn [Nat.eqb negb isDash Ascii.eqb Bool.eqb andb].
  change (substring 0 4 _) with (fourDigits y). change (substring 5 2 _) with (twoDigits m).
  change (substring 8 2 _) with (twoDigits d).
  rewrite number_fourDigits, !number_twoDigits by lia. cbn [Z.mul Z.add].
  now replace ((1 <=? m) && (m <=? 12) && (1 <=? d) && (d <=? 31)) with true
    by (symmetry; rewrite !andb_true_iff, !Z.leb_le; lia).
Qed.

Example dateInputValue_sample :
  dateInputValue 2025 3 10 = "2025-03-10"%string /\
  parseIsoDate "2025-03-10" = Some (DateUTC 2025 2 10) /\
  parseIsoDate "2025-3-10" = None.
Proof. now vm_compute. Qed.
