(* ===== verification/DateFns.v ===== *)
(** * DateFns: the date-fns functions the client imports

    [ProjectCalendar.jsx] imports [format], [differenceInCalendarDays],
    [addDays], [startOfMonth] and [addMonths] from date-fns.  The library
    is not part of the repository.  This file states, as the class
    [DateFns], what the timeline needs from the five functions, models each
    of them from the library's documented algorithm on top of [JsDate]
    (definitions [utc_addDays] and so on, local time being UTC), and proves
    in the instance [utcDateFns] that the model satisfies the class.

    The theorems of the timeline are proved against the class, so they
    hold for every implementation of the laws, in particular for every
    time zone with a fixed offset: [zoneDateFns] builds the model of
    such a zone from any model and proves the laws for it. *)

From Stdlib Require Import ZArith List Lia Bool Ascii String DecimalString.
From S2P Require Import Prelude JsDate.
Import ListNotations.

#[local] Open Scope Z_scope.

(** ** The interface *)

Class DateFns : Type := {
  addDays : Z -> Z -> Z;
  differenceInCalendarDays : Z -> Z -> Z;
  startOfMonth : Z -> Z;
  addMonths : Z -> Z -> Z;
  format : Z -> string -> string;
  (** adding days moves the time value by whole days *)
  addDays_ms : forall d n, addDays d n = d + n * msPerDay;
  (** the calendar-day difference counts the days added, and grows with
      its first argument *)
  diff_addDays : forall d n, differenceInCalendarDays (addDays d n) d = n;
  diff_mono : forall a b b',
    b <= b' -> differenceInCalendarDays b a <= differenceInCalendarDays b' a;
  (** the start of the month is a fixed point at or before the date *)
  startOfMonth_le : forall d, startOfMonth d <= d;
  startOfMonth_idem : forall d, startOfMonth (startOfMonth d) = startOfMonth d;
  (** one month after a month start is the next month start, 28 to 31
      days later, and every date in between belongs to the month *)
  addMonths_start : forall c,
    startOfMonth c = c -> startOfMonth (addMonths c 1) = addMonths c 1;
  addMonths_gap : forall c,
    startOfMonth c = c -> addDays c 28 <= addMonths c 1 <= addDays c 31;
  month_between : forall c d,
    startOfMonth c = c -> c <= d < addMonths c 1 -> startOfMonth d = c;
  next_month_gt : forall d, d < addMonths (startOfMonth d) 1
}.

(** ** The functions, local time being UTC *)

(** [addDays]: [if (!amount) return date; date.setDate(date.getDate() +
    amount)]. *)
Definition utc_addDays (date amount : Z) : Z :=
  if amount =? 0 then date else setDate date (getDate date + amount).

Definition utc_startOfDay (date : Z) : Z := setHours0 date.

(** [differenceInCalendarDays]: the rounded quotient of the difference of
    the two starts of day by the length of a day; the time-zone offsets
    it subtracts are zero. *)
Definition utc_differenceInCalendarDays (dateLeft dateRight : Z) : Z :=
  js_round_div (utc_startOfDay dateLeft - utc_startOfDay dateRight) msPerDay.

(** [startOfMonth]: [date.setDate(1); date.setHours(0, 0, 0, 0)]. *)
Definition utc_startOfMonth (date : Z) : Z := setHours0 (setDate date 1).

(** [addMonths]: the same day of the month [amount] months later, or the
    last day of that month when it is shorter. *)
Definition utc_addMonths (date amount : Z) : Z :=
  if amount =? 0 then date
  else
    let dayOfMonth := getDate date in
    let endOfDesiredMonth := setMonth date (getMonth date + amount + 1) 0 in
    let daysInMonth := getDate endOfDesiredMonth in
    if daysInMonth <=? dayOfMonth then endOfDesiredMonth
    else setFullYear date (getFullYear endOfDesiredMonth)
           (getMonth endOfDesiredMonth) dayOfMonth.

(** *** [format] for the tokens the client uses *)

Definition monthNames : list string :=
  ["January"; "February"; "March"; "April"; "May"; "June"; "July";
   "August"; "September"; "October"; "November"; "December"]%string.

Definition monthName (m : Z) : string := nth (Z.to_nat m) monthNames EmptyString.

Definition decimal (n : Z) : string := NilZero.string_of_uint (N.to_uint (Z.to_N n)).

Fixpoint zeros (n : nat) : string :=
  match n with
  | O => EmptyString
  | S k => String "0"%char (zeros k)
  end.

(** [addLeadingZeros(number, targetLength)] for a number that is not
    negative. *)
Definition addLeadingZeros (n : Z) (targetLength : nat) : string :=
  let s := decimal n in
  (zeros (targetLength - String.length s) ++ s)%string.

(** The year of the era: year 0 and before count backwards from 1. *)
Definition yearOfEra (y : Z) : Z := if 0 <? y then y else 1 - y.

(** One token at the head of the pattern: its text and its length.  The
    tokens are [MMMM], [MMM], [yyyy] and [d]; any other character stands
    for itself. *)
Definition formatToken (date : Z) (pattern : string) : string * nat :=
  if prefix "MMMM" pattern then (monthName (getMonth date), 4%nat)
  else if prefix "MMM" pattern then (substring 0 3 (monthName (getMonth date)), 3%nat)
  else if prefix "yyyy" pattern then (addLeadingZeros (yearOfEra (getFullYear date)) 4, 4%nat)
  else if prefix "d" pattern then (decimal (getDate date), 1%nat)
  else (substring 0 1 pattern, 1%nat).

(** [skip] counts the characters of the current token still to pass. *)
Fixpoint formatFrom (date : Z) (pattern : string) (skip : nat) : string :=
  match pattern with
  | EmptyString => EmptyString
  | String _ rest =>
      match skip with
      | S k => formatFrom date rest k
      | O =>
          let (text, len) := formatToken date pattern in
          (text ++ formatFrom date rest (Nat.pred len))%string
      end
  end.

Definition utc_format (date : Z) (pattern : string) : string :=
  formatFrom date pattern 0.

(** ** Consequences of the interface *)

Section Laws.

Context {D : DateFns}.

Definition isMonthStart (c : Z) : Prop := startOfMonth c = c.

Lemma addDays_0 d : addDays d 0 = d.
Proof. rewrite addDays_ms. lia. Qed.

Lemma addDays_add d a b : addDays (addDays d a) b = addDays d (a + b).
Proof. rewrite !addDays_ms. lia. Qed.

Lemma addDays_lt_days d a b : a < b <-> addDays d a < addDays d b.
Proof. rewrite !addDays_ms. unfold msPerDay. lia. Qed.

Lemma addDays_le_days d a b : a <= b <-> addDays d a <= addDays d b.
Proof. rewrite !addDays_ms. unfold msPerDay. lia. Qed.

Lemma addDays_le_date d1 d2 n : d1 <= d2 <-> addDays d1 n <= addDays d2 n.
Proof. rewrite !addDays_ms. lia. Qed.

Lemma addDays_lt_date d1 d2 n : d1 < d2 <-> addDays d1 n < addDays d2 n.
Proof. rewrite !addDays_ms. lia. Qed.

Lemma addDays_inj_days d a b : addDays d a = addDays d b -> a = b.
Proof. rewrite !addDays_ms. unfold msPerDay. lia. Qed.

Lemma diff_self d : differenceInCalendarDays d d = 0.
Proof. rewrite <- (addDays_0 d) at 1. apply diff_addDays. Qed.

(** The difference in calendar days is within one day of the elapsed
    time, on both sides. *)
Lemma diff_lower a b : addDays a (differenceInCalendarDays b a - 1) < b.
Proof.
  destruct (Z_lt_le_dec (addDays a (differenceInCalendarDays b a - 1)) b) as [H|H];
    [exact H|].
  apply (diff_mono a) in H. rewrite diff_addDays in H. lia.
Qed.

Lemma diff_upper a b : b < addDays a (differenceInCalendarDays b a + 1).
Proof.
  destruct (Z_lt_le_dec b (addDays a (differenceInCalendarDays b a + 1))) as [H|H];
    [exact H|].
  apply (diff_mono a) in H. rewrite diff_addDays in H. lia.
Qed.

Lemma diff_nonneg a b : a <= b -> 0 <= differenceInCalendarDays b a.
Proof. intros H. apply (diff_mono a) in H. now rewrite diff_self in H. Qed.

Lemma isMonthStart_startOfMonth d : isMonthStart (startOfMonth d).
Proof. apply startOfMonth_idem. Qed.

Lemma addMonths_lt c : isMonthStart c -> c < addMonths c 1.
Proof.
  intros H. pose proof (addMonths_gap c H) as [Hlo _].
  rewrite addDays_ms in Hlo. unfold msPerDay in Hlo. lia.
Qed.

End Laws.

#[export] Hint Resolve startOfMonth_le isMonthStart_startOfMonth addMonths_lt diff_lower diff_upper : cal.
#[export] Hint Rewrite @addDays_0 @addDays_add @diff_addDays @diff_self : cal_rw.

(** ** The UTC model satisfies the interface *)

Lemma utc_addDays_ms d n : utc_addDays d n = d + n * msPerDay.
Proof.
  unfold utc_addDays. case_test; [lia|].
  unfold setDate, getDate. rewrite MakeDay_add_date, MakeDay_civil.
  pose proof (Day_TimeWithinDay d). unfold MakeDate in *. lia.
Qed.

Lemma utc_diff_eq l r : utc_differenceInCalendarDays l r = Day l - Day r.
Proof.
  unfold utc_differenceInCalendarDays, utc_startOfDay, setHours0, MakeDate.
  replace (Day l * msPerDay + 0 - (Day r * msPerDay + 0))
    with ((Day l - Day r) * msPerDay) by lia.
  apply js_round_div_mul, msPerDay_pos.
Qed.

Lemma utc_diff_addDays d n : utc_differenceInCalendarDays (utc_addDays d n) d = n.
Proof. rewrite utc_diff_eq, utc_addDays_ms, Day_add_days. lia. Qed.

Lemma utc_diff_mono a b b' :
  b <= b' -> utc_differenceInCalendarDays b a <= utc_differenceInCalendarDays b' a.
Proof. intros H. rewrite !utc_diff_eq. pose proof (Day_mono b b' H). lia. Qed.

(** Midnight of the first day of month [m] (any integer, carried into the
    year) of year [y]. *)
Definition firstOfMonth (y m : Z) : Z := MakeDate (MakeDay y m 1) 0.

Lemma utc_startOfMonth_eq t :
  utc_startOfMonth t = firstOfMonth (YearFromTime t) (MonthFromTime t).
Proof.
  unfold utc_startOfMonth, setHours0, setDate, firstOfMonth.
  now rewrite Day_MakeDate by apply TimeWithinDay_range.
Qed.

Lemma firstOfMonth_norm y m : firstOfMonth y m = firstOfMonth (y + m / 12) (m mod 12).
Proof. unfold firstOfMonth. now rewrite MakeDay_norm. Qed.

Lemma firstOfMonth_succ y m :
  firstOfMonth y (m + 1)
  = firstOfMonth y m + daysInMonth (y + m / 12) (m mod 12) * msPerDay.
Proof. unfold firstOfMonth, MakeDate. rewrite MakeDay_succ_month. lia. Qed.

Section MonthStartCivil.

Variables (y m : Z).
Hypothesis Hm : 0 <= m <= 11.

Let H1 : 1 <= 1 <= daysInMonth y m.
Proof. pose proof (daysInMonth_range y m Hm). lia. Qed.

Let H0 : 0 <= 0 < msPerDay.
Proof. unfold msPerDay. lia. Qed.

Lemma YearFromTime_firstOfMonth : YearFromTime (firstOfMonth y m) = y.
Proof. exact (YearFromTime_MakeDay y m 1 0 Hm H1 H0). Qed.

Lemma MonthFromTime_firstOfMonth : MonthFromTime (firstOfMonth y m) = m.
Proof. exact (MonthFromTime_MakeDay y m 1 0 Hm H1 H0). Qed.

Lemma DateFromTime_firstOfMonth : DateFromTime (firstOfMonth y m) = 1.
Proof. exact (DateFromTime_MakeDay y m 1 0 Hm H1 H0). Qed.

Lemma TimeWithinDay_firstOfMonth : TimeWithinDay (firstOfMonth y m) = 0.
Proof. exact (TimeWithinDay_MakeDate _ 0 H0). Qed.

Lemma utc_startOfMonth_firstOfMonth : utc_startOfMonth (firstOfMonth y m) = firstOfMonth y m.
Proof.
  now rewrite utc_startOfMonth_eq, YearFromTime_firstOfMonth, MonthFromTime_firstOfMonth.
Qed.

End MonthStartCivil.

Lemma utc_startOfMonth_norm y m : utc_startOfMonth (firstOfMonth y m) = firstOfMonth y m.
Proof.
  rewrite firstOfMonth_norm. apply utc_startOfMonth_firstOfMonth.
  pose proof (Z.mod_pos_bound m 12). lia.
Qed.

Lemma utc_startOfMonth_idem t : utc_startOfMonth (utc_startOfMonth t) = utc_startOfMonth t.
Proof. rewrite (utc_startOfMonth_eq t). apply utc_startOfMonth_norm. Qed.

Lemma utc_startOfMonth_le t : utc_startOfMonth t <= t.
Proof.
  rewrite utc_startOfMonth_eq. unfold firstOfMonth. apply Day_le_iff.
  rewrite <- (MakeDay_civil t). pose proof (DateFromTime_range t).
  replace (DateFromTime t) with (1 + (DateFromTime t - 1)) by lia.
  rewrite MakeDay_add_date. lia.
Qed.

(** The last day of the month after [(y, m)], as [setMonth(m + 2, 0)]
    reaches it, has the civil date one expects. *)
Lemma endOfNextMonth_civil y m :
  let y' := y + (m + 1) / 12 in
  let m' := (m + 1) mod 12 in
  MakeDay y (m + 1 + 1) 0 = MakeDay y' m' (daysInMonth y' m').
Proof.
  cbv zeta. replace 0 with (1 + -1) at 1 by lia.
  rewrite MakeDay_add_date, MakeDay_succ_month, (MakeDay_norm y (m + 1)).
  replace (daysInMonth (y + (m + 1) / 12) ((m + 1) mod 12))
    with (1 + (daysInMonth (y + (m + 1) / 12) ((m + 1) mod 12) - 1)) at 2 by lia.
  rewrite MakeDay_add_date. lia.
Qed.

Lemma utc_addMonths_firstOfMonth y m :
  0 <= m <= 11 -> utc_addMonths (firstOfMonth y m) 1 = firstOfMonth y (m + 1).
Proof.
  intros Hm. unfold utc_addMonths, getDate, getMonth, getFullYear, setMonth, setFullYear.
  change (1 =? 0) with false. cbv iota zeta.
  rewrite YearFromTime_firstOfMonth, MonthFromTime_firstOfMonth,
    DateFromTime_firstOfMonth, TimeWithinDay_firstOfMonth by exact Hm.
  rewrite endOfNextMonth_civil.
  pose proof (Z.mod_pos_bound (m + 1) 12 ltac:(lia)) as Hm'.
  pose proof (daysInMonth_norm_range y (m + 1)) as Hd.
  rewrite DateFromTime_MakeDay, YearFromTime_MakeDay, MonthFromTime_MakeDay
    by (unfold msPerDay; lia).
  case_test; [lia|]. symmetry. apply firstOfMonth_norm.
Qed.

(** A fixed point of [utc_startOfMonth] is the start of the month of its
    own civil date. *)
Lemma utc_month_start_form c :
  utc_startOfMonth c = c -> c = firstOfMonth (YearFromTime c) (MonthFromTime c).
Proof. intros H. now rewrite <- utc_startOfMonth_eq. Qed.

Lemma utc_addMonths_next c :
  utc_startOfMonth c = c ->
  utc_addMonths c 1 = firstOfMonth (YearFromTime c) (MonthFromTime c + 1).
Proof.
  intros H. rewrite (utc_month_start_form c H) at 1.
  apply utc_addMonths_firstOfMonth, MonthFromTime_range.
Qed.

Lemma utc_addMonths_start c :
  utc_startOfMonth c = c -> utc_startOfMonth (utc_addMonths c 1) = utc_addMonths c 1.
Proof. intros H. rewrite (utc_addMonths_next c H). apply utc_startOfMonth_norm. Qed.

Lemma utc_addMonths_step c :
  utc_startOfMonth c = c ->
  utc_addMonths c 1
  = c + daysInMonth (YearFromTime c) (MonthFromTime c) * msPerDay.
Proof.
  intros H. rewrite (utc_addMonths_next c H), firstOfMonth_succ.
  pose proof (MonthFromTime_range c) as Hm.
  rewrite Z.div_small, Z.mod_small, Z.add_0_r by lia.
  now rewrite <- utc_month_start_form.
Qed.

Lemma utc_addMonths_gap c :
  utc_startOfMonth c = c ->
  utc_addDays c 28 <= utc_addMonths c 1 <= utc_addDays c 31.
Proof.
  intros H. rewrite (utc_addMonths_step c H), !utc_addDays_ms.
  pose proof (daysInMonth_range (YearFromTime c) (MonthFromTime c)
                (MonthFromTime_range c)).
  unfold msPerDay. lia.
Qed.

Lemma utc_month_between c d :
  utc_startOfMonth c = c -> c <= d < utc_addMonths c 1 -> utc_startOfMonth d = c.
Proof.
  intros H Hd. rewrite (utc_addMonths_step c H) in Hd.
  set (y := YearFromTime c) in *. set (m := MonthFromTime c) in *.
  pose proof (MonthFromTime_range c) as Hm. fold m in Hm.
  pose proof (utc_month_start_form c H) as Hc. fold y m in Hc.
  (* the day of [d] is day [dt] of month [(y, m)] *)
  set (dt := Day d - MakeDay y m 1 + 1).
  assert (Hday : Day d = MakeDay y m dt).
  { unfold dt. replace (Day d - MakeDay y m 1 + 1) with (1 + (Day d - MakeDay y m 1)) by lia.
    rewrite MakeDay_add_date. lia. }
  assert (Hdt : 1 <= dt <= daysInMonth y m).
  { assert (MakeDay y m 1 <= Day d < MakeDay y m 1 + daysInMonth y m); [|lia].
    split.
    - apply Day_le_iff. fold (firstOfMonth y m). lia.
    - apply Z.div_lt_upper_bound; [reflexivity|].
      unfold firstOfMonth, MakeDate in Hc. lia. }
  rewrite utc_startOfMonth_eq, <- (Day_TimeWithinDay d), Hday.
  rewrite YearFromTime_MakeDay, MonthFromTime_MakeDay
    by (try apply TimeWithinDay_range; assumption).
  now symmetry.
Qed.

Lemma utc_next_month_gt d : d < utc_addMonths (utc_startOfMonth d) 1.
Proof.
  rewrite (utc_addMonths_step _ (utc_startOfMonth_idem d)), utc_startOfMonth_eq.
  pose proof (MonthFromTime_range d) as Hm.
  rewrite YearFromTime_firstOfMonth, MonthFromTime_firstOfMonth by exact Hm.
  pose proof (DateFromTime_range d) as Hdt. pose proof (MakeDay_civil d) as Hc.
  replace (DateFromTime d) with (1 + (DateFromTime d - 1)) in Hc by lia.
  rewrite MakeDay_add_date in Hc.
  pose proof (Day_TimeWithinDay d) as Hd. pose proof (TimeWithinDay_range d).
  unfold firstOfMonth, MakeDate in *. unfold msPerDay in *. nia.
Qed.

#[export] Instance utcDateFns : DateFns := {
  addDays := utc_addDays;
  differenceInCalendarDays := utc_differenceInCalendarDays;
  startOfMonth := utc_startOfMonth;
  addMonths := utc_addMonths;
  format := utc_format;
  addDays_ms := utc_addDays_ms;
  diff_addDays := utc_diff_addDays;
  diff_mono := utc_diff_mono;
  startOfMonth_le := utc_startOfMonth_le;
  startOfMonth_idem := utc_startOfMonth_idem;
  addMonths_start := utc_addMonths_start;
  addMonths_gap := utc_addMonths_gap;
  month_between := utc_month_between;
  next_month_gt := utc_next_month_gt
}.

(** ** A zone at a fixed offset

    In a zone [offset] milliseconds ahead of UTC the engine reads the
    local fields of a date from its time value plus the offset, and a
    local date written back is that many milliseconds earlier as a time
    value.  The five functions work on local fields, so each is the
    function of the reference zone between the two translations.  The
    construction takes any model of the interface to a model of the
    interface: the laws do not depend on the zone, as long as its offset
    does not change (no daylight saving). *)

Section Zone.

Context (D : DateFns) (offset : Z).

Definition zone_addDays (d n : Z) : Z := addDays (d + offset) n - offset.

Definition zone_differenceInCalendarDays (dateLeft dateRight : Z) : Z :=
  differenceInCalendarDays (dateLeft + offset) (dateRight + offset).

Definition zone_startOfMonth (d : Z) : Z := startOfMonth (d + offset) - offset.

Definition zone_addMonths (d n : Z) : Z := addMonths (d + offset) n - offset.

Definition zone_format (d : Z) (pattern : string) : string := format (d + offset) pattern.

(** Back to local time. *)
Lemma zone_local (x : Z) : x - offset + offset = x.
Proof. lia. Qed.

Lemma zone_addDays_ms d n : zone_addDays d n = d + n * msPerDay.
Proof. unfold zone_addDays. rewrite addDays_ms. lia. Qed.

Lemma zone_diff_addDays d n : zone_differenceInCalendarDays (zone_addDays d n) d = n.
Proof.
  unfold zone_differenceInCalendarDays, zone_addDays. rewrite zone_local. apply diff_addDays.
Qed.

Lemma zone_diff_mono a b b' :
  b <= b' -> zone_differenceInCalendarDays b a <= zone_differenceInCalendarDays b' a.
Proof. intros H. apply diff_mono. lia. Qed.

Lemma zone_startOfMonth_le d : zone_startOfMonth d <= d.
Proof. unfold zone_startOfMonth. pose proof (startOfMonth_le (d + offset)). lia. Qed.

Lemma zone_startOfMonth_idem d :
  zone_startOfMonth (zone_startOfMonth d) = zone_startOfMonth d.
Proof. unfold zone_startOfMonth. now rewrite zone_local, startOfMonth_idem. Qed.

(** A month start of the zone is a month start of the reference zone,
    seen from there. *)
Lemma zone_month_start c : zone_startOfMonth c = c -> startOfMonth (c + offset) = c + offset.
Proof. unfold zone_startOfMonth. lia. Qed.

Lemma zone_addMonths_start c :
  zone_startOfMonth c = c -> zone_startOfMonth (zone_addMonths c 1) = zone_addMonths c 1.
Proof.
  intros H%zone_month_start. unfold zone_startOfMonth, zone_addMonths.
  now rewrite zone_local, addMonths_start.
Qed.

Lemma zone_addMonths_gap c :
  zone_startOfMonth c = c -> zone_addDays c 28 <= zone_addMonths c 1 <= zone_addDays c 31.
Proof.
  intros H%zone_month_start. unfold zone_addDays, zone_addMonths.
  pose proof (addMonths_gap _ H). lia.
Qed.

Lemma zone_month_between c d :
  zone_startOfMonth c = c -> c <= d < zone_addMonths c 1 -> zone_startOfMonth d = c.
Proof.
  intros H%zone_month_start Hd. unfold zone_startOfMonth, zone_addMonths in *.
  rewrite (month_between (c + offset)); [lia|exact H|lia].
Qed.

Lemma zone_next_month_gt d : d < zone_addMonths (zone_startOfMonth d) 1.
Proof.
  unfold zone_addMonths, zone_startOfMonth. rewrite zone_local.
  pose proof (next_month_gt (d + offset)). lia.
Qed.

Definition zoneDateFns : DateFns := {|
  addDays := zone_addDays;
  differenceInCalendarDays := zone_differenceInCalendarDays;
  startOfMonth := zone_startOfMonth;
  addMonths := zone_addMonths;
  format := zone_format;
  addDays_ms := zone_addDays_ms;
  diff_addDays := zone_diff_addDays;
  diff_mono := zone_diff_mono;
  startOfMonth_le := zone_startOfMonth_le;
  startOfMonth_idem := zone_startOfMonth_idem;
  addMonths_start := zone_addMonths_start;
  addMonths_gap := zone_addMonths_gap;
  month_between := zone_month_between;
  next_month_gt := zone_next_month_gt
|}.

End Zone.

(** Western Indonesian Time, seven hours ahead of UTC all year. *)
Definition wibDateFns : DateFns := zoneDateFns utcDateFns (7 * 3600000).

(** The month of an instant depends on the zone of the viewer: 31
    January 2025 at 20:00 UTC is 1 February at 03:00 in Jakarta, where the
    month starts at 17:00 UTC of the day before. *)
Example month_depends_on_zone :
  let t := DateUTC 2025 0 31 + 20 * 3600000 in
  startOfMonth (DateFns := utcDateFns) t = DateUTC 2025 0 1 /\
  startOfMonth (DateFns := wibDateFns) t = DateUTC 2025 1 1 - 7 * 3600000 /\
  format (DateFns := utcDateFns) t "MMMM yyyy" = "January 2025"%string /\
  format (DateFns := wibDateFns) t "MMMM yyyy" = "February 2025"%string.
Proof. now vm_compute. Qed.
