(* ===== verification/Rows.v ===== *)
(** * Rows: the Row Builder of the timeline

    The first [useMemo] of [ProjectCalendar] (lines 15-35 of
    [src/client/src/components/ProjectCalendar.jsx]): every task becomes a
    row with a name, a start date, an end date and a status; at most 50
    rows are kept.  [new Date()] is the argument [today], read once for the
    whole list.  A field that is absent, [null] or an empty string is
    [None]; a date field that is present is its time value. *)

From Stdlib Require Import ZArith Lia Bool String List.
From S2P Require Import Prelude JsDate DateFns.
Import ListNotations.

#[local] Open Scope Z_scope.
#[local] Open Scope js_scope.

(** ** Data *)

(** The keys of [statusColors], which are also the values of a row's
    [status]. *)
Inductive RowStatus : Type := LATE | OVERDUE | UNDERWAY | DEFAULT.

Record Task : Type := {
  task_id : string;
  task_title : option string;
  task_due_date : option Z;
  task_createdAt : option Z;
  task_status : string
}.

Record Project : Type := { project_start_date : option Z }.

Record Row : Type := {
  row_name : string;
  row_start : Z;
  row_end : Z;
  row_status : RowStatus
}.

Definition RowStatus_eq_dec (a b : RowStatus) : {a = b} + {a <> b}.
Proof. decide equality. Defined.

(** ** Operations *)

(** [end && p(end)] for a date that may be [null]. *)
Definition date_and (d : option Z) (p : Z -> bool) : bool :=
  match d with
  | Some e => p e
  | None => false
  end.

Section RowBuilder.

Context {D : DateFns}.

Variable project : option Project.
Variable today : Z.

(** [t.title || `Task ${t.id}`] *)
Definition rowTitle (t : Task) : string :=
  truthy_string (task_title t) <||> ("Task " ++ task_id t)%string.

(** [project && project.start_date ? new Date(project.start_date) : null] *)
Definition startFromProject : option Z :=
  match project with
  | Some p => project_start_date p
  | None => None
  end.

(** The start date: the project's, else the task's creation date, else a
    week before the due date, else three days before today. *)
Definition rowStart (t : Task) : Z :=
  startFromProject <||>
    match task_createdAt t with
    | Some c => c
    | None =>
        match task_due_date t with
        | Some e => addDays e (-7)
        | None => addDays today (-3)
        end
    end.

(** The status: the chain of [if ... else if] of lines 28-31. *)
Definition rowStatus (t : Task) : RowStatus :=
  if (task_status t =? "DONE")%string then DEFAULT
  else if date_and (task_due_date t) (fun e => e <? today) then OVERDUE
  else if date_and (task_due_date t) (fun e => e <=? addDays today 7) then LATE
  else UNDERWAY.

Definition buildRow (t : Task) : Row :=
  let start := rowStart t in
  {| row_name := rowTitle t;
     row_start := start;
     row_end := task_due_date t <||> addDays start 1;
     row_status := rowStatus t |}.

(** [tasks.map(...).slice(0, 50)], an empty array for no task. *)
Definition rows (tasks : list Task) : list Row :=
  match tasks with
  | [] => []
  | _ => firstn 50 (map buildRow tasks)
  end.

(** The decision table of the status, as a relation between a task and a
    status. *)
Inductive StatusView (t : Task) : RowStatus -> Prop :=
| SV_done :
    task_status t = "DONE"%string -> StatusView t DEFAULT
| SV_overdue e :
    task_status t <> "DONE"%string -> task_due_date t = Some e ->
    e < today -> StatusView t OVERDUE
| SV_late e :
    task_status t <> "DONE"%string -> task_due_date t = Some e ->
    today <= e <= addDays today 7 -> StatusView t LATE
| SV_no_due :
    task_status t <> "DONE"%string -> task_due_date t = None ->
    StatusView t UNDERWAY
| SV_far e :
    task_status t <> "DONE"%string -> task_due_date t = Some e ->
    addDays today 7 < e -> StatusView t UNDERWAY.

(** ** The number and the order of the rows *)

Lemma rows_eq tasks : rows tasks = firstn 50 (map buildRow tasks).
Proof. now destruct tasks. Qed.

Lemma length_rows tasks : length (rows tasks) = Nat.min 50 (length tasks).
Proof. now rewrite rows_eq, length_firstn, length_map. Qed.

Lemma rows_nth_error tasks i :
  (i < 50)%nat ->
  nth_error (rows tasks) i = option_map buildRow (nth_error tasks i).
Proof.
  intros Hi. rewrite rows_eq, nth_error_firstn_lt by exact Hi.
  apply nth_error_map.
Qed.

Lemma rows_In tasks r :
  In r (rows tasks) -> exists t, In t tasks /\ r = buildRow t.
Proof.
  rewrite rows_eq. intros H. apply In_firstn, in_map_iff in H.
  destruct H as [t [E Hin]]. eauto.
Qed.

(** ** The status, branch by branch *)

Lemma rowStatus_done t :
  task_status t = "DONE"%string -> rowStatus t = DEFAULT.
Proof. intros H. unfold rowStatus. now rewrite H. Qed.

Section NotDone.

Variable t : Task.
Hypothesis Hnd : task_status t <> "DONE"%string.

Lemma not_done_eqb : (task_status t =? "DONE")%string = false.
Proof. now apply String.eqb_neq. Qed.

Lemma rowStatus_no_due : task_due_date t = None -> rowStatus t = UNDERWAY.
Proof. intros H. unfold rowStatus. now rewrite not_done_eqb, H. Qed.

Lemma rowStatus_overdue e :
  task_due_date t = Some e -> e < today -> rowStatus t = OVERDUE.
Proof.
  intros H Hlt. unfold rowStatus. rewrite not_done_eqb, H. simpl.
  now apply Z.ltb_lt in Hlt as ->.
Qed.

Lemma rowStatus_late e :
  task_due_date t = Some e -> today <= e <= addDays today 7 ->
  rowStatus t = LATE.
Proof.
  intros H [Hlo Hhi]. unfold rowStatus. rewrite not_done_eqb, H. simpl.
  apply Z.ltb_ge in Hlo as ->. now apply Z.leb_le in Hhi as ->.
Qed.

Lemma rowStatus_underway e :
  task_due_date t = Some e -> addDays today 7 < e -> rowStatus t = UNDERWAY.
Proof.
  intros H Hgt. unfold rowStatus. rewrite not_done_eqb, H. simpl.
  assert (today <= addDays today 7) by (rewrite addDays_ms; unfold msPerDay; lia).
  replace (e <? today) with false by (symmetry; apply Z.ltb_ge; lia).
  now replace (e <=? addDays today 7) with false by (symmetry; apply Z.leb_gt; lia).
Qed.

End NotDone.

(** ** The dates, branch by branch *)

Lemma rowStart_project p s t :
  project = Some p -> project_start_date p = Some s -> rowStart t = s.
Proof. intros Hp Hs. unfold rowStart, startFromProject. now rewrite Hp, Hs. Qed.

Lemma rowStart_created t c :
  startFromProject = None -> task_createdAt t = Some c -> rowStart t = c.
Proof. intros Hp Hc. unfold rowStart. now rewrite Hp, Hc. Qed.

Lemma rowStart_due t e :
  startFromProject = None -> task_createdAt t = None ->
  task_due_date t = Some e -> rowStart t = addDays e (-7).
Proof. intros Hp Hc He. unfold rowStart. now rewrite Hp, Hc, He. Qed.

Lemma rowStart_today t :
  startFromProject = None -> task_createdAt t = None ->
  task_due_date t = None -> rowStart t = addDays today (-3).
Proof. intros Hp Hc He. unfold rowStart. now rewrite Hp, Hc, He. Qed.

Lemma rowEnd_due t e :
  task_due_date t = Some e -> row_end (buildRow t) = e.
Proof. intros H. simpl. now rewrite H. Qed.

Lemma rowEnd_no_due t :
  task_due_date t = None ->
  row_end (buildRow t) = addDays (row_start (buildRow t)) 1.
Proof. intros H. simpl. now rewrite H. Qed.

(** The status computed for a task is the one of the decision table. *)
Lemma rowStatus_view t : StatusView t (rowStatus t).
Proof.
  destruct (String.eqb_spec (task_status t) "DONE") as [Hd|Hd].
  - rewrite rowStatus_done by exact Hd. now constructor.
  - destruct (task_due_date t) as [e|] eqn:He.
    + destruct (Z_lt_le_dec e today) as [H1|H1];
        [rewrite (rowStatus_overdue t Hd e He H1); now apply SV_overdue with e|].
      destruct (Z_le_gt_dec e (addDays today 7)) as [H2|H2].
      * rewrite (rowStatus_late t Hd e He (conj H1 H2)). now apply SV_late with e.
      * rewrite (rowStatus_underway t Hd e He) by lia. apply SV_far with e; auto; lia.
    + rewrite rowStatus_no_due by assumption. now constructor.
Qed.

Lemma buildRow_estimated t :
  startFromProject = None -> task_createdAt t = None ->
  row_start (buildRow t) < row_end (buildRow t).
Proof.
  intros Hp Hc. unfold buildRow, rowStart. simpl. rewrite Hp, Hc. simpl.
  destruct (task_due_date t) as [e|]; simpl; rewrite !addDays_ms;
    unfold msPerDay; lia.
Qed.

End RowBuilder.

#[export] Hint Rewrite @length_rows : cal_rw.
#[export] Hint Constructors StatusView : cal.

(** ** Properties of the Row Builder *)

(** The number of rows is the number of tasks, capped at 50: for any
    task list, project and clock reading, [rows] yields
    [min (length tasks) 50] rows. *)
Theorem rows_count {D : DateFns} (project : option Project) (today : Z)
    (tasks : list Task) :
  length (rows project today tasks) = Nat.min (length tasks) 50.
Proof. rewrite length_rows. apply Nat.min_comm. Qed.

(** C24. The status of a row follows the decision table of the source:
    DEFAULT exactly for a task marked DONE; otherwise OVERDUE exactly
    when the due date is before the clock reading, LATE exactly when it
    lies between the reading and seven days later (both inclusive), and
    UNDERWAY exactly when there is no due date or it is more than seven
    days ahead. *)
Theorem row_status_classification {D : DateFns} (today : Z) (t : Task) :
  let not_done := task_status t <> "DONE"%string in
  (rowStatus today t = DEFAULT <-> task_status t = "DONE"%string) /\
  (rowStatus today t = OVERDUE <->
     not_done /\ exists e, task_due_date t = Some e /\ e < today) /\
  (rowStatus today t = LATE <->
     not_done /\ exists e, task_due_date t = Some e /\ today <= e <= addDays today 7) /\
  (rowStatus today t = UNDERWAY <->
     not_done /\ (task_due_date t = None \/
                  exists e, task_due_date t = Some e /\ addDays today 7 < e)).
Proof.
  cbv zeta. pose proof (rowStatus_view today t) as V.
  split; [|split; [|split]]; split; intros H.
  all: try (rewrite H in V; inversion V; subst; eauto; fail).
  - now apply rowStatus_done.
  - destruct H as (Hd & e & He & Hlt). now apply rowStatus_overdue with e.
  - destruct H as (Hd & e & He & Hr). now apply rowStatus_late with e.
  - destruct H as (Hd & [He | (e & He & Hgt)]);
      [now apply rowStatus_no_due | now apply rowStatus_underway with e].
Qed.

(** A row whose start date is estimated (no project start date, no
    creation date) always ends after it starts: it spans seven days up to
    the due date, or one day from three days ago. *)
Theorem estimated_row_has_positive_length {D : DateFns}
    (project : option Project) (today : Z) (t : Task) :
  startFromProject project = None -> task_createdAt t = None ->
  row_start (buildRow project today t) < row_end (buildRow project today t).
Proof. apply buildRow_estimated. Qed.

(** Rows keep the order of the tasks: row [i], for [i < 50], is the
    row built from task [i]. *)
Theorem rows_preserve_order {D : DateFns} (project : option Project)
    (today : Z) (tasks : list Task) (i : nat) :
  (i < 50)%nat ->
  nth_error (rows project today tasks) i
  = option_map (buildRow project today) (nth_error tasks i).
Proof. apply rows_nth_error. Qed.

(** ** Examples and witnesses *)

(** The task of the specification's first scenario: due in three days,
    no title, no creation date. *)
Definition sampleToday : Z := 1741600800000.

Definition sampleTask : Task :=
  {| task_id := "1"; task_title := None;
     task_due_date := Some (sampleToday + 3 * msPerDay);
     task_createdAt := None; task_status := "UNDERWAY" |}.

Example scenario_due_in_three_days :
  rows None sampleToday [sampleTask]
  = [ {| row_name := "Task 1";
         row_start := sampleToday - 4 * msPerDay;
         row_end := sampleToday + 3 * msPerDay;
         row_status := LATE |} ].
Proof. reflexivity. Qed.

Lemma estimated_row_has_positive_length_witness :
  startFromProject None = None /\ task_createdAt sampleTask = None /\
  row_start (buildRow None sampleToday sampleTask)
  < row_end (buildRow None sampleToday sampleTask).
Proof.
  split; [reflexivity|]. split; [reflexivity|].
  apply (estimated_row_has_positive_length None sampleToday sampleTask); reflexivity.
Defined.

Lemma rows_preserve_order_witness :
  (0 < 50)%nat /\
  nth_error (rows None sampleToday [sampleTask]) 0
  = option_map (buildRow None sampleToday) (nth_error [sampleTask] 0).
Proof.
  split; [lia|]. apply (rows_preserve_order None sampleToday [sampleTask] 0). lia.
Defined.

(** A task due at midnight of the current day is OVERDUE for the
    rest of that day: the comparison is between instants, not between
    calendar days. *)
Example due_today_is_overdue :
  let today := sampleToday in
  let due := sampleToday - 10 * 3600000 in
  differenceInCalendarDays due today = 0 /\
  rowStatus today
    {| task_id := "7"; task_title := Some "Report"%string;
       task_due_date := Some due; task_createdAt := None;
       task_status := "TODO" |} = OVERDUE.
Proof. split; reflexivity. Qed.
