(* ===== verification/Timeline.v ===== *)
(** * Timeline: the range of the timeline and its months

    The second and third [useMemo] of [ProjectCalendar]
    ([src/client/src/components/ProjectCalendar.jsx], lines 38-54 and
    57-66).  The range is the smallest start and the largest end of the
    rows, each moved outwards by seven days, and the number of calendar
    days between them, at least 1.  The months are produced by a [while]
    loop that starts at the first day of the month of [timelineStart] and
    adds one month while the cursor is not after [timelineEnd]; the loop is
    the fuelled fixpoint [monthsLoop], run with the fuel [monthsFuel]. *)

From Stdlib Require Import ZArith Lia Bool String List.
From S2P Require Import Prelude JsDate DateFns Rows.
Import ListNotations.

#[local] Open Scope Z_scope.

(** ** Data *)

Record TimelineSpan : Type := {
  timelineStart : Z;
  timelineEnd : Z;
  totalDays : Z
}.

Record MonthSeg : Type := {
  label : string;
  monthStart : Z
}.

Section Timeline.

Context {D : DateFns}.

(** ** Operations *)

(** The body of [rows.forEach]: keep the smaller start and the larger
    end. *)
Definition rangeStep (acc : Z * Z) (r : Row) : Z * Z :=
  let (minD, maxD) := acc in
  (if row_start r <? minD then row_start r else minD,
   if maxD <? row_end r then row_end r else maxD).

(** The range of the timeline; [now] is the [new Date()] of the empty
    case. *)
Definition timeline (now : Z) (rows : list Row) : TimelineSpan :=
  match rows with
  | [] => {| timelineStart := now; timelineEnd := addDays now 7; totalDays := 7 |}
  | r0 :: _ =>
      let (minD, maxD) := fold_left rangeStep rows (row_start r0, row_end r0) in
      let minD := addDays minD (-7) in
      let maxD := addDays maxD 7 in
      let days := js_max 1 (differenceInCalendarDays maxD minD) in
      {| timelineStart := minD; timelineEnd := maxD; totalDays := days |}
  end.

(** The [while (cursor <= timelineEnd)] loop; one unit of fuel per
    iteration. *)
Fixpoint monthsLoop (fuel : nat) (cursor tEnd : Z) : list MonthSeg :=
  match fuel with
  | O => []
  | S k =>
      if cursor <=? tEnd then
        {| label := format cursor "MMMM yyyy"; monthStart := cursor |}
          :: monthsLoop k (addMonths cursor 1) tEnd
      else []
  end.

(** Fuel: one more than the number of 28-day periods from the cursor to
    the end. *)
Definition monthsFuel (cursor tEnd : Z) : nat :=
  Z.to_nat ((tEnd - cursor) / (28 * msPerDay) + 1).

Definition monthsAll (tStart tEnd : Z) : list MonthSeg :=
  let start := startOfMonth tStart in
  monthsLoop (monthsFuel start tEnd) start tEnd.

(** ** Specifications *)

(** The smallest start and the largest end of a non-empty list of rows. *)
Definition minStart (r0 : Row) (rows : list Row) : Z :=
  fold_left (min_step row_start) rows (row_start r0).

Definition maxEnd (r0 : Row) (rows : list Row) : Z :=
  fold_left (max_step row_end) rows (row_end r0).

(** The complete run of the month loop, as a relation: it stops at the
    first cursor after the end and not before. *)
Inductive MonthsRun (tEnd : Z) : Z -> list MonthSeg -> Prop :=
| MonthsRun_stop cursor :
    tEnd < cursor -> MonthsRun tEnd cursor []
| MonthsRun_step cursor l :
    cursor <= tEnd ->
    MonthsRun tEnd (addMonths cursor 1) l ->
    MonthsRun tEnd cursor
      ({| label := format cursor "MMMM yyyy"; monthStart := cursor |} :: l).

(** ** The range *)

Lemma fold_rangeStep rows a b :
  fold_left rangeStep rows (a, b)
  = (fold_left (min_step row_start) rows a, fold_left (max_step row_end) rows b).
Proof.
  revert a b. induction rows as [|r rows IH]; intros a b; [reflexivity|].
  simpl. now rewrite IH.
Qed.

Lemma timeline_cons now r0 rows :
  timeline now (r0 :: rows)
  = let minD := addDays (minStart r0 (r0 :: rows)) (-7) in
    let maxD := addDays (maxEnd r0 (r0 :: rows)) 7 in
    {| timelineStart := minD; timelineEnd := maxD;
       totalDays := js_max 1 (differenceInCalendarDays maxD minD) |}.
Proof. unfold timeline. now rewrite fold_rangeStep. Qed.

Lemma minStart_le r0 rows r : In r rows -> minStart r0 rows <= row_start r.
Proof. apply fold_min_le_In. Qed.

Lemma maxEnd_ge r0 rows r : In r rows -> row_end r <= maxEnd r0 rows.
Proof. apply fold_max_ge_In. Qed.

Lemma minStart_attained r0 rows :
  exists r, In r (r0 :: rows) /\ minStart r0 (r0 :: rows) = row_start r.
Proof.
  destruct (fold_min_attained row_start (r0 :: rows) (row_start r0)) as [H|[r H]].
  - exists r0. split; [now left | exact H].
  - now exists r.
Qed.

Lemma maxEnd_attained r0 rows :
  exists r, In r (r0 :: rows) /\ maxEnd r0 (r0 :: rows) = row_end r.
Proof.
  destruct (fold_max_attained row_end (r0 :: rows) (row_end r0)) as [H|[r H]].
  - exists r0. split; [now left | exact H].
  - now exists r.
Qed.

Lemma timeline_covers now rows r :
  In r rows ->
  addDays (timelineStart (timeline now rows)) 7 <= row_start r /\
  row_end r <= addDays (timelineEnd (timeline now rows)) (-7).
Proof.
  destruct rows as [|r0 rows]; [intros []|]. intros Hin.
  rewrite timeline_cons. cbv zeta. simpl timelineStart. simpl timelineEnd.
  rewrite !addDays_add, !addDays_0.
  split; [now apply minStart_le | now apply maxEnd_ge].
Qed.

Lemma totalDays_ge_1 now rows : 1 <= totalDays (timeline now rows).
Proof.
  destruct rows as [|r0 rows]; [simpl; lia|].
  rewrite timeline_cons. simpl. apply js_max_lower.
Qed.

(** The end of the range lies less than [totalDays + 1] days after its
    start. *)
Lemma timeline_end_lt now rows :
  let tl := timeline now rows in
  timelineEnd tl < addDays (timelineStart tl) (totalDays tl + 1).
Proof.
  destruct rows as [|r0 rows]; cbv zeta.
  - simpl. apply addDays_lt_days. lia.
  - rewrite timeline_cons. cbv zeta. simpl.
    set (a := addDays (minStart _ _) (-7)). set (b := addDays (maxEnd _ _) 7).
    pose proof (diff_upper a b) as H. pose proof (js_max_lower 1 (differenceInCalendarDays b a)).
    eapply Z.lt_le_trans; [exact H|]. apply addDays_le_days. lia.
Qed.

(** ** The month loop *)

Lemma monthsFuel_0 c e : monthsFuel c e = O -> e < c.
Proof.
  unfold monthsFuel. intros H.
  assert ((e - c) / (28 * msPerDay) + 1 <= 0) by lia.
  unfold msPerDay in *. zdiv.
Qed.

Lemma monthsFuel_next c e :
  isMonthStart c -> c <= e ->
  (S (monthsFuel (addMonths c 1) e) <= monthsFuel c e)%nat.
Proof.
  intros Hc Hle. pose proof (addMonths_gap c Hc) as [Hlo _].
  rewrite addDays_ms in Hlo. unfold monthsFuel, msPerDay in *.
  assert ((e - addMonths c 1) / (28 * 86400000) + 1 <= (e - c) / (28 * 86400000))
    by zdiv.
  assert (0 <= (e - c) / (28 * 86400000)) by zdiv.
  lia.
Qed.

(** With enough fuel the loop performs the complete run. *)
Lemma monthsLoop_run e fuel : forall c,
  isMonthStart c -> (monthsFuel c e <= fuel)%nat ->
  MonthsRun e c (monthsLoop fuel c e).
Proof.
  induction fuel as [|k IH]; intros c Hc Hf; simpl.
  - constructor. apply monthsFuel_0. lia.
  - case_test; [|constructor; lia].
    constructor; [exact Htest|]. apply IH; [now apply addMonths_start|].
    pose proof (monthsFuel_next c e Hc Htest). lia.
Qed.

Lemma MonthsRun_unique e c l1 l2 :
  MonthsRun e c l1 -> MonthsRun e c l2 -> l1 = l2.
Proof.
  intros H1. revert l2. induction H1; intros l2 H2; inversion H2; subst;
    try lia; [reflexivity|]. f_equal. now apply IHMonthsRun.
Qed.

Lemma monthsAll_run tStart tEnd :
  MonthsRun tEnd (startOfMonth tStart) (monthsAll tStart tEnd).
Proof.
  unfold monthsAll. apply monthsLoop_run;
    [apply isMonthStart_startOfMonth | apply Nat.le_refl].
Qed.

(** *** What a complete run contains *)

Section Run.

Variable e : Z.

Lemma MonthsRun_starts c l :
  isMonthStart c -> MonthsRun e c l ->
  Forall (fun m => isMonthStart (monthStart m) /\ monthStart m <= e) l.
Proof.
  intros Hc H. induction H; constructor; simpl; auto.
  apply IHMonthsRun. now apply addMonths_start.
Qed.

Lemma MonthsRun_head c l :
  MonthsRun e c l -> c <= e -> exists l', l = {| label := format c "MMMM yyyy"; monthStart := c |} :: l'.
Proof. intros H Hle. destruct H; [lia | eauto]. Qed.

Lemma MonthsRun_nil c : MonthsRun e c [] <-> e < c.
Proof. split; [now inversion 1 | now constructor]. Qed.

(** The months are consecutive: each one starts one month after the one
    before it. *)
Lemma MonthsRun_nth c l i m :
  MonthsRun e c l -> nth_error l i = Some m ->
  monthStart m = Nat.iter i (fun x => addMonths x 1) c.
Proof.
  intros H. revert i. induction H; intros i Hi.
  - now destruct i.
  - destruct i as [|i]; simpl in Hi.
    + now inversion Hi.
    + rewrite (IHMonthsRun i Hi). now rewrite Nat.iter_succ_r.
Qed.

(** The last month of a run is the month of the end date. *)
Lemma MonthsRun_last c l m :
  isMonthStart c -> MonthsRun e c l -> l <> [] ->
  startOfMonth e = monthStart (last l m).
Proof.
  intros Hc H. induction H as [|c l Hle H IH]; intros Hne; [congruence|].
  destruct l as [|m' l'].
  - simpl. apply MonthsRun_nil in H. now apply month_between.
  - change (last (_ :: m' :: l') m) with (last (m' :: l') m).
    apply IH; [now apply addMonths_start | discriminate].
Qed.

End Run.

Lemma monthsLoop_more_fuel c e fuel :
  isMonthStart c -> (monthsFuel c e <= fuel)%nat ->
  monthsLoop fuel c e = monthsLoop (monthsFuel c e) c e.
Proof.
  intros Hc Hf. apply (MonthsRun_unique e c); apply monthsLoop_run; auto.
Qed.

Lemma monthsAll_nil tStart tEnd :
  monthsAll tStart tEnd = [] <-> tEnd < startOfMonth tStart.
Proof.
  pose proof (monthsAll_run tStart tEnd) as H. split; intros E.
  - rewrite E in H. now apply (MonthsRun_nil tEnd) in H.
  - inversion H; [reflexivity | lia].
Qed.

Lemma monthsAll_cons tStart tEnd :
  tStart <= tEnd ->
  exists rest, monthsAll tStart tEnd
    = {| label := format (startOfMonth tStart) "MMMM yyyy";
         monthStart := startOfMonth tStart |} :: rest.
Proof.
  intros H. apply (MonthsRun_head tEnd); [apply monthsAll_run|].
  pose proof (startOfMonth_le tStart). lia.
Qed.

(** A span shorter than 28 days touches one month or two. *)
Lemma monthsAll_short tStart tEnd :
  tStart <= tEnd < addDays tStart 28 ->
  (1 <= length (monthsAll tStart tEnd) <= 2)%nat.
Proof.
  intros [Hle Hlt]. pose proof (monthsAll_run tStart tEnd) as H.
  pose proof (isMonthStart_startOfMonth tStart) as Hc.
  pose proof (startOfMonth_le tStart) as Hs.
  pose proof (next_month_gt tStart) as Hn.
  pose proof (addMonths_gap _ (addMonths_start _ Hc)) as [Hg _].
  rewrite !addDays_ms in *. unfold msPerDay in *.
  inversion H as [|? l1 ? R1]; [lia|].
  inversion R1 as [|? l2 ? R2]; [simpl; lia|].
  inversion R2; [simpl; lia | lia].
Qed.

End Timeline.

#[export] Hint Resolve timeline_covers totalDays_ge_1 monthsAll_run : cal.

(** ** Properties of the range *)

(** C11. Every row lies inside the range of the timeline with seven days
    to spare on either side: the start of the range plus seven days is at
    or before the row's start, and the row's end is at or before the end
    of the range minus seven days. *)
Theorem timeline_contains_rows {D : DateFns} (now : Z) (rs : list Row) (r : Row) :
  In r rs ->
  addDays (timelineStart (timeline now rs)) 7 <= row_start r /\
  row_end r <= addDays (timelineEnd (timeline now rs)) (-7).
Proof. apply timeline_covers. Qed.

(** The range is the tightest one: some row starts exactly seven
    days after the start of the range and some row ends exactly seven
    days before its end. *)
Theorem timeline_is_tight {D : DateFns} (now : Z) (rs : list Row) :
  rs <> [] ->
  exists r1 r2, In r1 rs /\ In r2 rs /\
    timelineStart (timeline now rs) = addDays (row_start r1) (-7) /\
    timelineEnd (timeline now rs) = addDays (row_end r2) 7.
Proof.
  destruct rs as [|r0 rs]; [congruence|]. intros _.
  destruct (minStart_attained r0 rs) as [r1 [H1 E1]].
  destruct (maxEnd_attained r0 rs) as [r2 [H2 E2]].
  exists r1, r2. rewrite timeline_cons. simpl. now rewrite E1, E2.
Qed.

(** [totalDays] is at least 1, the end of the range lies less than
    [totalDays + 1] days after its start, and, when the range is at least
    one day long, more than [totalDays - 1] days after it. *)
Theorem total_days_spec {D : DateFns} (now : Z) (rs : list Row) :
  let tl := timeline now rs in
  1 <= totalDays tl /\
  timelineEnd tl < addDays (timelineStart tl) (totalDays tl + 1) /\
  (addDays (timelineStart tl) 1 <= timelineEnd tl ->
   addDays (timelineStart tl) (totalDays tl - 1) < timelineEnd tl).
Proof.
  cbv zeta. split; [apply totalDays_ge_1|]. split; [apply timeline_end_lt|].
  destruct rs as [|r0 rs].
  - simpl. intros _. apply addDays_lt_days. lia.
  - rewrite timeline_cons. cbv zeta. simpl.
    set (a := addDays (minStart _ _) (-7)). set (b := addDays (maxEnd _ _) 7).
    intros H. apply (diff_mono a) in H. rewrite diff_addDays in H.
    rewrite js_max_spec, Z.max_r by lia. apply diff_lower.
Qed.

(** ** Properties of the month loop *)

(** C15. The month loop terminates within its fuel: the list computed with
    the fuel [monthsFuel] is the complete run of the loop, which stops
    only at a cursor after [timelineEnd], and any additional fuel gives the
    same list. *)
Theorem months_loop_terminates {D : DateFns} (tStart tEnd : Z) (extra : nat) :
  MonthsRun tEnd (startOfMonth tStart) (monthsAll tStart tEnd) /\
  monthsLoop (monthsFuel (startOfMonth tStart) tEnd + extra)
    (startOfMonth tStart) tEnd
  = monthsAll tStart tEnd.
Proof.
  split; [apply monthsAll_run|].
  apply monthsLoop_more_fuel; [apply isMonthStart_startOfMonth | lia].
Qed.

(** C23. For a range that is not reversed, the months run from the month
    of [timelineStart] through the month of [timelineEnd]: the list is not
    empty, its first element is the start of the month of
    [timelineStart], its last element the start of the month of
    [timelineEnd], and element [i] lies [i] months after the first. *)
Theorem months_cover_span {D : DateFns} (tStart tEnd : Z) :
  tStart <= tEnd ->
  exists first rest,
    monthsAll tStart tEnd = first :: rest /\
    monthStart first = startOfMonth tStart /\
    monthStart (last rest first) = startOfMonth tEnd /\
    forall i m, nth_error (monthsAll tStart tEnd) i = Some m ->
      monthStart m = Nat.iter i (fun c => addMonths c 1) (startOfMonth tStart).
Proof.
  intros Hle. destruct (monthsAll_cons tStart tEnd Hle) as [rest E].
  pose proof (monthsAll_run tStart tEnd) as Hrun.
  eexists. exists rest. split; [exact E|]. split; [reflexivity|]. split.
  - symmetry. rewrite E in Hrun.
    rewrite (MonthsRun_last tEnd _ _ {| label := ""; monthStart := 0 |}
               (isMonthStart_startOfMonth tStart) Hrun) by discriminate.
    now rewrite last_cons_default.
  - intros i m. now apply (MonthsRun_nth tEnd).
Qed.

(** The list of months is empty exactly when [timelineEnd] precedes
    the first day of the month of [timelineStart]. *)
Theorem months_empty_iff {D : DateFns} (tStart tEnd : Z) :
  monthsAll tStart tEnd = [] <-> tEnd < startOfMonth tStart.
Proof. apply monthsAll_nil. Qed.

(** With no task the range is the seven days from now, and it
    touches one month, or two when it crosses a month boundary. *)
Theorem empty_timeline_default {D : DateFns} (now : Z) :
  let tl := timeline now [] in
  timelineStart tl = now /\ timelineEnd tl = addDays now 7 /\ totalDays tl = 7 /\
  (length (monthsAll (timelineStart tl) (timelineEnd tl)) = 1
   \/ length (monthsAll (timelineStart tl) (timelineEnd tl)) = 2)%nat.
Proof.
  cbv zeta. simpl. repeat split.
  assert (H : (1 <= length (monthsAll now (addDays now 7)) <= 2)%nat); [|lia].
  apply monthsAll_short. rewrite !addDays_ms. unfold msPerDay. lia.
Qed.

(** ** Witnesses *)

Definition sampleRowA : Row :=
  {| row_name := "a"; row_start := 1741600800000; row_end := 1742205600000;
     row_status := LATE |}.

Definition sampleRowB : Row :=
  {| row_name := "b"; row_start := 1738368000000; row_end := 1746057600000;
     row_status := UNDERWAY |}.

Definition sampleRows : list Row := [sampleRowA; sampleRowB].

Lemma timeline_contains_rows_witness :
  In sampleRowA sampleRows /\
  addDays (timelineStart (timeline 0 sampleRows)) 7 <= row_start sampleRowA /\
  row_end sampleRowA <= addDays (timelineEnd (timeline 0 sampleRows)) (-7).
Proof.
  split; [now left|].
  apply (timeline_contains_rows 0 sampleRows sampleRowA). now left.
Defined.

Lemma timeline_is_tight_witness :
  sampleRows <> [] /\
  exists r1 r2, In r1 sampleRows /\ In r2 sampleRows /\
    timelineStart (timeline 0 sampleRows) = addDays (row_start r1) (-7) /\
    timelineEnd (timeline 0 sampleRows) = addDays (row_end r2) 7.
Proof.
  split; [discriminate|]. apply (timeline_is_tight 0 sampleRows). discriminate.
Defined.

Lemma months_cover_span_witness :
  1737763200000 <= 1746662400000 /\
  exists first rest,
    monthsAll 1737763200000 1746662400000 = first :: rest /\
    monthStart first = startOfMonth 1737763200000 /\
    monthStart (last rest first) = startOfMonth 1746662400000 /\
    forall i m, nth_error (monthsAll 1737763200000 1746662400000) i = Some m ->
      monthStart m = Nat.iter i (fun c => addMonths c 1) (startOfMonth 1737763200000).
Proof.
  split; [lia|]. apply (months_cover_span 1737763200000 1746662400000). lia.
Defined.

(** The months of the sample rows: January to May 2025. *)
Example sample_months :
  map monthStart
    (monthsAll (timelineStart (timeline 0 sampleRows)) (timelineEnd (timeline 0 sampleRows)))
  = [1735689600000; 1738368000000; 1740787200000; 1743465600000; 1746057600000].
Proof. vm_compute. reflexivity. Qed.
