(* ===== verification/Columns.v ===== *)
(** * Columns: the grid of week columns and the size of a cell

    Lines 68-86 of [src/client/src/components/ProjectCalendar.jsx] build
    four columns per month: column [col] runs from
    [Math.round(col * totalDays / n)] to
    [Math.round((col + 1) * totalDays / n)] days after [timelineStart],
    [n] being the number of columns.  Lines 88-116 compute the size of a
    cell from the width of the scroller, so that up to twelve months fit
    the viewport, and never less than [MIN_CELL]. *)

From Stdlib Require Import ZArith Lia Bool String List.
From S2P Require Import Prelude JsDate DateFns Rows Timeline.
Import ListNotations.

#[local] Open Scope Z_scope.

(** ** Data *)

Record Column : Type := {
  colStart : Z;
  colEnd : Z
}.

(** ** Constants *)

Definition MONTHS_PER_PAGE : Z := 12.

Definition MIN_CELL : Z := 20.

Definition leftWidth : Z := 160.

Definition rightWidth : Z := 120.

(** The initial value of the state [computedCellSize]. *)
Definition initialCellSize : Z := 24.

(** ** Operations *)

(** [monthsAll.length * 4] *)
Definition totalColumns (nMonths : nat) : nat := nMonths * 4.

(** The day offset of the left edge of column [col]:
    [Math.round((col * totalDays) / (monthsAll.length * 4))]. *)
Definition colOffset (days : Z) (nMonths : nat) (col : nat) : Z :=
  js_round_div (Z.of_nat col * days) (Z.of_nat nMonths * 4).

Section Columns.

Context {D : DateFns}.

Definition column (tStart days : Z) (nMonths : nat) (col : nat) : Column :=
  let startOffset := colOffset days nMonths col in
  let endOffset := colOffset days nMonths (col + 1) in
  {| colStart := addDays tStart startOffset;
     colEnd := addDays tStart endOffset |}.

Definition columnsAll (tStart days : Z) (nMonths : nat) : list Column :=
  array_from (column tStart days nMonths) (nMonths * 4).

(** The boundaries of the columns, one more than there are columns: a
    reference definition of the partition, as the pairs of neighbouring
    boundaries. *)
Definition boundaries (tStart days : Z) (nMonths : nat) : list Z :=
  array_from (fun i => addDays tStart (colOffset days nMonths i)) (S (nMonths * 4)).

Definition columnsFromBoundaries (tStart days : Z) (nMonths : nat) : list Column :=
  map (fun p => {| colStart := fst p; colEnd := snd p |})
      (consecutive (boundaries tStart days nMonths)).

(** The number of whole days a column spans. *)
Definition colDays (c : Column) : Z :=
  differenceInCalendarDays (colEnd c) (colStart c).

End Columns.

(** The body of [resize]: the cell size for a scroller [clientWidth]
    pixels wide and [nMonths] months. *)
Definition resize (clientWidth : Z) (nMonths : nat) : Z :=
  let available := clientWidth - leftWidth - rightWidth in
  let monthsToFit := js_min MONTHS_PER_PAGE (Z.of_nat nMonths) in
  let maxCols := js_max 1 (monthsToFit * 4) in
  let ideal := available / maxCols in
  js_max MIN_CELL ideal.

(** The effect of lines 103-116 on [computedCellSize]: nothing happens
    when neither ref holds an element. *)
Definition cellSizeEffect (el : option Z) (nMonths : nat) (computedCellSize : Z) : Z :=
  match el with
  | None => computedCellSize
  | Some clientWidth => resize clientWidth nMonths
  end.

(** [minWidth] of the grid container, line 197. *)
Definition gridMinWidth (nMonths : nat) (computedCellSize : Z) : Z :=
  leftWidth + Z.of_nat (totalColumns nMonths) * computedCellSize + rightWidth.

(** ** Offsets *)

Section Offsets.

Variables (days : Z) (nMonths : nat).
Hypothesis Hn : (0 < nMonths)%nat.

Let n : Z := Z.of_nat nMonths * 4.

Let n_pos : 0 < n.
Proof. unfold n. lia. Qed.

Lemma colOffset_0 : colOffset days nMonths 0 = 0.
Proof. unfold colOffset. apply js_round_div_0. exact n_pos. Qed.

Lemma colOffset_last : colOffset days nMonths (nMonths * 4) = days.
Proof.
  unfold colOffset. rewrite Nat2Z.inj_mul. change (Z.of_nat 4) with 4.
  fold n. rewrite Z.mul_comm. apply js_round_div_mul. exact n_pos.
Qed.

Lemma colOffset_mono i j :
  0 <= days -> (i <= j)%nat -> colOffset days nMonths i <= colOffset days nMonths j.
Proof.
  intros Hd Hij. unfold colOffset. apply js_round_div_mono; [exact n_pos | nia].
Qed.

(** Consecutive offsets differ by the exact quotient [days / n], up to
    less than one day either way. *)
Lemma colOffset_step i :
  days - n < n * (colOffset days nMonths (S i) - colOffset days nMonths i) < days + n.
Proof.
  unfold colOffset. fold n.
  pose proof (js_round_div_bounds (Z.of_nat i * days) n n_pos).
  pose proof (js_round_div_bounds (Z.of_nat (S i) * days) n n_pos).
  rewrite Nat2Z.inj_succ in *. lia.
Qed.

End Offsets.

(** ** Columns *)

Section ColumnLemmas.

Context {D : DateFns}.

Variables (tStart days : Z) (nMonths : nat).

Lemma length_columnsAll :
  length (columnsAll tStart days nMonths) = (nMonths * 4)%nat.
Proof. apply length_array_from. Qed.

Lemma nth_error_columnsAll i :
  (i < nMonths * 4)%nat ->
  nth_error (columnsAll tStart days nMonths) i = Some (column tStart days nMonths i).
Proof. apply nth_error_array_from. Qed.

Lemma In_columnsAll c :
  In c (columnsAll tStart days nMonths) <->
  exists i, (i < nMonths * 4)%nat /\ c = column tStart days nMonths i.
Proof. apply In_array_from. Qed.

Lemma colDays_column i :
  colDays (column tStart days nMonths i)
  = colOffset days nMonths (S i) - colOffset days nMonths i.
Proof.
  unfold colDays, column. simpl. rewrite Nat.add_1_r.
  set (a := colOffset days nMonths i). set (b := colOffset days nMonths (S i)).
  replace (addDays tStart b) with (addDays (addDays tStart a) (b - a))
    by (rewrite addDays_add; f_equal; lia).
  apply diff_addDays.
Qed.

Lemma columnsAll_colDays :
  map colDays (columnsAll tStart days nMonths)
  = array_from (fun i => colOffset days nMonths (S i) - colOffset days nMonths i)
      (nMonths * 4).
Proof.
  unfold columnsAll, array_from. rewrite map_map.
  apply map_ext. intros i. apply colDays_column.
Qed.

Lemma column_contiguous i :
  colEnd (column tStart days nMonths i) = colStart (column tStart days nMonths (S i)).
Proof. unfold column. simpl. now rewrite Nat.add_1_r. Qed.

Lemma column_ordered i :
  0 <= days -> (0 < nMonths)%nat ->
  colStart (column tStart days nMonths i) <= colEnd (column tStart days nMonths i).
Proof.
  intros Hd Hn. unfold column. simpl. apply addDays_le_days.
  apply colOffset_mono; [exact Hn | exact Hd | lia].
Qed.

(** Every instant of the span lies in a column. *)
Lemma columns_cover d :
  (0 < nMonths)%nat ->
  tStart <= d < addDays tStart days ->
  exists i, (i < nMonths * 4)%nat /\
    colStart (column tStart days nMonths i) <= d
    < colEnd (column tStart days nMonths i).
Proof.
  intros Hn Hd. rewrite addDays_ms in Hd.
  (* the whole days elapsed at [d] *)
  set (x := (d - tStart) / msPerDay).
  assert (Hx : tStart + x * msPerDay <= d < tStart + (x + 1) * msPerDay)
    by (unfold x, msPerDay in *; zdiv).
  destruct (sequence_crossing (colOffset days nMonths) (nMonths * 4) x) as [i [Hi Hc]].
  { rewrite colOffset_0, colOffset_last by exact Hn. unfold msPerDay in *. nia. }
  exists i. split; [exact Hi|]. unfold column. simpl.
  rewrite Nat.add_1_r, !addDays_ms. unfold msPerDay in *. nia.
Qed.

End ColumnLemmas.

(** ** The size of a cell *)

Lemma resize_ge_MIN_CELL w k : MIN_CELL <= resize w k.
Proof. unfold resize. apply js_max_lower. Qed.

Lemma resize_maxCols k :
  let maxCols := js_max 1 (js_min MONTHS_PER_PAGE (Z.of_nat k) * 4) in
  1 <= maxCols <= 48 /\ ((0 < k)%nat -> maxCols = 4 * Z.min 12 (Z.of_nat k)).
Proof.
  cbv zeta. rewrite js_max_spec, js_min_spec. unfold MONTHS_PER_PAGE. lia.
Qed.

(** When the ideal size is at least the minimum, the columns of up to
    twelve months fit the viewport between the two label columns. *)
Lemma resize_fits w k :
  let maxCols := js_max 1 (js_min MONTHS_PER_PAGE (Z.of_nat k) * 4) in
  MIN_CELL * maxCols <= w - leftWidth - rightWidth ->
  leftWidth + maxCols * resize w k + rightWidth <= w.
Proof.
  cbv zeta. intros H. pose proof (resize_maxCols k) as [Hm _]. cbv zeta in Hm.
  unfold resize. set (m := js_max 1 _) in *.
  rewrite js_max_spec.
  pose proof (Z.mul_div_le (w - leftWidth - rightWidth) m ltac:(lia)).
  assert (MIN_CELL <= (w - leftWidth - rightWidth) / m)
    by (apply Z.div_le_lower_bound; lia).
  lia.
Qed.

#[export] Hint Rewrite @length_columnsAll : cal_rw.
#[export] Hint Resolve resize_ge_MIN_CELL : cal.

(** ** Properties of the grid *)

(** C3. The columns partition the span: the first column starts at
    [timelineStart], the last one ends [totalDays] days later, and each
    column ends where the next one starts. *)
Theorem columns_partition_span {D : DateFns} (tStart days : Z) (nMonths : nat) :
  (0 < nMonths)%nat ->
  let cols := columnsAll tStart days nMonths in
  (exists first rest, cols = first :: rest /\
     colStart first = tStart /\
     colEnd (last rest first) = addDays tStart days) /\
  forall i c c',
    nth_error cols i = Some c -> nth_error cols (S i) = Some c' ->
    colEnd c = colStart c'.
Proof.
  intros Hn. cbv zeta. split.
  - unfold columnsAll. destruct nMonths as [|k]; [lia|].
    destruct (array_from_first_last (column tStart days (S k)) (k * 4 + 3))
      as [rest [E L]].
    replace (S (k * 4 + 3)) with (S k * 4)%nat in E by lia.
    exists (column tStart days (S k) 0), rest. split; [exact E|]. split.
    + simpl. now rewrite colOffset_0, addDays_0 by lia.
    + rewrite L. simpl. replace (k * 4 + 3 + 1)%nat with (S k * 4)%nat by lia.
      now rewrite colOffset_last by lia.
  - intros i c c' Hc Hc'.
    apply nth_error_array_from_inv in Hc as [_ ->].
    apply nth_error_array_from_inv in Hc' as [_ ->].
    apply column_contiguous.
Qed.

(** C16. The numbers of days of the columns add up to [totalDays]. *)
Theorem column_days_sum {D : DateFns} (tStart days : Z) (nMonths : nat) :
  (0 < nMonths)%nat ->
  sumZ (map colDays (columnsAll tStart days nMonths)) = days.
Proof.
  intros Hn. rewrite columnsAll_colDays, (sumZ_telescope (colOffset days nMonths)).
  rewrite colOffset_0, colOffset_last by exact Hn. lia.
Qed.

(** The columns are balanced: each spans the exact quotient of
    [totalDays] by the number of columns, rounded down or up. *)
Theorem column_width_balanced {D : DateFns} (tStart days : Z) (nMonths : nat)
    (c : Column) :
  (0 < nMonths)%nat ->
  In c (columnsAll tStart days nMonths) ->
  let n := Z.of_nat nMonths * 4 in
  days / n <= colDays c <= (days + n - 1) / n.
Proof.
  intros Hn Hin. cbv zeta. apply In_columnsAll in Hin as [i [_ ->]].
  rewrite colDays_column. pose proof (colOffset_step days nMonths Hn i) as H.
  set (w := colOffset days nMonths (S i) - colOffset days nMonths i) in *.
  split.
  - apply Z.lt_succ_r, Z.div_lt_upper_bound; lia.
  - apply Z.div_le_lower_bound; lia.
Qed.

(** There are exactly four columns per month. *)
Theorem columns_count {D : DateFns} (tStart days : Z) (nMonths : nat) :
  length (columnsAll tStart days nMonths) = (4 * nMonths)%nat.
Proof. rewrite length_columnsAll. apply Nat.mul_comm. Qed.

(** The boundaries are rounded to the nearest day, not rounded
    down: with seven days on one month the second column starts on day 2,
    where the quotient 7/4 rounded down gives day 1. *)
Example rounding_differs_from_floor :
  colOffset 7 1 1 = 2 /\ (1 * 7) / (1 * 4) = 1 /\
  map (colOffset 7 1) [0; 1; 2; 3; 4]%nat = [0; 2; 4; 5; 7].
Proof. repeat split. Qed.

(** ** Properties of the cell size *)

(** The cell size is never below [MIN_CELL]; when the viewport has
    room for the minimum, the columns of up to twelve months at the
    computed size fit between the two label columns. *)
Theorem cell_size_bounds (clientWidth : Z) (nMonths : nat) :
  let maxCols := js_max 1 (js_min MONTHS_PER_PAGE (Z.of_nat nMonths) * 4) in
  MIN_CELL <= resize clientWidth nMonths /\
  (MIN_CELL * maxCols <= clientWidth - leftWidth - rightWidth ->
   leftWidth + maxCols * resize clientWidth nMonths + rightWidth <= clientWidth).
Proof. cbv zeta. split; [apply resize_ge_MIN_CELL | apply resize_fits]. Qed.

(** With at most twelve months and a viewport that has room for
    the minimum size, the whole grid fits the viewport: no horizontal
    scrolling is needed. *)
Theorem grid_fits_viewport (clientWidth : Z) (nMonths : nat) :
  (0 < nMonths <= 12)%nat ->
  MIN_CELL * Z.of_nat (totalColumns nMonths) <= clientWidth - leftWidth - rightWidth ->
  gridMinWidth nMonths (resize clientWidth nMonths) <= clientWidth.
Proof.
  intros Hn Hw. unfold gridMinWidth.
  pose proof (resize_maxCols nMonths) as [_ Hm]. cbv zeta in Hm.
  pose proof (resize_fits clientWidth nMonths) as Hf. cbv zeta in Hf.
  rewrite Hm in Hf by lia. unfold totalColumns in *.
  rewrite Nat2Z.inj_mul in *. change (Z.of_nat 4) with 4 in *.
  rewrite Z.min_r in Hf by lia. specialize (Hf ltac:(lia)). lia.
Qed.

(** With more than twelve months the grid is wider than the viewport,
    whatever its width: the cell size is computed for twelve months, so the
    thirteenth does not fit and the timeline scrolls. *)
Theorem more_than_twelve_months_overflow (clientWidth : Z) (nMonths : nat) :
  (12 < nMonths)%nat -> clientWidth < gridMinWidth nMonths (resize clientWidth nMonths).
Proof.
  intros Hn. unfold gridMinWidth, resize, totalColumns. cbv zeta.
  rewrite Nat2Z.inj_mul. change (Z.of_nat 4) with 4. unfold MONTHS_PER_PAGE.
  rewrite (js_min_spec 12), Z.min_l by lia. change (js_max 1 (12 * 4)) with 48.
  rewrite js_max_spec. unfold MIN_CELL, leftWidth, rightWidth.
  assert (13 <= Z.of_nat nMonths) by lia.
  set (q := (clientWidth - 160 - 120) / 48).
  assert (Hq : 48 * q <= clientWidth - 160 - 120 < 48 * q + 48) by (subst q; zdiv).
  nia.
Qed.

(** ** Witnesses *)

Lemma columns_partition_span_witness :
  (0 < 2)%nat /\
  let cols := columnsAll 0 31 2 in
  (exists first rest, cols = first :: rest /\
     colStart first = 0 /\
     colEnd (last rest first) = addDays 0 31) /\
  forall i c c',
    nth_error cols i = Some c -> nth_error cols (S i) = Some c' ->
    colEnd c = colStart c'.
Proof. split; [lia|]. apply (columns_partition_span 0 31 2). lia. Defined.

Lemma column_days_sum_witness :
  (0 < 2)%nat /\ sumZ (map colDays (columnsAll 0 31 2)) = 31.
Proof. split; [lia|]. apply (column_days_sum 0 31 2). lia. Defined.

Lemma column_width_balanced_witness :
  (0 < 2)%nat /\ In (column 0 31 2 3) (columnsAll 0 31 2) /\
  31 / (Z.of_nat 2 * 4) <= colDays (column 0 31 2 3)
  <= (31 + Z.of_nat 2 * 4 - 1) / (Z.of_nat 2 * 4).
Proof.
  split; [lia|]. split; [simpl; tauto|].
  apply (column_width_balanced 0 31 2 (column 0 31 2 3)); [lia | simpl; tauto].
Defined.

Lemma grid_fits_viewport_witness :
  (0 < 3 <= 12)%nat /\
  MIN_CELL * Z.of_nat (totalColumns 3) <= 1000 - leftWidth - rightWidth /\
  gridMinWidth 3 (resize 1000 3) <= 1000.
Proof.
  split; [lia|]. split; [vm_compute; discriminate|].
  apply (grid_fits_viewport 1000 3); [lia | vm_compute; discriminate].
Defined.

(** The day spans of eight columns over 31 days. *)
Example sample_column_days :
  map colDays (columnsAll 0 31 2) = [4; 4; 4; 4; 3; 4; 4; 4].
Proof. vm_compute. reflexivity. Qed.

(** The columns computed by index are the columns of the reference
    partition: the pairs of neighbours among the [4 * months + 1]
    boundaries [addDays timelineStart (round (i * totalDays / columns))],
    so that the end of one column and the start of the next are one
    value. *)
Theorem columns_from_boundaries {D : DateFns} (tStart days : Z) (nMonths : nat) :
  columnsAll tStart days nMonths = columnsFromBoundaries tStart days nMonths /\
  length (boundaries tStart days nMonths) = S (length (columnsAll tStart days nMonths)).
Proof.
  unfold columnsFromBoundaries, boundaries. rewrite consecutive_array_from. split.
  - unfold columnsAll, array_from, column. rewrite map_map. apply map_ext.
    intros i. cbn. now rewrite Nat.add_1_r.
  - unfold columnsAll. now rewrite !length_array_from.
Qed.
