(* ===== verification/Render.v ===== *)
(** * Render: the cells of a row and the whole timeline

    [renderRow] (lines 119-135 of
    [src/client/src/components/ProjectCalendar.jsx]) fills the cell of a
    column with the colour of the row's status when the row's interval
    overlaps the column's, and leaves it transparent otherwise.
    [statusColors] is the table of lines 5-10.  [projectCalendar] composes
    the stages of the component in the order of the source: rows, range,
    months, columns.

    The columns divide the span evenly while the headers above them name
    calendar months: [underItsHeader] says when a column shows dates of
    the month named above it, and the theorems say when that fails, and
    when there is no column at all. *)

From Stdlib Require Import ZArith Lia Bool String List.
From S2P Require Import Prelude JsDate DateFns Rows Timeline Columns.
Import ListNotations.

#[local] Open Scope Z_scope.

(** ** Data *)

(** What [renderRow] returns: the label on the left, one background per
    column, the start date on the right. *)
Record RenderedRow : Type := {
  cellLabel : string;
  cellBackgrounds : list string;
  cellDate : string
}.

(** The values the component derives from its props. *)
Record Calendar : Type := {
  cal_rows : list Row;
  cal_span : TimelineSpan;
  cal_months : list MonthSeg;
  cal_columns : list Column
}.

(** ** Operations *)

Definition statusColors (s : RowStatus) : string :=
  match s with
  | LATE => "#3b82f6"
  | OVERDUE => "#ef4444"
  | UNDERWAY => "#fb923c"
  | DEFAULT => "#c7c7c7"
  end.

(** [(row.start < c.colEnd) && (row.end > c.colStart)] *)
Definition overlap (row : Row) (c : Column) : bool :=
  (row_start row <? colEnd c) && (colStart c <? row_end row).

Definition cellBackground (row : Row) (c : Column) : string :=
  if overlap row c then statusColors (row_status row) else "transparent".

Section Render.

Context {D : DateFns}.

Definition renderRow (visibleColumns : list Column) (row : Row) : RenderedRow :=
  {| cellLabel := row_name row;
     cellBackgrounds := map (cellBackground row) visibleColumns;
     cellDate := format (row_start row) "MMM d" |}.

(** The derived values of one render: [today] is the clock read by the
    row builder, [now] the clock read by the range calculator. *)
Definition projectCalendar (tasks : list Task) (project : option Project)
    (today now : Z) : Calendar :=
  let rs := rows project today tasks in
  let tl := timeline now rs in
  let months := monthsAll (timelineStart tl) (timelineEnd tl) in
  let cols := columnsAll (timelineStart tl) (totalDays tl) (length months) in
  {| cal_rows := rs; cal_span := tl; cal_months := months; cal_columns := cols |}.

(** The rows as drawn. *)
Definition renderRows (cal : Calendar) : list RenderedRow :=
  map (renderRow (cal_columns cal)) (cal_rows cal).

(** ** Specifications *)



End Render.

(** ** The overlap test *)

Lemma overlap_true row c :
  overlap row c = true <-> row_start row < colEnd c /\ colStart c < row_end row.
Proof. unfold overlap. rewrite andb_true_iff, !Z.ltb_lt. tauto. Qed.

Lemma overlap_false row c :
  overlap row c = false <-> colEnd c <= row_start row \/ row_end row <= colStart c.
Proof.
  unfold overlap. rewrite andb_false_iff, !Z.ltb_ge. tauto.
Qed.

(** Two intervals that are not empty overlap exactly when they share an
    instant. *)
Lemma overlap_common_instant row c :
  row_start row < row_end row -> colStart c < colEnd c ->
  (overlap row c = true <->
   exists t, row_start row <= t < row_end row /\ colStart c <= t < colEnd c).
Proof.
  intros Hr Hc. rewrite overlap_true. split.
  - intros [H1 H2]. exists (Z.max (row_start row) (colStart c)). lia.
  - intros [t Ht]. lia.
Qed.

Lemma cellBackground_filled row c :
  overlap row c = true -> cellBackground row c = statusColors (row_status row).
Proof. intros H. unfold cellBackground. now rewrite H. Qed.

Lemma cellBackground_empty row c :
  overlap row c = false -> cellBackground row c = "transparent"%string.
Proof. intros H. unfold cellBackground. now rewrite H. Qed.

Lemma statusColors_not_transparent s : statusColors s <> "transparent"%string.
Proof. destruct s; discriminate. Qed.

Lemma statusColors_inj s1 s2 : statusColors s1 = statusColors s2 -> s1 = s2.
Proof. destruct s1, s2; simpl; intros H; try reflexivity; discriminate. Qed.

(** ** Rows against the columns of the timeline *)

Section RowsAndColumns.

Context {D : DateFns}.

Variables (tStart days : Z) (nMonths : nat).

(** The filled cells of a row are consecutive. *)
Lemma overlap_convex row i j k :
  0 <= days -> (0 < nMonths)%nat -> (i <= j <= k)%nat ->
  overlap row (column tStart days nMonths i) = true ->
  overlap row (column tStart days nMonths k) = true ->
  overlap row (column tStart days nMonths j) = true.
Proof.
  intros Hd Hn [Hij Hjk]. rewrite !overlap_true. unfold column. simpl.
  intros [Hi _] [_ Hk].
  pose proof (colOffset_mono days nMonths Hn (i + 1) (j + 1) Hd ltac:(lia)) as H1.
  pose proof (colOffset_mono days nMonths Hn j k Hd Hjk) as H2.
  apply (addDays_le_days tStart) in H1, H2. lia.
Qed.

(** A row that starts inside the span and has a positive length is
    drawn in the column that contains its start. *)
Lemma overlap_exists row :
  (0 < nMonths)%nat -> row_start row < row_end row ->
  tStart <= row_start row < addDays tStart days ->
  exists i, (i < nMonths * 4)%nat /\ overlap row (column tStart days nMonths i) = true.
Proof.
  intros Hn Hr Hs.
  destruct (columns_cover tStart days nMonths (row_start row) Hn Hs) as [i [Hi Hc]].
  exists i. split; [exact Hi|]. apply overlap_true. lia.
Qed.

End RowsAndColumns.

(** ** The whole timeline *)

Section Calendar.

Context {D : DateFns}.

Variables (tasks : list Task) (project : option Project) (today now : Z).

#[local] Abbreviation cal := (projectCalendar tasks project today now).

Lemma cal_columns_eq :
  cal_columns cal
  = columnsAll (timelineStart (cal_span cal)) (totalDays (cal_span cal))
      (length (cal_months cal)).
Proof. reflexivity. Qed.

Lemma cal_months_run :
  MonthsRun (timelineEnd (cal_span cal)) (startOfMonth (timelineStart (cal_span cal)))
    (cal_months cal).
Proof. apply monthsAll_run. Qed.

Lemma cal_months_nonempty :
  timelineStart (cal_span cal) <= timelineEnd (cal_span cal) ->
  (0 < length (cal_months cal))%nat.
Proof.
  intros H. pose proof (startOfMonth_le (timelineStart (cal_span cal))).
  destruct (MonthsRun_head _ _ _ cal_months_run ltac:(lia)) as [l' E].
  rewrite E. simpl. lia.
Qed.

(** A row of the timeline lies inside the span, seven days from either
    end. *)
Lemma cal_row_inside r :
  In r (cal_rows cal) ->
  addDays (timelineStart (cal_span cal)) 7 <= row_start r /\
  row_end r <= addDays (timelineEnd (cal_span cal)) (-7).
Proof. apply timeline_covers. Qed.

Lemma cal_row_start_in_span r :
  In r (cal_rows cal) -> row_start r < row_end r ->
  timelineStart (cal_span cal) <= row_start r
  < addDays (timelineStart (cal_span cal)) (totalDays (cal_span cal)).
Proof.
  intros Hin Hr. destruct (cal_row_inside r Hin) as [Hlo Hhi].
  pose proof (timeline_end_lt now (cal_rows cal)) as He. cbv zeta in He.
  fold (cal_span cal) in He. change (timeline now (cal_rows cal)) with (cal_span cal) in He.
  rewrite !addDays_ms in *. unfold msPerDay in *. lia.
Qed.

Lemma cal_row_span_ordered r :
  In r (cal_rows cal) -> row_start r < row_end r ->
  timelineStart (cal_span cal) <= timelineEnd (cal_span cal).
Proof.
  intros Hin Hr. destruct (cal_row_inside r Hin) as [Hlo Hhi].
  rewrite !addDays_ms in *. unfold msPerDay in *. lia.
Qed.

Lemma cal_row_drawn r :
  In r (cal_rows cal) -> row_start r < row_end r ->
  exists c, In c (cal_columns cal) /\ overlap r c = true.
Proof.
  intros Hin Hr.
  pose proof (cal_months_nonempty (cal_row_span_ordered r Hin Hr)) as Hn.
  destruct (overlap_exists _ _ _ r Hn Hr (cal_row_start_in_span r Hin Hr)) as [i [Hi Ho]].
  eexists. split; [|exact Ho]. rewrite cal_columns_eq. apply In_columnsAll. eauto.
Qed.

(** Without a month there is no column, and no row has a cell. *)
Lemma cal_no_month :
  cal_months cal = [] ->
  cal_columns cal = [] /\ forall rr, In rr (renderRows cal) -> cellBackgrounds rr = [].
Proof.
  intros Hm. assert (cal_columns cal = []) as Hc by (now rewrite cal_columns_eq, Hm).
  split; [exact Hc|]. unfold renderRows. intros rr Hin.
  apply in_map_iff in Hin as [r [<- _]]. unfold renderRow. cbn [cellBackgrounds].
  now rewrite Hc.
Qed.




End Calendar.

(** ** A project that starts after its tasks are due *)

Section LateProject.

Context {D : DateFns}.

Variables (tasks : list Task) (p : Project) (start today now : Z).

Hypothesis has_task : tasks <> [].
Hypothesis starts : project_start_date p = Some start.

#[local] Abbreviation late := (projectCalendar tasks (Some p) today now).

Lemma late_rows_nonempty : cal_rows late <> [].
Proof.
  intros H. apply (f_equal (@length Row)) in H. cbn [cal_rows projectCalendar] in H.
  rewrite length_rows in H. destruct tasks; [now apply has_task|]. cbn in H. lia.
Qed.

(** Every row starts on the project's start date and ends on the due
    date of its task. *)
Lemma late_row r :
  In r (cal_rows late) ->
  row_start r = start /\ exists t, In t tasks /\ row_end r = js_or (task_due_date t) (addDays start 1).
Proof.
  intros Hin. apply rows_In in Hin as (t & Ht & ->).
  assert (rowStart (Some p) today t = start) as Hs by (now apply (rowStart_project _ _ p)).
  split; [exact Hs|]. exists t. split; [exact Ht|]. cbn. now rewrite Hs.
Qed.

(** The range runs from a week before the project's start to a week
    after the latest due date. *)
Lemma late_span :
  timelineStart (cal_span late) = addDays start (-7) /\
  exists t, In t tasks /\
    timelineEnd (cal_span late) = addDays (js_or (task_due_date t) (addDays start 1)) 7.
Proof.
  destruct (timeline_is_tight now _ late_rows_nonempty) as (r1 & r2 & H1 & H2 & Hs & He).
  destruct (late_row r1 H1) as [E1 _]. destruct (late_row r2 H2) as [_ (t & Ht & E2)].
  split; [now rewrite <- E1|]. exists t. split; [exact Ht|]. now rewrite <- E2.
Qed.

End LateProject.

(** ** Properties of the overlap test *)

(** The overlap test is the intersection of half-open intervals: a
    row that ends exactly where a column starts, or starts exactly where
    it ends, does not fill its cell, and for intervals that are not empty
    the cell is filled exactly when the row and the column share an
    instant. *)
Theorem overlap_half_open (row : Row) (c : Column) :
  (row_end row = colStart c -> overlap row c = false) /\
  (row_start row = colEnd c -> overlap row c = false) /\
  (row_start row < row_end row -> colStart c < colEnd c ->
   (overlap row c = true <->
    exists t, row_start row <= t < row_end row /\ colStart c <= t < colEnd c)).
Proof.
  split; [|split].
  - intros H. apply overlap_false. lia.
  - intros H. apply overlap_false. lia.
  - apply overlap_common_instant.
Qed.

(** ** Properties of the whole timeline *)

(** C1. Every row of the timeline that ends after it starts is visible:
    at least one column of the grid overlaps it, and the cell of that
    column is painted in the colour of the row's status. *)
Theorem row_is_drawn {D : DateFns} (tasks : list Task) (project : option Project)
    (today now : Z) (r : Row) :
  let cal := projectCalendar tasks project today now in
  In r (cal_rows cal) -> row_start r < row_end r ->
  exists c, In c (cal_columns cal) /\ overlap r c = true /\
            cellBackground r c = statusColors (row_status r).
Proof.
  cbv zeta. intros Hin Hr.
  destruct (cal_row_drawn tasks project today now r Hin Hr) as [c [Hc Ho]].
  exists c. split; [exact Hc|]. split; [exact Ho|]. now apply cellBackground_filled.
Qed.

(** C33. The filled cells of a row are consecutive: a cell between two
    filled cells of the same row is filled. *)
Theorem filled_cells_consecutive {D : DateFns} (tasks : list Task)
    (project : option Project) (today now : Z) (r : Row) (i j k : nat)
    (ci cj ck : Column) :
  let cols := cal_columns (projectCalendar tasks project today now) in
  (i <= j <= k)%nat ->
  nth_error cols i = Some ci -> nth_error cols j = Some cj ->
  nth_error cols k = Some ck ->
  overlap r ci = true -> overlap r ck = true -> overlap r cj = true.
Proof.
  cbv zeta. intros Hijk Hi Hj Hk. rewrite cal_columns_eq in Hi, Hj, Hk.
  apply nth_error_array_from_inv in Hi as [Hlt ->].
  apply nth_error_array_from_inv in Hj as [_ ->].
  apply nth_error_array_from_inv in Hk as [_ ->].
  apply overlap_convex; [|lia|exact Hijk].
  pose proof (totalDays_ge_1 now (rows project today tasks)). simpl. lia.
Qed.

(** Each rendered row has one cell per column, and the grid has
    four columns per month. *)
Theorem rendered_cells_count {D : DateFns} (tasks : list Task)
    (project : option Project) (today now : Z) (rr : RenderedRow) :
  let cal := projectCalendar tasks project today now in
  In rr (renderRows cal) ->
  length (cellBackgrounds rr) = (4 * length (cal_months cal))%nat.
Proof.
  cbv zeta. unfold renderRows. intros Hin.
  apply in_map_iff in Hin as [r [<- _]]. unfold renderRow. cbn [cellBackgrounds].
  rewrite length_map, cal_columns_eq, length_columnsAll. apply Nat.mul_comm.
Qed.

(** C35. A project that starts after its tasks are due has no column.
    When the project has a start date and every task is due more than a
    week before the first day of the month of the day a week before that
    start date, the range is reversed, the month loop never runs and the
    grid has no column: there are rows, and none of them has a cell. *)
Theorem reversed_span_has_no_column {D : DateFns} (tasks : list Task) (p : Project)
    (start today now : Z) :
  tasks <> [] ->
  project_start_date p = Some start ->
  (forall t, In t tasks ->
     exists e, task_due_date t = Some e /\ addDays e 7 < startOfMonth (addDays start (-7))) ->
  let cal := projectCalendar tasks (Some p) today now in
  cal_rows cal <> [] /\
  timelineEnd (cal_span cal) < startOfMonth (timelineStart (cal_span cal)) /\
  cal_months cal = [] /\ cal_columns cal = [] /\
  forall rr, In rr (renderRows cal) -> cellBackgrounds rr = [].
Proof.
  cbv zeta. intros Ht Hs Hdue.
  destruct (late_span tasks p start today now Ht Hs) as [E1 (t & Hin & E2)].
  destruct (Hdue t Hin) as (e & He & Hlt). rewrite He in E2. cbn [js_or] in E2.
  assert (timelineEnd (cal_span (projectCalendar tasks (Some p) today now))
          < startOfMonth (timelineStart (cal_span (projectCalendar tasks (Some p) today now))))
    as Hrev by (now rewrite E1, E2).
  split; [now apply late_rows_nonempty|]. split; [exact Hrev|].
  assert (cal_months (projectCalendar tasks (Some p) today now) = []) as Hm
    by (now apply monthsAll_nil).
  split; [exact Hm|]. now apply cal_no_month.
Qed.


(** ** Scenarios *)

(** A task due on 1 January 2025 in a project that starts on 20 March
    2025, viewed on 1 March 2025. *)
Definition lateProject : option Project :=
  Some {| project_start_date := Some (DateUTC 2025 2 20) |}.

Definition earlyTask : Task :=
  {| task_id := "t1"; task_title := Some "Survey"%string;
     task_due_date := Some (DateUTC 2025 0 1); task_createdAt := None;
     task_status := "TODO" |}.

(** A task created on 5 February 2025 and due on 24 February 2025, viewed
    on 1 February 2025. *)
Definition febTask : Task :=
  {| task_id := "t2"; task_title := Some "Audit"%string;
     task_due_date := Some (DateUTC 2025 1 24);
     task_createdAt := Some (DateUTC 2025 1 5);
     task_status := "TODO" |}.

Definition febCalendar : Calendar :=
  projectCalendar [febTask] None (DateUTC 2025 1 1) (DateUTC 2025 1 1).

(** The task due on 1 January in the project that starts on 20 March: one
    row and no column. *)
Example reversed_span_sample :
  let cal := projectCalendar [earlyTask] lateProject (DateUTC 2025 2 1) (DateUTC 2025 2 1) in
  length (cal_rows cal) = 1%nat /\
  timelineEnd (cal_span cal) < timelineStart (cal_span cal) /\
  cal_months cal = [] /\ cal_columns cal = [] /\
  map cellBackgrounds (renderRows cal) = [[]].
Proof. vm_compute. repeat split. Qed.

(** The timeline of a task that runs from 5 to 24 February 2025 has the
    months January, February and March; its third column, under the
    header of January, covers 4 to 6 February, and the row is painted
    there and under March although it lies within February. *)
Example misaligned_sample :
  map monthStart (cal_months febCalendar)
  = [DateUTC 2025 0 1; DateUTC 2025 1 1; DateUTC 2025 2 1] /\
  nth_error (cal_columns febCalendar) 2
  = Some {| colStart := DateUTC 2025 1 4; colEnd := DateUTC 2025 1 6 |} /\
  map cellBackgrounds (renderRows febCalendar)
  = [["transparent"; "transparent"; "#fb923c"; "#fb923c";
      "#fb923c"; "#fb923c"; "#fb923c"; "#fb923c";
      "#fb923c"; "#fb923c"; "transparent"; "transparent"]%string].
Proof. vm_compute. repeat split. Qed.

(** ** Witnesses *)

Lemma row_is_drawn_witness :
  let r := buildRow None (DateUTC 2025 1 1) febTask in
  In r (cal_rows febCalendar) /\ row_start r < row_end r /\
  exists c, In c (cal_columns febCalendar) /\ overlap r c = true /\
            cellBackground r c = statusColors (row_status r).
Proof.
  cbv zeta. split; [now left|]. split; [reflexivity|].
  apply (row_is_drawn [febTask] None (DateUTC 2025 1 1) (DateUTC 2025 1 1));
    [now left | reflexivity].
Defined.

Lemma filled_cells_consecutive_witness :
  let r := buildRow None (DateUTC 2025 1 1) febTask in
  let cols := cal_columns febCalendar in
  (2 <= 5 <= 9)%nat /\
  nth_error cols 2 = Some (column (DateUTC 2025 0 29) 33 3 2) /\
  nth_error cols 5 = Some (column (DateUTC 2025 0 29) 33 3 5) /\
  nth_error cols 9 = Some (column (DateUTC 2025 0 29) 33 3 9) /\
  overlap r (column (DateUTC 2025 0 29) 33 3 2) = true /\
  overlap r (column (DateUTC 2025 0 29) 33 3 9) = true /\
  overlap r (column (DateUTC 2025 0 29) 33 3 5) = true.
Proof.
  cbv zeta. split; [lia|]. do 5 (split; [reflexivity|]).
  apply (filled_cells_consecutive [febTask] None (DateUTC 2025 1 1) (DateUTC 2025 1 1)
           (buildRow None (DateUTC 2025 1 1) febTask) 2 5 9
           (column (DateUTC 2025 0 29) 33 3 2) (column (DateUTC 2025 0 29) 33 3 5)
           (column (DateUTC 2025 0 29) 33 3 9));
    [lia | reflexivity ..].
Defined.

Lemma rendered_cells_count_witness :
  let rr := renderRow (cal_columns febCalendar) (buildRow None (DateUTC 2025 1 1) febTask) in
  In rr (renderRows febCalendar) /\
  length (cellBackgrounds rr) = (4 * length (cal_months febCalendar))%nat.
Proof.
  cbv zeta. split; [now left|].
  apply (rendered_cells_count [febTask] None (DateUTC 2025 1 1) (DateUTC 2025 1 1)).
  now left.
Defined.

Lemma earlyTask_due (t : Task) :
  In t [earlyTask] ->
  exists e, task_due_date t = Some e /\
            addDays e 7 < startOfMonth (addDays (DateUTC 2025 2 20) (-7)).
Proof. intros [<-|[]]. exists (DateUTC 2025 0 1). split; [reflexivity|]. now vm_compute. Qed.

Lemma reversed_span_has_no_column_witness :
  let cal := projectCalendar [earlyTask] lateProject (DateUTC 2025 2 1) (DateUTC 2025 2 1) in
  cal_rows cal <> [] /\
  timelineEnd (cal_span cal) < startOfMonth (timelineStart (cal_span cal)) /\
  cal_months cal = [] /\ cal_columns cal = [] /\
  forall rr, In rr (renderRows cal) -> cellBackgrounds rr = [].
Proof.
  exact (reversed_span_has_no_column [earlyTask]
           {| project_start_date := Some (DateUTC 2025 2 20) |} (DateUTC 2025 2 20) (DateUTC 2025 2 1)
           (DateUTC 2025 2 1) ltac:(discriminate) eq_refl earlyTask_due).
Defined.





(** ** The viewer's time zone

    The theorems above hold for every model of [DateFns], so in every
    zone at a fixed offset; the calendar itself depends on the zone. *)

(** A task created on 7 February 2025 at 20:00 UTC and due two weeks
    later at the same hour. *)
Definition eveningTask : Task :=
  {| task_id := "t3"; task_title := Some "Handover"%string;
     task_due_date := Some (DateUTC 2025 1 21 + 20 * 3600000);
     task_createdAt := Some (DateUTC 2025 1 7 + 20 * 3600000);
     task_status := "TODO" |}.

(** Seen from UTC the timeline runs over January and February and the
    row starts on 7 February; seen from Jakarta it runs over February and
    March and the row starts on 8 February. *)
Example calendar_depends_on_zone :
  let utc := projectCalendar (D := utcDateFns) [eveningTask] None (DateUTC 2025 1 1)
               (DateUTC 2025 1 1) in
  let wib := projectCalendar (D := wibDateFns) [eveningTask] None (DateUTC 2025 1 1)
               (DateUTC 2025 1 1) in
  map label (cal_months utc) = ["January 2025"; "February 2025"]%string /\
  map label (cal_months wib) = ["February 2025"; "March 2025"]%string /\
  map cellDate (renderRows (D := utcDateFns) utc) = ["Feb 7"]%string /\
  map cellDate (renderRows (D := wibDateFns) wib) = ["Feb 8"]%string.
Proof. now vm_compute. Qed.
