(* ===== verification/Grid.v ===== *)
(** * Grid: the markup of the timeline and where the browser puts it

    The [return] of [ProjectCalendar]
    ([src/client/src/components/ProjectCalendar.jsx], lines 137-235): the
    legend, the width of the container, the column template of the grid
    and the children of the grid in document order: a header of month
    names that span four columns each, a row of week labels, and the rows
    of the timeline as [renderRow] returns them, or a placeholder when
    there is no row.

    The children carry no row and, but for the placeholder's message, no
    column: the browser places them one after the other.  [place] and
    [layout] follow the auto-placement of CSS Grid Layout (sparse packing,
    row flow) for the three forms of [grid-column] the component uses;
    [tracks] is the browser's reading of the template.  The theorems show
    that this placement is the table the component means: the cell of
    column [i] of every row lies in the grid column of week label [i],
    under the header of month [i / 4]; and that it is no table at all
    when the timeline has no month, since the template is then
    invalid. *)

From Stdlib Require Import ZArith Lia Bool String List.
From S2P Require Import Prelude JsDate DateFns Rows Timeline Columns Render.
Import ListNotations.

#[local] Open Scope string_scope.
#[local] Open Scope list_scope.
#[local] Open Scope nat_scope.

(** ** Data *)

(** What a child of the grid shows. *)
Inductive Content : Type :=
| Blank
| MonthHeader (text : string)
| WeekLabel (text : string)
| EmptyCell
| Message (text : string)
| RowLabel (name : string)
| Cell (background : string)
| RowDate (text : string).

(** The style [gridColumn] of a child: absent, [span n], or
    [first / last] between two grid lines, numbered from 1. *)
Inductive GridColumn : Type :=
| Auto
| Span (n : nat)
| FromTo (first last : nat).

(** A child of the grid; [boxSize] is the [width] and [height] of its
    style, when it has them. *)
Record Child : Type := {
  content : Content;
  gridColumn : GridColumn;
  boxSize : option Z
}.

(** [gridTemplateColumns]: [<left>px repeat(<count>, <cell>px) <right>px]. *)
Record Template : Type := {
  template_left : Z;
  template_count : nat;
  template_cell : Z;
  template_right : Z
}.

Record LegendEntry : Type := {
  legendColor : string;
  legendText : string
}.

(** What the component returns. *)
Record Markup : Type := {
  markup_legend : list LegendEntry;
  markup_minWidth : Z;
  markup_template : Template;
  markup_children : list Child
}.

(** A child where the browser put it: its row and first column, numbered
    from 0, and the number of columns it covers. *)
Record Placed : Type := {
  item : Child;
  at_row : nat;
  at_col : nat;
  at_span : nat
}.

(** The auto-placement cursor: the row being filled and the first column
    of it that is free. *)
Record Cursor : Type := {
  cur_row : nat;
  cur_free : nat
}.

(** ** The markup *)

(** Lines 144-154. *)
Definition legend : list LegendEntry :=
  [ {| legendColor := statusColors LATE; legendText := "Late" |};
    {| legendColor := statusColors OVERDUE; legendText := "Overdue" |};
    {| legendColor := statusColors UNDERWAY; legendText := "Underway" |} ].

Definition gridTemplateColumns (totalColumns : nat) (computedCellSize : Z) : Template :=
  {| template_left := leftWidth; template_count := totalColumns;
     template_cell := computedCellSize; template_right := rightWidth |}.

(** [<div />] *)
Definition blank : Child := {| content := Blank; gridColumn := Auto; boxSize := None |}.

Definition weekNames : list string := ["I"; "II"; "III"; "IV"].

Section Markup.

Context {D : DateFns}.
Variable computedCellSize : Z.

(** Line 203. *)
Definition monthHeader (m : MonthSeg) : Child :=
  {| content := MonthHeader (format (monthStart m) "MMM yyyy");
     gridColumn := Span 4; boxSize := None |}.

(** Line 211. *)
Definition weekLabel (wk : string) : Child :=
  {| content := WeekLabel wk; gridColumn := Auto; boxSize := Some computedCellSize |}.

(** Line 220. *)
Definition emptyCell : Child :=
  {| content := EmptyCell; gridColumn := Auto; boxSize := Some computedCellSize |}.

(** Line 222. *)
Definition message (totalColumns : nat) : Child :=
  {| content := Message "No tasks available to build the timeline.";
     gridColumn := FromTo 1 (totalColumns + 3); boxSize := None |}.

(** Lines 127-129. *)
Definition cell (background : string) : Child :=
  {| content := Cell background; gridColumn := Auto; boxSize := Some computedCellSize |}.

(** The fragment [renderRow] returns, lines 121-134. *)
Definition rowChildren (r : RenderedRow) : list Child :=
  {| content := RowLabel (cellLabel r); gridColumn := Auto; boxSize := None |}
  :: map cell (cellBackgrounds r)
  ++ [ {| content := RowDate (cellDate r); gridColumn := Auto; boxSize := None |} ].

(** Lines 201-205. *)
Definition headerRow (months : list MonthSeg) : list Child :=
  blank :: map monthHeader months ++ [blank].

(** Lines 208-214. *)
Definition weekRow (months : list MonthSeg) : list Child :=
  blank :: flat_map (fun _ => map weekLabel weekNames) months ++ [blank].

(** Lines 218-223. *)
Definition placeholder (totalColumns : nat) : list Child :=
  blank :: array_from (fun _ => emptyCell) totalColumns ++ [blank; message totalColumns].

(** Lines 217-230. *)
Definition rowsArea (cal : Calendar) : list Child :=
  match cal_rows cal with
  | [] => placeholder (totalColumns (length (cal_months cal)))
  | rs => flat_map (fun r => rowChildren (renderRow (cal_columns cal) r)) rs
  end.

(** The children of the grid, lines 200-230. *)
Definition gridChildren (cal : Calendar) : list Child :=
  headerRow (cal_months cal) ++ weekRow (cal_months cal) ++ rowsArea cal.

(** Lines 137-235. *)
Definition markup (cal : Calendar) : Markup :=
  let n := totalColumns (length (cal_months cal)) in
  {| markup_legend := legend;
     markup_minWidth := gridMinWidth (length (cal_months cal)) computedCellSize;
     markup_template := gridTemplateColumns n computedCellSize;
     markup_children := gridChildren cal |}.

End Markup.

(** ** The browser *)

(** The tracks of a template.  [repeat] needs a positive count: with a
    count of 0 the declaration is invalid and the grid has no explicit
    column. *)
Definition tracks (t : Template) : list Z :=
  match template_count t with
  | O => []
  | n => template_left t :: repeat (template_cell t) n ++ [template_right t]
  end.

(** The number of columns a child covers. *)
Definition span (g : GridColumn) : nat :=
  match g with
  | Auto => 1
  | Span n => n
  | FromTo first last => last - first
  end.

(** The number of columns a child needs the grid to have. *)
Definition needed (g : GridColumn) : nat :=
  match g with
  | FromTo _ last => last - 1
  | g => span g
  end.

(** The columns of the implicit grid: those of the template, at least
    one, and as many as a child needs. *)
Definition implicitColumns (explicit : nat) (l : list Child) : nat :=
  fold_left (fun n ch => Nat.max n (needed (gridColumn ch))) l (Nat.max 1 explicit).

Definition placeAt (ch : Child) (row col : nat) : Placed * Cursor :=
  ({| item := ch; at_row := row; at_col := col; at_span := span (gridColumn ch) |},
   {| cur_row := row; cur_free := col + span (gridColumn ch) |}).

(** One step of the auto-placement in a grid of [N] columns.  A child
    with a column of its own goes to that column, on the next row when the
    column is taken or behind the cursor; any other child goes to the
    first free column when it fits in the row, else to the start of the
    next row. *)
Definition place (N : nat) (c : Cursor) (ch : Child) : Placed * Cursor :=
  match gridColumn ch with
  | FromTo first _ =>
      let col := first - 1 in
      placeAt ch (if col <? cur_free c then S (cur_row c) else cur_row c) col
  | _ =>
      if cur_free c + span (gridColumn ch) <=? N
      then placeAt ch (cur_row c) (cur_free c)
      else placeAt ch (S (cur_row c)) 0
  end.

Fixpoint placeAll (N : nat) (c : Cursor) (l : list Child) : list Placed :=
  match l with
  | [] => []
  | ch :: l => fst (place N c ch) :: placeAll N (snd (place N c ch)) l
  end.

(** The children of a markup where the browser puts them. *)
Definition layout (m : Markup) : list Placed :=
  placeAll (implicitColumns (length (tracks (markup_template m))) (markup_children m))
           {| cur_row := 0; cur_free := 0 |} (markup_children m).

(** The left edge of a grid column, in pixels from the left edge of the
    grid. *)
Definition columnLeft (t : Template) (col : nat) : Z := sumZ (firstn col (tracks t)).

(** ** The table the component means *)

(** The children of one line, side by side on [row] from [col] on. *)
Fixpoint lineFrom (row col : nat) (l : list Child) : list Placed :=
  match l with
  | [] => []
  | ch :: l => fst (placeAt ch row col) :: lineFrom row (col + span (gridColumn ch)) l
  end.

(** Lines of children, one below the other from [row] on. *)
Fixpoint tableFrom (row : nat) (lines : list (list Child)) : list Placed :=
  match lines with
  | [] => []
  | l :: lines => lineFrom row 0 l ++ tableFrom (S row) lines
  end.

Definition sumSpan (l : list Child) : nat :=
  list_sum (map (fun ch => span (gridColumn ch)) l).

(** A child the browser places by the cursor alone. *)
Definition flowing (ch : Child) : bool :=
  match gridColumn ch with
  | FromTo _ _ => false
  | g => 0 <? span g
  end.

(** A line that fills a row of [N] columns exactly. *)
Definition fullLine (N : nat) (l : list Child) : bool :=
  forallb flowing l && (sumSpan l =? N).

(** ** The placement of lines *)

Lemma sumSpan_cons (ch : Child) (l : list Child) :
  sumSpan (ch :: l) = span (gridColumn ch) + sumSpan l.
Proof. reflexivity. Qed.

Lemma sumSpan_app (l1 l2 : list Child) : sumSpan (l1 ++ l2) = sumSpan l1 + sumSpan l2.
Proof. unfold sumSpan. now rewrite map_app, list_sum_app. Qed.

Lemma sumSpan_units {A : Type} (f : A -> Child) (xs : list A) (s : nat) :
  (forall x, span (gridColumn (f x)) = s) -> sumSpan (map f xs) = s * length xs.
Proof.
  intros Hf. unfold sumSpan. induction xs as [|x xs IH]; cbn [map length].
  - now rewrite Nat.mul_0_r.
  - change (list_sum (?a :: ?l)) with (a + list_sum l). rewrite Hf, IH. lia.
Qed.

Lemma lineFrom_app (row col : nat) (l1 l2 : list Child) :
  lineFrom row col (l1 ++ l2) = lineFrom row col l1 ++ lineFrom row (col + sumSpan l1) l2.
Proof.
  revert col. induction l1 as [|ch l1 IH]; intros col; cbn [app lineFrom].
  - change (sumSpan []) with 0. now rewrite Nat.add_0_r.
  - now rewrite IH, sumSpan_cons, Nat.add_assoc.
Qed.

(** Children of one span, side by side: the [i]-th is [i] spans from the
    first. *)
Lemma lineFrom_units {A : Type} (f : A -> Child) (xs : list A) (s row col i : nat) (x : A) :
  (forall x, span (gridColumn (f x)) = s) ->
  nth_error xs i = Some x ->
  nth_error (lineFrom row col (map f xs)) i = Some (fst (placeAt (f x) row (col + s * i))).
Proof.
  intros Hf. revert col i. induction xs as [|y xs IH]; intros col [|i] H; try discriminate H.
  - injection H as ->. cbn. now rewrite Nat.mul_0_r, Nat.add_0_r.
  - cbn [map lineFrom nth_error]. rewrite (IH _ _ H), Hf, Nat.mul_succ_r. do 3 f_equal. lia.
Qed.

(** A child placed by the cursor that fits in the row goes to the first
    free column. *)
Lemma place_fits (N : nat) (c : Cursor) (ch : Child) :
  flowing ch = true -> cur_free c + span (gridColumn ch) <= N ->
  place N c ch = placeAt ch (cur_row c) (cur_free c).
Proof.
  unfold flowing, place. intros Hf Hn.
  destruct (gridColumn ch); try discriminate Hf; apply Nat.leb_le in Hn; now rewrite Hn.
Qed.

(** At the end of a row, a child placed by the cursor starts the next
    row. *)
Lemma place_wraps (N r : nat) (ch : Child) :
  flowing ch = true ->
  place N {| cur_row := r; cur_free := N |} ch = placeAt ch (S r) 0.
Proof.
  unfold flowing, place. cbn [cur_row cur_free]. intros Hf.
  destruct (gridColumn ch) eqn:E; try discriminate Hf; apply Nat.ltb_lt in Hf;
    (replace (N + span _ <=? N) with false; [reflexivity|symmetry; apply Nat.leb_gt; lia]).
Qed.

(** Children that fit in what is left of the row are placed side by
    side. *)
Lemma placeAll_fits (N : nat) (l rest : list Child) (c : Cursor) :
  forallb flowing l = true -> cur_free c + sumSpan l <= N ->
  placeAll N c (l ++ rest) =
  lineFrom (cur_row c) (cur_free c) l ++
  placeAll N {| cur_row := cur_row c; cur_free := cur_free c + sumSpan l |} rest.
Proof.
  revert c. induction l as [|ch l IH]; intros [r k] Hf Hn; cbn [app lineFrom placeAll].
  - change (sumSpan []) with 0. cbn. now rewrite Nat.add_0_r.
  - cbn in Hf. apply andb_prop in Hf as [Hc Hl]. rewrite sumSpan_cons in *.
    cbn [cur_row cur_free] in *. rewrite place_fits; [|exact Hc|cbn; lia].
    cbn [fst snd placeAt cur_row cur_free]. rewrite IH; [|exact Hl|cbn; lia].
    cbn [cur_row cur_free app]. now rewrite Nat.add_assoc.
Qed.

(** A full line after a full row is placed on the next row and fills
    it. *)
Lemma placeAll_line (N r : nat) (l rest : list Child) :
  0 < N -> fullLine N l = true ->
  placeAll N {| cur_row := r; cur_free := N |} (l ++ rest) =
  lineFrom (S r) 0 l ++ placeAll N {| cur_row := S r; cur_free := N |} rest.
Proof.
  unfold fullLine. intros HN Hl. apply andb_prop in Hl as [Hf Hs]. apply Nat.eqb_eq in Hs.
  destruct l as [|ch l]; [cbn in Hs; lia|]. cbn in Hf. apply andb_prop in Hf as [Hc Hf].
  rewrite sumSpan_cons in Hs.
  cbn [app placeAll lineFrom]. rewrite place_wraps by exact Hc. cbn [fst snd placeAt].
  rewrite placeAll_fits; [|exact Hf|cbn; lia].
  cbn [cur_row cur_free app Nat.add]. now rewrite Hs.
Qed.

(** Full lines after a full row are placed one below the other. *)
Lemma placeAll_lines (N r : nat) (lines : list (list Child)) (rest : list Child) :
  0 < N -> forallb (fullLine N) lines = true ->
  placeAll N {| cur_row := r; cur_free := N |} (concat lines ++ rest) =
  tableFrom (S r) lines ++ placeAll N {| cur_row := r + length lines; cur_free := N |} rest.
Proof.
  intros HN. revert r. induction lines as [|l lines IH]; intros r Hl; cbn.
  - now rewrite Nat.add_0_r.
  - cbn in Hl. apply andb_prop in Hl as [H1 H2].
    rewrite <- !app_assoc, placeAll_line, IH by assumption. now rewrite Nat.add_succ_r.
Qed.

(** Full lines in an empty grid are a table. *)
Lemma placeAll_table (N : nat) (lines : list (list Child)) (rest : list Child) :
  0 < N -> forallb (fullLine N) lines = true -> lines <> [] ->
  placeAll N {| cur_row := 0; cur_free := 0 |} (concat lines ++ rest) =
  tableFrom 0 lines ++ placeAll N {| cur_row := length lines - 1; cur_free := N |} rest.
Proof.
  intros HN Hl Hne. destruct lines as [|l lines]; [easy|]. cbn in Hl |- *.
  apply andb_prop in Hl as [H1 H2]. pose proof H1 as H. unfold fullLine in H.
  apply andb_prop in H as [Hf Hs]. apply Nat.eqb_eq in Hs.
  rewrite <- !app_assoc, placeAll_fits; [|exact Hf|cbn; lia].
  cbn [cur_row cur_free]. rewrite Hs, placeAll_lines by assumption.
  now rewrite Nat.sub_0_r.
Qed.

(** The grid has the columns of its template when no child needs
    more. *)
Lemma implicitColumns_explicit (explicit : nat) (l : list Child) :
  0 < explicit -> Forall (fun ch => needed (gridColumn ch) <= explicit) l ->
  implicitColumns explicit l = explicit.
Proof.
  intros He Hl. unfold implicitColumns. replace (Nat.max 1 explicit) with explicit by lia.
  induction Hl as [|ch l Hc Hl IH]; [reflexivity|]. cbn.
  now replace (Nat.max explicit _) with explicit by lia.
Qed.

Lemma flowing_needed (N : nat) (l : list Child) :
  fullLine N l = true -> Forall (fun ch => needed (gridColumn ch) <= N) l.
Proof.
  unfold fullLine. intros H. apply andb_prop in H as [Hf Hs]. apply Nat.eqb_eq in Hs. subst N.
  induction l as [|ch l IH]; constructor; cbn in Hf; apply andb_prop in Hf as [Hc Hf].
  - rewrite sumSpan_cons. unfold flowing in Hc.
    destruct (gridColumn ch); cbn in *; (discriminate || lia).
  - eapply Forall_impl; [|apply IH; exact Hf]. rewrite sumSpan_cons. cbn. intros; lia.
Qed.

Lemma needed_lines (N : nat) (lines : list (list Child)) :
  forallb (fullLine N) lines = true ->
  Forall (fun ch => needed (gridColumn ch) <= N) (concat lines).
Proof.
  induction lines as [|l lines IH]; cbn; [constructor|]. intros H.
  apply andb_prop in H as [H1 H2]. apply Forall_app. split; [now apply flowing_needed|auto].
Qed.

(** Children of one span between two children of span 1 fill a row of
    that many spans and two columns. *)
Lemma fullLine_framed {A : Type} (a b : Child) (f : A -> Child) (xs : list A) (s : nat) :
  gridColumn a = Auto -> gridColumn b = Auto ->
  (forall x, flowing (f x) = true) -> (forall x, span (gridColumn (f x)) = s) ->
  fullLine (s * length xs + 2) (a :: map f xs ++ [b]) = true.
Proof.
  intros Ha Hb Hf Hs. unfold fullLine. apply andb_true_intro. split.
  - apply forallb_forall. intros ch [<-|Hin]; [unfold flowing; now rewrite Ha|].
    apply in_app_or in Hin as [Hin|[<-|[]]]; [|unfold flowing; now rewrite Hb].
    apply in_map_iff in Hin as [x [<- _]]. apply Hf.
  - apply Nat.eqb_eq. rewrite sumSpan_cons, sumSpan_app, (sumSpan_units f xs s Hs), Ha.
    unfold sumSpan. cbn. rewrite Hb. cbn. lia.
Qed.

(** In such a line the [i]-th child of the middle is [i] spans after the
    first column. *)
Lemma In_framed {A : Type} (a b : Child) (f : A -> Child) (xs : list A) (s row i : nat) (x : A) :
  gridColumn a = Auto -> (forall x, span (gridColumn (f x)) = s) ->
  nth_error xs i = Some x ->
  In {| item := f x; at_row := row; at_col := 1 + s * i; at_span := s |}
     (lineFrom row 0 (a :: map f xs ++ [b])).
Proof.
  intros Ha Hs Hx. cbn [lineFrom]. right. rewrite Ha, lineFrom_app. apply in_or_app. left.
  apply nth_error_In with i. rewrite (lineFrom_units f xs s _ _ i x Hs Hx).
  cbn. now rewrite Hs.
Qed.

Lemma In_tableFrom (row k : nat) (lines : list (list Child)) (l : list Child) (p : Placed) :
  nth_error lines k = Some l -> In p (lineFrom (row + k) 0 l) -> In p (tableFrom row lines).
Proof.
  revert row k. induction lines as [|l0 lines IH]; intros row [|k] H Hp; try discriminate H;
    cbn [tableFrom]; apply in_or_app.
  - injection H as ->. left. now rewrite Nat.add_0_r in Hp.
  - right. apply (IH (S row) k H). now rewrite Nat.add_succ_comm.
Qed.

(** ** The cells a placement covers *)

(** The cells of the grid a placed child covers, as (row, column). *)
Definition cellsOf (p : Placed) : list (nat * nat) :=
  map (pair (at_row p)) (seq (at_col p) (at_span p)).

Definition covered (l : list Placed) : list (nat * nat) := flat_map cellsOf l.

(** The cells of the rows [row .. row + rows - 1] of a grid of [N]
    columns, row by row. *)
Definition gridCells (row rows N : nat) : list (nat * nat) :=
  flat_map (fun r => map (pair r) (seq 0 N)) (seq row rows).

Lemma covered_app (l1 l2 : list Placed) : covered (l1 ++ l2) = covered l1 ++ covered l2.
Proof. apply flat_map_app. Qed.

Lemma covered_lineFrom (row col : nat) (l : list Child) :
  covered (lineFrom row col l) = map (pair row) (seq col (sumSpan l)).
Proof.
  revert col. induction l as [|ch l IH]; intros col; [reflexivity|].
  cbn [lineFrom covered flat_map]. fold (covered (lineFrom row (col + span (gridColumn ch)) l)).
  rewrite IH, sumSpan_cons, seq_app, map_app. reflexivity.
Qed.

Lemma covered_tableFrom (N row : nat) (lines : list (list Child)) :
  forallb (fullLine N) lines = true ->
  covered (tableFrom row lines) = gridCells row (length lines) N.
Proof.
  revert row. induction lines as [|l lines IH]; intros row H; [reflexivity|].
  cbn in H. apply andb_prop in H as [H1 H2]. unfold fullLine in H1.
  apply andb_prop in H1 as [_ Hs]. apply Nat.eqb_eq in Hs.
  cbn [tableFrom]. rewrite covered_app, covered_lineFrom, IH, Hs by exact H2. reflexivity.
Qed.

(** ** The lines of the timeline *)

(** The week names of all months, in the order of the labels. *)
Definition weeksOf (months : list MonthSeg) : list string :=
  flat_map (fun _ => weekNames) months.

Lemma length_weeksOf (months : list MonthSeg) : length (weeksOf months) = 4 * length months.
Proof.
  induction months as [|m months IH]; [reflexivity|].
  change (weeksOf (m :: months)) with (weekNames ++ weeksOf months).
  rewrite length_app, IH. change (length weekNames) with 4. cbn [length]. lia.
Qed.

Lemma nth_error_weeksOf (months : list MonthSeg) (i : nat) :
  i < 4 * length months -> nth_error (weeksOf months) i = nth_error weekNames (i mod 4).
Proof.
  revert i. induction months as [|m months IH]; intros i Hi; [cbn in Hi; lia|].
  change (weeksOf (m :: months)) with (weekNames ++ weeksOf months).
  destruct (Nat.lt_ge_cases i 4) as [Hlt|Hge].
  - rewrite nth_error_app1, Nat.mod_small by exact Hlt. reflexivity.
  - rewrite nth_error_app2 by exact Hge. change (length weekNames) with 4.
    rewrite IH by (cbn [length] in Hi; lia).
    replace i with (i - 4 + 1 * 4) at 2 by lia. now rewrite Nat.Div0.mod_add.
Qed.

Lemma map_weeksOf {A : Type} (f : string -> A) (months : list MonthSeg) :
  flat_map (fun _ => map f weekNames) months = map f (weeksOf months).
Proof.
  unfold weeksOf. induction months as [|m ms IH]; [reflexivity|].
  cbn [flat_map]. now rewrite map_app, IH.
Qed.

Section Lines.

Context {D : DateFns}.
Variable size : Z.
Variable cal : Calendar.

#[local] Abbreviation months := (cal_months cal).
#[local] Abbreviation N := (totalColumns (length (cal_months cal)) + 2).

(** The calendar has four columns per month. *)
Hypothesis columns_per_month : length (cal_columns cal) = totalColumns (length months).

(** The lines of the grid when there are rows. *)
Definition gridLines : list (list Child) :=
  headerRow months :: weekRow size months
  :: map (fun r => rowChildren size (renderRow (cal_columns cal) r)) (cal_rows cal).

(** The lines of the grid when there is no row; the message follows
    them. *)
Definition emptyLines : list (list Child) :=
  [headerRow months; weekRow size months;
   blank :: array_from (fun _ => emptyCell size) (totalColumns (length months)) ++ [blank]].

Lemma weekRow_eq : weekRow size months = blank :: map (weekLabel size) (weeksOf months) ++ [blank].
Proof. unfold weekRow. now rewrite map_weeksOf. Qed.

Lemma gridChildren_rows : cal_rows cal <> [] -> gridChildren size cal = concat gridLines.
Proof.
  intros H. unfold gridChildren, gridLines, rowsArea. cbn [concat].
  rewrite <- flat_map_concat_map. now destruct (cal_rows cal).
Qed.

Lemma gridChildren_empty :
  cal_rows cal = [] ->
  gridChildren size cal = concat emptyLines ++ [message (totalColumns (length months))].
Proof.
  intros H. unfold gridChildren, emptyLines, rowsArea, placeholder. rewrite H. cbn [concat].
  rewrite app_nil_r, <- !app_assoc. cbn [app]. now rewrite <- !app_assoc.
Qed.

Lemma fullLine_headerRow : fullLine N (headerRow months) = true.
Proof.
  unfold totalColumns. rewrite Nat.mul_comm. now apply fullLine_framed.
Qed.

Lemma fullLine_weekRow : fullLine N (weekRow size months) = true.
Proof.
  rewrite weekRow_eq. unfold totalColumns.
  replace (length months * 4) with (1 * length (weeksOf months)) by (rewrite length_weeksOf; lia).
  now apply fullLine_framed.
Qed.

Lemma fullLine_rowChildren (r : Row) :
  fullLine N (rowChildren size (renderRow (cal_columns cal) r)) = true.
Proof.
  unfold rowChildren, renderRow. cbn [cellBackgrounds cellLabel cellDate].
  replace N with (1 * length (map (cellBackground r) (cal_columns cal)) + 2)
    by (rewrite length_map, columns_per_month; lia).
  now apply fullLine_framed.
Qed.

Lemma fullLine_emptyCells :
  fullLine N (blank :: array_from (fun _ => emptyCell size) (totalColumns (length months)) ++ [blank])
  = true.
Proof.
  unfold array_from.
  replace N with (1 * length (seq 0 (totalColumns (length months))) + 2)
    by (rewrite length_seq; lia).
  now apply (fullLine_framed blank blank (fun _ => emptyCell size)).
Qed.

Lemma fullLine_gridLines : forallb (fullLine N) gridLines = true.
Proof.
  unfold gridLines. cbn [forallb]. rewrite fullLine_headerRow, fullLine_weekRow. cbn [andb].
  apply forallb_forall. intros l Hl. apply in_map_iff in Hl as [r [<- _]].
  apply fullLine_rowChildren.
Qed.

Lemma fullLine_emptyLines : forallb (fullLine N) emptyLines = true.
Proof.
  unfold emptyLines. cbn [forallb].
  now rewrite fullLine_headerRow, fullLine_weekRow, fullLine_emptyCells.
Qed.

(** With a month, the template is valid and the grid has its columns. *)
Lemma length_tracks :
  months <> [] ->
  length (tracks (gridTemplateColumns (totalColumns (length months)) size)) = N.
Proof.
  intros H. unfold tracks, gridTemplateColumns, totalColumns. cbn [template_count].
  destruct months as [|m ms]; [easy|]. cbn [length Nat.mul Nat.add].
  cbn [length]. rewrite length_app, repeat_length. cbn. lia.
Qed.

Lemma columns_of_grid (lines : list (list Child)) (rest : list Child) :
  months <> [] -> forallb (fullLine N) lines = true ->
  Forall (fun ch => needed (gridColumn ch) <= N) rest ->
  implicitColumns (length (tracks (gridTemplateColumns (totalColumns (length months)) size)))
    (concat lines ++ rest) = N.
Proof.
  intros Hm Hl Hr. rewrite (length_tracks Hm). apply implicitColumns_explicit; [lia|].
  apply Forall_app. split; [now apply needed_lines|exact Hr].
Qed.

(** The rows of the timeline are laid out as a table. *)
Lemma layout_rows :
  months <> [] -> cal_rows cal <> [] -> layout (markup size cal) = tableFrom 0 gridLines.
Proof.
  intros Hm Hr. unfold layout, markup. cbn [markup_template markup_children].
  rewrite (gridChildren_rows Hr), <- (app_nil_r (concat gridLines)).
  rewrite (columns_of_grid _ [] Hm fullLine_gridLines) by constructor.
  rewrite placeAll_table; [apply app_nil_r|lia|apply fullLine_gridLines|discriminate].
Qed.

(** Without a row, the message lies below the table, across the grid. *)
Lemma layout_empty :
  months <> [] -> cal_rows cal = [] ->
  layout (markup size cal) =
  tableFrom 0 emptyLines ++
  [ {| item := message (totalColumns (length months));
       at_row := 3; at_col := 0; at_span := N |} ].
Proof.
  intros Hm Hr. unfold layout, markup. cbn [markup_template markup_children].
  rewrite (gridChildren_empty Hr).
  rewrite (columns_of_grid _ _ Hm fullLine_emptyLines) by (repeat constructor; cbn; lia).
  rewrite placeAll_table; [|lia|apply fullLine_emptyLines|discriminate].
  f_equal. cbn. rewrite Nat.add_comm. cbn. do 2 f_equal. lia.
Qed.

End Lines.

(** ** A grid without a month

    With no month the template is invalid and the grid has the one
    column every grid has: the children lie one below the other. *)

(** The children one below the other, from [row] on. *)
Fixpoint stacked (row : nat) (l : list Child) : list Placed :=
  match l with
  | [] => []
  | ch :: l => {| item := ch; at_row := row; at_col := 0; at_span := 1 |} :: stacked (S row) l
  end.

Definition autoChild (ch : Child) : bool :=
  match gridColumn ch with
  | Auto => true
  | _ => false
  end.

Lemma implicitColumns_auto (n : nat) (l : list Child) :
  forallb autoChild l = true ->
  fold_left (fun n ch => Nat.max n (needed (gridColumn ch))) l (S n) = S n.
Proof.
  induction l as [|ch l IH]; [reflexivity|]. cbn. intros H. apply andb_prop in H as [Hc Hl].
  unfold autoChild in Hc. destruct (gridColumn ch); try discriminate Hc. cbn.
  replace (Nat.max n 0) with n by lia. now apply IH.
Qed.

Lemma placeAll_stacked (r : nat) (l : list Child) :
  forallb autoChild l = true ->
  placeAll 1 {| cur_row := r; cur_free := 1 |} l = stacked (S r) l.
Proof.
  revert r. induction l as [|ch l IH]; intros r H; [reflexivity|]. cbn in H.
  apply andb_prop in H as [Hc Hl]. unfold autoChild in Hc. cbn [placeAll stacked].
  unfold place, placeAt. destruct (gridColumn ch) eqn:Hg; try discriminate Hc.
  cbn. now rewrite (IH (S r) Hl).
Qed.

Lemma layout_stacked (m : Markup) :
  tracks (markup_template m) = [] -> forallb autoChild (markup_children m) = true ->
  layout m = stacked 0 (markup_children m).
Proof.
  intros Ht Hl. unfold layout, implicitColumns. rewrite Ht. cbn [length Nat.max].
  rewrite (implicitColumns_auto 0 _ Hl). destruct (markup_children m) as [|ch l]; [reflexivity|].
  cbn in Hl. apply andb_prop in Hl as [Hc Hl]. unfold autoChild in Hc.
  cbn [placeAll stacked]. unfold place, placeAt.
  destruct (gridColumn ch) eqn:Hg; try discriminate Hc.
  cbn. now rewrite (placeAll_stacked 0 l Hl).
Qed.

(** Without a month and without a column, the children of the grid are
    the four empty corners and, for each row, its name and its date. *)
Lemma gridChildren_no_month {D : DateFns} (size : Z) (cal : Calendar) :
  cal_months cal = [] -> cal_columns cal = [] -> cal_rows cal <> [] ->
  gridChildren size cal
  = [blank; blank; blank; blank]
    ++ flat_map (fun r => [ {| content := RowLabel (row_name r); gridColumn := Auto;
                               boxSize := None |};
                            {| content := RowDate (format (row_start r) "MMM d");
                               gridColumn := Auto; boxSize := None |} ]) (cal_rows cal).
Proof.
  intros Hm Hc Hr. unfold gridChildren, headerRow, weekRow, rowsArea. rewrite Hm, Hc. cbn [map flat_map app].
  destruct (cal_rows cal) as [|r rs]; [congruence|]. reflexivity.
Qed.

Lemma autoChild_flat_map {A : Type} (f : A -> list Child) (l : list A) :
  (forall x, forallb autoChild (f x) = true) -> forallb autoChild (flat_map f l) = true.
Proof.
  intros H. induction l as [|x l IH]; [reflexivity|]. cbn. now rewrite forallb_app, H, IH.
Qed.

(** ** Pixels *)

Lemma sumZ_repeat (x : Z) (n : nat) : sumZ (repeat x n) = (Z.of_nat n * x)%Z.
Proof.
  induction n as [|n IH]; [reflexivity|].
  change (sumZ (repeat x (S n))) with (x + sumZ (repeat x n))%Z. rewrite IH. lia.
Qed.

Lemma firstn_repeat {A : Type} (x : A) (i n : nat) : firstn i (repeat x n) = repeat x (Nat.min i n).
Proof.
  revert n. induction i as [|i IH]; intros [|n]; cbn; try reflexivity. now rewrite IH.
Qed.

(** The tracks of a valid template add up to the [minWidth] of the
    container. *)
Lemma sumZ_tracks (nMonths : nat) (size : Z) :
  0 < nMonths ->
  sumZ (tracks (gridTemplateColumns (totalColumns nMonths) size)) = gridMinWidth nMonths size.
Proof.
  intros Hn. unfold tracks, gridTemplateColumns, gridMinWidth. cbn [template_count].
  destruct (totalColumns nMonths) as [|n] eqn:E; [unfold totalColumns in E; lia|].
  cbn [template_left template_cell template_right].
  change (sumZ (?a :: ?l)) with (a + sumZ l)%Z. rewrite sumZ_app, sumZ_repeat.
  change (sumZ [rightWidth]) with (rightWidth + 0)%Z. lia.
Qed.

(** The left edge of the column of cell [i]. *)
Lemma columnLeft_cell (n i : nat) (size : Z) :
  i <= n -> 0 < n ->
  columnLeft (gridTemplateColumns n size) (1 + i) = (leftWidth + Z.of_nat i * size)%Z.
Proof.
  intros Hi Hn. unfold columnLeft, tracks, gridTemplateColumns. cbn [template_count].
  destruct n as [|n]; [lia|]. cbn [template_left template_cell template_right Nat.add firstn].
  change (sumZ (?a :: ?l)) with (a + sumZ l)%Z. f_equal.
  rewrite firstn_app, firstn_repeat, repeat_length.
  replace (i - S n) with 0 by lia. replace (Nat.min i (S n)) with i by lia.
  cbn [firstn]. now rewrite app_nil_r, sumZ_repeat.
Qed.

Lemma gridCells_S (row rows N : nat) :
  gridCells row (S rows) N = gridCells row rows N ++ map (pair (row + rows)) (seq 0 N).
Proof.
  unfold gridCells. rewrite seq_S, flat_map_app. cbn [flat_map]. now rewrite app_nil_r.
Qed.

Lemma cal_columns_per_month {D : DateFns} (tasks : list Task) (project : option Project)
    (today now : Z) :
  let cal := projectCalendar tasks project today now in
  length (cal_columns cal) = totalColumns (length (cal_months cal)).
Proof. cbv zeta. rewrite cal_columns_eq. apply length_columnsAll. Qed.

(** The children of the timeline that belong to column [i]: the cell of
    every row, the week label, and the header of the month. *)
Lemma column_children {D : DateFns} (size : Z) (cal : Calendar) (r i : nat) (row : Row)
    (c : Column) :
  length (cal_columns cal) = totalColumns (length (cal_months cal)) ->
  nth_error (cal_rows cal) r = Some row -> nth_error (cal_columns cal) i = Some c ->
  exists m wk,
    nth_error (cal_months cal) (i / 4) = Some m /\ nth_error weekNames (i mod 4) = Some wk /\
    In (fst (placeAt (cell size (cellBackground row c)) (2 + r) (1 + 1 * i)))
       (tableFrom 0 (gridLines size cal)) /\
    In (fst (placeAt (weekLabel size wk) 1 (1 + 1 * i))) (tableFrom 0 (gridLines size cal)) /\
    In (fst (placeAt (monthHeader m) 0 (1 + 4 * (i / 4)))) (tableFrom 0 (gridLines size cal)).
Proof.
  intros Hc Hr Hi.
  assert (Hlt : i < 4 * length (cal_months cal)).
  { assert (i < length (cal_columns cal)) by (apply nth_error_Some; congruence).
    unfold totalColumns in Hc. lia. }
  destruct (nth_error (cal_months cal) (i / 4)) as [m|] eqn:Hm.
  2:{ apply nth_error_None in Hm. pose proof (Nat.Div0.div_lt_upper_bound i 4 _ Hlt). lia. }
  pose proof (nth_error_weeksOf _ i Hlt) as Hw.
  destruct (nth_error weekNames (i mod 4)) as [wk|] eqn:Hwk.
  2:{ apply nth_error_None in Hwk. change (length weekNames) with 4 in Hwk.
      pose proof (Nat.mod_upper_bound i 4 ltac:(lia)). lia. }
  exists m, wk. repeat split.
  - apply (In_tableFrom 0 (2 + r) _ (rowChildren size (renderRow (cal_columns cal) row))).
    + exact (map_nth_error (fun r => rowChildren size (renderRow (cal_columns cal) r)) _ _ Hr).
    + apply In_framed; [reflexivity..|]. exact (map_nth_error (cellBackground row) _ _ Hi).
  - apply (In_tableFrom 0 1 _ (weekRow size (cal_months cal))); [reflexivity|].
    rewrite weekRow_eq. now apply In_framed.
  - apply (In_tableFrom 0 0 _ (headerRow (cal_months cal))); [reflexivity|].
    now apply In_framed.
Qed.

(** ** Properties *)

(** C13. The browser's placement tiles the grid: with at least one
    month, the cells covered by the children of the timeline, in document
    order, are the cells of a grid of [4 x months + 2] columns row by row,
    each exactly once: two rows of headers and one row per task, or, when
    there is no task, the headers, a row of empty cells and the message
    across a fourth row.  No child overlaps another, none wraps in the
    middle of a row and no cell is left empty. *)
Theorem grid_is_tiled {D : DateFns} (tasks : list Task) (project : option Project)
    (today now size : Z) :
  let cal := projectCalendar tasks project today now in
  cal_months cal <> [] ->
  covered (layout (markup size cal)) =
  gridCells 0 (match cal_rows cal with [] => 4 | rs => 2 + length rs end)
            (totalColumns (length (cal_months cal)) + 2).
Proof.
  cbv zeta. intros Hm. pose proof (cal_columns_per_month tasks project today now) as Hc.
  cbv zeta in Hc. destruct (cal_rows _) as [|r rs] eqn:Hr.
  - rewrite (layout_empty size _ Hc Hm Hr), covered_app.
    rewrite (covered_tableFrom _ 0 _ (fullLine_emptyLines size _ Hc)).
    change (length (emptyLines size _)) with 3. rewrite (gridCells_S 0 3). f_equal.
    apply app_nil_r.
  - assert (Hne : cal_rows (projectCalendar tasks project today now) <> []) by now rewrite Hr.
    rewrite (layout_rows size _ Hc Hm Hne).
    rewrite (covered_tableFrom _ 0 _ (fullLine_gridLines size _ Hc)).
    unfold gridLines. cbn [length]. now rewrite length_map, Hr.
Qed.

(** C12. Every cell is under its own headers: the cell that [renderRow]
    draws for column [i] of the row with index [r] is placed on grid row
    [r + 2] in grid column [i + 1]; on the row of week labels that column
    holds label [i mod 4] of month [i / 4], and the header of month
    [i / 4] spans the four grid columns that contain it. *)
Theorem cells_under_their_month {D : DateFns} (tasks : list Task) (project : option Project)
    (today now size : Z) (r i : nat) (row : Row) (c : Column) :
  let cal := projectCalendar tasks project today now in
  let placed := layout (markup size cal) in
  nth_error (cal_rows cal) r = Some row ->
  nth_error (cal_columns cal) i = Some c ->
  exists m wk,
    nth_error (cal_months cal) (i / 4) = Some m /\ nth_error weekNames (i mod 4) = Some wk /\
    In {| item := cell size (cellBackground row c);
          at_row := 2 + r; at_col := 1 + i; at_span := 1 |} placed /\
    In {| item := weekLabel size wk; at_row := 1; at_col := 1 + i; at_span := 1 |} placed /\
    In {| item := monthHeader m; at_row := 0; at_col := 1 + 4 * (i / 4); at_span := 4 |} placed /\
    1 + 4 * (i / 4) <= 1 + i < 1 + 4 * (i / 4) + 4.
Proof.
  cbv zeta. intros Hr Hi. pose proof (cal_columns_per_month tasks project today now) as Hc.
  cbv zeta in Hc. rewrite layout_rows; [|exact Hc|..].
  - destruct (column_children size _ r i row c Hc Hr Hi) as (m & wk & Hm & Hw & H1 & H2 & H3).
    exists m, wk. cbn in H1, H2, H3. rewrite Nat.add_0_r in H1, H2.
    repeat split; try assumption; pose proof (Nat.div_mod_eq i 4);
      pose proof (Nat.mod_upper_bound i 4 ltac:(lia)); lia.
  - intros Hm. rewrite Hm in Hc. now destruct (cal_columns _); [destruct i|].
  - intros Hn. rewrite Hn in Hr. now destruct r.
Qed.

(** The grid is as wide as its container asks: with at least one
    month the tracks of the column template add up to the [minWidth] of
    the container, and the left edge of the grid column of cell [i] is
    [leftWidth + i x computedCellSize], so that a cell, which is
    [computedCellSize] wide, fills its track. *)
Theorem grid_fills_min_width {D : DateFns} (tasks : list Task) (project : option Project)
    (today now size : Z) (i : nat) :
  let cal := projectCalendar tasks project today now in
  let m := markup size cal in
  cal_months cal <> [] -> i <= length (cal_columns cal) ->
  sumZ (tracks (markup_template m)) = markup_minWidth m /\
  columnLeft (markup_template m) (1 + i) = (leftWidth + Z.of_nat i * size)%Z.
Proof.
  cbv zeta. intros Hm Hi. pose proof (cal_columns_per_month tasks project today now) as Hc.
  cbv zeta in Hc. rewrite Hc in Hi. unfold markup. cbn [markup_template markup_minWidth].
  assert (0 < length (cal_months (projectCalendar tasks project today now)))
    by (destruct (cal_months _); [easy|cbn; lia]).
  split; [now apply sumZ_tracks|]. apply columnLeft_cell; [exact Hi|unfold totalColumns; lia].
Qed.

(** C36. A timeline without a month is a single column.  When the month
    loop yields nothing and there is a row, the count of [repeat] is 0,
    the template is invalid, and the browser stacks every child of the
    grid in one column: four empty children, then the name and the date
    of each row one below the other. *)
Theorem no_month_single_column {D : DateFns} (size : Z) (tasks : list Task)
    (project : option Project) (today now : Z) :
  let cal := projectCalendar tasks project today now in
  cal_months cal = [] -> cal_rows cal <> [] ->
  tracks (markup_template (markup size cal)) = [] /\
  layout (markup size cal) = stacked 0 (gridChildren size cal) /\
  map content (gridChildren size cal)
  = [Blank; Blank; Blank; Blank]
    ++ flat_map (fun r => [RowLabel (row_name r); RowDate (format (row_start r) "MMM d")])
         (cal_rows cal).
Proof.
  cbv zeta. intros Hm Hr.
  destruct (cal_no_month tasks project today now Hm) as [Hc _].
  pose proof (gridChildren_no_month size _ Hm Hc Hr) as Hg.
  assert (tracks (markup_template (markup size (projectCalendar tasks project today now))) = [])
    as Ht by (unfold markup, tracks; cbn [markup_template gridTemplateColumns template_count];
              now rewrite Hm).
  split; [exact Ht|]. split.
  - apply layout_stacked; [exact Ht|]. cbn [markup markup_children]. rewrite Hg.
    cbn [app forallb autoChild gridColumn blank andb]. now apply autoChild_flat_map.
  - rewrite Hg, map_app, flat_map_concat_map, concat_map, map_map, <- flat_map_concat_map.
    reflexivity.
Qed.

(** ** Witnesses *)

Lemma febCalendar_months : cal_months febCalendar <> [].
Proof. vm_compute. discriminate. Qed.

Lemma febCalendar_columns : 12 <= length (cal_columns febCalendar).
Proof. vm_compute. apply le_n. Qed.

Lemma grid_is_tiled_witness :
  covered (layout (markup 24 febCalendar)) =
  gridCells 0 (match cal_rows febCalendar with [] => 4 | rs => 2 + length rs end)
            (totalColumns (length (cal_months febCalendar)) + 2).
Proof.
  exact (grid_is_tiled [febTask] None (DateUTC 2025 1 1) (DateUTC 2025 1 1) 24
           febCalendar_months).
Defined.

Lemma febCalendar_row :
  nth_error (cal_rows febCalendar) 0 = Some (buildRow None (DateUTC 2025 1 1) febTask).
Proof. reflexivity. Qed.

Lemma febCalendar_column :
  nth_error (cal_columns febCalendar) 6 = Some (column (DateUTC 2025 0 29) 33 3 6).
Proof. now vm_compute. Qed.

Lemma cells_under_their_month_witness :
  exists m wk,
    nth_error (cal_months febCalendar) (6 / 4) = Some m /\
    nth_error weekNames (6 mod 4) = Some wk /\
    In {| item := cell 24 (cellBackground (buildRow None (DateUTC 2025 1 1) febTask)
                             (column (DateUTC 2025 0 29) 33 3 6));
          at_row := 2 + 0; at_col := 1 + 6; at_span := 1 |} (layout (markup 24 febCalendar)) /\
    In {| item := weekLabel 24 wk; at_row := 1; at_col := 1 + 6; at_span := 1 |}
       (layout (markup 24 febCalendar)) /\
    In {| item := monthHeader m; at_row := 0; at_col := 1 + 4 * (6 / 4); at_span := 4 |}
       (layout (markup 24 febCalendar)) /\
    1 + 4 * (6 / 4) <= 1 + 6 < 1 + 4 * (6 / 4) + 4.
Proof.
  exact (cells_under_their_month [febTask] None (DateUTC 2025 1 1) (DateUTC 2025 1 1) 24 0 6
           _ _ febCalendar_row febCalendar_column).
Defined.

Lemma grid_fills_min_width_witness :
  sumZ (tracks (markup_template (markup 24 febCalendar))) = markup_minWidth (markup 24 febCalendar) /\
  columnLeft (markup_template (markup 24 febCalendar)) (1 + 12) = (leftWidth + Z.of_nat 12 * 24)%Z.
Proof.
  exact (grid_fills_min_width [febTask] None (DateUTC 2025 1 1) (DateUTC 2025 1 1) 24 12
           febCalendar_months febCalendar_columns).
Defined.

(** The February timeline: three months, fourteen grid columns, three
    grid rows; the cell of column 6 is in grid column 7, under the third
    week label of the second month. *)
Example february_grid :
  gridCells 0 (match cal_rows febCalendar with [] => 4 | rs => 2 + length rs end)
            (totalColumns (length (cal_months febCalendar)) + 2) = gridCells 0 3 14 /\
  map (fun p => content (item p))
      (filter (fun p => at_col p =? 7) (layout (markup 24 febCalendar))) =
  [WeekLabel "III"; Cell "#fb923c"].
Proof. now vm_compute. Qed.

Definition lateCalendar : Calendar :=
  projectCalendar [earlyTask] lateProject (DateUTC 2025 2 1) (DateUTC 2025 2 1).

Lemma lateCalendar_months : cal_months lateCalendar = [].
Proof. now vm_compute. Qed.

Lemma lateCalendar_rows : cal_rows lateCalendar <> [].
Proof. vm_compute. discriminate. Qed.

Lemma no_month_single_column_witness :
  tracks (markup_template (markup 24 lateCalendar)) = [] /\
  layout (markup 24 lateCalendar) = stacked 0 (gridChildren 24 lateCalendar) /\
  map content (gridChildren 24 lateCalendar)
  = [Blank; Blank; Blank; Blank]
    ++ flat_map (fun r => [RowLabel (row_name r); RowDate (format (row_start r) "MMM d")])
         (cal_rows lateCalendar).
Proof.
  exact (no_month_single_column 24 [earlyTask] lateProject (DateUTC 2025 2 1) (DateUTC 2025 2 1)
           lateCalendar_months lateCalendar_rows).
Defined.

(** ** Scenarios *)

(** The timeline with no task has one month: the message lies on the
    fourth row and spans the six columns. *)
Example placeholder_spans_grid :
  let cal := projectCalendar [] None (DateUTC 2025 1 1) (DateUTC 2025 1 1) in
  length (cal_months cal) = 1 /\
  last (layout (markup 24 cal)) {| item := blank; at_row := 0; at_col := 0; at_span := 0 |} =
  {| item := message 4; at_row := 3; at_col := 0; at_span := 6 |}.
Proof. now vm_compute. Qed.

(** When the span is reversed there is no month, the count of [repeat]
    is 0 and the template is invalid: the grid has a single column, and
    the name and the date of the row lie one below the other under four
    empty children. *)
Example no_month_no_grid :
  let cal := projectCalendar [earlyTask] lateProject (DateUTC 2025 2 1) (DateUTC 2025 2 1) in
  tracks (markup_template (markup 24 cal)) = [] /\
  map (fun p => (content (item p), at_row p, at_col p)) (layout (markup 24 cal)) =
  [(Blank, 0, 0); (Blank, 1, 0); (Blank, 2, 0); (Blank, 3, 0);
   (RowLabel "Survey", 4, 0); (RowDate "Mar 20", 5, 0)].
Proof. now vm_compute. Qed.
