(* ===== verification/Resize.v ===== *)
(** * Resize: the life of the resize listener

    The effect of lines 103-116 of
    [src/client/src/components/ProjectCalendar.jsx]: it computes the cell
    size once, registers the closure [resize] as a listener of the
    window's [resize] event and returns the function that removes it.
    React runs the effect after the first commit and after every commit
    in which [monthsAll.length] has changed, the cleanup of the previous
    run first, and runs the cleanup when the component is removed.

    The state holds what the effect reads and writes: the state variable
    [computedCellSize], the element the refs point to with its
    [clientWidth], the listeners of the window, and what React remembers
    of the last run of the effect.  A listener is the closure the effect
    created: its identity and the number of months it closed over. *)

From Stdlib Require Import ZArith Lia Bool List.
From S2P Require Import Prelude Columns.
Import ListNotations.

#[local] Open Scope Z_scope.

(** ** Data *)

(** The closure [resize] of one run of the effect. *)
Record Listener : Type := {
  listener_id : nat;
  listener_months : nat
}.

(** What React keeps of the last run of the effect: the dependency
    [monthsAll.length] and the cleanup the effect returned, which removes
    one listener, when it returned one. *)
Record EffectRun : Type := {
  run_deps : nat;
  run_cleanup : option Listener
}.

Record Sizing : Type := {
  computedCellSize : Z;
  element : option Z;
  windowListeners : list Listener;
  lastRun : option EffectRun;
  nextListener : nat
}.

(** What happens to the component: it is mounted in a scroller of some
    width with some number of months, rendered again, the window is
    resized, the component is removed. *)
Inductive SizingEvent : Type :=
| Mount (clientWidth : Z) (nMonths : nat)
| Rerender (nMonths : nat)
| WindowResize (clientWidth : Z)
| Unmount.

(** ** Operations *)

(** Line 93, and the refs of lines 96 and 100 before the first commit. *)
Definition initialSizing : Sizing :=
  {| computedCellSize := initialCellSize; element := None; windowListeners := [];
     lastRun := None; nextListener := 0 |}.

Definition setComputedCellSize (size : Z) (s : Sizing) : Sizing :=
  {| computedCellSize := size; element := element s; windowListeners := windowListeners s;
     lastRun := lastRun s; nextListener := nextListener s |}.

(** A call of the closure [resize], lines 106-112: it reads the width of
    the element now and the number of months of its own render. *)
Definition callResize (l : Listener) (s : Sizing) : Sizing :=
  match element s with
  | Some clientWidth => setComputedCellSize (resize clientWidth (listener_months l)) s
  | None => s
  end.

Definition sameListener (a b : Listener) : bool := (listener_id a =? listener_id b)%nat.

(** [window.addEventListener('resize', resize)] *)
Definition addEventListener (l : Listener) (s : Sizing) : Sizing :=
  {| computedCellSize := computedCellSize s; element := element s;
     windowListeners :=
       if existsb (sameListener l) (windowListeners s) then windowListeners s
       else windowListeners s ++ [l];
     lastRun := lastRun s; nextListener := nextListener s |}.

(** [window.removeEventListener('resize', resize)] *)
Definition removeEventListener (l : Listener) (s : Sizing) : Sizing :=
  {| computedCellSize := computedCellSize s; element := element s;
     windowListeners := filter (fun l' => negb (sameListener l l')) (windowListeners s);
     lastRun := lastRun s; nextListener := nextListener s |}.

Definition remember (r : option EffectRun) (s : Sizing) : Sizing :=
  {| computedCellSize := computedCellSize s; element := element s;
     windowListeners := windowListeners s; lastRun := r; nextListener := nextListener s |}.

(** The body of the effect, lines 104-115, for a render with [nMonths]
    months: nothing without an element; else a new closure is called
    once and registered, and its removal is the cleanup. *)
Definition effect (nMonths : nat) (s : Sizing) : Sizing :=
  match element s with
  | None => remember (Some {| run_deps := nMonths; run_cleanup := None |}) s
  | Some _ =>
      let l := {| listener_id := nextListener s; listener_months := nMonths |} in
      let s := {| computedCellSize := computedCellSize s; element := element s;
                  windowListeners := windowListeners s; lastRun := lastRun s;
                  nextListener := S (nextListener s) |} in
      remember (Some {| run_deps := nMonths; run_cleanup := Some l |})
               (addEventListener l (callResize l s))
  end.

(** The cleanup of the last run, line 115. *)
Definition cleanup (s : Sizing) : Sizing :=
  match lastRun s with
  | Some {| run_cleanup := Some l |} => removeEventListener l s
  | _ => s
  end.

(** React after a commit with [nMonths] months: the effect runs when it
    has not run yet or when the dependency has changed, after the
    cleanup of its last run. *)
Definition commit (nMonths : nat) (s : Sizing) : Sizing :=
  match lastRun s with
  | Some r => if (run_deps r =? nMonths)%nat then s else effect nMonths (cleanup s)
  | None => effect nMonths s
  end.

(** React when the component is removed: the cleanup runs and the refs
    are cleared. *)
Definition unmount (s : Sizing) : Sizing :=
  let s := cleanup s in
  {| computedCellSize := computedCellSize s; element := None;
     windowListeners := windowListeners s; lastRun := None; nextListener := nextListener s |}.

(** The browser when the window is resized: the element has its new
    width and every listener is called, in the order of registration. *)
Definition dispatchResize (clientWidth : Z) (s : Sizing) : Sizing :=
  let s := {| computedCellSize := computedCellSize s;
              element := option_map (fun _ => clientWidth) (element s);
              windowListeners := windowListeners s; lastRun := lastRun s;
              nextListener := nextListener s |} in
  fold_left (fun s l => callResize l s) (windowListeners s) s.

Definition isMounted (s : Sizing) : bool :=
  match lastRun s with Some _ => true | None => false end.

Definition sizingStep (s : Sizing) (e : SizingEvent) : Sizing :=
  match e with
  | Mount clientWidth nMonths =>
      if isMounted s then s
      else commit nMonths
             {| computedCellSize := computedCellSize s; element := Some clientWidth;
                windowListeners := windowListeners s; lastRun := lastRun s;
                nextListener := nextListener s |}
  | Rerender nMonths => if isMounted s then commit nMonths s else s
  | WindowResize clientWidth => dispatchResize clientWidth s
  | Unmount => if isMounted s then unmount s else s
  end.

Definition sizingRun (s : Sizing) (events : list SizingEvent) : Sizing :=
  fold_left sizingStep events s.

(** ** The invariant *)

(** While the component is mounted the window has exactly the listener
    of the last run of the effect, which closed over the months of the
    last render, and the cell size is the one [resize] computes for the
    width of the element; when it is not mounted the window has no
    listener. *)
Definition sizing_ok (s : Sizing) : Prop :=
  match lastRun s with
  | Some r =>
      exists clientWidth l,
        element s = Some clientWidth /\ run_cleanup r = Some l /\
        listener_months l = run_deps r /\ windowListeners s = [l] /\
        (listener_id l < nextListener s)%nat /\
        computedCellSize s = resize clientWidth (run_deps r)
  | None => windowListeners s = [] /\ element s = None
  end.

(** ** Lemmas *)

Lemma sameListener_refl (l : Listener) : sameListener l l = true.
Proof. apply Nat.eqb_refl. Qed.

(** The effect, run with an element and no listener, leaves its own. *)
Lemma effect_ok (nMonths : nat) (s : Sizing) (clientWidth : Z) :
  element s = Some clientWidth -> windowListeners s = [] -> sizing_ok (effect nMonths s).
Proof.
  intros He Hl. unfold sizing_ok, effect, callResize. rewrite He. cbn. rewrite Hl. cbn.
  exists clientWidth. eexists. repeat split. cbn. lia.
Qed.

(** The cleanup of a run removes the listener of that run. *)
Lemma cleanup_ok (s : Sizing) :
  sizing_ok s -> windowListeners (cleanup s) = [] /\ element (cleanup s) = element s.
Proof.
  unfold sizing_ok, cleanup. destruct (lastRun s) as [[deps c]|]; [|now intros [-> _]].
  intros (w & l & He & Hc & _ & Hl & _). cbn in Hc. subst c. cbn. rewrite Hl. cbn.
  now rewrite sameListener_refl.
Qed.

(** A commit with an element, before the first run of the effect or
    after one that left the state in order. *)
Lemma commit_ok (nMonths : nat) (s : Sizing) (clientWidth : Z) :
  element s = Some clientWidth ->
  (lastRun s = None -> windowListeners s = []) -> (lastRun s <> None -> sizing_ok s) ->
  sizing_ok (commit nMonths s).
Proof.
  intros He Hn H. unfold commit. destruct (lastRun s) as [r|] eqn:Hr.
  - specialize (H ltac:(discriminate)). destruct (run_deps r =? nMonths)%nat.
    + exact H.
    + destruct (cleanup_ok s H) as [Hl Hc]. apply effect_ok with clientWidth; congruence.
  - apply effect_ok with clientWidth; auto.
Qed.

Lemma dispatchResize_ok (clientWidth : Z) (s : Sizing) :
  sizing_ok s -> sizing_ok (dispatchResize clientWidth s).
Proof.
  unfold sizing_ok, dispatchResize. destruct (lastRun s) as [r|] eqn:Hr.
  - intros (w & l & He & Hc & Hm & Hl & Hn & Hs). rewrite Hl, He. cbn. unfold callResize.
    cbn. rewrite Hm. exists clientWidth, l. now repeat split.
  - intros [Hl He]. rewrite Hl, He. now split.
Qed.

Lemma unmount_ok (s : Sizing) : sizing_ok s -> sizing_ok (unmount s).
Proof. intros H. destruct (cleanup_ok s H) as [Hl _]. now split. Qed.

Lemma sizingStep_ok (s : Sizing) (e : SizingEvent) : sizing_ok s -> sizing_ok (sizingStep s e).
Proof.
  intros H. destruct e as [w n|n|w|]; cbn [sizingStep]; unfold isMounted.
  - destruct (lastRun s) as [r|] eqn:Hr; [exact H|]. unfold sizing_ok in H. rewrite Hr in H.
    apply commit_ok with w; cbn; [reflexivity|tauto|congruence].
  - destruct (lastRun s) as [r|] eqn:Hr; [|exact H]. pose proof H as H'.
    unfold sizing_ok in H'. rewrite Hr in H'. destruct H' as (w & l & He & _).
    apply commit_ok with w; [exact He|congruence|auto].
  - now apply dispatchResize_ok.
  - destruct (lastRun s); [now apply unmount_ok|exact H].
Qed.

Lemma sizingRun_ok (s : Sizing) (events : list SizingEvent) :
  sizing_ok s -> sizing_ok (sizingRun s events).
Proof.
  revert s. induction events as [|e events IH]; intros s H; [exact H|].
  apply IH. now apply sizingStep_ok.
Qed.

Lemma sizingRun_app (s : Sizing) (e1 e2 : list SizingEvent) :
  sizingRun s (e1 ++ e2) = sizingRun (sizingRun s e1) e2.
Proof. apply fold_left_app. Qed.

Lemma initialSizing_ok : sizing_ok initialSizing.
Proof. now split. Qed.

(** After a commit of a mounted component the effect has run for the
    months of the render. *)
Lemma commit_deps (nMonths : nat) (s : Sizing) :
  sizing_ok s -> lastRun s <> None ->
  exists r, lastRun (commit nMonths s) = Some r /\ run_deps r = nMonths.
Proof.
  intros H Hm. unfold commit. destruct (lastRun s) as [r|] eqn:Hr; [|easy].
  destruct (Nat.eqb_spec (run_deps r) nMonths) as [E|E]; [eauto|].
  unfold sizing_ok in H. rewrite Hr in H. destruct H as (w & l & He & _).
  unfold effect. replace (element (cleanup s)) with (Some w); [cbn; eauto|].
  unfold cleanup. rewrite Hr. now destruct r as [d [c|]]; cbn; rewrite He.
Qed.

Lemma commit_element (nMonths : nat) (s : Sizing) : element (commit nMonths s) = element s.
Proof.
  assert (Hc : element (cleanup s) = element s).
  { unfold cleanup. now destruct (lastRun s) as [[d [l|]]|]. }
  assert (He : forall s', element (effect nMonths s') = element s').
  { intros s'. unfold effect, callResize. now destruct (element s') eqn:E; cbn; rewrite ?E. }
  unfold commit. destruct (lastRun s) as [r|]; [|apply He].
  destruct (run_deps r =? nMonths)%nat; [reflexivity|]. now rewrite He.
Qed.

(** A resize of the window leaves a mounted component mounted, with the
    new width. *)
Lemma dispatchResize_state (clientWidth : Z) (s : Sizing) :
  sizing_ok s -> lastRun s <> None ->
  lastRun (dispatchResize clientWidth s) = lastRun s /\
  element (dispatchResize clientWidth s) = Some clientWidth.
Proof.
  intros H Hm. unfold sizing_ok in H. destruct (lastRun s) as [r|] eqn:Hr; [|easy].
  destruct H as (w & l & He & _ & _ & Hl & _). unfold dispatchResize, callResize.
  rewrite Hl, He. cbn. now rewrite Hr.
Qed.

(** What the invariant says of a mounted component. *)
Lemma sizing_ok_size (s : Sizing) (r : EffectRun) (clientWidth : Z) :
  sizing_ok s -> lastRun s = Some r -> element s = Some clientWidth ->
  computedCellSize s = resize clientWidth (run_deps r).
Proof.
  unfold sizing_ok. intros H Hr He. rewrite Hr in H.
  destruct H as (w & l & He' & _ & _ & _ & _ & Hs). congruence.
Qed.

(** A render and then a resize of the window. *)
Lemma size_after_render_resize (s : Sizing) (nMonths : nat) (clientWidth : Z) :
  sizing_ok s -> lastRun s <> None ->
  computedCellSize (sizingRun s [Rerender nMonths; WindowResize clientWidth])
  = resize clientWidth nMonths.
Proof.
  intros H Hr. pose proof (sizingStep_ok s (Rerender nMonths) H) as Hc.
  cbn [sizingRun fold_left sizingStep] in *. unfold isMounted in *.
  destruct (lastRun s) as [r0|] eqn:Hr0; [|easy].
  destruct (commit_deps nMonths s H ltac:(congruence)) as (r & Hr1 & <-).
  destruct (dispatchResize_state clientWidth _ Hc ltac:(congruence)) as [Hl He].
  apply sizing_ok_size; [now apply dispatchResize_ok|congruence|exact He].
Qed.

(** A resize of the window and then a render. *)
Lemma size_after_resize_render (s : Sizing) (nMonths : nat) (clientWidth : Z) :
  sizing_ok s -> lastRun s <> None ->
  computedCellSize (sizingRun s [WindowResize clientWidth; Rerender nMonths])
  = resize clientWidth nMonths.
Proof.
  intros H Hr. pose proof (dispatchResize_ok clientWidth s H) as Hd.
  destruct (dispatchResize_state clientWidth s H Hr) as [Hl He].
  pose proof (sizingStep_ok _ (Rerender nMonths) Hd) as Hc.
  cbn [sizingRun fold_left sizingStep] in *. unfold isMounted in *. rewrite Hl in *.
  destruct (lastRun s) as [r0|] eqn:Hr0; [|easy].
  destruct (commit_deps nMonths _ Hd ltac:(congruence)) as (r & Hr1 & <-).
  apply sizing_ok_size; [exact Hc|exact Hr1|now rewrite commit_element].
Qed.

Lemma mounted_run (events : list SizingEvent) :
  isMounted (sizingRun initialSizing events) = true ->
  sizing_ok (sizingRun initialSizing events) /\ lastRun (sizingRun initialSizing events) <> None.
Proof.
  intros Hm. split; [apply sizingRun_ok, initialSizing_ok|].
  unfold isMounted in Hm. now destruct (lastRun _).
Qed.

(** ** Properties *)

(** C20. The resize listener does not leak: after any sequence of
    mounts, renders, window resizes and unmounts, the window has exactly
    one [resize] listener of the component while it is mounted and none
    when it is not. *)
Theorem one_listener_while_mounted (events : list SizingEvent) :
  let s := sizingRun initialSizing events in
  length (windowListeners s) = if isMounted s then 1%nat else 0%nat.
Proof.
  cbv zeta. pose proof (sizingRun_ok _ events initialSizing_ok) as H.
  unfold sizing_ok, isMounted in *. destruct (lastRun _) as [r|].
  - destruct H as (w & l & _ & _ & _ & -> & _). reflexivity.
  - destruct H as [-> _]. reflexivity.
Qed.

(** C31. The cell size follows the width and the months: whatever
    happened before, once a mounted component has been rendered with
    [nMonths] months and the window resized to a scroller of
    [clientWidth] pixels, in either order, [computedCellSize] is the size
    [resize] computes for that width and that number of months; no
    listener of an earlier render, with its own number of months, has the
    last word. *)
Theorem cell_size_follows_width (events : list SizingEvent) (nMonths : nat) (clientWidth : Z) :
  isMounted (sizingRun initialSizing events) = true ->
  computedCellSize
    (sizingRun initialSizing (events ++ [Rerender nMonths; WindowResize clientWidth]))
  = resize clientWidth nMonths /\
  computedCellSize
    (sizingRun initialSizing (events ++ [WindowResize clientWidth; Rerender nMonths]))
  = resize clientWidth nMonths.
Proof.
  intros Hm. destruct (mounted_run events Hm) as [H Hr]. rewrite !sizingRun_app.
  split; [now apply size_after_render_resize|now apply size_after_resize_render].
Qed.

(** With at most twelve months and room for the minimum cell size, the
    timeline fits the scroller after a render and a resize: there is
    nothing to scroll. *)
Theorem timeline_fits_after_resize (events : list SizingEvent) (nMonths : nat) (clientWidth : Z) :
  isMounted (sizingRun initialSizing events) = true ->
  (0 < nMonths <= 12)%nat ->
  MIN_CELL * Z.of_nat (totalColumns nMonths) <= clientWidth - leftWidth - rightWidth ->
  gridMinWidth nMonths
    (computedCellSize
       (sizingRun initialSizing (events ++ [Rerender nMonths; WindowResize clientWidth])))
  <= clientWidth.
Proof.
  intros Hm Hn Hw. destruct (mounted_run events Hm) as [H Hr].
  rewrite sizingRun_app, size_after_render_resize by assumption.
  now apply grid_fits_viewport.
Qed.

(** ** Witnesses *)

Definition sampleSizingEvents : list SizingEvent :=
  [Mount 1000 3; WindowResize 900; Rerender 5; Unmount; Mount 1200 5].

Lemma cell_size_follows_width_witness :
  computedCellSize (sizingRun initialSizing (sampleSizingEvents ++ [Rerender 8; WindowResize 800]))
  = resize 800 8 /\
  computedCellSize (sizingRun initialSizing (sampleSizingEvents ++ [WindowResize 800; Rerender 8]))
  = resize 800 8.
Proof. exact (cell_size_follows_width sampleSizingEvents 8 800 eq_refl). Defined.

Lemma timeline_fits_after_resize_witness :
  gridMinWidth 8
    (computedCellSize
       (sizingRun initialSizing (sampleSizingEvents ++ [Rerender 8; WindowResize 1000])))
  <= 1000.
Proof.
  apply (timeline_fits_after_resize sampleSizingEvents 8 1000 eq_refl); [lia|].
  vm_compute. discriminate.
Defined.

(** A component mounted in a scroller of 1000 pixels with three months,
    resized, rendered with five months and removed: one listener, then
    none; the cell size is that of the last width and months. *)
Example sample_sizing :
  map (fun n => length (windowListeners (sizingRun initialSizing (firstn n sampleSizingEvents))))
      [0; 1; 2; 3; 4; 5]%nat = [0; 1; 1; 1; 0; 1]%nat /\
  computedCellSize (sizingRun initialSizing (firstn 3 sampleSizingEvents)) = resize 900 5 /\
  resize 900 5 = 31.
Proof. now vm_compute. Qed.
