(* ===== verification/DragScroll.v ===== *)
(** * DragScroll: dragging the timeline sideways

    The seven event handlers on the scroller element (lines 157-196 of
    [src/client/src/components/ProjectCalendar.jsx]).  Their state is the
    three refs [isDraggingRef], [startXRef], [scrollLeftRef] and the
    scroller element itself: its [scrollLeft], which the browser keeps
    between 0 and [scrollWidth - clientWidth] on every assignment, and
    whether its class list holds [cursor-grabbing].  Pixel positions are
    integers.  Each handler is a function on [DragState]; a move handler
    also reports whether it called [preventDefault] and
    [stopPropagation]. *)

From Stdlib Require Import ZArith Lia Bool List Morphisms RelationClasses.
From S2P Require Import Prelude.
Import ListNotations.

#[local] Open Scope Z_scope.

(** ** State *)

(** The scroller element, as far as the handlers read and write it. *)
Record Scroller : Type := {
  offsetLeft : Z;
  scrollWidth : Z;
  clientWidth : Z;
  scrollLeft : Z;
  cursorGrabbing : bool
}.

Record DragState : Type := {
  isDragging : bool;
  startX : Z;
  scrollLeftRef : Z;
  scroller : Scroller
}.

Inductive DragEvent : Type :=
| MouseDown (pageX : Z)
| MouseMove (pageX : Z)
| MouseUp
| MouseLeave
| TouchStart (pageX : Z)
| TouchMove (pageX : Z)
| TouchEnd.

(** ** The element *)

(** The largest scroll offset of the element. *)
Definition maxScroll (el : Scroller) : Z :=
  js_max 0 (scrollWidth el - clientWidth el).

(** [el.scrollLeft = v]: the browser clamps the value to the scroll
    range. *)
Definition setScrollLeft (el : Scroller) (v : Z) : Scroller :=
  {| offsetLeft := offsetLeft el;
     scrollWidth := scrollWidth el;
     clientWidth := clientWidth el;
     scrollLeft := js_max 0 (js_min v (maxScroll el));
     cursorGrabbing := cursorGrabbing el |}.

(** [el.classList.add('cursor-grabbing')] and [remove]. *)
Definition setGrabbing (el : Scroller) (b : bool) : Scroller :=
  {| offsetLeft := offsetLeft el;
     scrollWidth := scrollWidth el;
     clientWidth := clientWidth el;
     scrollLeft := scrollLeft el;
     cursorGrabbing := b |}.

(** ** The handlers *)

Definition onMouseDown (pageX : Z) (s : DragState) : DragState :=
  let el := setGrabbing (scroller s) true in
  {| isDragging := true;
     startX := pageX - offsetLeft el;
     scrollLeftRef := scrollLeft el;
     scroller := el |}.

(** The common body of [onMouseMove] and [onTouchMove]; the boolean says
    whether the default action was prevented and propagation stopped. *)
Definition dragMove (pageX : Z) (s : DragState) : DragState * bool :=
  if negb (isDragging s) then (s, false)
  else
    let x := pageX - offsetLeft (scroller s) in
    let walk := (x - startX s) * 1 in
    ({| isDragging := isDragging s;
        startX := startX s;
        scrollLeftRef := scrollLeftRef s;
        scroller := setScrollLeft (scroller s) (scrollLeftRef s - walk) |},
     true).

Definition onMouseMove (pageX : Z) (s : DragState) : DragState * bool :=
  dragMove pageX s.

Definition onMouseUp (s : DragState) : DragState :=
  {| isDragging := false;
     startX := startX s;
     scrollLeftRef := scrollLeftRef s;
     scroller := setGrabbing (scroller s) false |}.

Definition onMouseLeave (s : DragState) : DragState :=
  {| isDragging := false;
     startX := startX s;
     scrollLeftRef := scrollLeftRef s;
     scroller := setGrabbing (scroller s) false |}.

Definition onTouchStart (pageX : Z) (s : DragState) : DragState :=
  {| isDragging := true;
     startX := pageX - offsetLeft (scroller s);
     scrollLeftRef := scrollLeft (scroller s);
     scroller := scroller s |}.

Definition onTouchMove (pageX : Z) (s : DragState) : DragState * bool :=
  dragMove pageX s.

Definition onTouchEnd (s : DragState) : DragState :=
  {| isDragging := false;
     startX := startX s;
     scrollLeftRef := scrollLeftRef s;
     scroller := scroller s |}.

(** ** The state machine *)

Definition step (s : DragState) (e : DragEvent) : DragState :=
  match e with
  | MouseDown x => onMouseDown x s
  | MouseMove x => fst (onMouseMove x s)
  | MouseUp => onMouseUp s
  | MouseLeave => onMouseLeave s
  | TouchStart x => onTouchStart x s
  | TouchMove x => fst (onTouchMove x s)
  | TouchEnd => onTouchEnd s
  end.

Definition run (s : DragState) (es : list DragEvent) : DragState :=
  fold_left step es s.

(** The state after mounting: the refs hold their initial values. *)
Definition initialDrag (el : Scroller) : DragState :=
  {| isDragging := false; startX := 0; scrollLeftRef := 0; scroller := el |}.

(** ** Predicates on events and states *)

Definition isMove (e : DragEvent) : bool :=
  match e with
  | MouseMove _ | TouchMove _ => true
  | _ => false
  end.

Definition isPress (e : DragEvent) : bool :=
  match e with
  | MouseDown _ | TouchStart _ => true
  | _ => false
  end.

Definition isMouse (e : DragEvent) : bool :=
  match e with
  | MouseDown _ | MouseMove _ | MouseUp | MouseLeave => true
  | _ => false
  end.

Definition isRelease (e : DragEvent) : bool :=
  match e with
  | MouseUp | MouseLeave | TouchEnd => true
  | _ => false
  end.

Definition pressPageX (e : DragEvent) : option Z :=
  match e with
  | MouseDown x | TouchStart x => Some x
  | _ => None
  end.

Definition movePageX (e : DragEvent) : option Z :=
  match e with
  | MouseMove x | TouchMove x => Some x
  | _ => None
  end.

(** The cursor class is on the element exactly while a drag is active. *)
Definition cursor_ok (s : DragState) : Prop :=
  cursorGrabbing (scroller s) = isDragging s.

(** The scroll offset is inside the scroll range. *)
Definition scroll_ok (s : DragState) : Prop :=
  0 <= scrollLeft (scroller s) <= maxScroll (scroller s).

(** The same element geometry. *)
Definition same_geometry (a b : Scroller) : Prop :=
  offsetLeft a = offsetLeft b /\ scrollWidth a = scrollWidth b /\
  clientWidth a = clientWidth b.

(** The value an assignment of [v] leaves in [scrollLeft]. *)
Definition clampScroll (el : Scroller) (v : Z) : Z :=
  Z.max 0 (Z.min v (maxScroll el)).

(** ** The element *)

Lemma maxScroll_nonneg el : 0 <= maxScroll el.
Proof. unfold maxScroll. apply js_max_lower. Qed.

Lemma maxScroll_setScrollLeft el v : maxScroll (setScrollLeft el v) = maxScroll el.
Proof. reflexivity. Qed.

Lemma scrollLeft_setScrollLeft el v :
  scrollLeft (setScrollLeft el v) = clampScroll el v.
Proof. unfold clampScroll. simpl. now rewrite js_max_spec, js_min_spec. Qed.

Lemma clampScroll_range el v : 0 <= clampScroll el v <= maxScroll el.
Proof. unfold clampScroll. pose proof (maxScroll_nonneg el). lia. Qed.

Lemma clampScroll_id el v : 0 <= v <= maxScroll el -> clampScroll el v = v.
Proof. unfold clampScroll. lia. Qed.

Lemma same_geometry_refl el : same_geometry el el.
Proof. now repeat split. Qed.

Lemma same_geometry_trans a b c :
  same_geometry a b -> same_geometry b c -> same_geometry a c.
Proof. unfold same_geometry. intuition congruence. Qed.

Lemma same_geometry_sym a b : same_geometry a b -> same_geometry b a.
Proof. unfold same_geometry. intuition congruence. Qed.

Lemma same_geometry_maxScroll a b : same_geometry a b -> maxScroll a = maxScroll b.
Proof. intros (_ & Hw & Hc). unfold maxScroll. now rewrite Hw, Hc. Qed.

Lemma same_geometry_clamp a b v :
  same_geometry a b -> clampScroll a v = clampScroll b v.
Proof. intros H. unfold clampScroll. now rewrite (same_geometry_maxScroll a b H). Qed.

(** Elements of the same geometry differ by their scroll offset and
    their classes only; the scroll range and the clamping respect the
    relation. *)
#[export] Instance same_geometry_equivalence : Equivalence same_geometry :=
  {| Equivalence_Reflexive := same_geometry_refl;
     Equivalence_Symmetric := same_geometry_sym;
     Equivalence_Transitive := same_geometry_trans |}.

#[export] Instance maxScroll_proper : Proper (same_geometry ==> eq) maxScroll.
Proof. intros a b H. now apply same_geometry_maxScroll. Qed.

#[export] Instance clampScroll_proper : Proper (same_geometry ==> eq ==> eq) clampScroll.
Proof. intros a b H v ? <-. now apply same_geometry_clamp. Qed.

(** ** One step *)

Lemma step_geometry s e : same_geometry (scroller s) (scroller (step s e)).
Proof.
  destruct e; simpl; try apply same_geometry_refl;
    unfold onMouseMove, onTouchMove, dragMove;
    destruct (isDragging s); simpl; now repeat split.
Qed.

Lemma dragMove_scroll_ok x s : scroll_ok s -> scroll_ok (fst (dragMove x s)).
Proof.
  intros H. unfold dragMove. destruct (isDragging s); [|exact H].
  unfold scroll_ok. cbn [fst negb scroller].
  rewrite scrollLeft_setScrollLeft, maxScroll_setScrollLeft.
  apply clampScroll_range.
Qed.

Lemma step_scroll_ok s e : scroll_ok s -> scroll_ok (step s e).
Proof.
  intros H. destruct e; try exact H; now apply dragMove_scroll_ok.
Qed.

Lemma dragMove_idle x s : isDragging s = false -> dragMove x s = (s, false).
Proof. intros H. unfold dragMove. now rewrite H. Qed.

Lemma dragMove_dragging x s :
  isDragging s = true ->
  let s' := fst (dragMove x s) in
  scrollLeft (scroller s')
  = clampScroll (scroller s) (scrollLeftRef s - (x - offsetLeft (scroller s) - startX s))
  /\ isDragging s' = true /\ startX s' = startX s /\ scrollLeftRef s' = scrollLeftRef s
  /\ snd (dragMove x s) = true.
Proof.
  intros H. unfold dragMove. rewrite H. simpl.
  rewrite js_max_spec, js_min_spec, Z.mul_1_r. unfold clampScroll. tauto.
Qed.

Lemma step_move_idle s e :
  isMove e = true -> isDragging s = false -> step s e = s.
Proof.
  intros He Hs. destruct e; try discriminate; simpl;
    unfold onMouseMove, onTouchMove; now rewrite dragMove_idle.
Qed.

Lemma step_release s e :
  isMove e = false -> isPress e = false -> isDragging (step s e) = false.
Proof. destruct e; simpl; congruence. Qed.

Lemma step_press s e : isPress e = true -> isDragging (step s e) = true.
Proof. destruct e; simpl; congruence. Qed.

(** ** Runs *)

Lemma run_app s es1 es2 : run s (es1 ++ es2) = run (run s es1) es2.
Proof. apply fold_left_app. Qed.

Lemma run_geometry s es : same_geometry (scroller s) (scroller (run s es)).
Proof.
  revert s. induction es as [|e es IH]; intros s; [apply same_geometry_refl|].
  simpl. eapply same_geometry_trans; [apply step_geometry | apply IH].
Qed.

Lemma run_scroll_ok s es : scroll_ok s -> scroll_ok (run s es).
Proof.
  revert s. induction es as [|e es IH]; intros s H; [exact H|].
  simpl. apply IH, step_scroll_ok, H.
Qed.

(** Moves alone never change an idle state. *)
Lemma run_moves_idle s es :
  isDragging s = false -> forallb isMove es = true -> run s es = s.
Proof.
  intros Hs. induction es as [|e es IH]; [reflexivity|]. simpl.
  intros H. apply andb_true_iff in H as [He Hes].
  rewrite step_move_idle by assumption. now apply IH.
Qed.

(** While dragging, moves keep the captured start position and scroll
    offset. *)
Lemma run_moves_refs s es :
  isDragging s = true -> forallb isMove es = true ->
  isDragging (run s es) = true /\ startX (run s es) = startX s /\
  scrollLeftRef (run s es) = scrollLeftRef s.
Proof.
  revert s. induction es as [|e es IH]; intros s Hs H; [now repeat split|].
  simpl in H. apply andb_true_iff in H as [He Hes]. simpl.
  assert (Hstep : isDragging (step s e) = true /\ startX (step s e) = startX s /\
                  scrollLeftRef (step s e) = scrollLeftRef s).
  { destruct e; try discriminate; simpl; unfold onMouseMove, onTouchMove;
      destruct (dragMove_dragging pageX s Hs) as (_ & ? & ? & ? & _); auto. }
  destruct Hstep as (Hd & Hx & Hr).
  destruct (IH (step s e) Hd Hes) as (? & ? & ?). repeat split; congruence.
Qed.

(** The offset after a series of moves depends on the last one only. *)
Lemma run_moves_last s es x e :
  isDragging s = true -> forallb isMove es = true -> movePageX e = Some x ->
  scrollLeft (scroller (run s (es ++ [e])))
  = clampScroll (scroller s) (scrollLeftRef s - (x - offsetLeft (scroller s) - startX s)).
Proof.
  intros Hs Hes He. rewrite run_app. simpl.
  destruct (run_moves_refs s es Hs Hes) as (Hd & Hx & Hr).
  pose proof (run_geometry s es) as Hg.
  assert (step (run s es) e = fst (dragMove x (run s es))) as ->
    by (destruct e; inversion He; reflexivity).
  destruct (dragMove_dragging x (run s es) Hd) as (-> & _).
  rewrite Hx, Hr, <- (same_geometry_clamp _ _ _ Hg).
  destruct Hg as (-> & _). reflexivity.
Qed.

Lemma step_press_refs s e x :
  pressPageX e = Some x ->
  isDragging (step s e) = true /\
  startX (step s e) = x - offsetLeft (scroller s) /\
  scrollLeftRef (step s e) = scrollLeft (scroller s).
Proof. destruct e; intros H; inversion H; subst; now repeat split. Qed.

Lemma step_release_idle s e : isRelease e = true -> isDragging (step s e) = false.
Proof. destruct e; simpl; congruence. Qed.

Lemma step_cursor_ok s e : isMouse e = true -> cursor_ok s -> cursor_ok (step s e).
Proof.
  unfold cursor_ok. destruct e; try discriminate; intros _ H; try reflexivity.
  simpl. unfold onMouseMove, dragMove.
  destruct (isDragging s) eqn:E; simpl; congruence.
Qed.

Lemma run_cursor_ok s es :
  forallb isMouse es = true -> cursor_ok s -> cursor_ok (run s es).
Proof.
  revert s. induction es as [|e es IH]; intros s Hes H; [exact H|].
  simpl in Hes. apply andb_true_iff in Hes as [He Hes].
  simpl. apply IH; [exact Hes | now apply step_cursor_ok].
Qed.

#[export] Hint Resolve step_scroll_ok run_scroll_ok maxScroll_nonneg clampScroll_range : cal.

(** ** Properties of the drag-to-scroll handlers *)

(** Whatever events arrive, the scroll offset stays within the
    scroll range of the element, and the handlers never change the
    geometry of the element. *)
Theorem scroll_stays_in_range (s : DragState) (es : list DragEvent) :
  scroll_ok s ->
  scroll_ok (run s es) /\ same_geometry (scroller s) (scroller (run s es)).
Proof. intros H. split; [now apply run_scroll_ok | apply run_geometry]. Qed.

(** C37. A drag follows the pointer one to one: after a press at [x0]
    and any series of moves ending at [x1], the scroll offset is the
    offset at the press minus [x1 - x0], clamped to the scroll range; the
    moves in between leave no trace. *)
Theorem drag_follows_pointer (s : DragState) (press : DragEvent) (x0 : Z)
    (moves : list DragEvent) (final : DragEvent) (x1 : Z) :
  pressPageX press = Some x0 -> forallb isMove moves = true ->
  movePageX final = Some x1 ->
  scrollLeft (scroller (run s (press :: moves ++ [final])))
  = clampScroll (scroller s) (scrollLeft (scroller s) - (x1 - x0)).
Proof.
  intros Hp Hm Hf. change (run s (press :: moves ++ [final]))
    with (run (step s press) (moves ++ [final])).
  destruct (step_press_refs s press x0 Hp) as (Hd & Hx & Hr).
  rewrite (run_moves_last _ moves x1 final Hd Hm Hf), Hx, Hr.
  pose proof (step_geometry s press) as Hg.
  rewrite <- (same_geometry_clamp _ _ _ Hg). destruct Hg as (<- & _).
  f_equal. lia.
Qed.

(** Moves without a press do nothing: in a state that is not
    dragging, any series of mouse or touch moves leaves the state as it
    is, and no move prevents the default action. *)
Theorem idle_moves_do_nothing (s : DragState) (moves : list DragEvent) (x : Z) :
  isDragging s = false -> forallb isMove moves = true ->
  run s moves = s /\ onMouseMove x s = (s, false) /\ onTouchMove x s = (s, false).
Proof.
  intros Hs Hm. split; [now apply run_moves_idle|].
  unfold onMouseMove, onTouchMove. now rewrite dragMove_idle.
Qed.

(** C38. A release ends the drag: after a mouse-up, a mouse-leave or a
    touch-end, the state is not dragging and the moves that follow do not
    scroll. *)
Theorem release_ends_drag (s : DragState) (es : list DragEvent)
    (release : DragEvent) (moves : list DragEvent) :
  isRelease release = true -> forallb isMove moves = true ->
  isDragging (run s (es ++ [release])) = false /\
  run s (es ++ release :: moves) = run s (es ++ [release]).
Proof.
  intros Hr Hm.
  assert (Hd : isDragging (run s (es ++ [release])) = false)
    by (rewrite run_app; simpl; now apply step_release_idle).
  split; [exact Hd|].
  change (release :: moves) with ([release] ++ moves).
  rewrite app_assoc, run_app. now apply run_moves_idle.
Qed.

(** With mouse events only, the element carries the class
    [cursor-grabbing] exactly while a drag is active. *)
Theorem grabbing_iff_dragging (el : Scroller) (es : list DragEvent) :
  cursorGrabbing el = false -> forallb isMouse es = true ->
  cursor_ok (run (initialDrag el) es).
Proof. intros Hc Hes. apply run_cursor_ok; [exact Hes | exact Hc]. Qed.

(** ** Witnesses *)

Definition sampleScroller : Scroller :=
  {| offsetLeft := 16; scrollWidth := 2000; clientWidth := 800;
     scrollLeft := 300; cursorGrabbing := false |}.

Lemma scroll_stays_in_range_witness :
  let s := initialDrag sampleScroller in
  let es := [MouseDown 500; MouseMove 2100; MouseMove (-900); MouseUp] in
  scroll_ok s /\
  scroll_ok (run s es) /\ same_geometry (scroller s) (scroller (run s es)).
Proof.
  cbv zeta. split; [vm_compute; split; discriminate|].
  apply (scroll_stays_in_range (initialDrag sampleScroller)).
  vm_compute. split; discriminate.
Defined.

Lemma drag_follows_pointer_witness :
  let s := initialDrag sampleScroller in
  pressPageX (MouseDown 500) = Some 500 /\
  forallb isMove [MouseMove 520; MouseMove 460] = true /\
  movePageX (MouseMove 430) = Some 430 /\
  scrollLeft (scroller (run s (MouseDown 500 :: [MouseMove 520; MouseMove 460] ++ [MouseMove 430])))
  = clampScroll (scroller s) (scrollLeft (scroller s) - (430 - 500)).
Proof.
  cbv zeta. do 3 (split; [reflexivity|]).
  apply (drag_follows_pointer (initialDrag sampleScroller) (MouseDown 500) 500
           [MouseMove 520; MouseMove 460] (MouseMove 430) 430); reflexivity.
Defined.

Lemma idle_moves_do_nothing_witness :
  let s := initialDrag sampleScroller in
  isDragging s = false /\ forallb isMove [MouseMove 10; TouchMove 900] = true /\
  run s [MouseMove 10; TouchMove 900] = s /\
  onMouseMove 77 s = (s, false) /\ onTouchMove 77 s = (s, false).
Proof.
  cbv zeta. do 2 (split; [reflexivity|]).
  apply (idle_moves_do_nothing (initialDrag sampleScroller)
           [MouseMove 10; TouchMove 900] 77); reflexivity.
Defined.

Lemma release_ends_drag_witness :
  let s := initialDrag sampleScroller in
  isRelease MouseLeave = true /\ forallb isMove [MouseMove 40] = true /\
  isDragging (run s ([MouseDown 500; MouseMove 480] ++ [MouseLeave])) = false /\
  run s ([MouseDown 500; MouseMove 480] ++ MouseLeave :: [MouseMove 40])
  = run s ([MouseDown 500; MouseMove 480] ++ [MouseLeave]).
Proof.
  cbv zeta. do 2 (split; [reflexivity|]).
  apply (release_ends_drag (initialDrag sampleScroller)
           [MouseDown 500; MouseMove 480] MouseLeave [MouseMove 40]); reflexivity.
Defined.

Lemma grabbing_iff_dragging_witness :
  cursorGrabbing sampleScroller = false /\
  forallb isMouse [MouseDown 5; MouseMove 9; MouseUp; MouseDown 7] = true /\
  cursor_ok (run (initialDrag sampleScroller) [MouseDown 5; MouseMove 9; MouseUp; MouseDown 7]).
Proof.
  do 2 (split; [reflexivity|]).
  apply (grabbing_iff_dragging sampleScroller
           [MouseDown 5; MouseMove 9; MouseUp; MouseDown 7]); reflexivity.
Defined.

(** A drag of 70 pixels to the left scrolls 70 pixels to the right. *)
Example sample_drag :
  scrollLeft (scroller (run (initialDrag sampleScroller)
                          [MouseDown 500; MouseMove 520; MouseMove 430; MouseUp])) = 370.
Proof. reflexivity. Qed.

(** A mouse press followed by a touch-end leaves the class on the
    element although no drag is active: [onTouchEnd] does not remove it. *)
Example grabbing_left_after_touch_end :
  let s := run (initialDrag sampleScroller) [MouseDown 500; TouchEnd] in
  isDragging s = false /\ cursorGrabbing (scroller s) = true.
Proof. split; reflexivity. Qed.
