(* ===== verification/Viewport.v ===== *)
(** * Viewport: the timeline in its scroller

    The parts of [src/client/src/components/ProjectCalendar.jsx] that
    meet in the scroller element of line 157: the container inside it
    asks for the [minWidth] of line 197, computed from the cell size that
    the effect of lines 103-116 keeps ([Resize]), and the handlers of
    lines 160-195 move its [scrollLeft] ([DragScroll]).  The scroller has
    [overflowX: 'auto']: its content is as wide as the container asks, or
    as the scroller itself when that is wider.

    The theorems say what the comments of lines 69-72 promise: twelve
    months are one page.  With at most twelve months and room for the
    minimum cell size nothing can be scrolled, whatever the pointer does;
    with more, the content is wider than the scroller. *)

From Stdlib Require Import ZArith Lia Bool List.
From S2P Require Import Prelude Columns Resize DragScroll.
Import ListNotations.

#[local] Open Scope Z_scope.

(** ** The scroller after layout *)

(** The scroller element of line 157 around a container that asks for
    [minWidth] pixels, at rest at the left end. *)
Definition laidOut (offset width minWidth : Z) : Scroller :=
  {| offsetLeft := offset; scrollWidth := Z.max width minWidth; clientWidth := width;
     scrollLeft := 0; cursorGrabbing := false |}.

(** The scroller of a mounted component with [nMonths] months: line 197
    with the cell size of the state. *)
Definition scrollerOf (offset : Z) (nMonths : nat) (s : Sizing) : option Scroller :=
  match element s with
  | Some width => Some (laidOut offset width (gridMinWidth nMonths (computedCellSize s)))
  | None => None
  end.

(** ** Lemmas *)

Lemma maxScroll_laidOut (offset width minWidth : Z) :
  maxScroll (laidOut offset width minWidth) = Z.max 0 (minWidth - width).
Proof. unfold maxScroll, laidOut. cbn. rewrite js_max_spec. lia. Qed.

Lemma scroll_ok_laidOut (offset width minWidth : Z) :
  scroll_ok (initialDrag (laidOut offset width minWidth)).
Proof. unfold scroll_ok. cbn [initialDrag scroller]. rewrite maxScroll_laidOut. cbn. lia. Qed.

(** A scroller whose content fits cannot be scrolled. *)
Lemma fitting_scroller_is_still (offset width minWidth : Z) (es : list DragEvent) :
  minWidth <= width ->
  scrollLeft (scroller (run (initialDrag (laidOut offset width minWidth)) es)) = 0.
Proof.
  intros H. pose proof (run_scroll_ok _ es (scroll_ok_laidOut offset width minWidth)) as Hs.
  pose proof (run_geometry (initialDrag (laidOut offset width minWidth)) es) as Hg.
  unfold scroll_ok in Hs. rewrite <- (same_geometry_maxScroll _ _ Hg) in Hs.
  cbn [initialDrag scroller] in Hs. rewrite maxScroll_laidOut in Hs. lia.
Qed.

(** The scroller after a render with [nMonths] months and a resize of
    the window. *)
Lemma scrollerOf_after (events : list SizingEvent) (nMonths : nat) (width offset : Z) :
  isMounted (sizingRun initialSizing events) = true ->
  scrollerOf offset nMonths
    (sizingRun initialSizing (events ++ [Rerender nMonths; WindowResize width]))
  = Some (laidOut offset width (gridMinWidth nMonths (resize width nMonths))).
Proof.
  intros Hm. destruct (mounted_run events Hm) as [H Hr]. unfold scrollerOf.
  rewrite sizingRun_app. rewrite (size_after_render_resize _ nMonths width H Hr).
  pose proof (sizingStep_ok _ (Rerender nMonths) H) as Hc.
  cbn [sizingRun fold_left sizingStep] in *. unfold isMounted in *.
  destruct (lastRun (sizingRun initialSizing events)) as [r0|] eqn:Hr0; [|easy].
  destruct (commit_deps nMonths _ H ltac:(congruence)) as (r & Hr1 & _).
  destruct (dispatchResize_state width _ Hc ltac:(congruence)) as [_ ->]. reflexivity.
Qed.

(** ** Properties *)

(** C32. Twelve months are one page.  After a render with [nMonths]
    months and a resize of the window to a scroller [width] pixels wide:
    with at most twelve months and room for the minimum cell size the
    content fits, and no sequence of mouse and touch events moves the
    scroll offset from 0; with more than twelve months the content is
    wider than the scroller and the scroll range is not empty. *)
Theorem twelve_months_are_one_page (events : list SizingEvent) (nMonths : nat)
    (width offset : Z) :
  isMounted (sizingRun initialSizing events) = true ->
  exists el,
    scrollerOf offset nMonths
      (sizingRun initialSizing (events ++ [Rerender nMonths; WindowResize width])) = Some el /\
    ((0 < nMonths <= 12)%nat ->
     MIN_CELL * Z.of_nat (totalColumns nMonths) <= width - leftWidth - rightWidth ->
     forall es, scrollLeft (scroller (run (initialDrag el) es)) = 0) /\
    ((12 < nMonths)%nat -> 0 < maxScroll el).
Proof.
  intros Hm. eexists. split; [now apply scrollerOf_after|]. split.
  - intros Hn Hw es. apply fitting_scroller_is_still. now apply grid_fits_viewport.
  - intros Hn. rewrite maxScroll_laidOut.
    pose proof (more_than_twelve_months_overflow width nMonths Hn). lia.
Qed.

(** ** Witnesses *)

Lemma twelve_months_are_one_page_witness :
  exists el,
    scrollerOf 16 8
      (sizingRun initialSizing (sampleSizingEvents ++ [Rerender 8; WindowResize 1000])) = Some el /\
    ((0 < 8 <= 12)%nat ->
     MIN_CELL * Z.of_nat (totalColumns 8) <= 1000 - leftWidth - rightWidth ->
     forall es, scrollLeft (scroller (run (initialDrag el) es)) = 0) /\
    ((12 < 8)%nat -> 0 < maxScroll el).
Proof. exact (twelve_months_are_one_page sampleSizingEvents 8 1000 16 eq_refl). Defined.

(** Eight months in a scroller of 1000 pixels: cells of 22 pixels, a
    grid of 984 pixels, and a drag that moves nothing.  Fourteen months:
    cells of 20 pixels, a grid of 1400 pixels, and a drag of 150 pixels to
    the left that scrolls by 150. *)
Example sample_viewport :
  gridMinWidth 8 (resize 1000 8) = 984 /\
  scrollLeft (scroller (run (initialDrag (laidOut 16 1000 984))
                            [MouseDown 500; MouseMove 350; MouseUp])) = 0 /\
  gridMinWidth 14 (resize 1000 14) = 1400 /\
  scrollLeft (scroller (run (initialDrag (laidOut 16 1000 1400))
                            [MouseDown 500; MouseMove 350; MouseUp])) = 150.
Proof. now vm_compute. Qed.
