(* ===== verification/Http.v ===== *)
(** * Http: the values exchanged between the dialog and the server

    The data that cross the wire between [AddFileDialog]
    ([src/client/src/components/AddFileDialog.jsx]) and the Express
    application ([src/server/server.js], [src/server/routes/evidenceRoute.js],
    [src/server/controllers/evidenceController.js]): form data, requests,
    responses and the evidence record in its JSON form; the exceptions of
    JavaScript as values; and the monad [Async] in which the bodies of the
    two [async] functions are written: a state, an exception, and the early
    [return] of a handler. *)

From Stdlib Require Import ZArith Lia Bool String List.
From S2P Require Import Prelude.
Import ListNotations.

#[local] Open Scope Z_scope.
#[local] Open Scope js_scope.

(** ** Data *)

(** A file chosen in the browser. *)
Record File : Type := { file_name : string; file_size : Z }.

(** One entry of a [FormData]: a string or a file. *)
Inductive FormValue : Type :=
| FormText (s : string)
| FormFile (f : File).

(** [new FormData()] with its [append]ed entries, in order. *)
Definition FormData : Type := list (string * FormValue).

(** The JSON body of the call to [/api/weekly-progress]. *)
Record WeeklyProgress : Type := {
  wp_taskId : string;
  wp_weekIndex : option Z;
  wp_date : string
}.

(** The user included in an evidence ([include: { user: true }]). *)
Record User : Type := { user_id : string }.

(** An evidence record as stored and as returned in JSON. *)
Record Evidence : Type := {
  ev_taskId : string;
  ev_userId : string;
  ev_content : option string;
  ev_image_url : string;
  ev_date : Z;
  ev_user : User
}.

(** The body of a response: text written by [res.send] or by the
    framework, or the object written by [res.json]. *)
Inductive Body : Type :=
| Text (s : string)
| Json (message : string) (evidence : option Evidence).

Record Response : Type := { status : Z; body : Body }.

(** A thrown value: [error.code], [error.message] and, for an error of
    the HTTP client, [error.response]. *)
Record JsError : Type := {
  err_code : option string;
  err_message : string;
  err_response : option Response
}.

Inductive Method : Type := GET | POST | OPTIONS.

Inductive Payload : Type :=
| NoPayload
| JsonPayload (w : WeeklyProgress)
| FormPayload (f : FormData).

(** A request as the HTTP client sends it; the path is its list of
    segments, [["api"; "evidences"]] for [/api/evidences]. *)
Record Request : Type := {
  method : Method;
  path : list string;
  bearer : option string;
  payload : Payload
}.

(** A settled promise, or a call that may throw: its value or the error. *)
Inductive Outcome (A : Type) : Type :=
| Resolved (a : A)
| Rejected (e : JsError).

Arguments Resolved {A} a.
Arguments Rejected {A} e.

(** A file as the upload middleware stored it ([req.file]). *)
Record StoredFile : Type := { filename : string; originalname : string }.

(** The request object a handler of the server receives: the request as
    sent, the path below the mount point, and what the middlewares have
    attached: [req.auth()], [req.body], [req.file]. *)
Record Req : Type := {
  req_request : Request;
  req_path : list string;
  req_auth : Outcome (option string);
  req_body : option (list (string * string));
  req_file : option StoredFile
}.

Definition Method_eq_dec (a b : Method) : {a = b} + {a <> b}.
Proof. decide equality. Defined.

(** ** Operations *)

(** [res.json(b)] with the default status, and [res.status(c).json(b)]. *)
Definition res_json (message : string) (evidence : option Evidence) : Response :=
  {| status := 200; body := Json message evidence |}.

Definition res_status_json (code : Z) (message : string) : Response :=
  {| status := code; body := Json message None |}.

(** [data.message] of a response body. *)
Definition body_message (b : Body) : option string :=
  match b with
  | Json m _ => Some m
  | Text _ => None
  end.

(** An [Error] with a message only. *)
Definition plainError (message : string) : JsError :=
  {| err_code := None; err_message := message; err_response := None |}.

(** The text fields of a form, as a body parser leaves them in
    [req.body], and the file of a given field. *)
Fixpoint formFields (f : FormData) : list (string * string) :=
  match f with
  | [] => []
  | (k, FormText s) :: rest => (k, s) :: formFields rest
  | (_, FormFile _) :: rest => formFields rest
  end.

Fixpoint formFiles (f : FormData) : list (string * File) :=
  match f with
  | [] => []
  | (k, FormFile x) :: rest => (k, x) :: formFiles rest
  | (_, FormText _) :: rest => formFiles rest
  end.

(** [obj[key]] on an object built from a list of entries: the last entry
    of the key wins, [undefined] when there is none. *)
Fixpoint field {A : Type} (key : string) (entries : list (string * A)) : option A :=
  match entries with
  | [] => None
  | (k, v) :: rest =>
      match field key rest with
      | Some later => Some later
      | None => if (k =? key)%string then Some v else None
      end
  end.

(** ** The monad of an async function body

    A computation over a state [S] ends with a value, with the early
    [return r] of the enclosing function, or with a thrown error. *)

Inductive Step (R A : Type) : Type :=
| Value (a : A)
| Exit (r : R)
| Raise (e : JsError).

Arguments Value {R A} a.
Arguments Exit {R A} r.
Arguments Raise {R A} e.

Definition Async (S R A : Type) : Type := S -> Step R A * S.

Section Monad.

Context {S R : Type}.

Definition ret {A : Type} (a : A) : Async S R A := fun s => (Value a, s).

Definition bind {A B : Type} (m : Async S R A) (k : A -> Async S R B) : Async S R B :=
  fun s =>
    match m s with
    | (Value a, s') => k a s'
    | (Exit r, s') => (Exit r, s')
    | (Raise e, s') => (Raise e, s')
    end.

(** [return r] inside the function, and [throw e]. *)
Definition exit {A : Type} (r : R) : Async S R A := fun s => (Exit r, s).

Definition throw {A : Type} (e : JsError) : Async S R A := fun s => (Raise e, s).

(** [await] of a call on the state: its value, or its error thrown. *)
Definition await {A : Type} (call : S -> Outcome A * S) : Async S R A :=
  fun s =>
    match call s with
    | (Resolved a, s') => (Value a, s')
    | (Rejected e, s') => (Raise e, s')
    end.

(** A call that only reads the state. *)
Definition query {A : Type} (call : S -> Outcome A) : Async S R A :=
  await (fun s => (call s, s)).

(** A statement that only changes the state. *)
Definition modify (f : S -> S) : Async S R unit := fun s => (Value tt, f s).

(** [try { m } catch (e) { h e }]: the handler runs in the state the
    body left. *)
Definition try_catch {A : Type} (m : Async S R A) (h : JsError -> Async S R A) : Async S R A :=
  fun s =>
    match m s with
    | (Raise e, s') => h e s'
    | other => other
    end.

(** [try { m } finally { f }]: [f] runs however [m] ended, and the
    outcome of [m] stands unless [f] itself does not end normally. *)
Definition try_finally {A : Type} (m : Async S R A) (f : Async S R unit) : Async S R A :=
  fun s =>
    let (r, s') := m s in
    match f s' with
    | (Value _, s'') => (r, s'')
    | (Exit r', s'') => (Exit r', s'')
    | (Raise e, s'') => (Raise e, s'')
    end.

End Monad.

Declare Scope async_scope.
Delimit Scope async_scope with async.

Notation "'let*' x ':=' m 'in' k" := (bind m (fun x => k))
  (at level 10, x pattern, m at level 100, k at level 200) : async_scope.
Notation "m ;; k" := (bind m (fun _ => k))
  (at level 100, k at level 200, right associativity) : async_scope.

(** ** Lemmas *)

Section MonadLaws.

Context {S R : Type}.

Lemma bind_ret_l {A B : Type} (a : A) (k : A -> Async S R B) (s : S) :
  bind (ret a) k s = k a s.
Proof. reflexivity. Qed.

Lemma bind_ret_r {A : Type} (m : Async S R A) (s : S) : bind m ret s = m s.
Proof. unfold bind, ret. now destruct (m s) as [[a|r|e] s']. Qed.

Lemma bind_assoc {A B C : Type} (m : Async S R A) (k : A -> Async S R B)
    (h : B -> Async S R C) (s : S) :
  bind (bind m k) h s = bind m (fun a => bind (k a) h) s.
Proof. unfold bind. now destruct (m s) as [[a|r|e] s']. Qed.

Lemma bind_value {A B : Type} (m : Async S R A) (k : A -> Async S R B) (s s' : S) (a : A) :
  m s = (Value a, s') -> bind m k s = k a s'.
Proof. unfold bind. now intros ->. Qed.

Lemma bind_exit {A B : Type} (m : Async S R A) (k : A -> Async S R B) (s s' : S) (r : R) :
  m s = (Exit r, s') -> bind m k s = (Exit r, s').
Proof. unfold bind. now intros ->. Qed.

Lemma bind_raise {A B : Type} (m : Async S R A) (k : A -> Async S R B) (s s' : S) (e : JsError) :
  m s = (Raise e, s') -> bind m k s = (Raise e, s').
Proof. unfold bind. now intros ->. Qed.

(** What a sequence that ends with a value went through. *)
Lemma bind_value_inv {A B : Type} (m : Async S R A) (k : A -> Async S R B) (s s2 : S) (b : B) :
  bind m k s = (Value b, s2) ->
  exists a s1, m s = (Value a, s1) /\ k a s1 = (Value b, s2).
Proof.
  unfold bind. destruct (m s) as [[a|r|e] s1]; intros H; try discriminate.
  now exists a, s1.
Qed.

Lemma await_resolved {A : Type} (call : S -> Outcome A * S) (s s' : S) (a : A) :
  call s = (Resolved a, s') -> await (R := R) call s = (Value a, s').
Proof. unfold await. now intros ->. Qed.

Lemma await_rejected {A : Type} (call : S -> Outcome A * S) (s s' : S) (e : JsError) :
  call s = (Rejected e, s') -> await (R := R) call s = (Raise e, s').
Proof. unfold await. now intros ->. Qed.

(** A query leaves the state as it was. *)
Lemma query_state {A : Type} (call : S -> Outcome A) (s : S) :
  snd (query (R := R) call s) = s.
Proof. unfold query, await. now destruct (call s). Qed.

Lemma query_resolved {A : Type} (call : S -> Outcome A) (s : S) (a : A) :
  call s = Resolved a -> query (R := R) call s = (Value a, s).
Proof. unfold query, await. now intros ->. Qed.

Lemma query_rejected {A : Type} (call : S -> Outcome A) (s : S) (e : JsError) :
  call s = Rejected e -> query (R := R) call s = (Raise e, s).
Proof. unfold query, await. now intros ->. Qed.

Lemma try_catch_value {A : Type} (m : Async S R A) (h : JsError -> Async S R A) (s s' : S) (a : A) :
  m s = (Value a, s') -> try_catch m h s = (Value a, s').
Proof. unfold try_catch. now intros ->. Qed.

Lemma try_catch_raise {A : Type} (m : Async S R A) (h : JsError -> Async S R A) (s s' : S) (e : JsError) :
  m s = (Raise e, s') -> try_catch m h s = h e s'.
Proof. unfold try_catch. now intros ->. Qed.

(** The [finally] block always runs: the final state is one it produced. *)
Lemma try_finally_runs {A : Type} (m : Async S R A) (f : Async S R unit) (s : S) :
  exists r s', m s = (r, s') /\ snd (try_finally m f s) = snd (f s').
Proof.
  unfold try_finally. destruct (m s) as [r s']. exists r, s'. split; [reflexivity|].
  now destruct (f s') as [[u|r'|e] s''].
Qed.

End MonadLaws.

Lemma field_nil {A : Type} (key : string) : field key (@nil (string * A)) = None.
Proof. reflexivity. Qed.

Lemma field_app_last {A : Type} (key : string) (entries : list (string * A)) (v : A) :
  field key (entries ++ [(key, v)]) = Some v.
Proof.
  induction entries as [|[k w] rest IH]; simpl.
  - now rewrite String.eqb_refl.
  - now rewrite IH.
Qed.

Lemma field_app_other {A : Type} (key k : string) (entries : list (string * A)) (v : A) :
  k <> key -> field key (entries ++ [(k, v)]) = field key entries.
Proof.
  intros Hne. induction entries as [|[k' w] rest IH]; simpl.
  - apply String.eqb_neq in Hne. now rewrite Hne.
  - now rewrite IH.
Qed.

Lemma formFields_app (f g : FormData) : formFields (f ++ g) = formFields f ++ formFields g.
Proof.
  induction f as [|[k [s|x]] rest IH]; simpl; [reflexivity| |]; now rewrite IH.
Qed.

Lemma formFiles_app (f g : FormData) : formFiles (f ++ g) = formFiles f ++ formFiles g.
Proof.
  induction f as [|[k [s|x]] rest IH]; simpl; [reflexivity| |]; now rewrite IH.
Qed.
