(* ===== verification/Evidence.v ===== *)
(** * Evidence: the controller that stores an evidence record

    [addEvidence] of [src/server/controllers/evidenceController.js]: the
    handler reads the caller's identity, the form fields and the uploaded
    file from the request, looks the task and its project up, checks that
    the caller is a member of the project, and creates the evidence.  The
    database is a record of finite maps; the Prisma client is the interface
    [Prisma], whose laws say what a successful call returns and that a
    failed [create] stores nothing, so that the theorems hold whatever
    makes a call fail.  [memPrisma] is a client that fails only on invalid
    arguments; it shows that the laws are satisfiable and that a valid
    request succeeds.  [new Date()] is the argument [now]. *)

From stdpp Require Import gmap strings.
From S2P Require Import Prelude JsDate Http.

#[local] Open Scope Z_scope.
#[local] Open Scope js_scope.
#[local] Open Scope async_scope.

(** ** Data *)

(** The columns of the tables that the controller reads. *)
Record TaskRecord : Type := { task_projectId : string }.

Record Member : Type := { member_userId : string }.

(** A project with [include: { members: true }]. *)
Record ProjectRecord : Type := { project_members : list Member }.

Record Database : Type := {
  db_tasks : gmap string TaskRecord;
  db_projects : gmap string ProjectRecord;
  db_evidences : list Evidence
}.

(** The [data] argument of [prisma.evidence.create]: JavaScript values,
    each possibly [undefined]; the date is [None] for an Invalid Date. *)
Record EvidenceData : Type := {
  data_taskId : option string;
  data_userId : option string;
  data_content : option string;
  data_image_url : string;
  data_date : option Z
}.

(** ** The database client *)

(** The record [e] is what storing [d] gives. *)
Definition stores (d : EvidenceData) (e : Evidence) : Prop :=
  data_taskId d = Some (ev_taskId e) /\
  data_userId d = Some (ev_userId e) /\
  ev_content e = data_content d /\
  ev_image_url e = data_image_url d /\
  data_date d = Some (ev_date e) /\
  user_id (ev_user e) = ev_userId e.

Definition add_evidence (e : Evidence) (db : Database) : Database :=
  {| db_tasks := db_tasks db;
     db_projects := db_projects db;
     db_evidences := db_evidences db ++ [e] |}.

Class Prisma : Type := {
  (** [prisma.task.findUnique({ where: { id } })] *)
  task_findUnique : option string -> Database -> Outcome (option TaskRecord);
  (** [prisma.project.findUnique({ where: { id }, include: { members: true } })] *)
  project_findUnique : string -> Database -> Outcome (option ProjectRecord);
  (** [prisma.evidence.create({ data, include: { user: true } })] *)
  evidence_create : EvidenceData -> Database -> Outcome Evidence * Database;
  task_found : forall id db r,
    task_findUnique id db = Resolved r -> exists k, id = Some k /\ r = db_tasks db !! k;
  project_found : forall k db r,
    project_findUnique k db = Resolved r -> r = db_projects db !! k;
  create_stores : forall d db e db',
    evidence_create d db = (Resolved e, db') -> stores d e /\ db' = add_evidence e db;
  create_fails : forall d db err db',
    evidence_create d db = (Rejected err, db') -> db' = db
}.

(** A client that fails only on arguments the schema refuses: a missing
    identifier, an invalid date, a task that does not exist. *)
Definition validationError (message : string) : JsError := plainError message.

Definition foreignKeyError : JsError :=
  {| err_code := Some "P2003";
     err_message := "Foreign key constraint failed";
     err_response := None |}.

Definition mem_task_findUnique (id : option string) (db : Database) : Outcome (option TaskRecord) :=
  match id with
  | Some k => Resolved (db_tasks db !! k)
  | None => Rejected (validationError "Argument `where` needs at least one argument")
  end.

Definition mem_project_findUnique (k : string) (db : Database) : Outcome (option ProjectRecord) :=
  Resolved (db_projects db !! k).

Definition mem_evidence_create (d : EvidenceData) (db : Database) : Outcome Evidence * Database :=
  match data_taskId d, data_userId d, data_date d with
  | Some t, Some u, Some date =>
      if bool_decide (is_Some (db_tasks db !! t)) then
        let e := {| ev_taskId := t; ev_userId := u; ev_content := data_content d;
                    ev_image_url := data_image_url d; ev_date := date;
                    ev_user := {| user_id := u |} |} in
        (Resolved e, add_evidence e db)
      else (Rejected foreignKeyError, db)
  | _, _, _ => (Rejected (validationError "Invalid value provided"), db)
  end.

(** ** The controller *)

(** [const { keterangan, tanggal, taskId } = req.body]: a [TypeError] when
    the body is [undefined]. *)
Definition destructureBody (b : option (list (string * string))) :
    Async Database Response (list (string * string)) :=
  match b with
  | Some fields => ret fields
  | None => throw (plainError "Cannot destructure property 'keterangan' of 'req.body' as it is undefined.")
  end.

(** [file ? `/uploads/${file.filename}` : ""] *)
Definition image_url_of (file : option StoredFile) : string :=
  match file with
  | Some f => "/uploads/" +:+ filename f
  | None => ""
  end.

(** [project?.members.find((m) => m.userId === userId)] *)
Definition findMember (project : option ProjectRecord) (userId : option string) : option Member :=
  match project with
  | Some p => List.find (fun m => bool_decide (Some (member_userId m) = userId)) (project_members p)
  | None => None
  end.

(** [error.code || error.message] in the response of the [catch] block. *)
Definition errorResponse (error : JsError) : Response :=
  res_status_json 500 (truthy_string (err_code error) <||> err_message error).

Section Controller.

Context {P : Prisma} {E : DateParse}.

(** [tanggal ? new Date(tanggal) : new Date()] *)
Definition evidenceDate (tanggal : option string) (now : Z) : option Z :=
  match truthy_string tanggal with
  | Some s => Date_parse s
  | None => Some now
  end.

(** The [data] of the [create] call, lines 31-37. *)
Definition evidenceData (userId : option string) (fields : list (string * string))
    (file : option StoredFile) (now : Z) : EvidenceData :=
  {| data_taskId := field "taskId" fields;
     data_userId := userId;
     data_content := field "keterangan" fields;
     data_image_url := image_url_of file;
     data_date := evidenceDate (field "tanggal" fields) now |}.

(** The body of the [try] block, lines 6-41. *)
Definition addEvidenceBody (req : Req) (now : Z) : Async Database Response Response :=
  let* userId := query (fun _ => req_auth req) in
  let* fields := destructureBody (req_body req) in
  let taskId := field "taskId" fields in
  let file := req_file req in
  let* task := query (task_findUnique taskId) in
  match task with
  | None => exit (res_status_json 404 "Task not found")
  | Some task =>
      let* project := query (project_findUnique (task_projectId task)) in
      match findMember project userId with
      | None => exit (res_status_json 403 "You are not a member of this project")
      | Some _ =>
          let* evidence := await (evidence_create (evidenceData userId fields file now)) in
          ret (res_json "Evidence added successfully" (Some evidence))
      end
  end.

(** The handler: the response it writes and the database it leaves. *)
Definition addEvidence (req : Req) (now : Z) (db : Database) : Response * Database :=
  match addEvidenceBody req now db with
  | (Value r, db') => (r, db')
  | (Exit r, db') => (r, db')
  | (Raise error, db') => (errorResponse error, db')
  end.

End Controller.

(** ** What the handler promises

    The four ways a call can end.  A call that ends with a server error
    may do so for any reason, but then the database is as it was. *)
Inductive AddEvidenceSpec {E : DateParse} (req : Req) (now : Z) (db : Database) :
    Response -> Database -> Prop :=
| spec_created uid fields k task project m e :
    req_auth req = Resolved (Some uid) ->
    req_body req = Some fields ->
    field "taskId" fields = Some k ->
    db_tasks db !! k = Some task ->
    db_projects db !! task_projectId task = Some project ->
    In m (project_members project) ->
    member_userId m = uid ->
    stores (evidenceData (Some uid) fields (req_file req) now) e ->
    AddEvidenceSpec req now db
      (res_json "Evidence added successfully" (Some e)) (add_evidence e db)
| spec_not_found fields k :
    req_body req = Some fields ->
    field "taskId" fields = Some k ->
    db_tasks db !! k = None ->
    AddEvidenceSpec req now db (res_status_json 404 "Task not found") db
| spec_forbidden userId fields k task :
    req_auth req = Resolved userId ->
    req_body req = Some fields ->
    field "taskId" fields = Some k ->
    db_tasks db !! k = Some task ->
    findMember (db_projects db !! task_projectId task) userId = None ->
    AddEvidenceSpec req now db
      (res_status_json 403 "You are not a member of this project") db
| spec_error error :
    AddEvidenceSpec req now db (errorResponse error) db.

(** ** Lemmas *)

Lemma findMember_Some (project : option ProjectRecord) (userId : option string) (m : Member) :
  findMember project userId = Some m ->
  exists p, project = Some p /\ In m (project_members p) /\ userId = Some (member_userId m).
Proof.
  destruct project as [p|]; [|discriminate]. simpl. intros H.
  apply find_some in H as [Hin Heq]. apply bool_decide_eq_true in Heq. eauto.
Qed.

Lemma findMember_None (project : option ProjectRecord) (userId : option string) :
  findMember project userId = None <->
  forall p m, project = Some p -> In m (project_members p) -> userId <> Some (member_userId m).
Proof.
  destruct project as [p|]; simpl.
  - split.
    + intros H q m [= <-] Hin Heq. apply (find_none _ _ H) in Hin.
      apply bool_decide_eq_false in Hin. congruence.
    + intros H. destruct (find _ _) as [m|] eqn:Hf; [|reflexivity].
      apply find_some in Hf as [Hin Heq]. apply bool_decide_eq_true in Heq.
      now destruct (H p m eq_refl Hin).
  - split; [discriminate|reflexivity].
Qed.

Lemma findMember_is_Some (p : ProjectRecord) (m : Member) :
  In m (project_members p) -> is_Some (findMember (Some p) (Some (member_userId m))).
Proof.
  intros Hin. destruct (findMember _ _) eqn:Hf; [eauto|].
  now destruct (proj1 (findMember_None _ _) Hf p m eq_refl Hin).
Qed.

(** A caller without identity is a member of nothing. *)
Lemma findMember_anonymous (project : option ProjectRecord) : findMember project None = None.
Proof. apply findMember_None. discriminate. Qed.

Lemma status_errorResponse (error : JsError) : status (errorResponse error) = 500.
Proof. reflexivity. Qed.

Lemma evidenceDate_empty {E : DateParse} (now : Z) : evidenceDate (Some "") now = Some now.
Proof. reflexivity. Qed.

Lemma evidenceDate_missing {E : DateParse} (now : Z) : evidenceDate None now = Some now.
Proof. reflexivity. Qed.

Lemma evidenceDate_given {E : DateParse} (s : string) (now : Z) :
  s <> "" -> evidenceDate (Some s) now = Date_parse s.
Proof. unfold evidenceDate. now destruct s. Qed.

(** The in-memory client satisfies the laws of the interface. *)
Lemma mem_create_stores (d : EvidenceData) (db : Database) (e : Evidence) (db' : Database) :
  mem_evidence_create d db = (Resolved e, db') -> stores d e /\ db' = add_evidence e db.
Proof.
  unfold mem_evidence_create, stores.
  destruct (data_taskId d), (data_userId d), (data_date d); try discriminate.
  case_bool_decide; [|discriminate]. intros [= <- <-]. simpl. tauto.
Qed.

Lemma mem_create_fails (d : EvidenceData) (db : Database) (err : JsError) (db' : Database) :
  mem_evidence_create d db = (Rejected err, db') -> db' = db.
Proof.
  unfold mem_evidence_create.
  destruct (data_taskId d), (data_userId d), (data_date d); try (now intros [= _ <-]).
  case_bool_decide; [discriminate|now intros [= _ <-]].
Qed.

#[export] Program Instance memPrisma : Prisma := {|
  task_findUnique := mem_task_findUnique;
  project_findUnique := mem_project_findUnique;
  evidence_create := mem_evidence_create;
  create_stores := mem_create_stores;
  create_fails := mem_create_fails
|}.
Next Obligation. intros [k|] db r; [intros [= <-]; eauto|discriminate]. Qed.
Next Obligation. now intros k db r [= <-]. Qed.

Section ControllerLemmas.

Context {P : Prisma} {E : DateParse}.

(** The handler implements its specification. *)
Lemma addEvidence_spec (req : Req) (now : Z) (db : Database) :
  AddEvidenceSpec req now db (addEvidence req now db).1 (addEvidence req now db).2.
Proof.
  unfold addEvidence, addEvidenceBody, bind, query, await, destructureBody.
  destruct (req_auth req) as [userId|err] eqn:Hauth; simpl; [|apply spec_error].
  destruct (req_body req) as [fields|] eqn:Hbody; simpl; [|apply spec_error].
  destruct (task_findUnique _ db) as [r|err] eqn:Htask; simpl; [|apply spec_error].
  apply task_found in Htask as (k & Hk & ->).
  destruct (db_tasks db !! k) as [task|] eqn:Hlook; simpl; [|eapply spec_not_found; eauto].
  destruct (project_findUnique _ db) as [project|err] eqn:Hproj; simpl; [|apply spec_error].
  apply project_found in Hproj as ->.
  destruct (findMember _ userId) as [m|] eqn:Hm; simpl; [|eapply spec_forbidden; eauto].
  destruct (evidence_create _ db) as [[e|err] db'] eqn:Hc; simpl.
  - apply create_stores in Hc as [Hs ->].
    apply findMember_Some in Hm as (p & Hp & Hin & ->). eapply spec_created; eauto.
  - apply create_fails in Hc as ->. apply spec_error.
Qed.

End ControllerLemmas.

(** What each case of the specification says of the status. *)
Lemma spec_status {E : DateParse} (req : Req) (now : Z) (db db' : Database) (res : Response) :
  AddEvidenceSpec req now db res db' ->
  (status res = 200 /\ exists e, body res = Json "Evidence added successfully" (Some e)
                               /\ db' = add_evidence e db)
  \/ (In (status res) [404; 403; 500] /\ db' = db).
Proof.
  intros [uid fields k task project m e| | |]; simpl; [left; eauto|right..]; split; auto.
Qed.

(** ** A sample database and requests *)

Definition sampleDb : Database :=
  {| db_tasks := <["t1" := {| task_projectId := "p1" |}]> (<["t2" := {| task_projectId := "p9" |}]> ∅);
     db_projects := <["p1" := {| project_members := [{| member_userId := "alice" |};
                                                      {| member_userId := "bob" |}] |}]> ∅;
     db_evidences := [] |}.

Definition sampleRequest : Request :=
  {| method := POST; path := []; bearer := Some "token"; payload := NoPayload |}.

Definition sampleReq (userId : option string) (taskId tanggal : string) : Req :=
  {| req_request := sampleRequest;
     req_path := [];
     req_auth := Resolved userId;
     req_body := Some [("tanggal", tanggal); ("keterangan", "site photo"); ("taskId", taskId)];
     req_file := Some {| filename := "1741-photo.png"; originalname := "photo.png" |} |}.

Definition sampleNow : Z := 1741600800000.

(** ** Properties *)

Section ControllerProperties.

Context {P : Prisma} {E : DateParse}.

(** C4. The handler refines its specification: whatever the request, the
    database and the behaviour of the database client, the response and the
    database left are one of the four cases of [AddEvidenceSpec], and the
    response is a server error exactly when the body of the [try] block
    threw. *)
Theorem addEvidence_refines_spec (req : Req) (now : Z) (db : Database) :
  let (res, db') := addEvidence req now db in
  AddEvidenceSpec req now db res db' /\
  (status res = 500 <-> exists error db1, addEvidenceBody req now db = (Raise error, db1)).
Proof.
  pose proof (addEvidence_spec req now db) as Hspec. revert Hspec.
  unfold addEvidence. destruct (addEvidenceBody req now db) as [[r|r|e] db1] eqn:Hb;
    simpl; intros Hspec; (split; [exact Hspec|]).
  3: { split; eauto. }
  all: split; [|now intros (? & ? & [=])].
  all: apply spec_status in Hspec as [[-> _]|[_ ->]]; [discriminate|].
  all: revert Hb; unfold addEvidenceBody, bind, query, await, destructureBody, exit, ret, throw.
  all: repeat (case_match; simpl; try discriminate); intros [= <-]; discriminate.
Qed.

(** C2. Only a member of the task's project can store an evidence: when
    the handler answers 200, the caller is authenticated, the task of the
    request exists, and the caller is among the members of the task's
    project. *)
Theorem addEvidence_authorised (req : Req) (now : Z) (db : Database) :
  status (addEvidence req now db).1 = 200 ->
  exists uid fields k task project,
    req_auth req = Resolved (Some uid) /\
    req_body req = Some fields /\ field "taskId" fields = Some k /\
    db_tasks db !! k = Some task /\
    db_projects db !! task_projectId task = Some project /\
    In {| member_userId := uid |} (project_members project).
Proof.
  intros Hs. destruct (addEvidence_spec req now db) as [uid fields k task project [u] e| | |];
    try discriminate.
  simpl in *. subst. now exists uid, fields, k, task, project.
Qed.

(** C17. A request that is refused changes nothing: unless the handler
    answers 200, the database it leaves is the database it found. *)
Theorem addEvidence_failure_keeps_database (req : Req) (now : Z) (db : Database) :
  status (addEvidence req now db).1 <> 200 -> (addEvidence req now db).2 = db.
Proof.
  intros Hs. destruct (spec_status _ _ _ _ _ (addEvidence_spec req now db)) as [[H _]|[_ H]];
    [contradiction|exact H].
Qed.

(** C25. A request that is accepted stores exactly one evidence, built
    from the request: the task and the user of the request, the note
    [keterangan], the address of the uploaded file or the empty string,
    and the date [tanggal] or the current time when [tanggal] is empty;
    the record is returned in the response and nothing else changes. *)
Theorem addEvidence_stores_request (req : Req) (now : Z) (db : Database) :
  status (addEvidence req now db).1 = 200 ->
  exists fields e,
    req_body req = Some fields /\
    (addEvidence req now db).1 = res_json "Evidence added successfully" (Some e) /\
    (addEvidence req now db).2 = add_evidence e db /\
    field "taskId" fields = Some (ev_taskId e) /\
    req_auth req = Resolved (Some (ev_userId e)) /\
    ev_content e = field "keterangan" fields /\
    ev_image_url e = image_url_of (req_file req) /\
    evidenceDate (field "tanggal" fields) now = Some (ev_date e).
Proof.
  intros Hs. destruct (addEvidence_spec req now db) as [uid fields k task project m e H1 H2 H3 H4 H5 H6 H7 H8| | |];
    try discriminate.
  destruct H8 as (Ht & [= Hu] & Hc & Hi & Hd & _). simpl in *.
  exists fields, e. subst. repeat split; auto. congruence.
Qed.

(** A caller who is not signed in never stores anything: the
    response is not 200 and the database is unchanged. *)
Theorem unauthenticated_never_stores (req : Req) (now : Z) (db : Database) :
  req_auth req = Resolved None ->
  status (addEvidence req now db).1 <> 200 /\ (addEvidence req now db).2 = db.
Proof.
  intros Hauth.
  assert (status (addEvidence req now db).1 <> 200) as Hs.
  { intros Hs. destruct (addEvidence_spec req now db); try discriminate. congruence. }
  split; [exact Hs|]. destruct (spec_status _ _ _ _ _ (addEvidence_spec req now db)) as [[H _]|[_ H]];
    [contradiction|exact H].
Qed.

End ControllerProperties.

(** With a database client that fails only on invalid arguments, the
    request of a member succeeds. *)
Lemma mem_addEvidence_member {E : DateParse} (req : Req) (now : Z) (db : Database)
    (uid k : string) (fields : list (string * string)) (task : TaskRecord)
    (project : ProjectRecord) (date : Z) :
  req_auth req = Resolved (Some uid) ->
  req_body req = Some fields ->
  field "taskId" fields = Some k ->
  db_tasks db !! k = Some task ->
  db_projects db !! task_projectId task = Some project ->
  In {| member_userId := uid |} (project_members project) ->
  evidenceDate (field "tanggal" fields) now = Some date ->
  let e := {| ev_taskId := k; ev_userId := uid; ev_content := field "keterangan" fields;
              ev_image_url := image_url_of (req_file req); ev_date := date;
              ev_user := {| user_id := uid |} |} in
  addEvidence (P := memPrisma) req now db
  = (res_json "Evidence added successfully" (Some e), add_evidence e db).
Proof.
  intros Hauth Hbody Hk Htask Hproj Hin Hdate.
  unfold addEvidence, addEvidenceBody, bind, query, await, destructureBody.
  rewrite Hauth, Hbody. simpl. rewrite Hk. simpl. rewrite Htask. simpl.
  unfold mem_project_findUnique. rewrite Hproj.
  destruct (findMember_is_Some project _ Hin) as [m Hm].
  change (member_userId {| member_userId := uid |}) with uid in Hm. rewrite Hm.
  unfold mem_evidence_create, evidenceData. simpl. rewrite Hk, Hdate, Htask.
  rewrite bool_decide_eq_true_2 by eauto. reflexivity.
Qed.


(** C26. With a database client that fails only on invalid arguments, the
    handler accepts a request exactly when it should: it answers 200 if
    and only if the caller is signed in, the task of the request exists,
    the caller is a member of the task's project, and the date of the
    request is empty or parses. *)
Theorem request_accepted_iff_member {E : DateParse} (req : Req) (now : Z) (db : Database) :
  status (addEvidence (P := memPrisma) req now db).1 = 200 <->
  exists uid fields k task project date,
    req_auth req = Resolved (Some uid) /\
    req_body req = Some fields /\ field "taskId" fields = Some k /\
    db_tasks db !! k = Some task /\
    db_projects db !! task_projectId task = Some project /\
    In {| member_userId := uid |} (project_members project) /\
    evidenceDate (field "tanggal" fields) now = Some date.
Proof.
  split.
  - intros Hs. destruct (addEvidence_spec (P := memPrisma) req now db)
      as [uid fields k task project [u] e H1 H2 H3 H4 H5 H6 H7 H8| | |]; try discriminate.
    destruct H8 as (_ & _ & _ & _ & Hd & _). simpl in *. subst.
    by exists uid, fields, k, task, project, (ev_date e).
  - intros (uid & fields & k & task & project & date & H1 & H2 & H3 & H4 & H5 & H6 & H7).
    by rewrite (mem_addEvidence_member req now db uid k fields task project date).
Qed.

(** C39. The date the user picks is the date that is stored: from the
    value a date input gives for a day of the calendar, the controller
    computes the midnight, in UTC, of that day, whose year, month and day
    read back as they were picked, whatever the server's clock says. *)
Theorem picked_date_round_trip (y m d now : Z) :
  0 <= y <= 9999 -> 1 <= m <= 12 -> 1 <= d <= daysInMonth y (m - 1) ->
  exists t,
    evidenceDate (E := isoDateParse) (Some (dateInputValue y m d)) now = Some t /\
    getFullYear t = y /\ getMonth t = m - 1 /\ getDate t = d /\ TimeWithinDay t = 0.
Proof.
  intros Hy Hm Hd. pose proof (daysInMonth_range y (m - 1) ltac:(lia)).
  pose proof msPerDay_pos. exists (DateUTC y (m - 1) d). unfold DateUTC. split.
  - unfold evidenceDate.
    change (truthy_string (Some (dateInputValue y m d))) with (Some (dateInputValue y m d)).
    apply parseIsoDate_dateInputValue; lia.
  - split; [apply YearFromTime_MakeDay; lia|].
    split; [apply MonthFromTime_MakeDay; lia|].
    split; [apply DateFromTime_MakeDay; lia|apply TimeWithinDay_MakeDate; lia].
Qed.

Lemma picked_date_round_trip_witness :
  exists t,
    evidenceDate (E := isoDateParse) (Some (dateInputValue 2025 3 10)) sampleNow = Some t /\
    getFullYear t = 2025 /\ getMonth t = 3 - 1 /\ getDate t = 10 /\ TimeWithinDay t = 0.
Proof.
  apply (picked_date_round_trip 2025 3 10 sampleNow); [lia|lia|].
  split; [lia|vm_compute; discriminate].
Defined.

Lemma addEvidence_authorised_witness :
  exists uid fields k task project,
    req_auth (sampleReq (Some "alice") "t1" "2025-03-10") = Resolved (Some uid) /\
    req_body (sampleReq (Some "alice") "t1" "2025-03-10") = Some fields /\
    field "taskId" fields = Some k /\
    db_tasks sampleDb !! k = Some task /\
    db_projects sampleDb !! task_projectId task = Some project /\
    In {| member_userId := uid |} (project_members project).
Proof.
  apply (addEvidence_authorised (P := memPrisma) (E := isoDateParse) _ sampleNow).
  vm_compute. reflexivity.
Defined.

Lemma addEvidence_failure_keeps_database_witness :
  (addEvidence (P := memPrisma) (E := isoDateParse)
     (sampleReq (Some "mallory") "t1" "2025-03-10") sampleNow sampleDb).2 = sampleDb.
Proof.
  apply addEvidence_failure_keeps_database. vm_compute. discriminate.
Defined.

Lemma addEvidence_stores_request_witness :
  exists fields e,
    req_body (sampleReq (Some "bob") "t1" "") = Some fields /\
    (addEvidence (P := memPrisma) (E := isoDateParse) (sampleReq (Some "bob") "t1" "") sampleNow sampleDb).1
    = res_json "Evidence added successfully" (Some e) /\
    (addEvidence (P := memPrisma) (E := isoDateParse) (sampleReq (Some "bob") "t1" "") sampleNow sampleDb).2
    = add_evidence e sampleDb /\
    field "taskId" fields = Some (ev_taskId e) /\
    req_auth (sampleReq (Some "bob") "t1" "") = Resolved (Some (ev_userId e)) /\
    ev_content e = field "keterangan" fields /\
    ev_image_url e = image_url_of (req_file (sampleReq (Some "bob") "t1" "")) /\
    evidenceDate (field "tanggal" fields) sampleNow = Some (ev_date e).
Proof.
  apply addEvidence_stores_request. vm_compute. reflexivity.
Defined.

Lemma unauthenticated_never_stores_witness :
  status (addEvidence (P := memPrisma) (E := isoDateParse)
            (sampleReq None "t1" "2025-03-10") sampleNow sampleDb).1 <> 200 /\
  (addEvidence (P := memPrisma) (E := isoDateParse)
     (sampleReq None "t1" "2025-03-10") sampleNow sampleDb).2 = sampleDb.
Proof.
  apply unauthenticated_never_stores. reflexivity.
Defined.

(** The three refusals on the sample database: a task that does not
    exist, a task whose project is missing, and a date that does not
    parse, which reaches the database client and comes back as a server
    error with the client's message. *)
Example refusals_on_sample :
  (addEvidence (P := memPrisma) (sampleReq (Some "alice") "t7" "") sampleNow sampleDb).1
    = res_status_json 404 "Task not found" /\
  (addEvidence (P := memPrisma) (sampleReq (Some "alice") "t2" "") sampleNow sampleDb).1
    = res_status_json 403 "You are not a member of this project" /\
  (addEvidence (P := memPrisma) (sampleReq (Some "alice") "t1" "10/03/2025") sampleNow sampleDb).1
    = res_status_json 500 "Invalid value provided".
Proof. repeat split; vm_compute; reflexivity. Qed.

(** ** Well-formed databases

    An evidence is legitimate when its task exists and its user is a
    member of the task's project; a database is well formed when every
    evidence it holds is. *)

Definition evidence_ok (db : Database) (e : Evidence) : Prop :=
  exists task project,
    db_tasks db !! ev_taskId e = Some task /\
    db_projects db !! task_projectId task = Some project /\
    In {| member_userId := ev_userId e |} (project_members project).

Definition db_wf (db : Database) : Prop := Forall (evidence_ok db) (db_evidences db).

Lemma evidence_ok_add (e e' : Evidence) (db : Database) :
  evidence_ok db e -> evidence_ok (add_evidence e' db) e.
Proof. done. Qed.

Lemma db_wf_add (e : Evidence) (db : Database) :
  db_wf db -> evidence_ok db e -> db_wf (add_evidence e db).
Proof.
  unfold db_wf. intros Hwf He. cbn. apply Forall_app. split; [|by constructor].
  eapply Forall_impl; [exact Hwf|]. intros e0. apply evidence_ok_add.
Qed.

(** Every outcome of the specification keeps the database well formed. *)
Lemma AddEvidenceSpec_wf {E : DateParse} (req : Req) (now : Z) (db db' : Database)
    (res : Response) :
  AddEvidenceSpec req now db res db' -> db_wf db -> db_wf db'.
Proof.
  intros [uid fields k task project [u] e H1 H2 H3 H4 H5 H6 H7 H8| | |] Hwf; try done.
  apply db_wf_add; [done|]. destruct H8 as (Ht & Hu & _). cbn in Ht, Hu, H7.
  exists task, project. rewrite H3 in Ht. by simplify_eq.
Qed.

Lemma addEvidence_wf {P : Prisma} {E : DateParse} (req : Req) (now : Z) (db : Database) :
  db_wf db -> db_wf (addEvidence req now db).2.
Proof. apply (AddEvidenceSpec_wf req now db _ _ (addEvidence_spec req now db)). Qed.

(** The tables of tasks and projects are read only. *)
Lemma addEvidence_tables {P : Prisma} {E : DateParse} (req : Req) (now : Z) (db : Database) :
  db_tasks (addEvidence req now db).2 = db_tasks db /\
  db_projects (addEvidence req now db).2 = db_projects db.
Proof.
  destruct (spec_status _ _ _ _ _ (addEvidence_spec req now db))
    as [(_ & e & _ & ->)|[_ ->]]; done.
Qed.
