(* ===== verification/Concurrent.v ===== *)
(** * Concurrent: requests that overlap on the server

    [addEvidence] of [src/server/controllers/evidenceController.js] is
    suspended at four [await]s: the session, the task, the project, the
    creation of the evidence.  While one request waits, the server runs
    the handlers of others.  Here the handler is cut at its [await]s; the
    server holds a pool of calls in progress and one database, and a
    schedule says which call resumes next.  A database call acts when its
    promise settles: the database runs a query at some instant between
    the call and the settling of its promise, and the code of the handler
    between two [await]s touches nothing that is shared, so it does not
    matter on which side of that instant it is run.

    Nothing in these sources writes to the tables of tasks and projects,
    so what one call has read stays true while it waits: the theorems
    show that every interleaving stores authorised evidence only, that
    each caller gets the answer it would get alone, that the evidences
    stored are those the requests store one by one, and that a schedule
    which gives every call its four turns leaves no caller waiting. *)

From stdpp Require Import gmap strings list.
From S2P Require Import Prelude JsDate Http Evidence.

#[local] Open Scope Z_scope.
#[local] Open Scope js_scope.
#[local] Open Scope async_scope.

(** ** Data *)

(** Where a call of [addEvidence] is suspended, with the variables of
    its closure that the rest of the function reads. *)
Inductive Suspended : Type :=
| AwaitAuth
| AwaitTask (userId : option string) (fields : list (string * string))
| AwaitProject (userId : option string) (fields : list (string * string)) (task : TaskRecord)
| AwaitCreate (userId : option string) (fields : list (string * string))
| Finished (res : Response).

(** A call in progress: the request, the reading of the clock of line 36,
    and where the handler is. *)
Record Call : Type := {
  call_req : Req;
  call_now : Z;
  call_state : Suspended
}.

(** The calls in progress, and the database they share. *)
Record Pool : Type := {
  calls : list Call;
  store : Database
}.

(** ** Operations *)

Definition with_state (c : Call) (h : Suspended) : Call :=
  {| call_req := call_req c; call_now := call_now c; call_state := h |}.

Section Pieces.

Context {P : Prisma} {E : DateParse}.

(** The piece of the [try] block that runs when the awaited promise
    settles: lines 6-12, 12-20, 20-30 and 30-41. *)
Definition resume (req : Req) (now : Z) (h : Suspended) : Async Database Response Suspended :=
  match h with
  | AwaitAuth =>
      let* userId := query (fun _ => req_auth req) in
      let* fields := destructureBody (req_body req) in
      ret (AwaitTask userId fields)
  | AwaitTask userId fields =>
      let* task := query (task_findUnique (field "taskId" fields)) in
      match task with
      | None => exit (res_status_json 404 "Task not found")
      | Some task => ret (AwaitProject userId fields task)
      end
  | AwaitProject userId fields task =>
      let* project := query (project_findUnique (task_projectId task)) in
      match findMember project userId with
      | None => exit (res_status_json 403 "You are not a member of this project")
      | Some _ => ret (AwaitCreate userId fields)
      end
  | AwaitCreate userId fields =>
      let* evidence := await (evidence_create (evidenceData userId fields (req_file req) now)) in
      exit (res_json "Evidence added successfully" (Some evidence))
  | Finished res => exit res
  end.

(** One piece of a call; an error thrown by the piece is answered by the
    [catch] block, lines 42-45. *)
Definition hstep (c : Call) (db : Database) : Call * Database :=
  match resume (call_req c) (call_now c) (call_state c) db with
  | (Value h, db') => (with_state c h, db')
  | (Exit r, db') => (with_state c (Finished r), db')
  | (Raise error, db') => (with_state c (Finished (errorResponse error)), db')
  end.

(** [n] pieces of one call with no other call in between. *)
Fixpoint solo (n : nat) (c : Call) (db : Database) : Call * Database :=
  match n with
  | O => (c, db)
  | S n => solo n (hstep c db).1 (hstep c db).2
  end.

(** The server resumes the call with index [i]. *)
Definition cstep (s : Pool) (i : nat) : Pool :=
  match calls s !! i with
  | Some c => {| calls := <[i := (hstep c (store s)).1]> (calls s);
                 store := (hstep c (store s)).2 |}
  | None => s
  end.

Definition crun (s : Pool) (schedule : list nat) : Pool := foldl cstep s schedule.

End Pieces.

(** A call that has just arrived. *)
Definition arrived (r : Req * Z) : Call :=
  {| call_req := r.1; call_now := r.2; call_state := AwaitAuth |}.

(** The pool when the requests have arrived and no handler has run. *)
Definition accept (requests : list (Req * Z)) (db : Database) : Pool :=
  {| calls := arrived <$> requests; store := db |}.

(** The response of a call that is over. *)
Definition response (c : Call) : option Response :=
  match call_state c with
  | Finished res => Some res
  | _ => None
  end.

(** The evidence a caller has been told was stored: [evidence] of the
    body written by line 41. *)
Definition answered (c : Call) : option Evidence :=
  match response c with
  | Some {| body := Json _ (Some e) |} => Some e
  | _ => None
  end.

(** ** What a suspended call knows

    The facts the pieces that have run established about the tables,
    which the piece that creates the evidence relies on. *)

Definition same_tables (db db' : Database) : Prop :=
  db_tasks db = db_tasks db' /\ db_projects db = db_projects db'.

Definition call_ok (db : Database) (c : Call) : Prop :=
  match call_state c with
  | AwaitProject userId fields task =>
      exists k, field "taskId" fields = Some k /\ db_tasks db !! k = Some task
  | AwaitCreate userId fields =>
      exists uid k task project,
        userId = Some uid /\ field "taskId" fields = Some k /\
        db_tasks db !! k = Some task /\
        db_projects db !! task_projectId task = Some project /\
        In {| member_userId := uid |} (project_members project)
  | _ => True
  end.

Definition pool_ok (s : Pool) : Prop :=
  db_wf (store s) /\ Forall (call_ok (store s)) (calls s).

(** Unfolds a piece down to the calls it makes. *)
Ltac pieces :=
  unfold hstep, resume, bind, query, await, destructureBody, ret, exit, throw in *;
  cbn [call_req call_now call_state with_state fst snd] in *.

(** ** The tables are read only *)

#[export] Instance same_tables_equivalence : Equivalence same_tables.
Proof.
  split; [done|by intros ?? [??]|]. intros ??? [??] [??]. split; congruence.
Qed.

Lemma same_tables_add (e : Evidence) (db : Database) : same_tables db (add_evidence e db).
Proof. done. Qed.

(** What a call knows stays true when only evidences are added. *)
#[export] Instance call_ok_proper : Proper (same_tables ==> eq ==> iff) call_ok.
Proof.
  intros db db' [Ht Hp] c ? <-. unfold call_ok. destruct (call_state c); try done.
  - by rewrite Ht.
  - by rewrite Ht, Hp.
Qed.

#[export] Instance evidence_ok_proper : Proper (same_tables ==> eq ==> iff) evidence_ok.
Proof. intros db db' [Ht Hp] e ? <-. unfold evidence_ok. by rewrite Ht, Hp. Qed.

Section PieceLemmas.

Context {P : Prisma} {E : DateParse}.

(** A piece leaves the database as it is or adds one evidence. *)
Lemma hstep_store (c : Call) (db : Database) :
  (hstep c db).2 = db \/
  exists userId fields e,
    call_state c = AwaitCreate userId fields /\
    stores (evidenceData userId fields (req_file (call_req c)) (call_now c)) e /\
    (hstep c db).2 = add_evidence e db.
Proof.
  destruct c as [req now h]. pieces. destruct h as [|u f|u f t|u f|r]; cbn.
  - left. destruct (req_auth req); [|done]. by destruct (req_body req).
  - left. by destruct (task_findUnique _ db) as [[t|]|].
  - left. destruct (project_findUnique _ db) as [p|]; [|done]. by destruct (findMember _ _).
  - destruct (evidence_create _ db) as [[e|err] db'] eqn:Hc; cbn.
    + apply create_stores in Hc as [Hs ->]. right. by exists u, f, e.
    + apply create_fails in Hc as ->. by left.
  - by left.
Qed.

Lemma hstep_tables (c : Call) (db : Database) : same_tables db (hstep c db).2.
Proof.
  destruct (hstep_store c db) as [->|(u & f & e & _ & _ & ->)]; [done|apply same_tables_add].
Qed.

Lemma hstep_request (c : Call) (db : Database) :
  call_req (hstep c db).1 = call_req c /\ call_now (hstep c db).1 = call_now c.
Proof. unfold hstep. by destruct (resume _ _ _ db) as [[h|r|e] db']. Qed.

(** A piece establishes what the next piece relies on. *)
Lemma hstep_call_ok (c : Call) (db : Database) :
  call_ok db c -> call_ok db (hstep c db).1.
Proof.
  destruct c as [req now h]. unfold call_ok. pieces. destruct h as [|u f|u f t|u f|r]; cbn.
  - intros _. destruct (req_auth req); [|done]. by destruct (req_body req).
  - intros _. destruct (task_findUnique _ db) as [r|] eqn:Ht; [|done].
    apply task_found in Ht as (k & Hk & ->). destruct (db_tasks db !! k) eqn:Hl; [|done].
    cbn. eauto.
  - intros (k & Hk & Ht). destruct (project_findUnique _ db) as [r|] eqn:Hp; [|done].
    apply project_found in Hp as ->. destruct (findMember _ u) as [m|] eqn:Hm; [|done].
    apply findMember_Some in Hm as (p & Hp & Hin & ->). destruct m as [uid]. cbn.
    by exists uid, k, t, p.
  - intros _. by destruct (evidence_create _ db) as [[e|err] db'].
  - done.
Qed.

(** The piece that creates works on what the earlier pieces checked: the
    evidence it stores is authorised. *)
Lemma hstep_db_wf (c : Call) (db : Database) :
  db_wf db -> call_ok db c -> db_wf (hstep c db).2.
Proof.
  intros Hwf Hc. destruct (hstep_store c db) as [->|(u & f & e & Hs & He & ->)]; [done|].
  apply db_wf_add; [done|]. unfold call_ok in Hc. rewrite Hs in Hc.
  destruct Hc as (uid & k & task & project & -> & Hk & Ht & Hp & Hin).
  destruct He as (Hte & Hue & _). cbn in Hte, Hue. exists task, project.
  rewrite Hk in Hte. by simplify_eq.
Qed.

Lemma cstep_ok (s : Pool) (i : nat) : pool_ok s -> pool_ok (cstep s i).
Proof.
  intros [Hwf Hcs]. unfold cstep. destruct (calls s !! i) as [c|] eqn:Hi; [|done].
  pose proof (Forall_lookup_1 _ _ _ _ Hcs Hi) as Hc. pose proof (hstep_tables c (store s)) as Ht.
  split; cbn; [by apply hstep_db_wf|]. apply Forall_insert.
  - eapply Forall_impl; [exact Hcs|]. intros c0 H0. by rewrite <- Ht.
  - rewrite <- Ht. by apply hstep_call_ok.
Qed.

Lemma crun_ok (s : Pool) (schedule : list nat) : pool_ok s -> pool_ok (crun s schedule).
Proof.
  revert s. induction schedule as [|i schedule IH]; intros s H; [done|].
  apply IH. by apply cstep_ok.
Qed.

Lemma accept_ok (requests : list (Req * Z)) (db : Database) :
  db_wf db -> pool_ok (accept requests db).
Proof.
  intros H. split; [done|]. cbn. apply Forall_fmap. by apply Forall_true.
Qed.

Lemma solo_S (n : nat) (c : Call) (db : Database) :
  solo (S n) c db = solo n (hstep c db).1 (hstep c db).2.
Proof. done. Qed.

Lemma solo_finished (n : nat) (req : Req) (now : Z) (r : Response) (db : Database) :
  solo n {| call_req := req; call_now := now; call_state := Finished r |} db =
  ({| call_req := req; call_now := now; call_state := Finished r |}, db).
Proof. induction n as [|n IH]; [done|]. by rewrite solo_S. Qed.

(** One piece, by the state of the call. *)
Ltac piece :=
  rewrite solo_S;
  match goal with
  | |- context [hstep ?c ?db] =>
      let x := fresh "x" in
      let Hx := fresh "Hx" in
      remember (hstep c db) as x eqn:Hx;
      unfold hstep, resume, bind, query, await, destructureBody, ret, exit, throw in Hx;
      cbn [call_req call_now call_state with_state fst snd] in Hx
  end.

Ltac resumed :=
  subst; unfold with_state; cbn [fst snd call_req call_now call_state].

Lemma solo_addEvidence (req : Req) (now : Z) (db : Database) :
  solo 4 (arrived (req, now)) db =
  (with_state (arrived (req, now)) (Finished (addEvidence req now db).1),
   (addEvidence req now db).2).
Proof.
  unfold addEvidence, addEvidenceBody, arrived, with_state, bind, query, await, destructureBody,
    ret, exit, throw.
  cbn [call_req call_now call_state fst snd].
  piece. destruct (req_auth req) as [u|]; [|resumed; by rewrite solo_finished].
  destruct (req_body req) as [f|]; resumed; [|by rewrite solo_finished].
  piece. destruct (task_findUnique _ db) as [[t|]|]; resumed; [|by rewrite solo_finished..].
  piece. destruct (project_findUnique _ db) as [p|]; [|resumed; by rewrite solo_finished].
  destruct (findMember p u); resumed; [|by rewrite solo_finished].
  piece. by destruct (evidence_create _ db) as [[e|err] db']; resumed.
Qed.
End PieceLemmas.

(** ** Isolation

    A database client is stable when its answers depend on the tables of
    tasks and projects only: a read looks at nothing else, and whether a
    creation succeeds, and with what record, does not depend on the
    evidences already stored. *)

Class StablePrisma (P : Prisma) : Prop := {
  task_stable : forall id db db',
    same_tables db db' -> task_findUnique id db = task_findUnique id db';
  project_stable : forall k db db',
    same_tables db db' -> project_findUnique k db = project_findUnique k db';
  create_stable : forall d db db',
    same_tables db db' -> (evidence_create d db).1 = (evidence_create d db').1
}.

#[export] Instance memPrisma_stable : StablePrisma memPrisma.
Proof.
  split; cbn.
  - intros [k|] db db' [Ht _]; cbn; by rewrite ?Ht.
  - intros k db db' [_ Hp]. unfold mem_project_findUnique. by rewrite Hp.
  - intros d db db' [Ht _]. unfold mem_evidence_create. rewrite Ht.
    destruct (data_taskId d), (data_userId d), (data_date d); try done.
    by case_bool_decide.
Qed.

(** The number of turns of call [i] in a schedule. *)
Fixpoint turns (i : nat) (schedule : list nat) : nat :=
  match schedule with
  | [] => 0
  | j :: schedule => if bool_decide (j = i) then S (turns i schedule) else turns i schedule
  end.

Section Isolation.

Context {P : Prisma} {E : DateParse} {HP : StablePrisma P}.

(** What a piece does to the call depends on the tables only. *)
Lemma hstep_stable (c : Call) (db db' : Database) :
  same_tables db db' -> (hstep c db).1 = (hstep c db').1.
Proof.
  intros H. destruct c as [req now h]. pieces. destruct h as [|u f|u f t|u f|r]; cbn.
  - destruct (req_auth req); [|done]. by destruct (req_body req).
  - rewrite (task_stable _ db db' H). by destruct (task_findUnique _ db') as [[t|]|].
  - rewrite (project_stable _ db db' H). destruct (project_findUnique _ db') as [p|]; [|done].
    by destruct (findMember p u).
  - pose proof (create_stable (evidenceData u f (req_file req) now) db db' H) as Hc.
    destruct (evidence_create _ db) as [[e|err] d], (evidence_create _ db') as [[e'|err'] d'];
      cbn in *; congruence.
  - done.
Qed.

Lemma solo_stable (n : nat) (c : Call) (db db' : Database) :
  same_tables db db' -> (solo n c db).1 = (solo n c db').1.
Proof.
  revert c db db'. induction n as [|n IH]; intros c db db' H; [done|].
  rewrite !solo_S, (hstep_stable c db db' H). apply IH.
  by rewrite <- (hstep_tables c db), <- (hstep_tables c db').
Qed.

Lemma solo_add (n m : nat) (c : Call) (db : Database) :
  solo (n + m) c db = solo m (solo n c db).1 (solo n c db).2.
Proof. revert c db. induction n as [|n IH]; intros c db; [done|]. cbn. apply IH. Qed.

(** After any schedule, a call is where its own turns alone would have
    brought it. *)
Lemma crun_solo (s : Pool) (schedule : list nat) (i : nat) (c : Call) :
  calls s !! i = Some c ->
  calls (crun s schedule) !! i = Some (solo (turns i schedule) c (store s)).1.
Proof.
  revert s c. induction schedule as [|j schedule IH]; intros s c Hi; [done|].
  cbn [crun foldl turns]. fold (crun (cstep s j) schedule). unfold cstep.
  case_bool_decide as Hj.
  - subst j. rewrite Hi. rewrite solo_S. apply IH. cbn.
    apply list_lookup_insert_eq. by eapply lookup_lt_Some.
  - destruct (calls s !! j) as [cj|] eqn:Hcj; [|by apply IH].
    rewrite (solo_stable _ c (store s) (hstep cj (store s)).2 (hstep_tables cj (store s))).
    apply IH. cbn. by rewrite list_lookup_insert_ne.
Qed.

(** A call that has had four turns is over, with the response of
    [addEvidence] on the database of the arrival. *)
Lemma fair_call_isolated (requests : list (Req * Z)) (db : Database) (schedule : list nat)
    (i : nat) (r : Req * Z) :
  requests !! i = Some r ->
  (4 <= turns i schedule)%nat ->
  calls (crun (accept requests db) schedule) !! i
  = Some (with_state (arrived r) (Finished (addEvidence r.1 r.2 db).1)).
Proof.
  intros Hi Hn. destruct r as [req now]. rewrite (crun_solo _ _ i (arrived (req, now))).
  - replace (turns i schedule) with (4 + (turns i schedule - 4))%nat by lia.
    rewrite solo_add, solo_addEvidence. unfold with_state, arrived.
    cbn [fst snd call_req call_now]. by rewrite solo_finished.
  - cbn. by rewrite list_lookup_fmap, Hi.
Qed.

End Isolation.

(** ** What is stored and what is answered *)

Section Stored.

Context {P : Prisma} {E : DateParse}.

(** A call that is over stays as it is. *)
Lemma hstep_finished (c : Call) (res : Response) (db : Database) :
  call_state c = Finished res -> hstep c db = (c, db).
Proof. destruct c as [req now h]. cbn. by intros ->. Qed.

(** A piece stores exactly the evidence it answers with. *)
Lemma hstep_answered (c : Call) (db : Database) :
  answered c = None ->
  db_evidences (hstep c db).2 = db_evidences db ++ option_list (answered (hstep c db).1).
Proof.
  destruct c as [req now h]. unfold answered, response. pieces.
  destruct h as [|u f|u f t|u f|r]; cbn; intros Ha.
  - destruct (req_auth req); cbn; [|by rewrite app_nil_r].
    destruct (req_body req); cbn; by rewrite app_nil_r.
  - destruct (task_findUnique _ db) as [[t|]|]; cbn; by rewrite app_nil_r.
  - destruct (project_findUnique _ db) as [p|]; cbn; [|by rewrite app_nil_r].
    destruct (findMember p u); cbn; by rewrite app_nil_r.
  - destruct (evidence_create _ db) as [[e|err] db'] eqn:Hc; cbn.
    + by apply create_stores in Hc as [_ ->].
    + apply create_fails in Hc as ->. by rewrite app_nil_r.
  - rewrite Ha. by rewrite app_nil_r.
Qed.

(** The evidences the callers of a pool have been told of. *)
Definition told (s : Pool) (e : Evidence) : Prop :=
  exists i c, calls s !! i = Some c /\ answered c = Some e.

(** The evidences of the pool are those of [db] and those the callers
    have been told of. *)
Definition accounted (db : Database) (s : Pool) : Prop :=
  forall e, e ∈ db_evidences (store s) <-> e ∈ db_evidences db \/ told s e.

Lemma told_cstep_other (s : Pool) (i j : nat) (c : Call) (e : Evidence) :
  i <> j -> calls s !! j = Some c -> answered c = Some e -> told (cstep s i) e.
Proof.
  intros Hij Hj Ha. exists j, c. split; [|done]. unfold cstep.
  destruct (calls s !! i); [|done]. cbn. by rewrite list_lookup_insert_ne.
Qed.

Lemma cstep_accounted (db : Database) (s : Pool) (i : nat) :
  accounted db s -> accounted db (cstep s i).
Proof.
  intros H. destruct (calls s !! i) as [c|] eqn:Hi; [|unfold cstep; by rewrite Hi].
  destruct (answered c) as [e0|] eqn:Ha.
  { assert (hstep c (store s) = (c, store s)) as Hs.
    { unfold answered, response in Ha. destruct (call_state c) eqn:Hc; try done.
      by eapply hstep_finished. }
    unfold cstep. rewrite Hi, Hs. cbn. by rewrite list_insert_id. }
  pose proof (hstep_answered c (store s) Ha) as Hs. intros e. split.
  - unfold cstep at 1. rewrite Hi. cbn. rewrite Hs, elem_of_app. intros [He|He].
    + apply H in He as [He|(j & cj & Hj & Hcj)]; [by left|right].
      apply told_cstep_other with j cj; [congruence|done..].
    + right. exists i, (hstep c (store s)).1. unfold cstep. rewrite Hi. cbn.
      rewrite list_lookup_insert_eq by (by eapply lookup_lt_Some).
      split; [done|]. revert He.
      destruct (answered (hstep c (store s)).1); cbn; [|by intros ?%elem_of_nil].
      by intros ->%list_elem_of_singleton.
  - intros [He|(j & cj & Hj & Hcj)].
    + unfold cstep. rewrite Hi. cbn. rewrite Hs, elem_of_app. left. apply H. by left.
    + revert Hj. unfold cstep. rewrite Hi. cbn. rewrite Hs, elem_of_app.
      destruct (decide (i = j)) as [<-|Hij].
      * rewrite list_lookup_insert_eq by (by eapply lookup_lt_Some). intros [= <-].
        right. rewrite Hcj. cbn. by apply list_elem_of_singleton.
      * rewrite list_lookup_insert_ne by done. intros Hj. left. apply H. right. by exists j, cj.
Qed.

Lemma crun_accounted (db : Database) (s : Pool) (schedule : list nat) :
  accounted db s -> accounted db (crun s schedule).
Proof.
  revert s. induction schedule as [|i schedule IH]; intros s H; [done|].
  apply IH. by apply cstep_accounted.
Qed.

Lemma accept_accounted (requests : list (Req * Z)) (db : Database) :
  accounted db (accept requests db).
Proof.
  intros e. split; [by left|]. intros [He|(i & c & Hi & Ha)]; [done|].
  cbn in Hi. apply list_lookup_fmap_Some in Hi as (r & -> & _). done.
Qed.

End Stored.

(** ** One by one

    The evidences stored by requests that overlap are those the requests
    store when each is served alone on the database of the arrival. *)

(** The evidence a request stores when it is served alone on [db]. *)
Definition storedAlone {P : Prisma} {E : DateParse} (db : Database) (r : Req * Z) :
    option Evidence :=
  answered (with_state (arrived r) (Finished (addEvidence r.1 r.2 db).1)).

Lemma omap_insert_perm {A B : Type} (f : A -> option B) (l : list A) (i : nat) (x y : A) :
  l !! i = Some x -> f x = None ->
  omap f (<[i:=y]> l) ≡ₚ omap f l ++ option_list (f y).
Proof.
  revert i. induction l as [|a l IH]; intros [|i] Hi Hx; try done; cbn in *.
  - injection Hi as ->. rewrite Hx. destruct (f y) as [b|]; cbn.
    + apply Permutation_cons_append.
    + by rewrite app_nil_r.
  - destruct (f a); cbn; [f_equiv|]; by apply IH.
Qed.

Lemma omap_fmap_list {A B C : Type} (f : B -> option C) (g : A -> B) (l : list A) :
  omap f (g <$> l) = omap (fun x => f (g x)) l.
Proof. induction l as [|a l IH]; [done|]. csimpl. by rewrite IH. Qed.

Section Serial.

Context {P : Prisma} {E : DateParse}.

Lemma cstep_length (s : Pool) (i : nat) : length (calls (cstep s i)) = length (calls s).
Proof. unfold cstep. destruct (calls s !! i); [|done]. cbn. by rewrite length_insert. Qed.

Lemma crun_length (s : Pool) (schedule : list nat) :
  length (calls (crun s schedule)) = length (calls s).
Proof.
  revert s. induction schedule as [|i schedule IH]; intros s; [done|].
  cbn [crun foldl]. fold (crun (cstep s i) schedule). by rewrite IH, cstep_length.
Qed.

(** Each evidence answered is stored once. *)
Lemma cstep_stored (before : list Evidence) (s : Pool) (i : nat) :
  db_evidences (store s) ≡ₚ before ++ omap answered (calls s) ->
  db_evidences (store (cstep s i)) ≡ₚ before ++ omap answered (calls (cstep s i)).
Proof.
  intros H. unfold cstep. destruct (calls s !! i) as [c|] eqn:Hi; [|done]. cbn.
  destruct (answered c) as [e0|] eqn:Ha.
  - assert (hstep c (store s) = (c, store s)) as ->.
    { unfold answered, response in Ha. destruct (call_state c) eqn:Hc; try done.
      by eapply hstep_finished. }
    cbn. by rewrite list_insert_id.
  - rewrite (hstep_answered c (store s) Ha), (omap_insert_perm _ _ _ c _ Hi Ha), H.
    by rewrite app_assoc.
Qed.

Lemma crun_stored (before : list Evidence) (s : Pool) (schedule : list nat) :
  db_evidences (store s) ≡ₚ before ++ omap answered (calls s) ->
  db_evidences (store (crun s schedule)) ≡ₚ before ++ omap answered (calls (crun s schedule)).
Proof.
  revert s. induction schedule as [|i schedule IH]; intros s H; [done|].
  apply IH. by apply cstep_stored.
Qed.

Lemma accept_stored (requests : list (Req * Z)) (db : Database) :
  omap answered (calls (accept requests db)) = [].
Proof. cbn. induction requests as [|r requests IH]; [done|]. cbn. by rewrite IH. Qed.

(** After a fair schedule the calls are the requests, each with the
    response it gets alone. *)
Lemma fair_calls {HP : StablePrisma P} (requests : list (Req * Z)) (db : Database)
    (schedule : list nat) :
  (forall i, (i < length requests)%nat -> (4 <= turns i schedule)%nat) ->
  calls (crun (accept requests db) schedule)
  = (fun r => with_state (arrived r) (Finished (addEvidence r.1 r.2 db).1)) <$> requests.
Proof.
  intros Hfair. apply list_eq. intros i. rewrite list_lookup_fmap.
  destruct (requests !! i) as [r|] eqn:Hr; cbn.
  - apply fair_call_isolated; [done|]. apply Hfair. by eapply lookup_lt_Some.
  - apply lookup_ge_None. rewrite crun_length. cbn. rewrite length_fmap.
    by apply lookup_ge_None.
Qed.

End Serial.

(** ** Progress

    A schedule is fair to a call when it gives it the turns it needs.
    The pieces a call still has to run never grow, and each turn of the
    call takes one away, whatever the database client answers. *)

(** The pieces a call has still to run: the [await]s ahead of it. *)
Definition piecesLeft (h : Suspended) : nat :=
  match h with
  | AwaitAuth => 4
  | AwaitTask _ _ => 3
  | AwaitProject _ _ _ => 2
  | AwaitCreate _ _ => 1
  | Finished _ => 0
  end.

(** [rounds] rounds in which every call of [n] has one turn. *)
Definition roundRobin (rounds n : nat) : list nat := mjoin (replicate rounds (seq 0 n)).

Section Progress.

Context {P : Prisma} {E : DateParse}.

#[local] Open Scope nat_scope.

Lemma hstep_piecesLeft (c : Call) (db : Database) :
  piecesLeft (call_state (hstep c db).1) <= pred (piecesLeft (call_state c)).
Proof.
  destruct c as [req now h]. pieces. destruct h as [|u f|u f t|u f|r]; cbn.
  - destruct (req_auth req); cbn; [|lia]. destruct (req_body req); cbn; lia.
  - destruct (task_findUnique _ db) as [[t|]|]; cbn; lia.
  - destruct (project_findUnique _ db) as [p|]; cbn; [|lia].
    destruct (findMember p u); cbn; lia.
  - destruct (evidence_create _ db) as [[e|err] db']; cbn; lia.
  - lia.
Qed.

Lemma piecesLeft_0 (c : Call) : piecesLeft (call_state c) = 0 -> is_Some (response c).
Proof. unfold response. by destruct (call_state c). Qed.

(** After a schedule, call [i] has at most the pieces it had less its
    turns. *)
Lemma crun_piecesLeft (s : Pool) (schedule : list nat) (i : nat) (c : Call) :
  calls s !! i = Some c ->
  exists c', calls (crun s schedule) !! i = Some c' /\
    piecesLeft (call_state c') <= piecesLeft (call_state c) - turns i schedule.
Proof.
  revert s c. induction schedule as [|j schedule IH]; intros s c Hi.
  { exists c. split; [done|]. cbn. lia. }
  cbn [crun foldl turns]. fold (crun (cstep s j) schedule). unfold cstep.
  case_bool_decide as Hj.
  - subst j. rewrite Hi.
    destruct (IH {| calls := <[i:=(hstep c (store s)).1]> (calls s);
                    store := (hstep c (store s)).2 |} (hstep c (store s)).1) as (c' & Hc & Hle).
    { cbn. apply list_lookup_insert_eq. by eapply lookup_lt_Some. }
    exists c'. split; [done|]. pose proof (hstep_piecesLeft c (store s)). lia.
  - destruct (calls s !! j) as [cj|] eqn:Hcj; [|by apply IH].
    apply IH. cbn. by rewrite list_lookup_insert_ne.
Qed.

Lemma turns_app (i : nat) (l1 l2 : list nat) : turns i (l1 ++ l2) = turns i l1 + turns i l2.
Proof. induction l1 as [|j l1 IH]; [done|]. cbn. case_bool_decide; lia. Qed.

Lemma turns_seq_from (i a n : nat) :
  turns i (seq a n) = if bool_decide (a <= i < a + n) then 1 else 0.
Proof.
  revert a. induction n as [|n IH]; intros a; cbn.
  - by rewrite bool_decide_false by lia.
  - rewrite IH. repeat case_bool_decide; lia.
Qed.

Lemma turns_seq (i n : nat) : i < n -> turns i (seq 0 n) = 1.
Proof. intros Hi. rewrite turns_seq_from. by rewrite bool_decide_true by lia. Qed.

Lemma turns_roundRobin (i rounds n : nat) : i < n -> turns i (roundRobin rounds n) = rounds.
Proof.
  intros Hi. induction rounds as [|r IH]; [done|].
  change (roundRobin (S r) n) with (seq 0 n ++ roundRobin r n).
  by rewrite turns_app, turns_seq, IH.
Qed.

(** A schedule that gives every call four turns ends every call. *)
Lemma fair_schedule_answers (requests : list (Req * Z)) (db : Database) (schedule : list nat) :
  (forall i, i < length requests -> 4 <= turns i schedule) ->
  forall i, i < length requests ->
    exists c res, calls (crun (accept requests db) schedule) !! i = Some c /\
                  response c = Some res.
Proof.
  intros Hfair i Hi. destruct (lookup_lt_is_Some_2 requests i Hi) as [r Hr].
  destruct (crun_piecesLeft (accept requests db) schedule i (arrived r)) as (c & Hc & Hle).
  { cbn. by rewrite list_lookup_fmap, Hr. }
  specialize (Hfair i Hi). cbn in Hle.
  destruct (piecesLeft_0 c ltac:(lia)) as [res Hres]. by exists c, res.
Qed.

End Progress.

(** ** Properties *)

Section ConcurrentProperties.

Context {P : Prisma} {E : DateParse}.

(** C10. Requests that overlap store authorised evidence only.  From a
    database in which every evidence belongs to a task of the database
    and to a member of that task's project, any number of requests served
    in any interleaving of their pieces leave such a database: the
    membership a call checked before it waited still holds when it
    creates, because no handler writes to the tasks or the projects. *)
Theorem overlapping_requests_store_authorised (requests : list (Req * Z)) (db : Database)
    (schedule : list nat) :
  db_wf db -> db_wf (store (crun (accept requests db) schedule)).
Proof. intros H. by apply crun_ok, accept_ok. Qed.

(** C18. Nothing is lost and nothing appears: after any interleaving,
    the evidences of the database are those it had and those a caller was
    answered with, each stored by the piece that answered. *)
Theorem stored_iff_answered (requests : list (Req * Z)) (db : Database) (schedule : list nat)
    (e : Evidence) :
  let s := crun (accept requests db) schedule in
  e ∈ db_evidences (store s) <->
  e ∈ db_evidences db \/ exists i c, calls s !! i = Some c /\ answered c = Some e.
Proof. apply crun_accounted, accept_accounted. Qed.

(** C6. Each caller is answered as if alone.  With a database client
    whose answers depend on the tables only, a call that has had its four
    turns, in whatever interleaving with the turns of the others, is over
    with the response that [addEvidence] gives to its request on the
    database as it was when the requests arrived. *)
Theorem overlapping_requests_are_isolated {HP : StablePrisma P} (requests : list (Req * Z))
    (db : Database) (schedule : list nat) (i : nat) (req : Req) (now : Z) :
  requests !! i = Some (req, now) ->
  (4 <= turns i schedule)%nat ->
  response <$> calls (crun (accept requests db) schedule) !! i
  = Some (Some (addEvidence req now db).1).
Proof. intros Hi Hn. by rewrite (fair_call_isolated _ _ _ _ _ Hi Hn). Qed.

(** C19. Every request is answered.  Under a schedule that gives each
    call four turns, in whatever order and whatever the database client
    answers, every call is over and has sent its response: no failure
    and no interleaving leaves a caller waiting. *)
Theorem every_request_is_answered (requests : list (Req * Z)) (db : Database)
    (schedule : list nat) :
  (forall i, (i < length requests)%nat -> (4 <= turns i schedule)%nat) ->
  forall i, (i < length requests)%nat ->
    exists c res, calls (crun (accept requests db) schedule) !! i = Some c /\
                  response c = Some res.
Proof. apply fair_schedule_answers. Qed.

(** C7. Requests that overlap store what they store one by one.  With
    a database client whose answers depend on the tables only, after a
    schedule that gives every call four turns the evidences of the
    database are those it had and, once each, the evidence that each
    request stores when it is served alone on the database of the
    arrival: no interleaving loses, repeats or changes an evidence. *)
Theorem overlapping_requests_serialise {HP : StablePrisma P} (requests : list (Req * Z))
    (db : Database) (schedule : list nat) :
  (forall i, (i < length requests)%nat -> (4 <= turns i schedule)%nat) ->
  db_evidences (store (crun (accept requests db) schedule))
  ≡ₚ db_evidences db ++ omap (storedAlone db) requests.
Proof.
  intros Hfair. rewrite (crun_stored (db_evidences db)).
  - rewrite (fair_calls requests db schedule Hfair). f_equiv.
    unfold storedAlone. by rewrite omap_fmap_list.
  - by rewrite accept_stored, app_nil_r.
Qed.

(** Whatever has happened so far, four rounds in which every call has a
    turn answer every request. *)
Theorem four_rounds_answer_all (requests : list (Req * Z)) (db : Database)
    (schedule : list nat) (i : nat) :
  (i < length requests)%nat ->
  exists c res,
    calls (crun (accept requests db) (schedule ++ roundRobin 4 (length requests))) !! i = Some c /\
    response c = Some res.
Proof.
  intros Hi. revert i Hi. apply fair_schedule_answers.
  intros i Hi. rewrite turns_app, turns_roundRobin by done. lia.
Qed.

End ConcurrentProperties.

(** ** Witnesses *)

(** Alice, a member of the project of task t1, and Carol, who is not, send
    their requests at the same time; the server takes their pieces in
    turn. *)
Definition sampleRequests : list (Req * Z) :=
  [(sampleReq (Some "alice") "t1" "2025-03-10", sampleNow);
   (sampleReq (Some "carol") "t1" "", sampleNow + 5)].

Definition sampleSchedule : list nat := [0; 1; 1; 0; 1; 0; 1; 0]%nat.

Lemma sampleDb_wf : db_wf sampleDb.
Proof. constructor. Qed.

Lemma overlapping_requests_store_authorised_witness :
  db_wf (store (crun (P := memPrisma) (E := isoDateParse) (accept sampleRequests sampleDb)
                  sampleSchedule)).
Proof. exact (overlapping_requests_store_authorised sampleRequests sampleDb _ sampleDb_wf). Defined.

Lemma overlapping_requests_are_isolated_witness :
  response <$> calls (crun (P := memPrisma) (E := isoDateParse)
                        (accept sampleRequests sampleDb) sampleSchedule) !! 1%nat
  = Some (Some (addEvidence (P := memPrisma) (E := isoDateParse)
                  (sampleReq (Some "carol") "t1" "") (sampleNow + 5) sampleDb).1).
Proof.
  exact (overlapping_requests_are_isolated sampleRequests sampleDb sampleSchedule 1
           (sampleReq (Some "carol") "t1" "") (sampleNow + 5) eq_refl (le_n 4)).
Defined.

Lemma sampleSchedule_fair (i : nat) :
  (i < length sampleRequests)%nat -> (4 <= turns i sampleSchedule)%nat.
Proof.
  intros H. destruct i as [|[|i]]; [vm_compute; lia..|].
  unfold sampleRequests in H. cbn in H. lia.
Qed.

Lemma every_request_is_answered_witness :
  exists c res,
    calls (crun (P := memPrisma) (E := isoDateParse) (accept sampleRequests sampleDb)
             sampleSchedule) !! 1%nat = Some c /\
    response c = Some res.
Proof.
  exact (every_request_is_answered sampleRequests sampleDb sampleSchedule sampleSchedule_fair
           1%nat (le_n 2)).
Defined.

Lemma overlapping_requests_serialise_witness :
  db_evidences (store (crun (P := memPrisma) (E := isoDateParse)
                         (accept sampleRequests sampleDb) sampleSchedule))
  ≡ₚ db_evidences sampleDb
     ++ omap (storedAlone (P := memPrisma) (E := isoDateParse) sampleDb) sampleRequests.
Proof.
  exact (overlapping_requests_serialise (P := memPrisma) (E := isoDateParse)
           sampleRequests sampleDb sampleSchedule sampleSchedule_fair).
Defined.

(** On the sample: Alice is answered 200 and Carol 403, and the database
    holds Alice's evidence alone. *)
Example sample_overlap :
  let s := crun (P := memPrisma) (E := isoDateParse) (accept sampleRequests sampleDb)
             sampleSchedule in
  (fun c => status <$> response c) <$> calls s = [Some 200; Some 403] /\
  ev_userId <$> db_evidences (store s) = ["alice"] /\
  (answered <$> calls s) = [Some {| ev_taskId := "t1"; ev_userId := "alice";
                                     ev_content := Some "site photo";
                                     ev_image_url := "/uploads/1741-photo.png";
                                     ev_date := DateUTC 2025 2 10;
                                     ev_user := {| user_id := "alice" |} |}; None].
Proof. by vm_compute. Qed.
