(* ===== verification/Server.v ===== *)
(** * Server: the Express application and the evidence route

    [src/server/server.js] builds the application: three middlewares, the
    route [GET /] and the Inngest endpoint; [src/server/routes/evidenceRoute.js]
    builds the router of the evidence endpoint, whose only route runs the
    upload middleware and then the controller.  Express is modelled by what
    these files use of it: a stack of layers tried in order, a layer
    matching by path prefix ([use]) or by method and path (a route), a
    handler answering, passing the request on with [next()], or failing
    with [next(err)].  The middlewares of the libraries (body parser, CORS,
    Clerk, multer) are not part of the repository and are modelled from
    their documentation; the Inngest endpoint and the name multer gives to
    a stored file are parameters.

    [server.js] mounts neither the evidence router nor a weekly-progress
    route.  [mountedApp] and [completedApp] add them where the dialog
    posts to; every theorem about them says what would hold if the lines
    were there, and [evidence_endpoint_not_mounted] says what holds as the
    file is. *)

From stdpp Require Import gmap strings.
From S2P Require Import Prelude JsDate Http Evidence.

#[local] Open Scope Z_scope.
#[local] Open Scope js_scope.

(** ** Data *)

(** What the server holds: the database, the upload directory, the
    sessions Clerk knows (token to user), and the clock. *)
Record ServerState : Type := {
  database : Database;
  uploads : list StoredFile;
  sessions : gmap string string;
  clock : Z
}.

(** What a handler does with a request. *)
Inductive Handled : Type :=
| Responded (res : Response) (s : ServerState)
| Next (req : Req) (s : ServerState)
| NextError (e : JsError) (s : ServerState).

Definition Handler : Type := Req -> ServerState -> Handled.

(** [app.use(prefix, h)] and [app.METHOD(path, h1, h2, ...)]. *)
Inductive Layer : Type :=
| Use (prefix : list string) (h : Handler)
| Route (m : Method) (p : list string) (hs : list Handler).

(** [process.env] as far as [server.js] reads it. *)
Record ProcessEnv : Type := {
  CLERK_PUBLISHABLE_KEY : option string;
  PORT : option string
}.

#[export] Instance Method_eqdec : EqDecision Method := Method_eq_dec.

(** ** Express *)

Definition set_path (p : list string) (req : Req) : Req :=
  {| req_request := req_request req; req_path := p; req_auth := req_auth req;
     req_body := req_body req; req_file := req_file req |}.

Definition set_database (db : Database) (s : ServerState) : ServerState :=
  {| database := db; uploads := uploads s; sessions := sessions s; clock := clock s |}.

(** The rest of a path below a mount point, when the path is under it. *)
Fixpoint stripPrefix (prefix p : list string) : option (list string) :=
  match prefix, p with
  | [], rest => Some rest
  | a :: prefix', b :: p' => if bool_decide (a = b) then stripPrefix prefix' p' else None
  | _ :: _, [] => None
  end.

(** The handlers of one route, each run when the one before called
    [next()]. *)
Fixpoint runChain (hs : list Handler) (req : Req) (s : ServerState) : Handled :=
  match hs with
  | [] => Next req s
  | h :: rest =>
      match h req s with
      | Next req' s' => runChain rest req' s'
      | other => other
      end
  end.

Definition matchesRoute (m : Method) (p : list string) (req : Req) : bool :=
  bool_decide (method (req_request req) = m) && bool_decide (req_path req = p).

(** The stack of an application or of a router. *)
Fixpoint runLayers (layers : list Layer) (req : Req) (s : ServerState) : Handled :=
  match layers with
  | [] => Next req s
  | Use prefix h :: rest =>
      match stripPrefix prefix (req_path req) with
      | Some below =>
          match h (set_path below req) s with
          | Next req' s' => runLayers rest (set_path (req_path req) req') s'
          | other => other
          end
      | None => runLayers rest req s
      end
  | Route m p hs :: rest =>
      if matchesRoute m p req then
        match runChain hs req s with
        | Next req' s' => runLayers rest req' s'
        | other => other
        end
      else runLayers rest req s
  end.

(** A router used as a handler. *)
Definition router (layers : list Layer) : Handler := runLayers layers.

Definition methodName (m : Method) : string :=
  match m with
  | GET => "GET"
  | POST => "POST"
  | OPTIONS => "OPTIONS"
  end.

Definition pathName (p : list string) : string :=
  match p with
  | [] => "/"
  | _ => String.concat "" (map (fun seg => "/" +:+ seg) p)
  end.

(** The request object before any middleware has run. *)
Definition incoming (request : Request) : Req :=
  {| req_request := request;
     req_path := path request;
     req_auth := Rejected (plainError "req.auth is not a function");
     req_body := None;
     req_file := None |}.

(** The application answering a request: the framework answers 404 when
    no layer did, and 500 when a handler failed. *)
Definition handle (app : list Layer) (request : Request) (s : ServerState) :
    Response * ServerState :=
  match runLayers app (incoming request) s with
  | Responded res s' => (res, s')
  | Next _ s' =>
      ({| status := 404;
          body := Text ("Cannot " +:+ methodName (method request) +:+ " " +:+ pathName (path request)) |},
       s')
  | NextError e s' => ({| status := 500; body := Text (err_message e) |}, s')
  end.

(** ** The middlewares of the libraries *)

(** The string fields of the JSON body the dialog posts; the week index,
    a number or [null], is read by no handler of the repository and is
    left out of [req.body]. *)
Definition weeklyFields (w : WeeklyProgress) : list (string * string) :=
  [("taskId", wp_taskId w); ("date", wp_date w)].

(** [express.json()]: the fields of a JSON body. *)
Definition express_json : Handler := fun req s =>
  match payload (req_request req) with
  | JsonPayload w =>
      Next {| req_request := req_request req; req_path := req_path req;
              req_auth := req_auth req; req_body := Some (weeklyFields w);
              req_file := req_file req |} s
  | _ => Next req s
  end.

(** [cors()]: answers a preflight request, passes every other on. *)
Definition cors : Handler := fun req s =>
  match method (req_request req) with
  | OPTIONS => Responded {| status := 204; body := Text "" |} s
  | _ => Next req s
  end.

(** [clerkMiddleware(...)]: [req.auth()] gives the user of the session
    the bearer token names, [null] when there is none. *)
Definition clerkMiddleware : Handler := fun req s =>
  Next {| req_request := req_request req; req_path := req_path req;
          req_auth := Resolved (bearer (req_request req) ≫= fun t => sessions s !! t);
          req_body := req_body req; req_file := req_file req |} s.

Section Application.

(** The name under which the storage of multer saves a file, and the
    handler that [serve] of Inngest returns. *)
Variable storedName : File -> list StoredFile -> string.
Variable inngestServe : Handler.

(** [upload.single(name)]: the text fields of a multipart form go to
    [req.body]; one file at most is accepted, under the field [name], and
    is stored before the next handler runs; a file under another field, or
    a second file, is an error and nothing stays stored. *)
Definition uploadSingle (name : string) : Handler := fun req s =>
  match payload (req_request req) with
  | FormPayload f =>
      match formFiles f with
      | [] =>
          Next {| req_request := req_request req; req_path := req_path req;
                  req_auth := req_auth req; req_body := Some (formFields f);
                  req_file := None |} s
      | [(k, file)] =>
          if bool_decide (k = name) then
            let stored := {| filename := storedName file (uploads s);
                             originalname := file_name file |} in
            Next {| req_request := req_request req; req_path := req_path req;
                    req_auth := req_auth req; req_body := Some (formFields f);
                    req_file := Some stored |}
                 {| database := database s; uploads := uploads s ++ [stored];
                    sessions := sessions s; clock := clock s |}
          else NextError (plainError "Unexpected field") s
      | _ => NextError (plainError "Unexpected field") s
      end
  | _ => Next req s
  end.

(** The controller as a handler of the server. *)
Definition addEvidenceHandler {P : Prisma} {E : DateParse} : Handler := fun req s =>
  let (res, db') := addEvidence req (clock s) (database s) in
  Responded res (set_database db' s).

(** [evidenceRoute.js]: [evidenceRouter.post("/", upload.single("attachment"), addEvidence)] *)
Definition evidenceRouter {P : Prisma} {E : DateParse} : list Layer :=
  [Route POST [] [uploadSingle "attachment"; addEvidenceHandler]].

(** [server.js], lines 13-23. *)
Definition app : list Layer :=
  [Use [] express_json;
   Use [] cors;
   Use [] clerkMiddleware;
   Route GET [] [fun _ s => Responded {| status := 200; body := Text "Server is live" |} s];
   Use ["api"; "inngest"] inngestServe].

(** [server.js], lines 9-11 and 25: the check of the environment and the
    port the server listens on. *)
Definition startServer (env : ProcessEnv) : Outcome string :=
  match truthy_string (CLERK_PUBLISHABLE_KEY env) with
  | None => Rejected (plainError "Missing Clerk Publishable Key")
  | Some _ => Resolved (truthy_string (PORT env) <||> "5000")
  end.

End Application.

(** The application with the evidence router mounted where
    [AddFileDialog] posts to; [server.js] has no such line. *)
Definition mountedApp {P : Prisma} {E : DateParse}
    (storedName : File -> list StoredFile -> string) (inngestServe : Handler) : list Layer :=
  app inngestServe ++ [Use ["api"; "evidences"] (router (evidenceRouter storedName))].

(** A weekly-progress endpoint that accepts every request; the
    repository has no such handler. *)
Definition weeklyProgressAccepts : Handler := fun _ s =>
  Responded (res_json "Progress saved" None) s.

(** The application [AddFileDialog] expects: the one of [server.js] with
    the evidence router and a weekly-progress route mounted where the
    dialog posts to. *)
Definition completedApp {P : Prisma} {E : DateParse}
    (storedName : File -> list StoredFile -> string) (inngestServe : Handler) : list Layer :=
  mountedApp storedName inngestServe
  ++ [Route POST ["api"; "weekly-progress"] [weeklyProgressAccepts]].

(** The state a handling leaves. *)
Definition stateOf (h : Handled) : ServerState :=
  match h with
  | Responded _ s => s
  | Next _ s => s
  | NextError _ s => s
  end.

(** [req.body] after the body parser. *)
Definition parsedBody (request : Request) : option (list (string * string)) :=
  match payload request with
  | JsonPayload w => Some (weeklyFields w)
  | _ => None
  end.

(** The request object after the three middlewares of the application. *)
Definition authenticated (request : Request) (s : ServerState) : Req :=
  {| req_request := request;
     req_path := path request;
     req_auth := Resolved (bearer request ≫= fun t => sessions s !! t);
     req_body := parsedBody request;
     req_file := None |}.

(** What the evidence route does with that request: the upload middleware,
    then the controller on the request object and the state the
    middleware left. *)
Definition evidenceRoute {P : Prisma} {E : DateParse}
    (storedName : File -> list StoredFile -> string)
    (request : Request) (s : ServerState) : Response * ServerState :=
  match uploadSingle storedName "attachment" (set_path [] (authenticated request s)) s with
  | Next req s' =>
      let (res, db') := addEvidence req (clock s') (database s') in
      (res, set_database db' s')
  | NextError e s' => ({| status := 500; body := Text (err_message e) |}, s')
  | Responded res s' => (res, s')
  end.

(** ** Lemmas *)

Lemma stripPrefix_app (prefix rest : list string) : stripPrefix prefix (prefix ++ rest) = Some rest.
Proof. induction prefix as [|a prefix IH]; simpl; [done|]. by rewrite bool_decide_eq_true_2. Qed.

Lemma stripPrefix_Some (prefix p rest : list string) :
  stripPrefix prefix p = Some rest <-> p = prefix ++ rest.
Proof.
  split; [|intros ->; apply stripPrefix_app].
  revert p. induction prefix as [|a prefix IH]; intros [|b p]; simpl; try congruence.
  case_bool_decide as Hab; [|done]. intros Hs. f_equal; [done|]. by apply IH.
Qed.

(** A stack followed by another: the second runs when the first passed
    the request on. *)
Lemma runLayers_app (l1 l2 : list Layer) (req : Req) (s : ServerState) :
  runLayers (l1 ++ l2) req s =
  match runLayers l1 req s with
  | Next req' s' => runLayers l2 req' s'
  | other => other
  end.
Proof.
  revert req s. induction l1 as [|[prefix h|m p hs] l1 IH]; intros req s; simpl; [done| |].
  - destruct (stripPrefix prefix (req_path req)); [|apply IH].
    destruct (h _ s); [done|apply IH|done].
  - destruct (matchesRoute m p req); [|apply IH].
    destruct (runChain hs req s); [done|apply IH|done].
Qed.

Lemma matchesRoute_true (m : Method) (p : list string) (req : Req) :
  matchesRoute m p req = true <-> method (req_request req) = m /\ req_path req = p.
Proof.
  unfold matchesRoute. rewrite andb_true_iff, !bool_decide_eq_true. tauto.
Qed.

(** The three middlewares of the application keep the server's state. *)
Lemma express_json_state (req : Req) (s : ServerState) : stateOf (express_json req s) = s.
Proof. unfold express_json. by destruct (payload _). Qed.

Lemma cors_state (req : Req) (s : ServerState) : stateOf (cors req s) = s.
Proof. unfold cors. by destruct (method _). Qed.

Lemma clerkMiddleware_state (req : Req) (s : ServerState) : stateOf (clerkMiddleware req s) = s.
Proof. done. Qed.

Lemma set_path_id (req : Req) : set_path (req_path req) req = req.
Proof. by destruct req. Qed.

Lemma set_path_request (p : list string) (req : Req) :
  req_request (set_path p req) = req_request req.
Proof. done. Qed.

Lemma runLayers_use_next (prefix below : list string) (h : Handler) (rest : list Layer)
    (req req' : Req) (s s' : ServerState) :
  stripPrefix prefix (req_path req) = Some below ->
  h (set_path below req) s = Next req' s' ->
  runLayers (Use prefix h :: rest) req s = runLayers rest (set_path (req_path req) req') s'.
Proof. simpl. by intros -> ->. Qed.

Lemma runLayers_use_skip (prefix : list string) (h : Handler) (rest : list Layer)
    (req : Req) (s : ServerState) :
  stripPrefix prefix (req_path req) = None ->
  runLayers (Use prefix h :: rest) req s = runLayers rest req s.
Proof. simpl. by intros ->. Qed.

Lemma runLayers_route_skip (m : Method) (p : list string) (hs : list Handler)
    (rest : list Layer) (req : Req) (s : ServerState) :
  matchesRoute m p req = false ->
  runLayers (Route m p hs :: rest) req s = runLayers rest req s.
Proof. simpl. by intros ->. Qed.

Lemma runLayers_route_match (m : Method) (p : list string) (hs : list Handler)
    (rest : list Layer) (req : Req) (s : ServerState) :
  matchesRoute m p req = true ->
  runLayers (Route m p hs :: rest) req s =
  match runChain hs req s with
  | Next req' s' => runLayers rest req' s'
  | other => other
  end.
Proof. simpl. by intros ->. Qed.

(** The body parser passes every request on and touches the body only. *)
Lemma express_json_incoming (request : Request) (s : ServerState) :
  express_json (incoming request) s
  = Next {| req_request := request; req_path := path request;
            req_auth := req_auth (incoming request);
            req_body := parsedBody request; req_file := None |} s.
Proof. unfold express_json, parsedBody. cbn. by destruct (payload request). Qed.

Lemma cors_next (req : Req) (s : ServerState) :
  method (req_request req) <> OPTIONS -> cors req s = Next req s.
Proof. unfold cors. by destruct (method _). Qed.

Section ApplicationLemmas.

Variable storedName : File -> list StoredFile -> string.
Variable inngestServe : Handler.

(** What the stack of [server.js] does with a request that is not a
    preflight, is not [GET /] and is not under [/api/inngest]: the three
    middlewares pass it on, the last one with the caller's identity, and
    no layer answers. *)
Lemma app_falls_through (request : Request) (s : ServerState) :
  method request <> OPTIONS ->
  ~ (method request = GET /\ path request = []) ->
  stripPrefix ["api"; "inngest"] (path request) = None ->
  runLayers (app inngestServe) (incoming request) s = Next (authenticated request s) s.
Proof.
  intros Hm Hroot Hinn. unfold app.
  erewrite runLayers_use_next; [|reflexivity|rewrite set_path_id; apply express_json_incoming].
  erewrite runLayers_use_next; [|reflexivity|by apply cors_next].
  erewrite runLayers_use_next; [|reflexivity|reflexivity].
  rewrite runLayers_route_skip by (by apply not_true_iff_false; rewrite matchesRoute_true).
  by rewrite runLayers_use_skip.
Qed.

(** A request that the application of [server.js] does not route is
    answered 404 by the framework, and the state is untouched. *)
Lemma handle_app_not_found (request : Request) (s : ServerState) :
  method request <> OPTIONS ->
  ~ (method request = GET /\ path request = []) ->
  stripPrefix ["api"; "inngest"] (path request) = None ->
  handle (app inngestServe) request s
  = ({| status := 404;
        body := Text ("Cannot " +:+ methodName (method request) +:+ " " +:+ pathName (path request)) |},
     s).
Proof. intros Hm Hroot Hinn. unfold handle. by rewrite app_falls_through. Qed.

(** With the router mounted, a [POST /api/evidences] reaches the route,
    whatever is mounted after it. *)
Lemma handle_mounted_before {P : Prisma} {E : DateParse} (rest : list Layer)
    (request : Request) (s : ServerState) :
  method request = POST -> path request = ["api"; "evidences"] ->
  handle (mountedApp storedName inngestServe ++ rest) request s
  = evidenceRoute storedName request s.
Proof.
  intros Hm Hp. unfold handle, mountedApp, evidenceRoute.
  rewrite <- app_assoc.
  rewrite runLayers_app, app_falls_through by (rewrite ?Hm, ?Hp; try done; by intros [? _]).
  cbn [Datatypes.app runLayers req_path authenticated]. rewrite Hp.
  replace (stripPrefix _ _) with (Some (@nil string))
    by (symmetry; apply (stripPrefix_app ["api"; "evidences"] [])).
  unfold router, evidenceRouter. cbn [runLayers].
  replace (matchesRoute POST [] _) with true by (symmetry; by apply matchesRoute_true).
  cbn [runChain]. destruct (uploadSingle _ _ _ s) as [res s'|req s'|e s']; [done| |done].
  unfold addEvidenceHandler. by destruct (addEvidence _ _ _).
Qed.

Lemma handle_mounted {P : Prisma} {E : DateParse} (request : Request) (s : ServerState) :
  method request = POST -> path request = ["api"; "evidences"] ->
  handle (mountedApp storedName inngestServe) request s = evidenceRoute storedName request s.
Proof.
  intros Hm Hp. rewrite <- (handle_mounted_before [] request s Hm Hp). by rewrite app_nil_r.
Qed.

(** In the completed application a [POST /api/weekly-progress] passes the
    evidence router and is accepted. *)
Lemma handle_weekly {P : Prisma} {E : DateParse} (request : Request) (s : ServerState) :
  method request = POST -> path request = ["api"; "weekly-progress"] ->
  handle (completedApp storedName inngestServe) request s
  = (res_json "Progress saved" None, s).
Proof.
  intros Hm Hp. unfold handle, completedApp, mountedApp.
  rewrite <- app_assoc.
  rewrite runLayers_app, app_falls_through by (rewrite ?Hm, ?Hp; try done; by intros [? _]).
  cbn [Datatypes.app runLayers req_path authenticated]. rewrite Hp. cbn [stripPrefix].
  rewrite bool_decide_eq_true_2 by done. rewrite bool_decide_eq_false_2 by done.
  replace (matchesRoute POST _ _) with true
    by (symmetry; apply matchesRoute_true; split; [exact Hm|exact Hp]).
  done.
Qed.

(** The upload middleware on a multipart form. *)
Lemma uploadSingle_no_file (name : string) (req : Req) (s : ServerState) (f : FormData) :
  payload (req_request req) = FormPayload f -> formFiles f = [] ->
  uploadSingle storedName name req s
  = Next {| req_request := req_request req; req_path := req_path req;
            req_auth := req_auth req; req_body := Some (formFields f);
            req_file := None |} s.
Proof. unfold uploadSingle. by intros -> ->. Qed.

Lemma uploadSingle_file (name : string) (req : Req) (s : ServerState) (f : FormData) (file : File) :
  payload (req_request req) = FormPayload f -> formFiles f = [(name, file)] ->
  let stored := {| filename := storedName file (uploads s); originalname := file_name file |} in
  uploadSingle storedName name req s
  = Next {| req_request := req_request req; req_path := req_path req;
            req_auth := req_auth req; req_body := Some (formFields f);
            req_file := Some stored |}
         {| database := database s; uploads := uploads s ++ [stored];
            sessions := sessions s; clock := clock s |}.
Proof. unfold uploadSingle. intros -> ->. by rewrite bool_decide_eq_true_2. Qed.

(** The upload middleware never touches the database. *)
Lemma uploadSingle_database (name : string) (req : Req) (s : ServerState) :
  database (stateOf (uploadSingle storedName name req s)) = database s.
Proof.
  unfold uploadSingle. destruct (payload _) as [| |f]; try done.
  destruct (formFiles f) as [|[k file] [|]]; try done. by case_bool_decide.
Qed.

End ApplicationLemmas.

(** ** A sample server *)

Definition sampleState : ServerState :=
  {| database := sampleDb;
     uploads := [];
     sessions := <["tok-alice" := "alice"]> (<["tok-mallory" := "mallory"]> ∅);
     clock := sampleNow |}.

Definition sampleStoredName (file : File) (stored : list StoredFile) : string :=
  "1741-" +:+ file_name file.

Definition sampleInngest : Handler := fun _ s =>
  Responded {| status := 200; body := Text "inngest" |} s.

Definition sampleForm : FormData :=
  [("tanggal", FormText "2025-03-10"); ("keterangan", FormText "site photo");
   ("taskId", FormText "t1");
   ("attachment", FormFile {| file_name := "photo.png"; file_size := 2048 |})].

Definition samplePost (token : string) : Request :=
  {| method := POST; path := ["api"; "evidences"]; bearer := Some token;
     payload := FormPayload sampleForm |}.

(** A post without a file. *)
Definition sampleBarePost : Request :=
  {| method := POST; path := ["api"; "evidences"]; bearer := Some "tok-alice";
     payload := FormPayload [("taskId", FormText "t1")] |}.

(** ** Properties *)

(** C21. The application of [server.js] does not serve the two addresses
    the dialog posts to: whatever the token, the payload, the state of the
    server and the Inngest handler, a [POST] to [/api/evidences] or to
    [/api/weekly-progress] is answered 404 by the framework and changes
    nothing. *)
Theorem evidence_endpoint_not_mounted (inngestServe : Handler) (token : option string)
    (data : Payload) (s : ServerState) :
  handle (app inngestServe)
    {| method := POST; path := ["api"; "evidences"]; bearer := token; payload := data |} s
  = ({| status := 404; body := Text "Cannot POST /api/evidences" |}, s) /\
  handle (app inngestServe)
    {| method := POST; path := ["api"; "weekly-progress"]; bearer := token; payload := data |} s
  = ({| status := 404; body := Text "Cannot POST /api/weekly-progress" |}, s).
Proof.
  split; rewrite handle_app_not_found; try done; cbn; by intros [? _].
Qed.

Section RouteProperties.

Context {P : Prisma} {E : DateParse}.
Variable storedName : File -> list StoredFile -> string.

(** C27. The route stores the uploaded file before the controller decides:
    for a form that carries an attachment, the file is in the upload
    directory after the request whatever the answer, and when the answer
    is not 200 the database is unchanged, so the file belongs to no
    evidence. *)
Theorem upload_precedes_authorisation (request : Request) (s : ServerState)
    (f : FormData) (file : File) :
  payload request = FormPayload f ->
  formFiles f = [("attachment", file)] ->
  let stored := {| filename := storedName file (uploads s); originalname := file_name file |} in
  uploads (evidenceRoute storedName request s).2 = uploads s ++ [stored] /\
  (status (evidenceRoute storedName request s).1 <> 200 ->
   database (evidenceRoute storedName request s).2 = database s).
Proof.
  intros Hp Hf stored. unfold evidenceRoute.
  rewrite (uploadSingle_file storedName "attachment" _ s f file) by done.
  cbn [clock database]. fold stored.
  match goal with |- context [addEvidence ?r ?n ?d] =>
    pose proof (spec_status _ _ _ _ _ (addEvidence_spec r n d)) as Hs;
    destruct (addEvidence r n d) as [res db'] end.
  cbn in *. split; [done|]. intros Hne. by destruct Hs as [[? _]|[_ ->]].
Qed.

(** The route passes the form to the controller as the body parser
    of the upload middleware leaves it: for a form without a file the
    answer and the database are those of [addEvidence] on the text fields
    of the form, with the identity of the bearer's session and no file,
    and the upload directory is unchanged. *)
Theorem route_without_file (request : Request) (s : ServerState) (f : FormData) :
  payload request = FormPayload f ->
  formFiles f = [] ->
  let req := {| req_request := request; req_path := [];
                req_auth := Resolved (bearer request ≫= fun t => sessions s !! t);
                req_body := Some (formFields f); req_file := None |} in
  evidenceRoute storedName request s
  = ((addEvidence req (clock s) (database s)).1,
     set_database (addEvidence req (clock s) (database s)).2 s).
Proof.
  intros Hp Hf req. unfold evidenceRoute.
  rewrite (uploadSingle_no_file storedName "attachment" _ s f) by done.
  cbn [set_path authenticated req_request req_path req_auth]. fold req.
  by destruct (addEvidence req (clock s) (database s)).
Qed.

End RouteProperties.

(** The server starts only with a Clerk key: [startServer] throws
    exactly when [CLERK_PUBLISHABLE_KEY] is missing or empty, and
    otherwise listens on [PORT], or on 5000 when [PORT] is missing or
    empty. *)
Theorem server_needs_clerk_key (env : ProcessEnv) :
  (truthy_string (CLERK_PUBLISHABLE_KEY env) = None <->
   startServer env = Rejected (plainError "Missing Clerk Publishable Key")) /\
  (forall key, truthy_string (CLERK_PUBLISHABLE_KEY env) = Some key ->
     startServer env = Resolved (truthy_string (PORT env) <||> "5000")).
Proof.
  unfold startServer. split.
  - destruct (truthy_string _); split; congruence.
  - by intros key ->.
Qed.

Lemma upload_precedes_authorisation_witness :
  uploads (evidenceRoute (P := memPrisma) sampleStoredName (samplePost "tok-mallory") sampleState).2
  = uploads sampleState ++ [{| filename := "1741-photo.png"; originalname := "photo.png" |}] /\
  (status (evidenceRoute (P := memPrisma) sampleStoredName (samplePost "tok-mallory") sampleState).1 <> 200 ->
   database (evidenceRoute (P := memPrisma) sampleStoredName (samplePost "tok-mallory") sampleState).2
   = database sampleState).
Proof.
  apply (upload_precedes_authorisation (P := memPrisma) sampleStoredName
           (samplePost "tok-mallory") sampleState sampleForm
           {| file_name := "photo.png"; file_size := 2048 |}); reflexivity.
Defined.

Lemma route_without_file_witness :
  evidenceRoute (P := memPrisma) sampleStoredName sampleBarePost sampleState
  = ((addEvidence (P := memPrisma)
        {| req_request := sampleBarePost; req_path := [];
           req_auth := Resolved (bearer sampleBarePost ≫= fun t => sessions sampleState !! t);
           req_body := Some (formFields [("taskId", FormText "t1")]); req_file := None |}
        (clock sampleState) (database sampleState)).1,
     set_database
       (addEvidence (P := memPrisma)
          {| req_request := sampleBarePost; req_path := [];
             req_auth := Resolved (bearer sampleBarePost ≫= fun t => sessions sampleState !! t);
             req_body := Some (formFields [("taskId", FormText "t1")]); req_file := None |}
          (clock sampleState) (database sampleState)).2 sampleState).
Proof.
  exact (route_without_file (P := memPrisma) sampleStoredName sampleBarePost sampleState
           [("taskId", FormText "t1")] eq_refl eq_refl).
Defined.

(** On the sample server: the application of [server.js] answers [GET /],
    a member's post to the mounted route is stored with the address of the
    stored file, and the post of a stranger is refused while its file
    stays in the upload directory. *)
Example sample_requests :
  (handle (app sampleInngest)
     {| method := GET; path := []; bearer := None; payload := NoPayload |} sampleState).1
  = {| status := 200; body := Text "Server is live" |} /\
  (let (res, s') := handle (mountedApp (P := memPrisma) sampleStoredName sampleInngest)
                      (samplePost "tok-alice") sampleState in
   status res = 200 /\
   map ev_image_url (db_evidences (database s')) = ["/uploads/1741-photo.png"] /\
   map filename (uploads s') = ["1741-photo.png"]) /\
  (let (res, s') := handle (mountedApp (P := memPrisma) sampleStoredName sampleInngest)
                      (samplePost "tok-mallory") sampleState in
   status res = 403 /\
   db_evidences (database s') = [] /\
   map filename (uploads s') = ["1741-photo.png"]).
Proof. vm_compute. repeat split. Qed.

(** ** The route for a member *)

(** The file the upload middleware stores for a form, if any. *)
Definition storedFile (storedName : File -> list StoredFile -> string) (s : ServerState)
    (f : FormData) : option StoredFile :=
  match formFiles f with
  | [(_, file)] => Some {| filename := storedName file (uploads s); originalname := file_name file |}
  | _ => None
  end.

(** With a database client that fails only on invalid arguments, the
    route accepts the form of a member and stores the evidence and the
    file. *)
Lemma evidenceRoute_member {E : DateParse} (storedName : File -> list StoredFile -> string)
    (request : Request) (s : ServerState) (tok uid k : string) (f : FormData)
    (task : TaskRecord) (project : ProjectRecord) (date : Z) :
  bearer request = Some tok ->
  sessions s !! tok = Some uid ->
  payload request = FormPayload f ->
  formFiles f = [] \/ (exists file, formFiles f = [("attachment", file)]) ->
  field "taskId" (formFields f) = Some k ->
  db_tasks (database s) !! k = Some task ->
  db_projects (database s) !! task_projectId task = Some project ->
  In {| member_userId := uid |} (project_members project) ->
  evidenceDate (field "tanggal" (formFields f)) (clock s) = Some date ->
  let stored := storedFile storedName s f in
  let e := {| ev_taskId := k; ev_userId := uid; ev_content := field "keterangan" (formFields f);
              ev_image_url := image_url_of stored; ev_date := date;
              ev_user := {| user_id := uid |} |} in
  evidenceRoute (P := memPrisma) storedName request s
  = (res_json "Evidence added successfully" (Some e),
     {| database := add_evidence e (database s);
        uploads := uploads s ++ option_list stored;
        sessions := sessions s; clock := clock s |}).
Proof.
  intros Hb Hs Hp Hf Hk Ht Hpr Hin Hd. unfold evidenceRoute, storedFile.
  destruct Hf as [Hf|[file Hf]]; rewrite Hf.
  - rewrite (uploadSingle_no_file storedName "attachment" _ s f) by done.
    erewrite mem_addEvidence_member; eauto; cbn; [|by rewrite Hb; cbn; rewrite Hs].
    by rewrite app_nil_r.
  - rewrite (uploadSingle_file storedName "attachment" _ s f file) by done.
    erewrite mem_addEvidence_member; eauto; cbn; by rewrite ?Hb; cbn; rewrite ?Hs.
Qed.

(** ** Invariants of the server

    A property of the server's state that every handler of a stack keeps
    is kept by the stack, whatever the request; it then holds in every
    state the server reaches. *)

Definition keeps (I : ServerState -> Prop) (h : Handler) : Prop :=
  forall req s, I s -> I (stateOf (h req s)).

Definition layerKeeps (I : ServerState -> Prop) (l : Layer) : Prop :=
  match l with
  | Use _ h => keeps I h
  | Route _ _ hs => Forall (keeps I) hs
  end.

(** The states an application reaches from [s0], one request after the
    other. *)
Inductive reachable (application : list Layer) (s0 : ServerState) : ServerState -> Prop :=
| reach_start : reachable application s0 s0
| reach_request s request :
    reachable application s0 s ->
    reachable application s0 (handle application request s).2.

(** The requests served in order, with the responses. *)
Fixpoint serve (application : list Layer) (requests : list Request) (s : ServerState) :
    list Response * ServerState :=
  match requests with
  | [] => ([], s)
  | r :: rest =>
      let (res, s') := handle application r s in
      let (ress, s'') := serve application rest s' in
      (res :: ress, s'')
  end.

Section Invariants.

Variable I : ServerState -> Prop.

Lemma runChain_keeps (hs : list Handler) :
  Forall (keeps I) hs -> keeps I (runChain hs).
Proof.
  induction 1 as [|h hs Hh _ IH]; intros req s Hs; cbn; [done|].
  specialize (Hh req s Hs). destruct (h req s) as [res s'|req' s'|e s']; try done.
  by apply IH.
Qed.

Lemma runLayers_keeps (layers : list Layer) :
  Forall (layerKeeps I) layers -> keeps I (runLayers layers).
Proof.
  induction 1 as [|[prefix h|m p hs] layers Hl _ IH]; intros req s Hs; cbn; [done| |].
  - destruct (stripPrefix prefix (req_path req)) as [below|]; [|by apply IH].
    specialize (Hl (set_path below req) s Hs).
    destruct (h _ s) as [res s'|req' s'|e s']; try done. by apply IH.
  - destruct (matchesRoute m p req); [|by apply IH].
    pose proof (runChain_keeps hs Hl req s Hs) as Hc.
    destruct (runChain hs req s) as [res s'|req' s'|e s']; try done. by apply IH.
Qed.

Lemma handle_keeps (application : list Layer) (request : Request) (s : ServerState) :
  Forall (layerKeeps I) application -> I s -> I (handle application request s).2.
Proof.
  intros Happ Hs. unfold handle.
  pose proof (runLayers_keeps application Happ (incoming request) s Hs) as H.
  by destruct (runLayers application (incoming request) s).
Qed.

Lemma reachable_keeps (application : list Layer) (s0 s : ServerState) :
  Forall (layerKeeps I) application -> I s0 -> reachable application s0 s -> I s.
Proof. intros Happ H0. induction 1; [done|]. by apply handle_keeps. Qed.

End Invariants.

(** The state after [serve] is reachable. *)
Lemma serve_reachable (application : list Layer) (requests : list Request) (s0 s : ServerState) :
  reachable application s0 s -> reachable application s0 (serve application requests s).2.
Proof.
  revert s. induction requests as [|r rest IH]; intros s Hs; cbn; [done|].
  pose proof (reach_request application s0 s r Hs) as Hr.
  destruct (handle application r s) as [res s']. specialize (IH s' Hr).
  by destruct (serve application rest s').
Qed.

(** A handler that leaves the state alone keeps every invariant. *)
Lemma keeps_unchanged (I : ServerState -> Prop) (h : Handler) :
  (forall req s, stateOf (h req s) = s) -> keeps I h.
Proof. intros Hh req s Hs. by rewrite Hh. Qed.

Section ServerInvariant.

Context {P : Prisma} {E : DateParse}.
Variable storedName : File -> list StoredFile -> string.
Variable inngestServe : Handler.
Variable I : Database -> Prop.

(** The Inngest handler is outside the repository: it is assumed not to
    touch the database. *)
Hypothesis inngest_database : forall req s, database (stateOf (inngestServe req s)) = database s.
Hypothesis addEvidence_keeps : forall req now db, I db -> I (addEvidence req now db).2.

Lemma uploadSingle_keeps (name : string) :
  keeps (fun s => I (database s)) (uploadSingle storedName name).
Proof. intros req s Hs. by rewrite uploadSingle_database. Qed.

Lemma addEvidenceHandler_keeps : keeps (fun s => I (database s)) addEvidenceHandler.
Proof.
  intros req s Hs. unfold addEvidenceHandler.
  pose proof (addEvidence_keeps req (clock s) (database s) Hs) as H.
  by destruct (addEvidence req (clock s) (database s)).
Qed.

Lemma app_keeps : Forall (layerKeeps (fun s => I (database s))) (app inngestServe).
Proof.
  repeat constructor; cbn.
  - apply keeps_unchanged, express_json_state.
  - apply keeps_unchanged, cors_state.
  - by apply keeps_unchanged.
  - by apply keeps_unchanged.
  - intros req s Hs. by rewrite inngest_database.
Qed.

Lemma mountedApp_keeps :
  Forall (layerKeeps (fun s => I (database s))) (mountedApp storedName inngestServe).
Proof.
  apply Forall_app. split; [apply app_keeps|]. constructor; [|constructor].
  change (keeps (fun s => I (database s)) (runLayers (evidenceRouter storedName))).
  apply runLayers_keeps. constructor; [|constructor].
  change (Forall (keeps (fun s => I (database s)))
            [uploadSingle storedName "attachment"; addEvidenceHandler]).
  constructor; [apply uploadSingle_keeps|]. constructor; [apply addEvidenceHandler_keeps|constructor].
Qed.

End ServerInvariant.

(** C5. Every evidence the server ever stores is legitimate: starting
    from a well-formed database, in every state the application with the
    evidence route reaches, whatever the requests, each evidence belongs to
    an existing task and to a member of that task's project, and the tables
    of tasks and projects are as they were. *)
Theorem stored_evidence_is_authorised {P : Prisma} {E : DateParse}
    (storedName : File -> list StoredFile -> string) (inngestServe : Handler)
    (s0 s : ServerState) :
  (forall req s, database (stateOf (inngestServe req s)) = database s) ->
  db_wf (database s0) ->
  reachable (mountedApp storedName inngestServe) s0 s ->
  db_wf (database s) /\
  db_tasks (database s) = db_tasks (database s0) /\
  db_projects (database s) = db_projects (database s0).
Proof.
  intros Hinn H0 Hreach.
  apply (reachable_keeps
           (fun s => db_wf (database s) /\ db_tasks (database s) = db_tasks (database s0) /\
                     db_projects (database s) = db_projects (database s0))
           (mountedApp storedName inngestServe) s0 s); [|done|done].
  apply (mountedApp_keeps storedName inngestServe
           (fun db => db_wf db /\ db_tasks db = db_tasks (database s0) /\
                      db_projects db = db_projects (database s0))); [done|].
  intros req now db (Hwf & Ht & Hp). destruct (addEvidence_tables req now db) as [-> ->].
  by split; [apply addEvidence_wf|].
Qed.

(** The server as [server.js] builds it never stores anything: in
    every state it reaches, whatever the requests, the database is the one
    it started with. *)
Theorem server_js_never_stores (inngestServe : Handler) (s0 s : ServerState) :
  (forall req s, database (stateOf (inngestServe req s)) = database s) ->
  reachable (app inngestServe) s0 s ->
  database s = database s0.
Proof.
  intros Hinn Hreach.
  apply (reachable_keeps (fun s => database s = database s0) (app inngestServe) s0 s);
    [|done|done].
  by apply (app_keeps inngestServe (fun db => db = database s0)).
Qed.

Lemma stored_evidence_is_authorised_witness :
  db_wf (database (serve (mountedApp (P := memPrisma) (E := isoDateParse) sampleStoredName sampleInngest)
                     [samplePost "tok-alice"; samplePost "tok-mallory"] sampleState).2) /\
  db_tasks (database (serve (mountedApp (P := memPrisma) (E := isoDateParse) sampleStoredName sampleInngest)
                        [samplePost "tok-alice"; samplePost "tok-mallory"] sampleState).2)
  = db_tasks (database sampleState) /\
  db_projects (database (serve (mountedApp (P := memPrisma) (E := isoDateParse) sampleStoredName sampleInngest)
                           [samplePost "tok-alice"; samplePost "tok-mallory"] sampleState).2)
  = db_projects (database sampleState).
Proof.
  apply (stored_evidence_is_authorised (P := memPrisma) (E := isoDateParse)
           sampleStoredName sampleInngest sampleState).
  - reflexivity.
  - constructor.
  - apply serve_reachable, reach_start.
Defined.

Lemma server_js_never_stores_witness :
  database (serve (app sampleInngest) [samplePost "tok-alice"; sampleBarePost] sampleState).2
  = database sampleState.
Proof.
  apply (server_js_never_stores sampleInngest sampleState).
  - reflexivity.
  - apply serve_reachable, reach_start.
Defined.
