(* ===== verification/Dialog.v ===== *)
(** * Dialog: the form that attaches an evidence to a task

    [AddFileDialog] of [src/client/src/components/AddFileDialog.jsx]: the
    state of the component ([isSubmitting], [formData]) with the
    [showDialog] flag its parent owns, the handlers of the three inputs and
    of the two buttons, what the component renders, and [handleSubmit], the
    async function that posts the weekly progress and then the evidence.
    What is rendered is kept in two parts: [View], the values that depend
    on the state, and [controls], the elements of the form around them in
    document order, class names left out.

    [handleSubmit] is written in the monad [Async] of [Http] over the state
    [Client]: the dialog, a log of what the user and the network observe
    (requests sent, notifications shown, the parent's callback), and the
    world beyond the browser, of a type [W] that the environment [Browser]
    acts on.  Here the function runs to completion in one step; [Pending]
    interleaves it with the events of the form. *)

From Stdlib Require Import ZArith Lia Bool String List.
From S2P Require Import Prelude JsDate Http Columns.
Import ListNotations.

#[local] Open Scope Z_scope.
#[local] Open Scope string_scope.
#[local] Open Scope js_scope.
#[local] Open Scope async_scope.

(** ** Data *)

(** [formData], lines 11-15. *)
Record FormState : Type := {
  tanggal : string;
  keterangan : string;
  attachment : option File
}.

(** The state of the component, with the [showDialog] flag of its
    parent. *)
Record Dialog : Type := {
  isSubmitting : bool;
  formData : FormState;
  showDialog : bool
}.

(** What can be observed of a submission, in the order it happens. *)
Inductive Notice : Type :=
| PreventDefault
| Sent (r : Request)
| ToastSuccess (message : string)
| ToastError (message : string)
| CalledOnSuccess.

Record Client (W : Type) : Type := {
  dialog : Dialog;
  log : list Notice;
  world : W
}.

Arguments dialog {W} c.
Arguments log {W} c.
Arguments world {W} c.

(** The props of the component other than [showDialog] and
    [setShowDialog]; [onSuccess] is [None] when it is not a function. *)
Record Props (W : Type) : Type := {
  taskId : string;
  visibleColumns : list Column;
  getWeekIndexForDate : option Z -> list Column -> Outcome (option Z);
  onSuccess : option (W -> Outcome unit * W)
}.

Arguments taskId {W} p.
Arguments visibleColumns {W} p.
Arguments getWeekIndexForDate {W} p.
Arguments onSuccess {W} p.

(** What the component calls outside itself: [getToken] of Clerk and
    [api.post] of the HTTP client, which resolves with the response when
    its status is 2xx and rejects otherwise. *)
Class Browser (W : Type) : Type := {
  getToken : W -> Outcome (option string) * W;
  api_post : Request -> W -> Outcome Response * W;
  api_post_ok : forall r w res w',
    api_post r w = (Resolved res, w') -> 200 <= status res < 300
}.

(** The events of the form. *)
Inductive DialogEvent : Type :=
| ChangeTanggal (value : string)
| ChangeFile (file : option File)
| ChangeKeterangan (value : string)
| ClickCancel.

(** What the component shows when it is open. *)
Record View : Type := {
  view_tanggal : string;
  view_selected : option string;
  view_keterangan : string;
  view_submit_disabled : bool;
  view_submit_label : string
}.

(** The elements of the form that carry a text, a value or a handler;
    the elements that only group others and the class names are left
    out.  An input and a text area call their [onChange] handler, the
    button of type [button] its [onClick], the button of type [submit]
    the [onSubmit] of the form. *)
Inductive Control : Type :=
| Heading (text : string)
| FieldLabel (text : string)
| Icon (name : string)
| Input (type : string) (value : option string)
| Paragraph (text : string)
| TextArea (value placeholder : string)
| Button (type : string) (disabled : bool) (text : string).

(** The requests among the notices, in order. *)
Fixpoint sentRequests (l : list Notice) : list Request :=
  match l with
  | [] => []
  | Sent r :: rest => r :: sentRequests rest
  | _ :: rest => sentRequests rest
  end.

(** ** The state and its handlers *)

Definition emptyForm : FormState :=
  {| tanggal := ""; keterangan := ""; attachment := None |}.

(** [useState(false)] and [useState({ tanggal: "", ... })]. *)
Definition initialDialog (shown : bool) : Dialog :=
  {| isSubmitting := false; formData := emptyForm; showDialog := shown |}.

Definition setIsSubmitting (b : bool) (d : Dialog) : Dialog :=
  {| isSubmitting := b; formData := formData d; showDialog := showDialog d |}.

Definition setFormData (f : FormState) (d : Dialog) : Dialog :=
  {| isSubmitting := isSubmitting d; formData := f; showDialog := showDialog d |}.

Definition setShowDialog (b : bool) (d : Dialog) : Dialog :=
  {| isSubmitting := isSubmitting d; formData := formData d; showDialog := b |}.

(** [handleFileChange]: [{ ...formData, attachment: e.target.files[0] }] *)
Definition handleFileChange (file : option File) (d : Dialog) : Dialog :=
  setFormData {| tanggal := tanggal (formData d); keterangan := keterangan (formData d);
                 attachment := file |} d.

(** The [onChange] of the date input and of the text area. *)
Definition changeTanggal (value : string) (d : Dialog) : Dialog :=
  setFormData {| tanggal := value; keterangan := keterangan (formData d);
                 attachment := attachment (formData d) |} d.

Definition changeKeterangan (value : string) (d : Dialog) : Dialog :=
  setFormData {| tanggal := tanggal (formData d); keterangan := value;
                 attachment := attachment (formData d) |} d.

Definition dialogStep (d : Dialog) (e : DialogEvent) : Dialog :=
  match e with
  | ChangeTanggal v => changeTanggal v d
  | ChangeFile f => handleFileChange f d
  | ChangeKeterangan v => changeKeterangan v d
  | ClickCancel => setShowDialog false d
  end.

Definition dialogRun (d : Dialog) (events : list DialogEvent) : Dialog :=
  fold_left dialogStep events d.

(** [formData.attachment && <p>Selected: {formData.attachment.name}</p>] *)
Definition selectedLabel (f : FormState) : option string :=
  match attachment f with
  | Some file => Some ("Selected: " ++ file_name file)
  | None => None
  end.

(** [isSubmitting ? "Saving..." : "Save Detail"] *)
Definition submitLabel (d : Dialog) : string :=
  if isSubmitting d then "Saving..." else "Save Detail".

(** The [return] of the component: the form when [showDialog] holds,
    [null] otherwise. *)
Definition render (d : Dialog) : option View :=
  if showDialog d then
    Some {| view_tanggal := tanggal (formData d);
            view_selected := selectedLabel (formData d);
            view_keterangan := keterangan (formData d);
            view_submit_disabled := isSubmitting d;
            view_submit_label := submitLabel d |}
  else None.

(** The elements of lines 74-139, in document order, around the values
    of a view. *)
Definition controls (v : View) : list Control :=
  [Heading "Attach Evidence";
   FieldLabel "Tanggal"; Icon "Calendar"; Input "date" (Some (view_tanggal v));
   FieldLabel "Attachment"; Icon "Paperclip"; Input "file" None]
  ++ match view_selected v with
     | Some text => [Paragraph text]
     | None => []
     end
  ++ [FieldLabel "Keterangan";
      TextArea (view_keterangan v) "Tambahkan keterangan tambahan...";
      Button "button" false "Cancel";
      Button "submit" (view_submit_disabled v) (view_submit_label v)].

(** What the component returns: the elements of the form, or [null]. *)
Definition dialogMarkup (d : Dialog) : option (list Control) :=
  option_map controls (render d).

(** The submit button can be pressed: it is on screen and not disabled. *)
Definition submitEnabled (d : Dialog) : Prop :=
  exists cs text, dialogMarkup d = Some cs /\ In (Button "submit" false text) cs.

(** ** The submission *)

Section Submit.

Context {W : Type} {B : Browser W} {E : DateParse}.
Variable props : Props W.

Definition onDialog (f : Dialog -> Dialog) : Async (Client W) unit unit :=
  modify (fun c => {| dialog := f (dialog c); log := log c; world := world c |}).

Definition notice (n : Notice) : Async (Client W) unit unit :=
  modify (fun c => {| dialog := dialog c; log := (log c ++ [n])%list; world := world c |}).

(** A call that acts on the world. *)
Definition call {A : Type} (f : W -> Outcome A * W) : Async (Client W) unit A :=
  await (fun c => let (r, w) := f (world c) in
                  (r, {| dialog := dialog c; log := log c; world := w |})).

(** [await api.post(...)] *)
Definition post (r : Request) : Async (Client W) unit Response :=
  notice (Sent r) ;; call (api_post r).

(** The three entries every form carries, lines 27-30, and the file
    appended when there is one, line 41. *)
Definition baseForm (f : FormState) : FormData :=
  [("tanggal", FormText (tanggal f)); ("keterangan", FormText (keterangan f));
   ("taskId", FormText (taskId props))].

Definition dataToSend (f : FormState) : FormData :=
  match attachment f with
  | Some file => (baseForm f ++ [("attachment", FormFile file)])%list
  | None => baseForm f
  end.

(** The request of lines 33-39. *)
Definition weeklyRequest (token : option string) (weekIndex : option Z) (f : FormState) : Request :=
  {| method := POST; path := ["api"; "weekly-progress"]; bearer := token;
     payload := JsonPayload {| wp_taskId := taskId props; wp_weekIndex := weekIndex;
                               wp_date := tanggal f |} |}.

(** The request of lines 43-48. *)
Definition evidenceRequest (token : option string) (f : FormState) : Request :=
  {| method := POST; path := ["api"; "evidences"]; bearer := token;
     payload := FormPayload (dataToSend f) |}.

(** [error?.response?.data?.message || error.message] *)
Definition errorMessage (error : JsError) : string :=
  truthy_string (match err_response error with
                 | Some res => body_message (body res)
                 | None => None
                 end) <||> err_message error.

(** [data.message || "Evidence added successfully"] *)
Definition successMessage (res : Response) : string :=
  truthy_string (body_message (body res)) <||> "Evidence added successfully".

(** [if (typeof onSuccess === "function") onSuccess()] *)
Definition callOnSuccess : Async (Client W) unit unit :=
  match onSuccess props with
  | Some f => notice CalledOnSuccess ;; call f
  | None => ret tt
  end.

(** The body of the [try] block, lines 26-65, for the form data [f] the
    handler closed over. *)
Definition submitBody (f : FormState) : Async (Client W) unit unit :=
  let* token := call getToken in
  let* weekIndex := query (fun _ => getWeekIndexForDate props (Date_parse (tanggal f))
                                      (visibleColumns props)) in
  let* _ := post (weeklyRequest token weekIndex f) in
  let* res := post (evidenceRequest token f) in
  notice (ToastSuccess (successMessage res)) ;;
  callOnSuccess ;;
  onDialog (setShowDialog false) ;;
  onDialog (setFormData emptyForm).

(** [handleSubmit], lines 21-71. *)
Definition handleSubmit : Async (Client W) unit unit :=
  fun c =>
    (notice PreventDefault ;;
     onDialog (setIsSubmitting true) ;;
     try_finally
       (try_catch (submitBody (formData (dialog c)))
                  (fun error => notice (ToastError (errorMessage error))))
       (onDialog (setIsSubmitting false))) c.

(** The client after a submission. *)
Definition submit (c : Client W) : Client W := snd (handleSubmit c).

End Submit.

(** ** What a submission promises

    The ways [handleSubmit] can end, by the first call that fails.  In
    every case the submit button is enabled again; after a failure the
    form is as the user left it and one error is shown. *)

Section SubmitSpec.

Context {W : Type} {B : Browser W} {E : DateParse}.
Variable props : Props W.

(** The dialog after a submission that went through. *)
Definition closedDialog : Dialog :=
  {| isSubmitting := false; formData := emptyForm; showDialog := false |}.

(** The client after a submission that failed with [e], having logged
    [seen] before. *)
Definition failedWith (c : Client W) (seen : list Notice) (e : JsError) (w : W) : Client W :=
  {| dialog := setIsSubmitting false (dialog c);
     log := (log c ++ PreventDefault :: seen ++ [ToastError (errorMessage e)])%list;
     world := w |}.

Definition succeededWith (c : Client W) (seen : list Notice) (w : W) : Client W :=
  {| dialog := closedDialog; log := (log c ++ PreventDefault :: seen)%list; world := w |}.

(** The week index of the form's date, as the parent computes it. *)
Definition weekIndexOf (f : FormState) : Outcome (option Z) :=
  getWeekIndexForDate props (Date_parse (tanggal f)) (visibleColumns props).

(** Both requests were sent, with the token [token] and the week index
    [wk], and resolved, the evidence one with [res], leaving the world
    [w]. *)
Definition bothPosted (c : Client W) (token : option string) (wk : option Z)
    (res : Response) (w : W) : Prop :=
  let f := formData (dialog c) in
  exists w1 res1 w2,
    getToken (world c) = (Resolved token, w1) /\
    weekIndexOf f = Resolved wk /\
    api_post (weeklyRequest props token wk f) w1 = (Resolved res1, w2) /\
    api_post (evidenceRequest props token f) w2 = (Resolved res, w).

Definition sentBoth (c : Client W) (token : option string) (wk : option Z) : list Notice :=
  let f := formData (dialog c) in
  [Sent (weeklyRequest props token wk f); Sent (evidenceRequest props token f)].

Inductive SubmitSpec (c : Client W) : Client W -> Prop :=
| submit_no_token e w :
    getToken (world c) = (Rejected e, w) ->
    SubmitSpec c (failedWith c [] e w)
| submit_no_week token w e :
    getToken (world c) = (Resolved token, w) ->
    weekIndexOf (formData (dialog c)) = Rejected e ->
    SubmitSpec c (failedWith c [] e w)
| submit_weekly_rejected token w1 wk e w2 :
    getToken (world c) = (Resolved token, w1) ->
    weekIndexOf (formData (dialog c)) = Resolved wk ->
    api_post (weeklyRequest props token wk (formData (dialog c))) w1 = (Rejected e, w2) ->
    SubmitSpec c (failedWith c [Sent (weeklyRequest props token wk (formData (dialog c)))] e w2)
| submit_evidence_rejected token w1 wk res1 w2 e w3 :
    getToken (world c) = (Resolved token, w1) ->
    weekIndexOf (formData (dialog c)) = Resolved wk ->
    api_post (weeklyRequest props token wk (formData (dialog c))) w1 = (Resolved res1, w2) ->
    api_post (evidenceRequest props token (formData (dialog c))) w2 = (Rejected e, w3) ->
    SubmitSpec c (failedWith c (sentBoth c token wk) e w3)
| submit_done token wk res w :
    bothPosted c token wk res w ->
    onSuccess props = None ->
    SubmitSpec c (succeededWith c (sentBoth c token wk ++ [ToastSuccess (successMessage res)]) w)
| submit_done_callback token wk res w f w' :
    bothPosted c token wk res w ->
    onSuccess props = Some f ->
    f w = (Resolved tt, w') ->
    SubmitSpec c (succeededWith c
      (sentBoth c token wk ++ [ToastSuccess (successMessage res); CalledOnSuccess]) w')
| submit_callback_failed token wk res w f e w' :
    bothPosted c token wk res w ->
    onSuccess props = Some f ->
    f w = (Rejected e, w') ->
    SubmitSpec c (failedWith c
      (sentBoth c token wk ++ [ToastSuccess (successMessage res); CalledOnSuccess]) e w').

End SubmitSpec.

(** ** Lemmas *)

Create HintDb dialog discriminated.

Ltac async_unfold :=
  unfold post, call, notice, onDialog, callOnSuccess, try_finally, try_catch,
    bind, query, await, modify, ret in *;
  cbn [dialog log world fst snd] in *.

(** Normalises the log of a client and closes an equation between two
    clients. *)
Ltac log_norm :=
  unfold failedWith, succeededWith, sentBoth; cbn;
  repeat rewrite <- app_assoc; cbn [app]; reflexivity.

(** Closes a goal saying that no error notice is in an explicit list. *)
Ltac no_error :=
  let Hin := fresh "Hin" in
  intros ? Hin; unfold sentBoth in Hin; cbn in Hin;
  repeat (destruct Hin as [Hin|Hin]; [discriminate Hin|]); exact Hin.

Lemma sentRequests_app (l1 l2 : list Notice) :
  sentRequests (l1 ++ l2) = (sentRequests l1 ++ sentRequests l2)%list.
Proof.
  induction l1 as [|n l1 IH]; [reflexivity|]. destruct n; cbn; now rewrite ?IH.
Qed.

Lemma setIsSubmitting_twice (a b : bool) (d : Dialog) :
  setIsSubmitting a (setIsSubmitting b d) = setIsSubmitting a d.
Proof. reflexivity. Qed.

Lemma dialogStep_isSubmitting (d : Dialog) (e : DialogEvent) :
  isSubmitting (dialogStep d e) = isSubmitting d.
Proof. now destruct e. Qed.

Lemma dialogRun_isSubmitting (events : list DialogEvent) (d : Dialog) :
  isSubmitting (dialogRun d events) = isSubmitting d.
Proof.
  revert d. induction events as [|e events IH]; intros d; [reflexivity|].
  unfold dialogRun in *. simpl. now rewrite IH, dialogStep_isSubmitting.
Qed.

Lemma dialogRun_app (d : Dialog) (e1 e2 : list DialogEvent) :
  dialogRun d (e1 ++ e2) = dialogRun (dialogRun d e1) e2.
Proof. apply fold_left_app. Qed.

(** The buttons of the form: Cancel, always enabled, and the submit
    button. *)
Lemma controls_buttons (v : View) (type text : string) (disabled : bool) :
  In (Button type disabled text) (controls v) <->
  (type, disabled, text) = ("button", false, "Cancel") \/
  (type, disabled, text) = ("submit", view_submit_disabled v, view_submit_label v).
Proof.
  unfold controls. rewrite !in_app_iff. split.
  - intros [H|[H|H]].
    + cbn in H. repeat (destruct H as [H|H]; [discriminate H|]). destruct H.
    + destruct (view_selected v); cbn in H; [destruct H as [H|[]]; discriminate H|destruct H].
    + cbn in H. repeat (destruct H as [H|H]; [try discriminate H|]); [..|destruct H].
      * left. now injection H as <- <- <-.
      * right. now injection H as <- <- <-.
  - intros [[= -> -> ->]|[= -> -> ->]]; right; right; cbn; auto.
Qed.

(** The submit button can be pressed exactly when the dialog is shown
    and no submission is in progress. *)
Lemma submitEnabled_iff (d : Dialog) :
  submitEnabled d <-> showDialog d = true /\ isSubmitting d = false.
Proof.
  unfold submitEnabled, dialogMarkup, render. split.
  - intros (cs & text & Hm & Hin). destruct (showDialog d); [|discriminate Hm].
    injection Hm as <-. apply controls_buttons in Hin as [[=]|[= Hd _]].
    split; [reflexivity|]. now rewrite Hd.
  - intros [-> Hs]. eexists _, _. split; [reflexivity|].
    apply controls_buttons. right. cbn. now rewrite Hs.
Qed.

(** The entries of the form that is sent. *)
Lemma formFields_dataToSend {W : Type} (props : Props W) (f : FormState) :
  formFields (dataToSend props f)
  = [("tanggal", tanggal f); ("keterangan", keterangan f); ("taskId", taskId props)].
Proof. unfold dataToSend. now destruct (attachment f). Qed.

Lemma formFiles_dataToSend {W : Type} (props : Props W) (f : FormState) :
  formFiles (dataToSend props f)
  = match attachment f with
    | Some file => [("attachment", file)]
    | None => []
    end.
Proof. unfold dataToSend. now destruct (attachment f). Qed.

Section SubmitLemmas.

Context {W : Type} {B : Browser W} {E : DateParse}.
Variable props : Props W.

(** The end of the [try] block, once both requests have resolved. *)
Lemma callOnSuccess_cases (c : Client W) :
  match onSuccess props with
  | None => callOnSuccess props c = (Value tt, c)
  | Some f =>
      let c1 := {| dialog := dialog c; log := (log c ++ [CalledOnSuccess])%list; world := world c |} in
      match f (world c) with
      | (Resolved u, w') =>
          callOnSuccess props c
          = (Value u, {| dialog := dialog c; log := log c1; world := w' |})
      | (Rejected e, w') =>
          callOnSuccess props c
          = (Raise e, {| dialog := dialog c; log := log c1; world := w' |})
      end
  end.
Proof.
  unfold callOnSuccess. destruct (onSuccess props) as [f|]; [|reflexivity].
  async_unfold. now destruct (f (world c)) as [[u|e] w'].
Qed.

Lemma SubmitSpec_eq (c c1 c2 : Client W) :
  SubmitSpec props c c1 -> c1 = c2 -> SubmitSpec props c c2.
Proof. now intros H <-. Qed.

(** [handleSubmit] implements [SubmitSpec] and never throws. *)
Lemma handleSubmit_spec (c : Client W) :
  fst (handleSubmit props c) = Value tt /\ SubmitSpec props c (submit props c).
Proof.
  unfold submit, handleSubmit, submitBody. async_unfold.
  destruct (getToken (world c)) as [[token|e] w1] eqn:Ht; cbn;
    [|split; [reflexivity|eapply SubmitSpec_eq; [eapply submit_no_token; eassumption|log_norm]]].
  destruct (getWeekIndexForDate props _ _) as [wk|e] eqn:Hw; cbn;
    [|split; [reflexivity|eapply SubmitSpec_eq; [eapply submit_no_week; eassumption|log_norm]]].
  destruct (api_post (weeklyRequest props token wk _) w1) as [[res1|e] w2] eqn:H1; cbn;
    [|split; [reflexivity|eapply SubmitSpec_eq; [eapply submit_weekly_rejected; eassumption|log_norm]]].
  destruct (api_post (evidenceRequest props token _) w2) as [[res|e] w3] eqn:H2; cbn;
    [|split; [reflexivity|eapply SubmitSpec_eq; [eapply submit_evidence_rejected; eassumption|log_norm]]].
  assert (bothPosted props c token wk res w3) as Hboth by (now exists w1, res1, w2).
  unfold callOnSuccess. destruct (onSuccess props) as [f|] eqn:Hs; async_unfold; cbn.
  - destruct (f w3) as [[[]|e] w4] eqn:Hf; cbn; (split; [reflexivity|]).
    + eapply SubmitSpec_eq; [eapply submit_done_callback; eassumption|log_norm].
    + eapply SubmitSpec_eq; [eapply submit_callback_failed; eassumption|log_norm].
  - split; [reflexivity|]. eapply SubmitSpec_eq; [eapply submit_done; eassumption|log_norm].
Qed.

(** What each case of the specification says of the log: a success
    notice and no error, or one error at the end. *)
Lemma SubmitSpec_outcome (c c' : Client W) :
  SubmitSpec props c c' ->
  (exists seen w, c' = succeededWith c seen w /\
     (exists m, In (ToastSuccess m) seen) /\ forall m, ~ In (ToastError m) seen)
  \/ (exists seen e w, c' = failedWith c seen e w /\ forall m, ~ In (ToastError m) seen).
Proof.
  intros [e w|tok w e|tok w1 wk e w2|tok w1 wk res1 w2 e w3|tok wk res w|tok wk res w f w'|tok wk res w f e w'];
    [right..|left|left|right].
  1-4,7: eexists _, _, _; split; [reflexivity|no_error].
  all: eexists _, _; split; [reflexivity|]; (split; [|no_error]).
  all: eexists; unfold sentBoth; cbn; eauto.
Qed.

(** What each case of the specification says of the dialog. *)
Lemma SubmitSpec_dialog (c c' : Client W) :
  SubmitSpec props c c' ->
  dialog c' = closedDialog \/ dialog c' = setIsSubmitting false (dialog c).
Proof. intros []; cbn; auto. Qed.

(** The submission whose second request is rejected. *)
Lemma submit_evidence_rejected_eq (c : Client W) token w1 wk res1 w2 e w3 :
  getToken (world c) = (Resolved token, w1) ->
  weekIndexOf props (formData (dialog c)) = Resolved wk ->
  api_post (weeklyRequest props token wk (formData (dialog c))) w1 = (Resolved res1, w2) ->
  api_post (evidenceRequest props token (formData (dialog c))) w2 = (Rejected e, w3) ->
  submit props c = failedWith c (sentBoth props c token wk) e w3.
Proof.
  unfold weekIndexOf. intros Ht Hw H1 H2. unfold submit, handleSubmit, submitBody.
  async_unfold. rewrite Ht. cbn. rewrite Hw. cbn. rewrite H1. cbn. rewrite H2. log_norm.
Qed.

(** With a token and a week index, the first request goes out whatever
    follows. *)
Lemma submit_sends_weekly (c : Client W) token w1 wk :
  getToken (world c) = (Resolved token, w1) ->
  weekIndexOf props (formData (dialog c)) = Resolved wk ->
  exists seen,
    log (submit props c)
    = (log c ++ PreventDefault
         :: Sent (weeklyRequest props token wk (formData (dialog c))) :: seen)%list.
Proof.
  unfold weekIndexOf. intros Ht Hw. unfold submit, handleSubmit, submitBody.
  async_unfold. rewrite Ht. cbn. rewrite Hw. cbn.
  destruct (api_post (weeklyRequest props token wk _) w1) as [[res1|e] w2]; cbn;
    [|eexists; log_norm].
  destruct (api_post (evidenceRequest props token _) w2) as [[res|e] w3]; cbn;
    [|eexists; log_norm].
  unfold callOnSuccess. destruct (onSuccess props) as [f|]; async_unfold; cbn;
    [destruct (f w3) as [[[]|e] w4]; cbn|]; eexists; log_norm.
Qed.

End SubmitLemmas.

(** ** A scripted world

    A world that counts the requests it accepted; the evidence endpoint
    fails while [failing] is positive. *)

Record Script : Type := {
  weeklyPosts : nat;
  evidencePosts : nat;
  failing : nat
}.

Definition isPath (p : list string) (r : Request) : bool :=
  if list_eq_dec string_dec (path r) p then true else false.

Definition script_post (r : Request) (w : Script) : Outcome Response * Script :=
  if isPath ["api"; "weekly-progress"] r then
    (Resolved (res_json "Progress saved" None),
     {| weeklyPosts := S (weeklyPosts w); evidencePosts := evidencePosts w; failing := failing w |})
  else
    match failing w with
    | S n =>
        (Rejected {| err_code := Some "ERR_BAD_RESPONSE";
                     err_message := "Request failed with status code 500";
                     err_response := Some (res_status_json 500 "P2003") |},
         {| weeklyPosts := weeklyPosts w; evidencePosts := evidencePosts w; failing := n |})
    | O =>
        (Resolved (res_json "Evidence added successfully" None),
         {| weeklyPosts := weeklyPosts w; evidencePosts := S (evidencePosts w); failing := O |})
    end.

Lemma script_post_ok (r : Request) (w : Script) (res : Response) (w' : Script) :
  script_post r w = (Resolved res, w') -> 200 <= status res < 300.
Proof.
  unfold script_post. destruct (isPath _ r); [intros [= <- _]; cbn; lia|].
  destruct (failing w); [intros [= <- _]; cbn; lia|discriminate].
Qed.

#[export] Instance scriptBrowser : Browser Script := {|
  getToken := fun w => (Resolved (Some "tok-alice"), w);
  api_post := script_post;
  api_post_ok := script_post_ok
|}.

Definition sampleProps : Props Script :=
  {| taskId := "t1";
     visibleColumns := [];
     getWeekIndexForDate := fun d _ => Resolved (option_map (fun t => t / (7 * msPerDay)) d);
     onSuccess := None |}.

Definition sampleFormState : FormState :=
  {| tanggal := "2025-03-10"; keterangan := "site photo";
     attachment := Some {| file_name := "photo.png"; file_size := 2048 |} |}.

Definition sampleClient (failures : nat) : Client Script :=
  {| dialog := {| isSubmitting := false; formData := sampleFormState; showDialog := true |};
     log := [];
     world := {| weeklyPosts := 0; evidencePosts := 0; failing := failures |} |}.

(** ** Properties *)

Section SubmitProperties.

Context {W : Type} {B : Browser W} {E : DateParse}.
Variable props : Props W.

(** C8. [handleSubmit] refines its specification: it never throws, and
    the client it leaves is one of the seven cases of [SubmitSpec], decided
    by the first call that fails. *)
Theorem handleSubmit_refines_spec (c : Client W) :
  handleSubmit props c = (Value tt, submit props c) /\ SubmitSpec props c (submit props c).
Proof.
  destruct (handleSubmit_spec props c) as [Hv Hs]. split; [|exact Hs].
  unfold submit. now destruct (handleSubmit props c) as [r c']; cbn in *; subst.
Qed.

(** However a submission ends, the submit button is enabled again:
    [isSubmitting] is false, and when the dialog is still shown its button
    reads "Save Detail". *)
Theorem submit_reenables_button (c : Client W) :
  isSubmitting (dialog (submit props c)) = false /\
  forall v, render (dialog (submit props c)) = Some v ->
    view_submit_disabled v = false /\ view_submit_label v = "Save Detail".
Proof.
  assert (isSubmitting (dialog (submit props c)) = false) as H.
  { destruct (SubmitSpec_dialog props _ _ (proj2 (handleSubmit_spec props c))) as [-> | ->];
      reflexivity. }
  split; [exact H|]. unfold render, submitLabel. rewrite H.
  destruct (showDialog _); [|discriminate]. now intros v [= <-].
Qed.

(** A submission either goes through or leaves the form alone: in
    the first case the dialog is closed with an empty form, a success
    notice was shown and no error; in the second the form and the dialog
    are as before, and the last thing shown is the only error. *)
Theorem submit_closes_or_keeps_form (c : Client W) :
  (dialog (submit props c) = closedDialog /\
   exists seen, log (submit props c) = log c ++ seen /\
     (exists m, In (ToastSuccess m) seen) /\ forall m, ~ In (ToastError m) seen)%list
  \/
  (formData (dialog (submit props c)) = formData (dialog c) /\
   showDialog (dialog (submit props c)) = showDialog (dialog c) /\
   exists seen m, log (submit props c) = log c ++ seen ++ [ToastError m] /\
     forall m', ~ In (ToastError m') seen)%list.
Proof.
  destruct (SubmitSpec_outcome props _ _ (proj2 (handleSubmit_spec props c)))
    as [(seen & w & -> & Hok & Hno)|(seen & e & w & -> & Hno)]; [left|right]; cbn -[In].
  - split; [reflexivity|]. exists (PreventDefault :: seen). split; [reflexivity|].
    split; [destruct Hok as [m Hm]; exists m; now right|].
    intros m [[=]|Hin]. now apply (Hno m).
  - split; [reflexivity|]. split; [reflexivity|].
    exists (PreventDefault :: seen), (errorMessage e). split; [reflexivity|].
    intros m [[=]|Hin]. now apply (Hno m).
Qed.

(** C28. The requests of a submission go out in order, and the evidence
    is posted only after the weekly progress was accepted: the requests
    sent are none, or the one to [/api/weekly-progress], or that one
    followed by the one to [/api/evidences] for the same form and token,
    and in the last case the first had resolved with a 2xx status in the
    world the token call left. *)
Theorem evidence_follows_weekly_progress (c : Client W) :
  let f := formData (dialog c) in
  exists seen, log (submit props c) = (log c ++ seen)%list /\
    (sentRequests seen = [] \/
     (exists token wk, sentRequests seen = [weeklyRequest props token wk f]) \/
     (exists token wk w res w',
        sentRequests seen = [weeklyRequest props token wk f; evidenceRequest props token f] /\
        getToken (world c) = (Resolved token, w) /\
        api_post (weeklyRequest props token wk f) w = (Resolved res, w') /\
        200 <= status res < 300)).
Proof.
  intros f0.
  assert (forall token wk res w, bothPosted props c token wk res w ->
    exists w1 res1 w', getToken (world c) = (Resolved token, w1) /\
                       api_post (weeklyRequest props token wk f0) w1 = (Resolved res1, w') /\
                       200 <= status res1 < 300) as Hposted.
  { intros token wk res w (w1 & res1 & w2 & Ht & _ & H1 & _).
    exists w1, res1, w2. split; [exact Ht|]. split; [exact H1|]. eapply api_post_ok; exact H1. }
  destruct (proj2 (handleSubmit_spec props c)) as
    [e w|tok w e|tok w1 wk e w2 Ht Hw H1|tok w1 wk res1 w2 e w3 Ht Hw H1 H2
    |tok wk res w Hb|tok wk res w f w' Hb|tok wk res w f e w' Hb];
    eexists; (split; [reflexivity|]); unfold sentBoth; cbn -[weeklyRequest evidenceRequest];
    rewrite ?sentRequests_app; cbn -[weeklyRequest evidenceRequest].
  1,2: now left.
  1: right; left; eauto.
  1: right; right; exists tok, wk, w1, res1, w2; repeat split; auto; eapply api_post_ok; exact H1.
  all: destruct (Hposted _ _ _ _ Hb) as (w1 & res1 & w2 & Ht & H1 & Hok); right; right;
    exists tok, wk, w1, res1, w2; repeat split; auto; apply Hok.
Qed.

(** C40. A failed upload is not undone and a retry repeats the first
    request.  When the weekly progress is accepted and the evidence
    request is rejected, the submission ends with the error on screen,
    the dialog and the form as they were and the button enabled, in the
    world in which the weekly progress was accepted; a second
    submission, once it has its token, posts the weekly progress of the
    same form again, after the two requests of the first. *)
Theorem retry_repeats_weekly_progress (c : Client W) (token token' : option string)
    (wk : option Z) (res1 : Response) (e : JsError) (w1 w2 w3 w4 : W) :
  getToken (world c) = (Resolved token, w1) ->
  weekIndexOf props (formData (dialog c)) = Resolved wk ->
  api_post (weeklyRequest props token wk (formData (dialog c))) w1 = (Resolved res1, w2) ->
  api_post (evidenceRequest props token (formData (dialog c))) w2 = (Rejected e, w3) ->
  getToken w3 = (Resolved token', w4) ->
  200 <= status res1 < 300 /\
  world (submit props c) = w3 /\
  dialog (submit props c) = setIsSubmitting false (dialog c) /\
  last (log (submit props c)) PreventDefault = ToastError (errorMessage e) /\
  exists rest,
    sentRequests (log (submit props (submit props c)))
    = (sentRequests (log c)
       ++ [weeklyRequest props token wk (formData (dialog c));
           evidenceRequest props token (formData (dialog c));
           weeklyRequest props token' wk (formData (dialog c))] ++ rest)%list.
Proof.
  intros Ht Hw H1 H2 Ht'. rewrite (submit_evidence_rejected_eq props c _ _ _ _ _ _ _ Ht Hw H1 H2).
  split; [eapply api_post_ok; exact H1|]. split; [reflexivity|]. split; [reflexivity|].
  split; [cbn [failedWith log]; now rewrite app_comm_cons, app_assoc, last_last|].
  destruct (submit_sends_weekly props (failedWith c (sentBoth props c token wk) e w3)
              token' w4 wk Ht' Hw) as [seen Hseen].
  exists (sentRequests seen). rewrite Hseen. cbn [failedWith log dialog setIsSubmitting formData].
  unfold sentBoth. repeat rewrite sentRequests_app. cbn [sentRequests app].
  now repeat rewrite <- app_assoc.
Qed.

End SubmitProperties.

(** The form survives the wire: from the entries the dialog sends,
    a body parser reads back the date, the note and the task as the user
    left them, and the only file is the attachment, under the field the
    upload middleware expects. *)
Theorem form_round_trip {W : Type} (props : Props W) (f : FormState) :
  let fields := formFields (dataToSend props f) in
  field "tanggal" fields = Some (tanggal f) /\
  field "keterangan" fields = Some (keterangan f) /\
  field "taskId" fields = Some (taskId props) /\
  formFiles (dataToSend props f)
  = match attachment f with
    | Some file => [("attachment", file)]
    | None => []
    end.
Proof.
  cbv zeta. rewrite formFields_dataToSend, formFiles_dataToSend. now repeat split.
Qed.

(** When the evidence endpoint fails once, the first submission leaves
    one weekly progress accepted, no evidence, the error of the server on
    screen and the form as it was; submitting again posts the weekly
    progress a second time before the evidence is stored. *)
Example retry_sample :
  let c1 := submit sampleProps (sampleClient 1) in
  let c2 := submit sampleProps c1 in
  (weeklyPosts (world c1), evidencePosts (world c1)) = (1%nat, 0%nat) /\
  last (log c1) PreventDefault = ToastError "P2003" /\
  dialog c1 = dialog (sampleClient 1) /\
  (weeklyPosts (world c2), evidencePosts (world c2)) = (2%nat, 1%nat) /\
  dialog c2 = closedDialog.
Proof. vm_compute. repeat split. Qed.

(** When the parent's [onSuccess] callback throws, the user sees a
    success and then an error, and the dialog stays open with the form
    filled although the evidence is stored. *)
Example callback_failure_after_success :
  let props := {| taskId := "t1"; visibleColumns := [];
                  getWeekIndexForDate := fun _ _ => Resolved None;
                  onSuccess := Some (fun w => (Rejected (plainError "refetch failed"), w)) |} in
  let c := submit props (sampleClient 0) in
  map (fun n => match n with
                | ToastSuccess m | ToastError m => m
                | _ => ""
                end) (log c)
  = [""; ""; ""; "Evidence added successfully"; ""; "refetch failed"] /\
  evidencePosts (world c) = 1%nat /\
  render (dialog c) = render (dialog (sampleClient 0)).
Proof. vm_compute. repeat split. Qed.

(** The events of the form never touch the submit flag, each input shows
    what was typed last, and Cancel hides the dialog without clearing the
    draft. *)
Theorem events_keep_draft (d : Dialog) (events : list DialogEvent) (v : string) :
  isSubmitting (dialogRun d events) = isSubmitting d /\
  tanggal (formData (dialogRun d (events ++ [ChangeTanggal v]))) = v /\
  keterangan (formData (dialogRun d (events ++ [ChangeKeterangan v]))) = v /\
  render (dialogRun d (events ++ [ClickCancel])) = None /\
  formData (dialogRun d (events ++ [ClickCancel])) = formData (dialogRun d events).
Proof.
  rewrite !dialogRun_app. split; [apply dialogRun_isSubmitting|]. now repeat split.
Qed.

(** ** Witnesses *)

Definition serverError : JsError :=
  {| err_code := Some "ERR_BAD_RESPONSE";
     err_message := "Request failed with status code 500";
     err_response := Some (res_status_json 500 "P2003") |}.

Definition scriptAt (weekly evidence failures : nat) : Script :=
  {| weeklyPosts := weekly; evidencePosts := evidence; failing := failures |}.

Lemma sample_token (failures : nat) :
  getToken (world (sampleClient failures))
  = (Resolved (Some "tok-alice"), scriptAt 0 0 failures).
Proof. reflexivity. Qed.

Lemma sample_week :
  weekIndexOf sampleProps (formData (dialog (sampleClient 1))) = Resolved (Some 2879).
Proof. now vm_compute. Qed.

Lemma sample_weekly_accepted :
  api_post (weeklyRequest sampleProps (Some "tok-alice") (Some 2879)
              (formData (dialog (sampleClient 1)))) (scriptAt 0 0 1)
  = (Resolved (res_json "Progress saved" None), scriptAt 1 0 1).
Proof. reflexivity. Qed.

Lemma sample_evidence_rejected :
  api_post (evidenceRequest sampleProps (Some "tok-alice")
              (formData (dialog (sampleClient 1)))) (scriptAt 1 0 1)
  = (Rejected serverError, scriptAt 1 0 0).
Proof. reflexivity. Qed.

Lemma retry_repeats_weekly_progress_witness :
  200 <= status (res_json "Progress saved" None) < 300 /\
  world (submit sampleProps (sampleClient 1)) = scriptAt 1 0 0 /\
  dialog (submit sampleProps (sampleClient 1)) = setIsSubmitting false (dialog (sampleClient 1)) /\
  last (log (submit sampleProps (sampleClient 1))) PreventDefault
  = ToastError (errorMessage serverError) /\
  exists rest,
    sentRequests (log (submit sampleProps (submit sampleProps (sampleClient 1))))
    = (sentRequests (log (sampleClient 1))
       ++ [weeklyRequest sampleProps (Some "tok-alice") (Some 2879)
             (formData (dialog (sampleClient 1)));
           evidenceRequest sampleProps (Some "tok-alice") (formData (dialog (sampleClient 1)));
           weeklyRequest sampleProps (Some "tok-alice") (Some 2879)
             (formData (dialog (sampleClient 1)))] ++ rest)%list.
Proof.
  exact (retry_repeats_weekly_progress sampleProps (sampleClient 1) (Some "tok-alice")
           (Some "tok-alice") (Some 2879) (res_json "Progress saved" None) serverError
           (scriptAt 0 0 1) (scriptAt 1 0 1) (scriptAt 1 0 0) (scriptAt 1 0 0)
           (sample_token 1) sample_week sample_weekly_accepted sample_evidence_rejected
           eq_refl).
Defined.
