(* ===== verification/Pending.v ===== *)
(** * Pending: a submission step by step

    [handleSubmit] of [src/client/src/components/AddFileDialog.jsx] is
    suspended at its three [await]s; while it is suspended the user can go
    on typing, choose another file or cancel.  Here the function is cut at
    its [await]s into the transitions of a machine whose other transitions
    are the events of the form, so that a run is any interleaving of the
    two.  The form data a submission works with are those of the render in
    which the button was clicked: the closure of [handleSubmit] keeps them
    in the phase of the machine.  A request acts on the world when its
    promise settles: the server handles it at some instant between the
    call and the settling, and what the function does between two
    [await]s touches the component only.

    The machine holds one call.  A click is taken whenever the submit
    button is enabled ([canSubmit], the [disabled] attribute of line 133),
    whatever the phase; the button is disabled while a call is suspended
    ([pending_consistent]), so in no reachable state does a click start a
    second call, and one call is all the machine has to hold.

    What the user does while a submission is pending changes the dialog
    and nothing else: [agree] relates two clients with the same log and
    the same world, an equivalence coarser than equality, and the pieces
    of the function respect it. *)

From Stdlib Require Import ZArith Lia Bool String List Morphisms RelationClasses Setoid.
From S2P Require Import Prelude JsDate Http Columns Dialog.
Import ListNotations.

#[local] Open Scope Z_scope.
#[local] Open Scope string_scope.
#[local] Open Scope js_scope.
#[local] Open Scope async_scope.

(** ** Data *)

(** Where [handleSubmit] is suspended, with the variables it closed
    over: the form data of its render, then the token. *)
Inductive Phase : Type :=
| Idle
| AwaitToken (f : FormState)
| AwaitWeekly (f : FormState) (token : option string) (weekIndex : option Z)
| AwaitEvidence (f : FormState) (token : option string).

Record Machine (W : Type) : Type := {
  client : Client W;
  phase : Phase
}.

Arguments client {W} m.
Arguments phase {W} m.

(** What can happen next: an event of the form, a click on the submit
    button, or the promise the function awaits settling. *)
Inductive Action : Type :=
| User (e : DialogEvent)
| ClickSubmit
| Settle.

(** ** Transitions *)

Section Machine.

Context {W : Type} {B : Browser W} {E : DateParse}.
Variable props : Props W.

(** Runs a piece of the function and moves to the phase it names; when
    the piece throws, the [catch] and [finally] blocks run and the
    function is over. *)
Definition advance (piece : Async (Client W) unit Phase) (c : Client W) : Machine W :=
  match piece c with
  | (Value p, c') => {| client := c'; phase := p |}
  | (Exit _, c') => {| client := c'; phase := Idle |}
  | (Raise error, c') =>
      {| client := snd ((notice (ToastError (errorMessage error)) ;;
                         onDialog (setIsSubmitting false)) c');
         phase := Idle |}
  end.

(** Lines 22-26: up to the first [await]. *)
Definition clicked (f : FormState) : Async (Client W) unit Phase :=
  notice PreventDefault ;;
  onDialog (setIsSubmitting true) ;;
  ret (AwaitToken f).

(** Lines 26-39: the token has settled; the week index is computed and
    the first request is sent. *)
Definition gotToken (f : FormState) : Async (Client W) unit Phase :=
  let* token := call getToken in
  let* weekIndex := query (fun _ => getWeekIndexForDate props (Date_parse (tanggal f))
                                      (visibleColumns props)) in
  notice (Sent (weeklyRequest props token weekIndex f)) ;;
  ret (AwaitWeekly f token weekIndex).

(** Lines 33-48: the first request has settled; the second is sent. *)
Definition gotWeekly (f : FormState) (token : option string) (weekIndex : option Z) :
    Async (Client W) unit Phase :=
  let* _ := call (api_post (weeklyRequest props token weekIndex f)) in
  notice (Sent (evidenceRequest props token f)) ;;
  ret (AwaitEvidence f token).

(** Lines 43-70: the second request has settled; the rest of the [try]
    block and the [finally] block run. *)
Definition gotEvidence (f : FormState) (token : option string) : Async (Client W) unit Phase :=
  let* res := call (api_post (evidenceRequest props token f)) in
  notice (ToastSuccess (successMessage res)) ;;
  callOnSuccess props ;;
  onDialog (setShowDialog false) ;;
  onDialog (setFormData emptyForm) ;;
  onDialog (setIsSubmitting false) ;;
  ret Idle.

(** The submit button is disabled while [isSubmitting] holds, and hidden
    with the dialog: the test decides [Dialog.submitEnabled]
    ([canSubmit_enabled]). *)
Definition canSubmit (d : Dialog) : bool := showDialog d && negb (isSubmitting d).

Definition onUser (e : DialogEvent) (m : Machine W) : Machine W :=
  {| client := {| dialog := dialogStep (dialog (client m)) e;
                  log := log (client m); world := world (client m) |};
     phase := phase m |}.

(** One turn of the event loop.  A click calls [handleSubmit] when the
    button is enabled; a settling promise resumes the call. *)
Definition mstep (m : Machine W) (a : Action) : Machine W :=
  match a, phase m with
  | User e, _ => onUser e m
  | ClickSubmit, _ =>
      if canSubmit (dialog (client m))
      then advance (clicked (formData (dialog (client m)))) (client m)
      else m
  | Settle, Idle => m
  | Settle, AwaitToken f => advance (gotToken f) (client m)
  | Settle, AwaitWeekly f token weekIndex => advance (gotWeekly f token weekIndex) (client m)
  | Settle, AwaitEvidence f token => advance (gotEvidence f token) (client m)
  end.

Definition mrun (m : Machine W) (actions : list Action) : Machine W :=
  fold_left mstep actions m.

(** The machine of a client at rest. *)
Definition atRest (c : Client W) : Machine W := {| client := c; phase := Idle |}.

(** The machine is consistent: the function is suspended exactly while
    [isSubmitting] holds. *)
Definition consistent (m : Machine W) : Prop :=
  isSubmitting (dialog (client m)) = true <-> phase m <> Idle.

End Machine.

(** ** What the user cannot influence

    Two clients agree outside the dialog when they have the same log and
    the same world; a computation is independent of the dialog when, run on
    two such clients, it ends the same way and leaves two such clients. *)

Section Independence.

Context {W : Type}.

Definition agree (c1 c2 : Client W) : Prop := log c1 = log c2 /\ world c1 = world c2.

Definition independent {A : Type} (m : Async (Client W) unit A) : Prop :=
  forall c1 c2, agree c1 c2 -> fst (m c1) = fst (m c2) /\ agree (snd (m c1)) (snd (m c2)).

(** Two machines agree when they are in the same phase and their clients
    agree outside the dialog. *)
Definition magree (m1 m2 : Machine W) : Prop :=
  phase m1 = phase m2 /\ agree (client m1) (client m2).

Lemma agree_refl (c : Client W) : agree c c.
Proof. now split. Qed.

Lemma agree_sym (c1 c2 : Client W) : agree c1 c2 -> agree c2 c1.
Proof. intros [H1 H2]. now split. Qed.

Lemma agree_trans (c1 c2 c3 : Client W) : agree c1 c2 -> agree c2 c3 -> agree c1 c3.
Proof. intros [H1 H2] [H3 H4]. split; congruence. Qed.

Lemma magree_refl (m : Machine W) : magree m m.
Proof. split; [reflexivity|apply agree_refl]. Qed.

Lemma magree_sym (m1 m2 : Machine W) : magree m1 m2 -> magree m2 m1.
Proof. intros [H1 H2]. split; [congruence|now apply agree_sym]. Qed.

Lemma magree_trans (m1 m2 m3 : Machine W) : magree m1 m2 -> magree m2 m3 -> magree m1 m3.
Proof. intros [H1 H2] [H3 H4]. split; [congruence|now apply agree_trans with (client m2)]. Qed.

(** Agreement is an equivalence, coarser than equality: it forgets the
    dialog. *)
#[export] Instance agree_equivalence : Equivalence agree :=
  {| Equivalence_Reflexive := agree_refl; Equivalence_Symmetric := agree_sym;
     Equivalence_Transitive := agree_trans |}.

#[export] Instance magree_equivalence : Equivalence magree :=
  {| Equivalence_Reflexive := magree_refl; Equivalence_Symmetric := magree_sym;
     Equivalence_Transitive := magree_trans |}.

Lemma independent_ret {A : Type} (a : A) : independent (ret a).
Proof. now intros c1 c2 H. Qed.

Lemma independent_bind {A B : Type} (m : Async (Client W) unit A)
    (k : A -> Async (Client W) unit B) :
  independent m -> (forall a, independent (k a)) -> independent (bind m k).
Proof.
  intros Hm Hk c1 c2 H. unfold bind. specialize (Hm c1 c2 H).
  destruct (m c1) as [[a1|r1|e1] c1'], (m c2) as [[a2|r2|e2] c2']; cbn in Hm;
    destruct Hm as [Hr Ha]; try discriminate Hr; injection Hr as <-; try now split.
  now apply Hk.
Qed.

Lemma independent_notice (n : Notice) : independent (notice n).
Proof. intros c1 c2 [Hl Hw]. cbn. repeat split; [now rewrite Hl|exact Hw]. Qed.

Lemma independent_onDialog (f : Dialog -> Dialog) : independent (onDialog f).
Proof. now intros c1 c2 [Hl Hw]. Qed.

Lemma independent_call {A : Type} (f : W -> Outcome A * W) : independent (call f).
Proof.
  intros c1 c2 [Hl Hw]. unfold call, await. cbn. rewrite Hw.
  now destruct (f (world c2)) as [[a|e] w].
Qed.

Lemma independent_query {A : Type} (r : Outcome A) : independent (query (fun _ => r)).
Proof. intros c1 c2 H. unfold query, await. now destruct r. Qed.

End Independence.

#[export] Hint Resolve independent_ret independent_notice independent_onDialog
  independent_call independent_query agree_refl magree_refl : dialog.

(** Proves that a piece built from the operations above is independent
    of the dialog. *)
Ltac independence :=
  repeat first
    [ apply independent_bind; [|intros ?]
    | solve [auto with dialog]
    | match goal with |- independent (match ?x with _ => _ end) => destruct x end ].

(** Unfolds the projections of a machine and of its client. *)
Ltac machine_simpl := cbn [phase client dialog log world fst snd] in *.

(** Unfolds the pieces of the function down to the calls they make. *)
Ltac pieces :=
  unfold advance, clicked, gotToken, gotWeekly, gotEvidence in *; async_unfold; machine_simpl.

Section MachineLemmas.

Context {W : Type} {B : Browser W} {E : DateParse}.
Variable props : Props W.

Lemma independent_callOnSuccess : independent (callOnSuccess props).
Proof. unfold callOnSuccess. independence. Qed.

Lemma independent_clicked (f : FormState) : independent (clicked (W := W) f).
Proof. unfold clicked. independence. Qed.

Lemma independent_gotToken (f : FormState) : independent (gotToken props f).
Proof. unfold gotToken. independence. Qed.

Lemma independent_gotWeekly (f : FormState) (token : option string) (wk : option Z) :
  independent (gotWeekly props f token wk).
Proof. unfold gotWeekly. independence. Qed.

Lemma independent_gotEvidence (f : FormState) (token : option string) :
  independent (gotEvidence props f token).
Proof.
  unfold gotEvidence. pose proof independent_callOnSuccess. independence.
Qed.

(** A piece that is independent of the dialog takes machines that agree
    to machines that agree. *)
Lemma advance_agree (piece : Async (Client W) unit Phase) (c1 c2 : Client W) :
  independent piece -> agree c1 c2 -> magree (advance piece c1) (advance piece c2).
Proof.
  intros Hp H. unfold advance. specialize (Hp c1 c2 H).
  destruct (piece c1) as [[p1|r1|e1] c1'], (piece c2) as [[p2|r2|e2] c2']; cbn in Hp;
    destruct Hp as [Hr Ha]; try discriminate Hr; injection Hr as <-; split; cbn; auto.
  destruct Ha as [Hl Hw]. split; cbn; [now rewrite Hl|exact Hw].
Qed.

(** An event of the form changes nothing outside the dialog. *)
Lemma onUser_agree (e : DialogEvent) (m : Machine W) : magree (onUser e m) m.
Proof. now repeat split. Qed.

(** A settling promise takes machines that agree to machines that
    agree. *)
Lemma settle_agree (m1 m2 : Machine W) :
  magree m1 m2 -> magree (mstep props m1 Settle) (mstep props m2 Settle).
Proof.
  intros H. pose proof H as [Hp Ha]. unfold mstep. rewrite Hp.
  destruct (phase m2) as [|f|f token wk|f token].
  - exact H.
  - apply advance_agree; [apply independent_gotToken|exact Ha].
  - apply advance_agree; [apply independent_gotWeekly|exact Ha].
  - apply advance_agree; [apply independent_gotEvidence|exact Ha].
Qed.

(** A settling promise respects agreement. *)
#[export] Instance settle_proper : Proper (magree ==> magree) (fun m => mstep props m Settle).
Proof. exact settle_agree. Qed.

Lemma users_agree (m : Machine W) (events : list DialogEvent) :
  magree (mrun props m (map User events)) m.
Proof.
  revert m. induction events as [|e events IH]; intros m; [reflexivity|].
  unfold mrun in *. cbn [map fold_left]. rewrite IH. apply onUser_agree.
Qed.

Lemma mrun_app (m : Machine W) (a1 a2 : list Action) :
  mrun props m (a1 ++ a2) = mrun props (mrun props m a1) a2.
Proof. apply fold_left_app. Qed.

(** Events of the form followed by a settling promise: as if the events
    had not happened, outside the dialog. *)
Lemma users_settle_agree (m1 m2 : Machine W) (events : list DialogEvent) :
  magree m1 m2 ->
  magree (mrun props m1 (map User events ++ [Settle])) (mstep props m2 Settle).
Proof.
  intros H. rewrite mrun_app. change (mrun props ?m [Settle]) with (mstep props m Settle).
  apply settle_proper. now rewrite users_agree.
Qed.

(** A click is taken exactly when the markup has an enabled submit
    button. *)
Lemma canSubmit_enabled (d : Dialog) : canSubmit d = true <-> submitEnabled d.
Proof.
  rewrite submitEnabled_iff. unfold canSubmit. rewrite andb_true_iff, negb_true_iff. tauto.
Qed.

(** The events of the form keep the phase and the submit flag. *)
Lemma mstep_user (m : Machine W) (e : DialogEvent) :
  phase (mstep props m (User e)) = phase m /\
  isSubmitting (dialog (client (mstep props m (User e)))) = isSubmitting (dialog (client m)).
Proof. split; [reflexivity|]. apply dialogStep_isSubmitting. Qed.

(** The machine at rest that clicks and lets the three promises settle
    with no event in between has run [handleSubmit]. *)
Lemma atomic_run (c : Client W) :
  canSubmit (dialog c) = true ->
  mrun props (atRest c) [ClickSubmit; Settle; Settle; Settle] = atRest (submit props c).
Proof.
  intros H. unfold mrun, atRest, submit, handleSubmit, submitBody. cbn [fold_left].
  unfold mstep. cbn [phase client]. rewrite H. pieces.
  destruct (getToken (world c)) as [[token|e] w1]; machine_simpl; [|log_norm].
  destruct (getWeekIndexForDate _ _ _) as [wk|e]; machine_simpl; [|log_norm].
  destruct (api_post _ w1) as [[r1|e] w2]; machine_simpl; [|log_norm].
  destruct (api_post _ w2) as [[r2|e] w3]; machine_simpl; [|log_norm].
  destruct (onSuccess props) as [f|]; pieces; [|log_norm].
  destruct (f w3) as [[[]|e] w4]; machine_simpl; log_norm.
Qed.

Lemma click_consistent (m : Machine W) :
  consistent m -> consistent (mstep props m ClickSubmit).
Proof.
  intros H. unfold mstep.
  destruct (phase m) eqn:Hp; (destruct (canSubmit _); [|exact H]); pieces; now split.
Qed.

(** While a call is suspended the submit button is disabled, so a click
    starts no second call. *)
Lemma click_while_pending (m : Machine W) :
  consistent m -> phase m <> Idle -> mstep props m ClickSubmit = m.
Proof.
  intros H Hp. apply H in Hp. unfold mstep, canSubmit. rewrite Hp, andb_false_r.
  now destruct (phase m).
Qed.

Lemma settle_consistent (m : Machine W) :
  consistent m -> consistent (mstep props m Settle).
Proof.
  intros H. assert (Hs : phase m <> Idle -> isSubmitting (dialog (client m)) = true) by apply H.
  unfold mstep. destruct (phase m) as [|f|f token wk|f token]; [exact H|..];
    specialize (Hs ltac:(discriminate)); unfold consistent; pieces.
  - destruct (getToken _) as [[token|e] w1]; machine_simpl; [|easy].
    destruct (getWeekIndexForDate _ _ _) as [wk|e]; machine_simpl; [|easy].
    now rewrite Hs.
  - destruct (api_post _ _) as [[r1|e] w2]; machine_simpl; [|easy]. now rewrite Hs.
  - destruct (api_post _ _) as [[r2|e] w3]; machine_simpl; [|easy].
    destruct (onSuccess props) as [g|]; pieces; [|easy].
    now destruct (g w3) as [[[]|e] w4].
Qed.

Lemma mstep_consistent (m : Machine W) (a : Action) :
  consistent m -> consistent (mstep props m a).
Proof.
  intros H. destruct a as [e| |].
  - unfold consistent. destruct (mstep_user m e) as [-> ->]. exact H.
  - now apply click_consistent.
  - now apply settle_consistent.
Qed.

Lemma run_consistent (m : Machine W) (l : list Action) :
  consistent m -> consistent (mrun props m l).
Proof.
  revert m. induction l as [|a l IH]; intros m Hm; [exact Hm|].
  apply IH. now apply mstep_consistent.
Qed.

(** How many promises a phase still waits for. *)
Definition remaining (p : Phase) : nat :=
  match p with
  | Idle => 0
  | AwaitToken _ => 3
  | AwaitWeekly _ _ _ => 2
  | AwaitEvidence _ _ => 1
  end.

(** A settling promise brings the function nearer to its end. *)
Lemma settle_decreases (m : Machine W) :
  (remaining (phase (mstep props m Settle)) <= pred (remaining (phase m)))%nat.
Proof.
  unfold mstep. destruct (phase m) as [|f|f token wk|f token] eqn:Hp;
    [rewrite Hp; apply le_n|..]; pieces.
  - destruct (getToken _) as [[token|e] w1]; machine_simpl; [|apply Nat.le_0_l].
    destruct (getWeekIndexForDate _ _ _) as [wk|e]; machine_simpl; [apply le_n|apply Nat.le_0_l].
  - destruct (api_post _ _) as [[r1|e] w2]; machine_simpl; [apply le_n|apply Nat.le_0_l].
  - destruct (api_post _ _) as [[r2|e] w3]; machine_simpl; [|apply le_n].
    destruct (onSuccess props) as [g|]; pieces; [|apply le_n].
    destruct (g w3) as [[[]|e] w4]; apply le_n.
Qed.

Lemma users_settle_decreases (m : Machine W) (events : list DialogEvent) :
  (remaining (phase (mrun props m (map User events ++ [Settle]))) <= pred (remaining (phase m)))%nat.
Proof.
  rewrite mrun_app. change (mrun props ?m [Settle]) with (mstep props m Settle).
  etransitivity; [apply settle_decreases|].
  now destruct (users_agree m events) as [-> _].
Qed.

(** ** Runs *)

Definition isClick (a : Action) : bool :=
  match a with ClickSubmit => true | _ => false end.

(** How many promises settle in a list of actions. *)
Fixpoint settles (l : list Action) : nat :=
  match l with
  | [] => 0
  | Settle :: l => S (settles l)
  | _ :: l => settles l
  end.

(** The client after events of the form. *)
Definition typed (c : Client W) (events : list DialogEvent) : Client W :=
  {| dialog := dialogRun (dialog c) events; log := log c; world := world c |}.

Lemma users_run (m : Machine W) (events : list DialogEvent) :
  mrun props m (map User events) = {| client := typed (client m) events; phase := phase m |}.
Proof.
  revert m. induction events as [|e events IH]; intros [[d l w] p]; [reflexivity|].
  unfold mrun in *. cbn [map fold_left]. now rewrite IH.
Qed.

(** Without a click, the events of the form can be left out of a run:
    outside the dialog, only the settling promises count. *)
Lemma users_erased (m1 m2 : Machine W) (l : list Action) :
  magree m1 m2 -> existsb isClick l = false ->
  magree (mrun props m1 l) (mrun props m2 (repeat Settle (settles l))).
Proof.
  revert m1 m2. induction l as [|[e| |] l IH]; intros m1 m2 H Hl; [exact H|..];
    cbn in Hl; try discriminate Hl; unfold mrun in *; cbn [fold_left settles repeat].
  - apply IH; [|exact Hl]. now rewrite <- H.
  - apply IH; [|exact Hl]. now apply settle_proper.
Qed.

(** At rest, no promise is left to settle. *)
Lemma settled_idle (m : Machine W) (n : nat) :
  phase m = Idle -> mrun props m (repeat Settle n) = m.
Proof.
  intros H. induction n as [|n IH]; [reflexivity|].
  unfold mrun in *. cbn [repeat fold_left]. unfold mstep at 2. now rewrite H.
Qed.

(** Without a click, a run leaves at most as many promises as it had,
    less those that settled. *)
Lemma run_decreases (m : Machine W) (l : list Action) :
  existsb isClick l = false ->
  (remaining (phase (mrun props m l)) <= remaining (phase m) - settles l)%nat.
Proof.
  revert m. induction l as [|[e| |] l IH]; intros m Hl; cbn in Hl; try discriminate Hl;
    unfold mrun in *; cbn [fold_left settles]; [lia|exact (IH _ Hl)|].
  etransitivity; [now apply IH|]. pose proof (settle_decreases m). lia.
Qed.

(** When the last request resolves and the callback returns, the dialog
    is closed and its form empty, whatever it held. *)
Lemma gotEvidence_closes (f : FormState) (token : option string) (c c' : Client W) (p : Phase) :
  gotEvidence props f token c = (Value p, c') -> p = Idle /\ dialog c' = closedDialog.
Proof.
  pieces. destruct (api_post _ _) as [[r2|e] w3]; machine_simpl; [|discriminate].
  destruct (onSuccess props) as [g|]; pieces; [|now intros [= <- <-]].
  destruct (g w3) as [[[]|e] w4]; [|discriminate]. now intros [= <- <-].
Qed.

End MachineLemmas.

(** ** Properties *)

Section PendingProperties.

Context {W : Type} {B : Browser W} {E : DateParse}.
Variable props : Props W.

(** Cutting [handleSubmit] at its [await]s loses nothing: after any
    events of the form, a click on the enabled submit button followed by
    the three promises settling, with no event in between, leaves the
    client exactly as the uninterrupted [handleSubmit] leaves the client
    the events produced, and the function is over. *)
Theorem pending_refines_submit (c : Client W) (events : list DialogEvent) :
  canSubmit (dialogRun (dialog c) events) = true ->
  mrun props (atRest c) (map User events ++ [ClickSubmit; Settle; Settle; Settle]) =
  atRest (submit props (typed c events)).
Proof.
  intros H. rewrite mrun_app, users_run. now apply atomic_run.
Qed.

(** C9. What the user does while a submission is pending changes
    neither the requests nor the notices: after a click on the enabled
    submit button, any run without a second click in which three promises
    settle ends at rest with the log and the world of the uninterrupted
    [handleSubmit], whatever events of the form (typing, another file,
    Cancel) are interleaved with the settling promises. *)
Theorem interleaving_keeps_requests (c : Client W) (l : list Action) :
  canSubmit (dialog c) = true ->
  existsb isClick l = false ->
  (3 <= settles l)%nat ->
  magree (mrun props (atRest c) (ClickSubmit :: l)) (atRest (submit props c)).
Proof.
  intros H Hl Hn. rewrite <- (atomic_run props c H).
  change (mrun props ?m (ClickSubmit :: ?k)) with (mrun props (mstep props m ClickSubmit) k).
  etransitivity; [apply users_erased; [reflexivity|exact Hl]|].
  replace (settles l) with (3 + (settles l - 3))%nat by lia.
  rewrite repeat_app, mrun_app.
  change (mrun props (mstep props ?m ClickSubmit) (repeat Settle 3))
    with (mrun props m [ClickSubmit; Settle; Settle; Settle]).
  rewrite settled_idle; [reflexivity|]. now rewrite (atomic_run props c H).
Qed.

(** C29. The submit button is disabled exactly while a submission is
    pending: from a dialog at rest whose [isSubmitting] is false, after any
    actions whatever, [isSubmitting] holds if and only if [handleSubmit]
    is suspended at one of its [await]s; so a click while a call is
    suspended finds the button disabled and starts no second call. *)
Theorem pending_consistent (c : Client W) (l : list Action) :
  isSubmitting (dialog c) = false ->
  consistent (mrun props (atRest c) l) /\
  (phase (mrun props (atRest c) l) <> Idle ->
   mstep props (mrun props (atRest c) l) ClickSubmit = mrun props (atRest c) l).
Proof.
  intros H. assert (consistent (mrun props (atRest c) l)) as Hc.
  { apply run_consistent. unfold consistent. cbn. now rewrite H. }
  split; [exact Hc|]. now apply click_while_pending.
Qed.

(** A submission ends: from any state of the machine, a run without
    a click in which three promises settle ends at rest, whatever the
    requests answer and whatever the user does meanwhile. *)
Theorem submission_ends (m : Machine W) (l : list Action) :
  existsb isClick l = false ->
  (3 <= settles l)%nat ->
  phase (mrun props m l) = Idle.
Proof.
  intros Hl Hn. pose proof (run_decreases props m l Hl) as H.
  assert (Hr : (remaining (phase m) <= 3)%nat) by (destruct (phase m); cbn; lia).
  destruct (phase (mrun props m l)); [reflexivity|cbn in H; lia..].
Qed.

(** C30. What the user types while the last request is pending is
    discarded when the request succeeds: if the evidence request of a
    pending submission resolves and the callback returns, then after any
    events of the form the settling promise leaves the dialog closed with
    an empty form, and the text typed meanwhile has been sent nowhere. *)
Theorem edits_while_pending_are_discarded (m : Machine W) (f : FormState)
    (token : option string) (events : list DialogEvent) :
  phase m = AwaitEvidence f token ->
  fst (gotEvidence props f token (client m)) = Value Idle ->
  dialog (client (mrun props m (map User events ++ [Settle]))) = closedDialog.
Proof.
  intros Hp Hv. rewrite mrun_app, users_run.
  change (mrun props ?x [Settle]) with (mstep props x Settle).
  unfold mstep. cbn [phase client]. rewrite Hp. unfold advance.
  destruct (independent_gotEvidence props f token (typed (client m) events) (client m))
    as [Hf _]; [now split|].
  rewrite Hv in Hf. destruct (gotEvidence props f token (typed (client m) events)) as [s c'] eqn:Hg.
  cbn in Hf. subst s. cbn [client]. now destruct (gotEvidence_closes props _ _ _ _ _ Hg).
Qed.

End PendingProperties.

(** ** The properties on the scripted world *)

(** The user edits the remark after the click, cancels while the second
    request is pending, and the promises settle. *)
Definition sampleActions : list Action :=
  [Settle; User (ChangeKeterangan "second thoughts"); Settle; User ClickCancel; Settle].

(** The machine waiting for the evidence request of the sample form. *)
Definition samplePending : Machine Script :=
  mrun sampleProps (atRest (sampleClient 0)) [ClickSubmit; Settle; Settle].

Lemma pending_refines_submit_witness :
  mrun sampleProps (atRest (sampleClient 0))
    (map User [ChangeKeterangan "north wall"] ++ [ClickSubmit; Settle; Settle; Settle]) =
  atRest (submit sampleProps (typed (sampleClient 0) [ChangeKeterangan "north wall"])).
Proof.
  exact (pending_refines_submit sampleProps (sampleClient 0) [ChangeKeterangan "north wall"] eq_refl).
Defined.

Lemma interleaving_keeps_requests_witness :
  magree (mrun sampleProps (atRest (sampleClient 1)) (ClickSubmit :: sampleActions))
         (atRest (submit sampleProps (sampleClient 1))).
Proof.
  exact (interleaving_keeps_requests sampleProps (sampleClient 1) sampleActions
           eq_refl eq_refl (le_n 3)).
Defined.

Lemma pending_consistent_witness :
  consistent (mrun sampleProps (atRest (sampleClient 0)) [ClickSubmit; Settle]) /\
  (phase (mrun sampleProps (atRest (sampleClient 0)) [ClickSubmit; Settle]) <> Idle ->
   mstep sampleProps (mrun sampleProps (atRest (sampleClient 0)) [ClickSubmit; Settle]) ClickSubmit
   = mrun sampleProps (atRest (sampleClient 0)) [ClickSubmit; Settle]).
Proof.
  exact (pending_consistent sampleProps (sampleClient 0) [ClickSubmit; Settle] eq_refl).
Defined.

Lemma submission_ends_witness :
  phase (mrun sampleProps samplePending sampleActions) = Idle.
Proof.
  exact (submission_ends sampleProps samplePending sampleActions eq_refl (le_n 3)).
Defined.

Lemma edits_while_pending_are_discarded_witness :
  dialog (client (mrun sampleProps samplePending
                    (map User [ChangeKeterangan "second thoughts"] ++ [Settle]))) = closedDialog.
Proof.
  exact (edits_while_pending_are_discarded sampleProps samplePending sampleFormState
           (Some "tok-alice") [ChangeKeterangan "second thoughts"] eq_refl eq_refl).
Defined.

(** On the scripted world: a second click while the first submission is
    pending sends nothing; the remark typed after the click is in no
    request and is gone once the submission has succeeded; after a failed
    submission it is still in the form. *)
Example pending_on_sample :
  sentRequests (log (client (mrun sampleProps (atRest (sampleClient 0))
                               (ClickSubmit :: ClickSubmit :: sampleActions)))) =
    sentRequests (log (submit sampleProps (sampleClient 0))) /\
  formData (dialog (client (mrun sampleProps (atRest (sampleClient 0))
                              (ClickSubmit :: sampleActions)))) = emptyForm /\
  keterangan (formData (dialog (client (mrun sampleProps (atRest (sampleClient 1))
                                          (ClickSubmit :: sampleActions))))) = "second thoughts".
Proof. now vm_compute. Qed.
