(* ===== verification/Submission.v ===== *)
(** * Submission: the dialog against the server

    [AddFileDialog] and the Express application put together: the HTTP
    client of the dialog sends each request to an application of [Server]
    and turns the answer into a resolved or a rejected promise, as axios
    does.  Against the application of [src/server/server.js] every
    submission fails at its first request; against that application
    completed with the router of [src/server/routes/evidenceRoute.js] and
    a weekly-progress route that accepts ([Server.completedApp]), the
    submission of a project member stores the evidence the user typed. *)

From stdpp Require Import gmap strings.
From S2P Require Import Prelude JsDate DateFns Http Columns Evidence Server Dialog.

#[local] Open Scope Z_scope.
#[local] Open Scope js_scope.

(** ** The HTTP client *)

(** The promise of a request: resolved with the response for a status
    from 200 to 299, rejected otherwise with an error that carries the
    response. *)
Definition settle (res : Response) : Outcome Response :=
  if bool_decide (200 <= status res < 300) then Resolved res
  else Rejected {| err_code := Some (if bool_decide (status res < 500)
                                     then "ERR_BAD_REQUEST" else "ERR_BAD_RESPONSE");
                   err_message := "Request failed with status code " +:+ decimal (status res);
                   err_response := Some res |}.

(** [api.post] against an application. *)
Definition axios_post (application : list Layer) (r : Request) (s : ServerState) :
    Outcome Response * ServerState :=
  let (res, s') := handle application r s in (settle res, s').

(** [api.post] against the completed application: every request goes
    through the stack of [server.js] before it reaches a route. *)
Definition routed_post {P : Prisma} {E : DateParse}
    (storedName : File -> list StoredFile -> string) (inngestServe : Handler) :
    Request -> ServerState -> Outcome Response * ServerState :=
  axios_post (completedApp storedName inngestServe).

Lemma settle_ok (res res' : Response) : settle res = Resolved res' -> 200 <= status res' < 300.
Proof. unfold settle. case_bool_decide as Hr; [by intros [= <-]|done]. Qed.

Lemma axios_post_ok (application : list Layer) (r : Request) (s : ServerState)
    (res : Response) (s' : ServerState) :
  axios_post application r s = (Resolved res, s') -> 200 <= status res < 300.
Proof.
  unfold axios_post. destruct (handle _ r s) as [res0 s0]. intros [= Hs _]. by eapply settle_ok.
Qed.

Lemma routed_post_ok {P : Prisma} {E : DateParse} (storedName : File -> list StoredFile -> string)
    (inngestServe : Handler) (r : Request) (s : ServerState) (res : Response) (s' : ServerState) :
  routed_post storedName inngestServe r s = (Resolved res, s') -> 200 <= status res < 300.
Proof. apply axios_post_ok. Qed.

(** The two requests of the dialog against the completed application. *)
Lemma routed_post_weekly {P : Prisma} {E : DateParse}
    (storedName : File -> list StoredFile -> string) (inngestServe : Handler)
    (r : Request) (s : ServerState) :
  method r = POST -> path r = ["api"; "weekly-progress"] ->
  routed_post storedName inngestServe r s = (Resolved (res_json "Progress saved" None), s).
Proof. intros Hm Hp. unfold routed_post, axios_post. by rewrite handle_weekly. Qed.

Lemma routed_post_evidence {P : Prisma} {E : DateParse}
    (storedName : File -> list StoredFile -> string) (inngestServe : Handler)
    (r : Request) (s : ServerState) :
  method r = POST -> path r = ["api"; "evidences"] ->
  routed_post storedName inngestServe r s
  = (settle (evidenceRoute storedName r s).1, (evidenceRoute storedName r s).2).
Proof.
  intros Hm Hp. unfold routed_post, axios_post, completedApp.
  rewrite handle_mounted_before by done. by destruct (evidenceRoute _ r s).
Qed.

(** The browser of a user whose session token is [token], talking to an
    application. *)
Definition serverBrowser (application : list Layer) (token : option string) :
    Browser ServerState :=
  {| getToken := fun s => (Resolved token, s);
     api_post := axios_post application;
     api_post_ok := axios_post_ok application |}.

Definition routedBrowser {P : Prisma} {E : DateParse}
    (storedName : File -> list StoredFile -> string) (inngestServe : Handler)
    (token : option string) : Browser ServerState :=
  {| getToken := fun s => (Resolved token, s);
     api_post := routed_post storedName inngestServe;
     api_post_ok := routed_post_ok storedName inngestServe |}.

(** ** Lemmas *)

Lemma settle_not_found (message : string) :
  settle {| status := 404; body := Text message |}
  = Rejected {| err_code := Some "ERR_BAD_REQUEST";
                err_message := "Request failed with status code 404";
                err_response := Some {| status := 404; body := Text message |} |}.
Proof. reflexivity. Qed.

Lemma settle_success (message : string) (e : option Evidence) :
  settle (res_json message e) = Resolved (res_json message e).
Proof. reflexivity. Qed.

(** A post of the dialog to the application of [server.js] is rejected
    with the framework's 404. *)
Lemma axios_post_not_found (inngestServe : Handler) (r : Request) (s : ServerState) :
  method r = POST ->
  path r = ["api"; "weekly-progress"] \/ path r = ["api"; "evidences"] ->
  axios_post (app inngestServe) r s
  = (Rejected {| err_code := Some "ERR_BAD_REQUEST";
                 err_message := "Request failed with status code 404";
                 err_response := Some {| status := 404;
                                         body := Text ("Cannot POST " +:+ pathName (path r)) |} |},
     s).
Proof.
  intros Hm Hp. unfold axios_post.
  rewrite handle_app_not_found; rewrite ?Hm; try done.
  - by intros [? _].
  - by destruct Hp as [-> | ->].
Qed.

(** The message the dialog shows for an error whose response carries no
    JSON message. *)
Lemma errorMessage_text (code : option string) (message text : string) (st : Z) :
  errorMessage {| err_code := code; err_message := message;
                  err_response := Some {| status := st; body := Text text |} |} = message.
Proof. reflexivity. Qed.

(** ** A sample session *)

Definition sessionProps : Props ServerState :=
  {| taskId := "t1";
     visibleColumns := [];
     getWeekIndexForDate := fun d _ => Resolved (option_map (fun t => t `div` (7 * msPerDay)) d);
     onSuccess := None |}.

Definition sessionClient : Client ServerState :=
  {| dialog := {| isSubmitting := false; formData := sampleFormState; showDialog := true |};
     log := [];
     world := sampleState |}.

(** ** Properties *)

(** C22. Against the application of [server.js] no submission can
    succeed: whatever the form, the token and the state of the server,
    once the week index is computed the first request is answered 404, the
    dialog shows "Request failed with status code 404" and stays open with
    the form, the evidence request is never sent, and the server is
    unchanged. *)
Theorem submission_fails_against_server_js {E : DateParse} (inngestServe : Handler)
    (token : option string) (props : Props ServerState) (c : Client ServerState)
    (wk : option Z) :
  weekIndexOf props (formData (dialog c)) = Resolved wk ->
  let c' := submit (B := serverBrowser (app inngestServe) token) props c in
  log c' = log c ++ [PreventDefault; Sent (weeklyRequest props token wk (formData (dialog c)));
                     ToastError "Request failed with status code 404"] /\
  world c' = world c /\
  dialog c' = setIsSubmitting false (dialog c).
Proof.
  intros Hw c'. subst c'.
  pose proof (axios_post_not_found inngestServe
                (weeklyRequest props token wk (formData (dialog c)))) as H404.
  destruct (proj2 (handleSubmit_spec (B := serverBrowser (app inngestServe) token) props c))
    as [e w Ht|tok w e Ht Hw'|tok w1 wk' e w2 Ht Hw' H1|tok w1 wk' res1 w2 e w3 Ht Hw' H1 H2
       |tok wk' res w Hb|tok wk' res w f w' Hb|tok wk' res w f e w' Hb];
    try destruct Hb as (w1 & res1 & w2 & Ht & Hw' & H1 & H2);
    cbn in Ht; try discriminate Ht; injection Ht as <- <-;
    try congruence; assert (wk' = wk) as -> by congruence;
    cbn in H1; rewrite H404 in H1 by (cbn; auto); try discriminate H1.
  injection H1 as <- <-. by repeat split.
Qed.

(** C14. Against the application of [server.js] completed with the
    evidence router and a weekly-progress route that accepts, whatever
    the Inngest handler, the submission of a project member stores what
    the user typed: the database gains one evidence for the task of the dialog and
    the user of the session, with the note of the form, the date of the
    form (the server's clock when the date is empty) and the address of
    the stored attachment; the dialog shows the success and closes with an
    empty form. *)
Theorem member_submission_is_stored {E : DateParse}
    (storedName : File -> list StoredFile -> string) (inngestServe : Handler)
    (tok uid : string) (props : Props ServerState) (c : Client ServerState)
    (wk : option Z) (task : TaskRecord) (project : ProjectRecord) (date : Z) :
  let f := formData (dialog c) in
  let s := world c in
  weekIndexOf props f = Resolved wk ->
  onSuccess props = None ->
  sessions s !! tok = Some uid ->
  db_tasks (database s) !! taskId props = Some task ->
  db_projects (database s) !! task_projectId task = Some project ->
  In {| member_userId := uid |} (project_members project) ->
  evidenceDate (Some (tanggal f)) (clock s) = Some date ->
  let stored := option_map (fun file => {| filename := storedName file (uploads s);
                                           originalname := file_name file |}) (attachment f) in
  let e := {| ev_taskId := taskId props; ev_userId := uid; ev_content := Some (keterangan f);
              ev_image_url := image_url_of stored; ev_date := date;
              ev_user := {| user_id := uid |} |} in
  let c' := submit (B := routedBrowser (P := memPrisma) storedName inngestServe (Some tok))
              props c in
  database (world c') = add_evidence e (database s) /\
  uploads (world c') = uploads s ++ option_list stored /\
  dialog c' = closedDialog /\
  log c' = log c ++ [PreventDefault; Sent (weeklyRequest props (Some tok) wk f);
                     Sent (evidenceRequest props (Some tok) f);
                     ToastSuccess "Evidence added successfully"].
Proof.
  intros f s Hw Hcb Hs Ht Hp Hin Hd stored e c'. subst c' f s.
  assert (routed_post (P := memPrisma) storedName inngestServe
            (evidenceRequest props (Some tok) (formData (dialog c))) (world c)
          = (Resolved (res_json "Evidence added successfully" (Some e)),
             {| database := add_evidence e (database (world c));
                uploads := uploads (world c) ++ option_list stored;
                sessions := sessions (world c); clock := clock (world c) |})) as Hpost.
  { rewrite routed_post_evidence by done.
    erewrite (evidenceRoute_member storedName _ (world c) tok uid (taskId props)
                (dataToSend props (formData (dialog c))));
      rewrite ?formFields_dataToSend, ?formFiles_dataToSend; eauto.
    - unfold storedFile. rewrite formFiles_dataToSend. subst stored e.
      by destruct (attachment (formData (dialog c))).
    - destruct (attachment (formData (dialog c))); eauto. }
  destruct (proj2 (handleSubmit_spec
              (B := routedBrowser (P := memPrisma) storedName inngestServe (Some tok)) props c))
    as [e' w Hg|tok' w e' Hg Hw'|tok' w1 wk' e' w2 Hg Hw' H1|tok' w1 wk' res1 w2 e' w3 Hg Hw' H1 H2
       |tok' wk' res w Hb|tok' wk' res w g w' Hb Hcb'|tok' wk' res w g e' w' Hb Hcb'];
    try destruct Hb as (w1 & res1 & w2 & Hg & Hw' & H1 & H2);
    cbn in Hg; try discriminate Hg; injection Hg as <- <-;
    try congruence; assert (wk' = wk) as -> by congruence;
    cbn in H1; rewrite routed_post_weekly in H1 by done;
    try discriminate H1; injection H1 as <- <-;
    cbn in H2; rewrite Hpost in H2; try discriminate H2.
  injection H2 as <- <-. by cbn.
Qed.

Lemma submission_fails_against_server_js_witness :
  log (submit (B := serverBrowser (app sampleInngest) (Some "tok-alice")) sessionProps sessionClient)
  = log sessionClient ++
      [PreventDefault;
       Sent (weeklyRequest sessionProps (Some "tok-alice") (Some 2879) (formData (dialog sessionClient)));
       ToastError "Request failed with status code 404"] /\
  world (submit (B := serverBrowser (app sampleInngest) (Some "tok-alice")) sessionProps sessionClient)
  = world sessionClient /\
  dialog (submit (B := serverBrowser (app sampleInngest) (Some "tok-alice")) sessionProps sessionClient)
  = setIsSubmitting false (dialog sessionClient).
Proof.
  exact (submission_fails_against_server_js (E := isoDateParse) sampleInngest (Some "tok-alice")
           sessionProps sessionClient (Some 2879) eq_refl).
Defined.

Lemma member_submission_is_stored_witness :
  let stored := option_map (fun file => {| filename := sampleStoredName file (uploads (world sessionClient));
                                           originalname := file_name file |})
                  (attachment (formData (dialog sessionClient))) in
  let e := {| ev_taskId := taskId sessionProps; ev_userId := "alice";
              ev_content := Some (keterangan (formData (dialog sessionClient)));
              ev_image_url := image_url_of stored; ev_date := 1741564800000;
              ev_user := {| user_id := "alice" |} |} in
  let c' := submit (B := routedBrowser (P := memPrisma) (E := isoDateParse) sampleStoredName
                          sampleInngest (Some "tok-alice")) sessionProps sessionClient in
  database (world c') = add_evidence e (database (world sessionClient)) /\
  uploads (world c') = uploads (world sessionClient) ++ option_list stored /\
  dialog c' = closedDialog /\
  log c' = log sessionClient ++
             [PreventDefault;
              Sent (weeklyRequest sessionProps (Some "tok-alice") (Some 2879)
                      (formData (dialog sessionClient)));
              Sent (evidenceRequest sessionProps (Some "tok-alice") (formData (dialog sessionClient)));
              ToastSuccess "Evidence added successfully"].
Proof.
  apply (member_submission_is_stored (E := isoDateParse) sampleStoredName sampleInngest
           "tok-alice" "alice"
           sessionProps sessionClient (Some 2879) {| task_projectId := "p1" |}
           {| project_members := [{| member_userId := "alice" |}; {| member_userId := "bob" |}] |}
           1741564800000); try (vm_compute; reflexivity).
  by left.
Defined.

(** The sample session: the evidence that the member's submission stores. *)
Example sample_submission :
  db_evidences (database (world
    (submit (B := routedBrowser (P := memPrisma) (E := isoDateParse) sampleStoredName
                    sampleInngest (Some "tok-alice")) sessionProps sessionClient)))
  = [{| ev_taskId := "t1"; ev_userId := "alice"; ev_content := Some "site photo";
        ev_image_url := "/uploads/1741-photo.png"; ev_date := 1741564800000;
        ev_user := {| user_id := "alice" |} |}].
Proof. vm_compute. reflexivity. Qed.
